(** * The Circle PCIe NVMe block-device driver (addon/nvme)

    A shallow embedding of [nvmesharedmemallocator.cpp], [nvmeprp.cpp] and
    [nvme.cpp], and the properties of the driver stated over it.

    Build configuration embedded here: AArch64 ([unsigned] and [int] are
    32 bit, [size_t], [uintptr] and pointers 64 bit), [NVME_DEBUG] and
    [NVME_READ_ONLY] undefined as in the source, busy-wait mode
    ([NO_BUSY_WAIT] undefined), [assert] active. *)

From Stdlib Require Import ZArith Lia List Bool String.
From stdpp Require Import base option gmap.
Import ListNotations.

Local Open Scope Z_scope.

(** ** Fixed-width integers *)

Definition wrap (w x : Z) : Z := x mod 2 ^ w.

Definition u8 (x : Z) : Z := wrap 8 x.
Definition u16 (x : Z) : Z := wrap 16 x.
Definition u32 (x : Z) : Z := wrap 32 x.
Definition u64 (x : Z) : Z := wrap 64 x.

(** Conversion of an unsigned value to [int]. *)
Definition to_int (x : Z) : Z :=
  let y := u32 x in if y <? 2 ^ 31 then y else y - 2 ^ 32.

(** [~x] at 32 and at 64 bit. *)
Definition not32 (x : Z) : Z := u32 (Z.lnot x).
Definition not64 (x : Z) : Z := u64 (Z.lnot x).

(** Modelled from the spec: the macro [BIT] of circle/macros.h, which is not
    among the sources; the spec names the bits built with it ([CC.EN],
    [CSTS.RDY], the phase bit) as bit 0 of their words. *)
Definition BIT (n : Z) : Z := Z.shiftl 1 n.

(** ** Platform *)

(** What the driver takes from the rest of Circle: the DMA window of the
    PCIe host bridge, the timer frequency and the macros of
    circle/synchronize.h, circle/timer.h, circle/device.h and
    circle/sysconfig.h. *)
Class Platform := {
  GetDMAAddress : Z;
  HZ : Z;
  MSEC2HZ : Z -> Z;
  IS_CACHE_ALIGNED : Z -> Z -> bool;
  DEVICE_IOCTL_SYNC : Z;
  GIGABYTE : Z
}.

(** ** Constants of nvme.h, nvme.cpp and nvmesharedmemallocator.h

    A mask written with [int] operands is the [int] it evaluates to; where
    it meets an unsigned operand it is converted there. *)

Definition NVME_LBA_SIZE : Z := 512.

Definition NVME_STATUS_OK : Z := 0.
Definition NVME_STATUS_ERROR_BAD_PARAM : Z := -1.
Definition NVME_STATUS_ERROR_NO_RESOURCE : Z := -2.
Definition NVME_STATUS_ERROR_CONTROLLER : Z := -3.
Definition NVME_STATUS_ERROR_TIMEOUT : Z := -4.
Definition NVME_STATUS_ERROR_READ_ONLY : Z := -5.
Definition NVME_STATUS_ERROR_LBA_RANGE : Z := -6.

Definition NVME_REG_CAP : Z := 0x0000.
Definition NVME_REG_CAP_DSTRD__SHIFT : Z := 32.
Definition NVME_REG_CAP_DSTRD__MASK : Z := Z.shiftl 0x0F 32.
Definition NVME_REG_CAP_TO__SHIFT : Z := 24.
Definition NVME_REG_CAP_TO__MASK : Z := to_int (Z.shiftl 0xFF 24).
Definition NVME_REG_VER : Z := 0x0008.
Definition NVME_REG_VER_MJR__SHIFT : Z := 16.
Definition NVME_REG_VER_MJR__MASK : Z := to_int (Z.shiftl 0xFFFF 16).
Definition NVME_REG_VER_MNR__SHIFT : Z := 8.
Definition NVME_REG_VER_MNR__MASK : Z := Z.shiftl 0xFF 8.
Definition NVME_REG_INTMS : Z := 0x000C.
Definition NVME_REG_INTMC : Z := 0x0010.
Definition NVME_REG_CC : Z := 0x0014.
Definition NVME_REG_CC_IOCQES__SHIFT : Z := 20.
Definition NVME_REG_CC_IOCQES__MASK : Z := Z.shiftl 0xF 20.
Definition NVME_REG_CC_IOCQES_16B : Z := 4.
Definition NVME_REG_CC_IOSQES__SHIFT : Z := 16.
Definition NVME_REG_CC_IOSQES__MASK : Z := Z.shiftl 0xF 16.
Definition NVME_REG_CC_IOSQES_64B : Z := 6.
Definition NVME_REG_CC_EN : Z := BIT 0.
Definition NVME_REG_CSTS : Z := 0x001C.
Definition NVME_REG_CSTS_RDY : Z := BIT 0.
Definition NVME_REG_AQA : Z := 0x0024.
Definition NVME_REG_ASQ : Z := 0x0028.
Definition NVME_REG_ACQ : Z := 0x0030.

Definition NVME_REG_DOORBELL_BASE : Z := 0x1000.

Definition NVME_ADMIN_OPC_CREATE_IO_SQ : Z := 0x01.
Definition NVME_ADMIN_OPC_CREATE_IO_CQ : Z := 0x05.
Definition NVME_ADMIN_OPC_IDENTIFY : Z := 0x06.

Definition NVME_IO_OPC_FLUSH : Z := 0x00.
Definition NVME_IO_OPC_WRITE : Z := 0x01.
Definition NVME_IO_OPC_READ : Z := 0x02.

Definition NSID : Z := 1.
Definition AQID : Z := 0.
Definition IOQID : Z := 1.

Definition NVME_ADMIN_QUEUE_ENTRIES : Z := 64.
Definition NVME_IO_QUEUE_ENTRIES : Z := 64.

Definition CQE_STATUS_SCT__SHIFT : Z := 9.
Definition CQE_STATUS_SCT__MASK : Z := Z.shiftl 7 9.
Definition CQE_STATUS_SC__SHIFT : Z := 1.
Definition CQE_STATUS_SC__MASK : Z := Z.shiftl 0xFF 1.
Definition CQE_STATUS_PHASE_BIT : Z := BIT 0.

Definition NVME_PAGE_SIZE : Z := 4096.
Definition NVME_BLOCK_SIZE : Z := NVME_PAGE_SIZE.
Definition NVME_BLOCK_ALIGN : Z := NVME_PAGE_SIZE.
Definition NVME_BLOCK_BOUNDARY : Z := 0x100000.
Definition NVME_BLOCK_MAGIC : Z := 0x4E564D45.

Definition PRP_PAGE_SIZE : Z := NVME_PAGE_SIZE.
Definition PRP_ENTRY_SIZE : Z := 8.

(** [sizeof (TNVMeCommand)] and [sizeof (TNVMeCompletion)], as the source
    asserts them statically. *)
Definition sizeof_TNVMeCommand : Z := 64.
Definition sizeof_TNVMeCompletion : Z := 16.

(** [sizeof (TNVMeBlockHeader)]: four [u32], one pointer, and the empty
    array [Data] behind them. *)
Definition sizeof_TNVMeBlockHeader : Z := 24.

(** ** Data *)

Record TNVMeBlockHeader := mkHeader {
  nMagic : Z;
  nSize : Z;
  nAlign : Z;
  nBoundary : Z;
  pNext : Z
}.

Record CNVMeSharedMemAllocator := mkAllocator {
  m_nMemStart : Z;
  m_nMemEnd : Z;
  m_pFreeList : Z
}.

(** Submission queue entry. *)
Record TNVMeCommand := mkCommand {
  opc : Z;
  fuse : Z;
  cid : Z;
  nsid : Z;
  reserved : Z;
  mptr : Z;
  prp1 : Z;
  prp2 : Z;
  cdw10 : Z;
  cdw11 : Z;
  cdw12 : Z;
  cdw13 : Z;
  cdw14 : Z;
  cdw15 : Z
}.

(** Completion queue entry. *)
Record TNVMeCompletion := mkCompletion {
  dw0 : Z;
  dw1 : Z;
  sqhead : Z;
  sqid : Z;
  ce_cid : Z;
  status : Z
}.

Record TQueue := mkQueue {
  pName : string;
  usID : Z;
  nEntries : Z;
  pSqVirt : Z;
  pCqVirt : Z;
  nSqPhys : Z;
  nCqPhys : Z;
  nSqTail : Z;
  nCqHead : Z;
  bCqPhase : bool
}.

(** The object a [TQueue *] of the driver points to. *)
Inductive QueueRef := AdminQueue | IoQueue.

Record CNVMePRP := mkPRP {
  m_uPrp1 : Z;
  m_uPrp2 : Z;
  m_pPrpListVirt : Z;
  m_nPrpListPages : Z
}.

Record CNVMeDevice := mkDevice {
  m_Allocator : CNVMeSharedMemAllocator;
  m_nVersion : Z;
  m_ulCaps : Z;
  m_nDoorbellStride : Z;
  m_nTimeoutHZ : Z;
  m_AdminQueue : TQueue;
  m_IoQueue : TQueue;
  m_ulNamespaceSize : Z;
  m_ulOffset : Z;
  m_pPartitionManager : bool
}.

(** The coherent memory the driver writes: block headers by the address of
    the header, 8-byte words (PRP lists) and 64-byte command slots by their
    address. *)
Record Memory := mkMemory {
  mem_hdr : gmap Z TNVMeBlockHeader;
  mem_u64 : gmap Z Z;
  mem_cmd : gmap Z TNVMeCommand
}.

(** What the driver does to the rest of the machine, in program order. A
    log entry carries the format of the message and the numbers it is built
    from. *)
Inductive Event :=
| EvMmioWrite32 (nOffset nValue : Z)
| EvMmioWrite64 (nOffset ulValue : Z)
| EvDataSyncBarrier
| EvDataMemBarrier
| EvInvalidateDataCacheRange (nAddress nLength : Z)
| EvCleanDataCacheRange (nAddress nLength : Z)
| EvMemcpy (pDest pSrc nLength : Z)
| EvMemset (pDest nValue nLength : Z)
| EvDeleteArray (p : Z)
| EvUsDelay (n : Z)
| EvMsDelay (n : Z)
| EvAddDevice
| EvLog (msg : string) (args : list Z).

(** What the rest of the machine answers, each source in the order the
    driver asks it: the controller registers, the tick counter, the
    completion slot at the head of the polled queue, [new u8[]], the
    Identify buffer after a command has filled it, and the calls into the
    PCIe host bridge and the partition manager. *)
Record Env := mkEnv {
  in_mmio : list Z;
  in_ticks : list Z;
  in_cq : list TNVMeCompletion;
  in_new : list Z;
  in_ident : list (Z -> Z);
  in_call : list bool
}.

Record World := mkWorld {
  dev : CNVMeDevice;
  mem : Memory;
  trace : list Event;
  env : Env
}.

(** ** The monad of driver code *)

Inductive Res (A : Type) : Type :=
| Done (a : A)
| Abort
| Stuck.

Arguments Done {A} a.
Arguments Abort {A}.
Arguments Stuck {A}.

Definition M (A : Type) : Type := World -> Res A * World.

Definition ret {A} (a : A) : M A := fun w => (Done a, w).

Definition bind {A B} (m : M A) (k : A -> M B) : M B :=
  fun w =>
    match m w with
    | (Done a, w') => k a w'
    | (Abort, w') => (Abort, w')
    | (Stuck, w') => (Stuck, w')
    end.

Notation "'do' x <- m ; k" := (bind m (fun x => k))
  (at level 10, x name, m at level 99, k at level 200).
Notation "'do' ' pat <- m ; k" := (bind m (fun x => match x with pat => k end))
  (at level 10, pat pattern, m at level 99, k at level 200).
Notation "m ;; k" := (bind m (fun _ => k))
  (at level 100, k at level 200, right associativity).

Definition gets {A} (f : World -> A) : M A := fun w => (Done (f w), w).
Definition modify (f : World -> World) : M unit := fun w => (Done tt, f w).
Definition abort {A} : M A := fun w => (Abort, w).
Definition stuck {A} : M A := fun w => (Stuck, w).

(** [assert (b)]: the failed assertion stops the program. *)
Definition assert (b : bool) : M unit := if b then ret tt else abort.


(** ** Field updates *)

Definition set_dev (f : CNVMeDevice -> CNVMeDevice) (w : World) : World :=
  mkWorld (f (dev w)) (mem w) (trace w) (env w).
Definition set_mem (f : Memory -> Memory) (w : World) : World :=
  mkWorld (dev w) (f (mem w)) (trace w) (env w).
Definition set_trace (f : list Event -> list Event) (w : World) : World :=
  mkWorld (dev w) (mem w) (f (trace w)) (env w).
Definition set_env (f : Env -> Env) (w : World) : World :=
  mkWorld (dev w) (mem w) (trace w) (f (env w)).

Definition set_m_Allocator (a : CNVMeSharedMemAllocator) (d : CNVMeDevice) :=
  mkDevice a (m_nVersion d) (m_ulCaps d) (m_nDoorbellStride d) (m_nTimeoutHZ d)
    (m_AdminQueue d) (m_IoQueue d) (m_ulNamespaceSize d) (m_ulOffset d)
    (m_pPartitionManager d).
Definition set_m_nVersion (v : Z) (d : CNVMeDevice) :=
  mkDevice (m_Allocator d) v (m_ulCaps d) (m_nDoorbellStride d) (m_nTimeoutHZ d)
    (m_AdminQueue d) (m_IoQueue d) (m_ulNamespaceSize d) (m_ulOffset d)
    (m_pPartitionManager d).
Definition set_m_ulCaps (v : Z) (d : CNVMeDevice) :=
  mkDevice (m_Allocator d) (m_nVersion d) v (m_nDoorbellStride d) (m_nTimeoutHZ d)
    (m_AdminQueue d) (m_IoQueue d) (m_ulNamespaceSize d) (m_ulOffset d)
    (m_pPartitionManager d).
Definition set_m_nDoorbellStride (v : Z) (d : CNVMeDevice) :=
  mkDevice (m_Allocator d) (m_nVersion d) (m_ulCaps d) v (m_nTimeoutHZ d)
    (m_AdminQueue d) (m_IoQueue d) (m_ulNamespaceSize d) (m_ulOffset d)
    (m_pPartitionManager d).
Definition set_m_nTimeoutHZ (v : Z) (d : CNVMeDevice) :=
  mkDevice (m_Allocator d) (m_nVersion d) (m_ulCaps d) (m_nDoorbellStride d) v
    (m_AdminQueue d) (m_IoQueue d) (m_ulNamespaceSize d) (m_ulOffset d)
    (m_pPartitionManager d).
Definition set_m_AdminQueue (q : TQueue) (d : CNVMeDevice) :=
  mkDevice (m_Allocator d) (m_nVersion d) (m_ulCaps d) (m_nDoorbellStride d)
    (m_nTimeoutHZ d) q (m_IoQueue d) (m_ulNamespaceSize d) (m_ulOffset d)
    (m_pPartitionManager d).
Definition set_m_IoQueue (q : TQueue) (d : CNVMeDevice) :=
  mkDevice (m_Allocator d) (m_nVersion d) (m_ulCaps d) (m_nDoorbellStride d)
    (m_nTimeoutHZ d) (m_AdminQueue d) q (m_ulNamespaceSize d) (m_ulOffset d)
    (m_pPartitionManager d).
Definition set_m_ulNamespaceSize (v : Z) (d : CNVMeDevice) :=
  mkDevice (m_Allocator d) (m_nVersion d) (m_ulCaps d) (m_nDoorbellStride d)
    (m_nTimeoutHZ d) (m_AdminQueue d) (m_IoQueue d) v (m_ulOffset d)
    (m_pPartitionManager d).
Definition set_m_ulOffset (v : Z) (d : CNVMeDevice) :=
  mkDevice (m_Allocator d) (m_nVersion d) (m_ulCaps d) (m_nDoorbellStride d)
    (m_nTimeoutHZ d) (m_AdminQueue d) (m_IoQueue d) (m_ulNamespaceSize d) v
    (m_pPartitionManager d).
Definition set_m_pPartitionManager (v : bool) (d : CNVMeDevice) :=
  mkDevice (m_Allocator d) (m_nVersion d) (m_ulCaps d) (m_nDoorbellStride d)
    (m_nTimeoutHZ d) (m_AdminQueue d) (m_IoQueue d) (m_ulNamespaceSize d)
    (m_ulOffset d) v.

Definition set_m_nMemStart (v : Z) (a : CNVMeSharedMemAllocator) :=
  mkAllocator v (m_nMemEnd a) (m_pFreeList a).
Definition set_m_pFreeList (v : Z) (a : CNVMeSharedMemAllocator) :=
  mkAllocator (m_nMemStart a) (m_nMemEnd a) v.

Definition set_pNext (v : Z) (h : TNVMeBlockHeader) :=
  mkHeader (nMagic h) (nSize h) (nAlign h) (nBoundary h) v.

Definition set_mem_hdr (f : gmap Z TNVMeBlockHeader -> gmap Z TNVMeBlockHeader)
    (m : Memory) :=
  mkMemory (f (mem_hdr m)) (mem_u64 m) (mem_cmd m).
Definition set_mem_u64 (f : gmap Z Z -> gmap Z Z) (m : Memory) :=
  mkMemory (mem_hdr m) (f (mem_u64 m)) (mem_cmd m).
Definition set_mem_cmd (f : gmap Z TNVMeCommand -> gmap Z TNVMeCommand)
    (m : Memory) :=
  mkMemory (mem_hdr m) (mem_u64 m) (f (mem_cmd m)).

Definition set_queue_mem (sqv cqv sqp cqp : Z) (q : TQueue) :=
  mkQueue (pName q) (usID q) (nEntries q) sqv cqv sqp cqp
    (nSqTail q) (nCqHead q) (bCqPhase q).
Definition set_nSqTail (v : Z) (q : TQueue) :=
  mkQueue (pName q) (usID q) (nEntries q) (pSqVirt q) (pCqVirt q) (nSqPhys q)
    (nCqPhys q) v (nCqHead q) (bCqPhase q).
Definition set_nCqHead (v : Z) (q : TQueue) :=
  mkQueue (pName q) (usID q) (nEntries q) (pSqVirt q) (pCqVirt q) (nSqPhys q)
    (nCqPhys q) (nSqTail q) v (bCqPhase q).
Definition set_bCqPhase (v : bool) (q : TQueue) :=
  mkQueue (pName q) (usID q) (nEntries q) (pSqVirt q) (pCqVirt q) (nSqPhys q)
    (nCqPhys q) (nSqTail q) (nCqHead q) v.

Definition set_m_uPrp1 (v : Z) (p : CNVMePRP) :=
  mkPRP v (m_uPrp2 p) (m_pPrpListVirt p) (m_nPrpListPages p).
Definition set_m_uPrp2 (v : Z) (p : CNVMePRP) :=
  mkPRP (m_uPrp1 p) v (m_pPrpListVirt p) (m_nPrpListPages p).
Definition set_m_pPrpListVirt (v : Z) (p : CNVMePRP) :=
  mkPRP (m_uPrp1 p) (m_uPrp2 p) v (m_nPrpListPages p).
Definition set_m_nPrpListPages (v : Z) (p : CNVMePRP) :=
  mkPRP (m_uPrp1 p) (m_uPrp2 p) (m_pPrpListVirt p) v.

Definition set_in_mmio (l : list Z) (e : Env) :=
  mkEnv l (in_ticks e) (in_cq e) (in_new e) (in_ident e) (in_call e).
Definition set_in_ticks (l : list Z) (e : Env) :=
  mkEnv (in_mmio e) l (in_cq e) (in_new e) (in_ident e) (in_call e).
Definition set_in_cq (l : list TNVMeCompletion) (e : Env) :=
  mkEnv (in_mmio e) (in_ticks e) l (in_new e) (in_ident e) (in_call e).
Definition set_in_new (l : list Z) (e : Env) :=
  mkEnv (in_mmio e) (in_ticks e) (in_cq e) l (in_ident e) (in_call e).
Definition set_in_ident (l : list (Z -> Z)) (e : Env) :=
  mkEnv (in_mmio e) (in_ticks e) (in_cq e) (in_new e) l (in_call e).
Definition set_in_call (l : list bool) (e : Env) :=
  mkEnv (in_mmio e) (in_ticks e) (in_cq e) (in_new e) (in_ident e) l.

(** ** Primitive effects *)

Definition emit (e : Event) : M unit := modify (set_trace (fun t => t ++ [e])).

Definition the_allocator : M CNVMeSharedMemAllocator :=
  gets (fun w => m_Allocator (dev w)).
Definition update_allocator (f : CNVMeSharedMemAllocator -> CNVMeSharedMemAllocator)
    : M unit :=
  modify (set_dev (fun d => set_m_Allocator (f (m_Allocator d)) d)).

(** A read of a block header; a header nobody wrote has no content to go
    on with. *)
Definition load_hdr (p : Z) : M TNVMeBlockHeader :=
  do h <- gets (fun w => mem_hdr (mem w) !! p);
  match h with
  | Some h => ret h
  | None => abort
  end.
Definition store_hdr (p : Z) (h : TNVMeBlockHeader) : M unit :=
  modify (set_mem (set_mem_hdr (fun m => <[p := h]> m))).
Definition store_u64 (p v : Z) : M unit :=
  modify (set_mem (set_mem_u64 (fun m => <[p := v]> m))).
Definition store_cmd (p : Z) (c : TNVMeCommand) : M unit :=
  modify (set_mem (set_mem_cmd (fun m => <[p := c]> m))).

Definition MmioWrite32 (nOffset nValue : Z) : M unit :=
  emit (EvMmioWrite32 nOffset nValue).
Definition MmioWrite64 (nOffset ulValue : Z) : M unit :=
  emit (EvMmioWrite64 nOffset ulValue).

Definition MmioRead32 (nOffset : Z) : M Z :=
  do l <- gets (fun w => in_mmio (env w));
  match l with
  | [] => stuck
  | v :: l => modify (set_env (set_in_mmio l)) ;; ret (u32 v)
  end.
Definition MmioRead64 (nOffset : Z) : M Z :=
  do l <- gets (fun w => in_mmio (env w));
  match l with
  | [] => stuck
  | v :: l => modify (set_env (set_in_mmio l)) ;; ret (u64 v)
  end.

(** [CTimer::Get()->GetTicks()] *)
Definition GetTicks : M Z :=
  do l <- gets (fun w => in_ticks (env w));
  match l with
  | [] => stuck
  | v :: l => modify (set_env (set_in_ticks l)) ;; ret (u32 v)
  end.

(** The relaxed loads of one poll iteration from the completion slot. *)
Definition load_completion : M TNVMeCompletion :=
  do l <- gets (fun w => in_cq (env w));
  match l with
  | [] => stuck
  | ce :: l => modify (set_env (set_in_cq l)) ;; ret ce
  end.

(** [new u8[ulCount]]: the address, or 0. *)
Definition new_array (ulCount : Z) : M Z :=
  do l <- gets (fun w => in_new (env w));
  match l with
  | [] => stuck
  | v :: l => modify (set_env (set_in_new l)) ;; ret (u64 v)
  end.

(** The bytes of the Identify buffer once the command has completed. *)
Definition load_ident : M (Z -> Z) :=
  do l <- gets (fun w => in_ident (env w));
  match l with
  | [] => stuck
  | f :: l => modify (set_env (set_in_ident l)) ;; ret f
  end.

(** A call into the host bridge or the partition manager. *)
Definition extern_call : M bool :=
  do l <- gets (fun w => in_call (env w));
  match l with
  | [] => stuck
  | b :: l => modify (set_env (set_in_call l)) ;; ret b
  end.

(** ** nvmehelper.h *)

Definition PhysicalOf `{Platform} (pVirt : Z) : Z := Z.lor pVirt GetDMAAddress.

(** ** nvmesharedmemallocator.cpp *)

Definition GetFreeSpace (a : CNVMeSharedMemAllocator) : Z :=
  if m_nMemEnd a >? m_nMemStart a then u64 (m_nMemEnd a - m_nMemStart a) else 0.

(** The branch of [Allocate] that takes the head of the free list. *)
Definition Allocate_recycle : M Z :=
  do a <- the_allocator;
  let pBlockHeader := m_pFreeList a in
  do h <- load_hdr pBlockHeader;
  assert (nMagic h =? NVME_BLOCK_MAGIC) ;;
  assert (nSize h =? NVME_BLOCK_SIZE) ;;
  assert (nAlign h =? NVME_BLOCK_ALIGN) ;;
  assert (nBoundary h =? NVME_BLOCK_BOUNDARY) ;;
  update_allocator (set_m_pFreeList (pNext h)) ;;
  store_hdr pBlockHeader (set_pNext 0 h) ;;
  let pResult := u64 (pBlockHeader + sizeof_TNVMeBlockHeader) in
  assert (Z.land pResult (NVME_BLOCK_ALIGN - 1) =? 0) ;;
  ret pResult.

(** The rest of [Allocate]: a new block behind the cursor [m_nMemStart]. *)
Definition Allocate_carve (nSize nAlign nBoundary : Z) : M Z :=
  do a <- the_allocator;
  let start := u64 (m_nMemStart a + sizeof_TNVMeBlockHeader) in
  let nAlignMask := u64 (nAlign - 1) in
  let start :=
    if negb (Z.land start nAlignMask =? 0)
    then Z.land (u64 (start + nAlignMask)) (not64 nAlignMask)
    else start in
  let nBoundaryMask := u64 (nBoundary - 1) in
  let start :=
    if negb (Z.land start (not64 nBoundaryMask)
             =? Z.land (u64 (u64 (start + nSize) - 1)) (not64 nBoundaryMask))
    then Z.land (u64 (start + nBoundaryMask)) (not64 nBoundaryMask)
    else start in
  let pBlockHeader := u64 (start - sizeof_TNVMeBlockHeader) in
  let start := u64 (start + nSize) in
  update_allocator (set_m_nMemStart start) ;;
  if start >? m_nMemEnd a then ret 0
  else
    store_hdr pBlockHeader
      (mkHeader NVME_BLOCK_MAGIC (u32 nSize) (u32 nAlign) (u32 nBoundary) 0) ;;
    let pResult := u64 (pBlockHeader + sizeof_TNVMeBlockHeader) in
    assert (Z.land pResult (u64 (nAlign - 1)) =? 0) ;;
    ret pResult.

Definition Allocate (nSize nAlign nBoundary : Z) : M Z :=
  assert (nSize >? 0) ;;
  assert (negb (nAlign =? 0)) ;;
  assert (nAlign <=? nBoundary) ;;
  do a <- the_allocator;
  assert (negb (m_nMemStart a =? 0)) ;;
  assert (negb (m_nMemEnd a =? 0)) ;;
  if (nSize <=? NVME_BLOCK_SIZE) && (nAlign <=? NVME_BLOCK_ALIGN)
     && (nBoundary <=? NVME_BLOCK_BOUNDARY)
  then
    if negb (m_pFreeList a =? 0) then Allocate_recycle
    else Allocate_carve NVME_BLOCK_SIZE NVME_BLOCK_ALIGN NVME_BLOCK_BOUNDARY
  else Allocate_carve nSize nAlign nBoundary.

(** The test [Free] makes on the header of the block. *)
Definition is_page_block (h : TNVMeBlockHeader) : bool :=
  (nSize h =? NVME_BLOCK_SIZE) && (nAlign h =? NVME_BLOCK_ALIGN)
  && (nBoundary h =? NVME_BLOCK_BOUNDARY).

Definition Free (pBlock : Z) : M unit :=
  assert (negb (pBlock =? 0)) ;;
  let pBlockHeader := u64 (pBlock - sizeof_TNVMeBlockHeader) in
  do h <- load_hdr pBlockHeader;
  assert (nMagic h =? NVME_BLOCK_MAGIC) ;;
  if is_page_block h
  then
    do a <- the_allocator;
    store_hdr pBlockHeader (set_pNext (m_pFreeList a) h) ;;
    update_allocator (set_m_pFreeList pBlockHeader)
  else
    emit (EvLog "Trying to free shared memory at 0x%lX (size %u, align %u)"
            [pBlock; nSize h; nAlign h]).

(** ** nvmeprp.cpp *)

(** The constructor of [CNVMePRP]. *)
Definition CNVMePRP_new : CNVMePRP := mkPRP 0 0 0 0.

(** [memset (p, 0, 8 * n)] on the 8-byte words of the block. *)
Fixpoint memset_u64 (p : Z) (n : nat) (m : gmap Z Z) : gmap Z Z :=
  match n with
  | O => m
  | S k => <[u64 (p + 8 * Z.of_nat k) := 0]> (memset_u64 p k m)
  end.

(** The loop of [BuildForBuffer] over [i], [n] rounds from [i] on. *)
Fixpoint fill_prp_list `{Platform} (pEntries uCurPageVirt i : Z) (n : nat)
    (m : gmap Z Z) : gmap Z Z :=
  match n with
  | O => m
  | S k =>
      let pPagePtr := u64 (uCurPageVirt + i * PRP_PAGE_SIZE) in
      fill_prp_list pEntries uCurPageVirt (i + 1) k
        (<[u64 (pEntries + 8 * i) := PhysicalOf pPagePtr]> m)
  end.

Definition BuildForBuffer `{Platform} (this : CNVMePRP) (pBuffer ulLength : Z)
    : M (bool * CNVMePRP) :=
  if (pBuffer =? 0) || (ulLength =? 0) then ret (false, this)
  else
    let uBuf := pBuffer in
    let uPhysFirst := PhysicalOf pBuffer in
    let this := set_m_uPrp1 uPhysFirst this in
    let uRemaining := ulLength in
    let uOffsetInFirstPage := Z.land uBuf (PRP_PAGE_SIZE - 1) in
    let uFirstPageRemaining := u64 (PRP_PAGE_SIZE - uOffsetInFirstPage) in
    if uRemaining <=? uFirstPageRemaining then ret (true, set_m_uPrp2 0 this)
    else
      let uSecondPageVirt :=
        u64 (Z.land uBuf (not64 (PRP_PAGE_SIZE - 1)) + PRP_PAGE_SIZE) in
      let uPhysSecond := PhysicalOf uSecondPageVirt in
      let this := set_m_uPrp2 uPhysSecond this in
      let uRemaining := u64 (uRemaining - uFirstPageRemaining) in
      if uRemaining <=? PRP_PAGE_SIZE then ret (true, this)
      else
        let uEntriesPerPage := PRP_PAGE_SIZE / PRP_ENTRY_SIZE in
        let uNeededEntries :=
          u64 (uRemaining + PRP_PAGE_SIZE - 1) / PRP_PAGE_SIZE in
        let uPages :=
          u64 (uNeededEntries + uEntriesPerPage - 1) / uEntriesPerPage in
        do pList <- Allocate (u64 (uPages * PRP_PAGE_SIZE)) PRP_PAGE_SIZE
                      NVME_BLOCK_BOUNDARY;
        if pList =? 0 then ret (false, this)
        else
          modify (set_mem (set_mem_u64
            (memset_u64 pList (Z.to_nat (u64 (uPages * PRP_PAGE_SIZE) / 8)))));;
          let pEntries := pList in
          let uCurPageVirt := uSecondPageVirt in
          modify (set_mem (set_mem_u64
            (fill_prp_list pEntries uCurPageVirt 0 (Z.to_nat uNeededEntries))));;
          let this := set_m_pPrpListVirt pList this in
          let this := set_m_nPrpListPages (u32 uPages) this in
          let this := set_m_uPrp2 (PhysicalOf pList) this in
          ret (true, this).

(** The destructor of [CNVMePRP]. *)
Definition CNVMePRP_delete (this : CNVMePRP) : M unit :=
  if negb (m_pPrpListVirt this =? 0) then Free (m_pPrpListVirt this)
  else ret tt.

(** ** nvme.cpp *)

Definition DOORBELL_STRIDE (dstrd : Z) : Z := u32 (Z.shiftl 1 (u64 (dstrd + 2))).

Definition NVME_DOORBELL_SQ_OFFSET (m_nDoorbellStride index : Z) : Z :=
  u32 (NVME_REG_DOORBELL_BASE + u32 (u32 (index * m_nDoorbellStride) * 2)).
Definition NVME_DOORBELL_CQ_OFFSET (m_nDoorbellStride index : Z) : Z :=
  u32 (u32 (NVME_REG_DOORBELL_BASE + u32 (u32 (index * m_nDoorbellStride) * 2)) + 4).

Definition POLL_TIMEOUT_HZ `{Platform} : Z := MSEC2HZ 5000.

Definition the_queue (pQueue : QueueRef) : M TQueue :=
  gets (fun w =>
    match pQueue with
    | AdminQueue => m_AdminQueue (dev w)
    | IoQueue => m_IoQueue (dev w)
    end).

Definition update_queue (pQueue : QueueRef) (f : TQueue -> TQueue) : M unit :=
  modify (set_dev (fun d =>
    match pQueue with
    | AdminQueue => set_m_AdminQueue (f (m_AdminQueue d)) d
    | IoQueue => set_m_IoQueue (f (m_IoQueue d)) d
    end)).

(** The constructor [CNVMeDevice::CNVMeDevice], on the allocator made of the
    two coherent pages it is given. *)
Definition CNVMeDevice_new (nMemStart nMemEnd : Z) : CNVMeDevice :=
  mkDevice (mkAllocator nMemStart nMemEnd 0) 0 0 0 0
    (mkQueue "Admin" AQID NVME_ADMIN_QUEUE_ENTRIES 0 0 0 0 0 0 false)
    (mkQueue "I/O" IOQID NVME_IO_QUEUE_ENTRIES 0 0 0 0 0 0 false)
    0 0 false.

(** The condition under which [PollForCompletion] takes the completion. *)
Definition completion_matches (q : TQueue) (usCid : Z) (ce : TNVMeCompletion)
    : bool :=
  Bool.eqb (negb (Z.land (status ce) CQE_STATUS_PHASE_BIT =? 0)) (bCqPhase q)
  && (ce_cid ce =? usCid)
  && (sqid ce =? usID q).

(** "Advance head": the head index and the phase after a completion has been
    taken. *)
Definition advance_head (q : TQueue) : TQueue :=
  let q := set_nCqHead (u16 ((nCqHead q + 1) mod nEntries q)) q in
  if nCqHead q =? 0 then set_bCqPhase (negb (bCqPhase q)) q else q.

Definition status_SCT (usStatus : Z) : Z :=
  Z.shiftr (Z.land usStatus CQE_STATUS_SCT__MASK) CQE_STATUS_SCT__SHIFT.
Definition status_SC (usStatus : Z) : Z :=
  Z.shiftr (Z.land usStatus CQE_STATUS_SC__MASK) CQE_STATUS_SC__SHIFT.

(** The loop of [PollForCompletion]; one round for each unit of [fuel]. *)
Fixpoint poll_loop (fuel : nat) (pQueue : QueueRef) (usCid nStart nTimeoutHZ : Z)
    : M Z :=
  match fuel with
  | O => stuck
  | S fuel =>
      emit EvDataMemBarrier ;;
      do q <- the_queue pQueue;
      do ce <- load_completion;
      let usStatus := status ce in
      if completion_matches q usCid ce then
        update_queue pQueue advance_head ;;
        emit EvDataSyncBarrier ;;
        do q <- the_queue pQueue;
        do stride <- gets (fun w => m_nDoorbellStride (dev w));
        MmioWrite32 (NVME_DOORBELL_CQ_OFFSET stride (usID q)) (nCqHead q) ;;
        let nSCT := status_SCT usStatus in
        let nSC := status_SC usStatus in
        if negb (nSCT =? 0) || negb (nSC =? 0) then
          emit (EvLog "%s command failed (sct %u, sc 0x%X)" [nSCT; nSC]) ;;
          if (nSCT =? 0) && (nSC =? 0x80)
          then ret NVME_STATUS_ERROR_LBA_RANGE
          else ret NVME_STATUS_ERROR_CONTROLLER
        else ret NVME_STATUS_OK
      else
        do t <- GetTicks;
        if u32 (t - nStart) >? nTimeoutHZ then ret NVME_STATUS_ERROR_TIMEOUT
        else
          emit (EvUsDelay 1) ;;
          poll_loop fuel pQueue usCid nStart nTimeoutHZ
  end.

Definition PollForCompletion (pQueue : QueueRef) (usCid nTimeoutHZ : Z) : M Z :=
  do q <- the_queue pQueue;
  assert (usCid <? nEntries q) ;;
  do nStart <- GetTicks;
  do fuel <- gets (fun w => length (in_cq (env w)));
  poll_loop fuel pQueue usCid nStart nTimeoutHZ.

Definition SubmitCommand `{Platform} (pQueue : QueueRef)
    (uchOpcode nNsId nCdw10 nCdw11 nCdw12 ulPrp1 ulPrp2 : Z) : M Z :=
  do q <- the_queue pQueue;
  let pSq := pSqVirt q in
  let usCid := u16 (Z.land (nSqTail q) 0xffff) in
  let pCmd := u64 (pSq + sizeof_TNVMeCommand * nSqTail q) in
  store_cmd pCmd
    (mkCommand uchOpcode 0 usCid nNsId 0 0 ulPrp1 ulPrp2 nCdw10 nCdw11 nCdw12
       0 0 0) ;;
  update_queue pQueue (fun q => set_nSqTail (u16 ((nSqTail q + 1) mod nEntries q)) q) ;;
  emit EvDataSyncBarrier ;;
  do q <- the_queue pQueue;
  do stride <- gets (fun w => m_nDoorbellStride (dev w));
  MmioWrite32 (NVME_DOORBELL_SQ_OFFSET stride (usID q)) (nSqTail q) ;;
  PollForCompletion pQueue usCid POLL_TIMEOUT_HZ.

Definition AdminCommand `{Platform} (uchOpcode nNsId uCdw10 uCdw11 ulDataPhysAddr : Z)
    : M Z :=
  assert (negb (ulDataPhysAddr =? 0)) ;;
  SubmitCommand AdminQueue uchOpcode nNsId uCdw10 uCdw11 0 ulDataPhysAddr 0.

Definition IoPassThrough `{Platform} (nNsId nLba nBlocks pBuffer : Z)
    (bIsWrite : bool) : M Z :=
  assert (negb (pBuffer =? 0)) ;;
  assert (negb (nBlocks =? 0)) ;;
  do '(ok, PrpBuilder) <-
    BuildForBuffer CNVMePRP_new pBuffer (u64 (nBlocks * NVME_LBA_SIZE));
  if negb ok then
    CNVMePRP_delete PrpBuilder ;;
    ret NVME_STATUS_ERROR_NO_RESOURCE
  else
    do nRet <-
      SubmitCommand IoQueue
        (if bIsWrite then NVME_IO_OPC_WRITE else NVME_IO_OPC_READ)
        nNsId
        (u32 (Z.land nLba 0xffffffff))
        (u32 (Z.land (Z.shiftr nLba 32) 0xffffffff))
        (u32 (nBlocks - 1))
        (m_uPrp1 PrpBuilder)
        (m_uPrp2 PrpBuilder);
    CNVMePRP_delete PrpBuilder ;;
    ret nRet.

Definition Flush `{Platform} (nNsId : Z) : M Z :=
  SubmitCommand IoQueue NVME_IO_OPC_FLUSH nNsId 0 0 0 0 0.

Definition Identify `{Platform} (uCns pOutBuf uNsId : Z) : M Z :=
  let uPhys := PhysicalOf pOutBuf in
  let uCdw10 := uCns in
  AdminCommand NVME_ADMIN_OPC_IDENTIFY uNsId uCdw10 0 uPhys.

(** [Read] from the first cache maintenance on: the transfer into
    [pTransferBuffer], which is [pBuffer] or the temporary [pDMABuffer]. *)
Definition Read_transfer `{Platform}
    (pBuffer ulCount nLBA pTransferBuffer pDMABuffer : Z) : M Z :=
  emit (EvInvalidateDataCacheRange pTransferBuffer ulCount) ;;
  do nRet <- IoPassThrough NSID nLBA (u32 (ulCount / NVME_LBA_SIZE))
               pTransferBuffer false;
  if negb (nRet =? NVME_STATUS_OK) then
    emit (EvDeleteArray pDMABuffer) ;;
    ret nRet
  else
    emit (EvInvalidateDataCacheRange pTransferBuffer ulCount) ;;
    (if negb (pDMABuffer =? 0) then
       emit (EvMemcpy pBuffer pDMABuffer ulCount) ;;
       emit (EvDeleteArray pDMABuffer)
     else ret tt) ;;
    ret (to_int ulCount).

Definition Read `{Platform} (pBuffer ulCount : Z) : M Z :=
  assert (negb (pBuffer =? 0)) ;;
  do ulOffset <- gets (fun w => m_ulOffset (dev w));
  if negb (Z.land ulOffset (NVME_LBA_SIZE - 1) =? 0)
  then ret NVME_STATUS_ERROR_BAD_PARAM
  else
    let nLBA := u32 (ulOffset / NVME_LBA_SIZE) in
    if (ulCount =? 0) || negb (Z.land ulCount (NVME_LBA_SIZE - 1) =? 0)
    then ret NVME_STATUS_ERROR_BAD_PARAM
    else
      if negb (IS_CACHE_ALIGNED pBuffer ulCount) then
        do pDMABuffer <- new_array ulCount;
        if pDMABuffer =? 0 then ret NVME_STATUS_ERROR_NO_RESOURCE
        else Read_transfer pBuffer ulCount nLBA pDMABuffer pDMABuffer
      else Read_transfer pBuffer ulCount nLBA pBuffer 0.

(** [Write] from the cache maintenance on. *)
Definition Write_transfer `{Platform}
    (ulCount nLBA pTransferBuffer pDMABuffer : Z) : M Z :=
  emit (EvCleanDataCacheRange pTransferBuffer ulCount) ;;
  do nRet <- IoPassThrough NSID nLBA (u32 (ulCount / NVME_LBA_SIZE))
               pTransferBuffer true;
  emit (EvDeleteArray pDMABuffer) ;;
  if negb (nRet =? NVME_STATUS_OK) then ret nRet
  else ret (to_int ulCount).

Definition Write `{Platform} (pBuffer ulCount : Z) : M Z :=
  assert (negb (pBuffer =? 0)) ;;
  do ulOffset <- gets (fun w => m_ulOffset (dev w));
  if negb (Z.land ulOffset (NVME_LBA_SIZE - 1) =? 0)
  then ret NVME_STATUS_ERROR_BAD_PARAM
  else
    let nLBA := u32 (ulOffset / NVME_LBA_SIZE) in
    if (ulCount =? 0) || negb (Z.land ulCount (NVME_LBA_SIZE - 1) =? 0)
    then ret NVME_STATUS_ERROR_BAD_PARAM
    else
      if negb (IS_CACHE_ALIGNED pBuffer ulCount) then
        do pDMABuffer <- new_array ulCount;
        if pDMABuffer =? 0 then ret NVME_STATUS_ERROR_NO_RESOURCE
        else
          emit (EvMemcpy pDMABuffer pBuffer ulCount) ;;
          Write_transfer ulCount nLBA pDMABuffer pDMABuffer
      else Write_transfer ulCount nLBA pBuffer 0.

Definition Seek (ulOffset : Z) : M Z :=
  modify (set_dev (set_m_ulOffset ulOffset)) ;;
  ret ulOffset.

Definition GetSize : M Z := gets (fun w => m_ulNamespaceSize (dev w)).

Definition IOCtl `{Platform} (ulCmd pData : Z) : M Z :=
  if ulCmd =? DEVICE_IOCTL_SYNC then Flush NSID
  else ret NVME_STATUS_ERROR_BAD_PARAM.

(** The loop of [WaitReady]; one round for each unit of [fuel]. *)
Fixpoint wait_loop (fuel : nat) (bOn : bool) (nStart : Z) : M bool :=
  match fuel with
  | O => stuck
  | S fuel =>
      do csts <- MmioRead32 NVME_REG_CSTS;
      if Bool.eqb (negb (Z.land csts NVME_REG_CSTS_RDY =? 0)) bOn then ret true
      else
        do t <- GetTicks;
        do nTimeoutHZ <- gets (fun w => m_nTimeoutHZ (dev w));
        if u32 (t - nStart) >=? nTimeoutHZ then ret false
        else
          emit (EvMsDelay 1) ;;
          wait_loop fuel bOn nStart
  end.

Definition WaitReady (bOn : bool) : M bool :=
  do nStart <- GetTicks;
  do fuel <- gets (fun w => length (in_mmio (env w)));
  wait_loop fuel bOn nStart.

(** [memset (pSq, 0, n * sizeof (TNVMeCommand))] on the command slots. *)
Fixpoint memset_cmd (p : Z) (n : nat) (m : gmap Z TNVMeCommand)
    : gmap Z TNVMeCommand :=
  match n with
  | O => m
  | S k =>
      <[u64 (p + sizeof_TNVMeCommand * Z.of_nat k)
        := mkCommand 0 0 0 0 0 0 0 0 0 0 0 0 0 0]> (memset_cmd p k m)
  end.

Definition CreateAdminQueues `{Platform} : M Z :=
  let uSqSize := sizeof_TNVMeCommand * NVME_ADMIN_QUEUE_ENTRIES in
  let uCqSize := sizeof_TNVMeCompletion * NVME_ADMIN_QUEUE_ENTRIES in
  do pSq <- Allocate uSqSize NVME_PAGE_SIZE NVME_BLOCK_BOUNDARY;
  if pSq =? 0 then ret NVME_STATUS_ERROR_NO_RESOURCE
  else
    do pCq <- Allocate uCqSize NVME_PAGE_SIZE NVME_BLOCK_BOUNDARY;
    if pCq =? 0 then ret NVME_STATUS_ERROR_NO_RESOURCE
    else
      modify (set_mem (set_mem_cmd
        (memset_cmd pSq (Z.to_nat (uSqSize / sizeof_TNVMeCommand))))) ;;
      emit (EvMemset pCq 0 uCqSize) ;;
      update_queue AdminQueue
        (set_queue_mem pSq pCq (PhysicalOf pSq) (PhysicalOf pCq)) ;;
      do q <- the_queue AdminQueue;
      let uAqa :=
        Z.lor (Z.shiftl (NVME_ADMIN_QUEUE_ENTRIES - 1) 16)
              (NVME_ADMIN_QUEUE_ENTRIES - 1) in
      MmioWrite32 NVME_REG_AQA uAqa ;;
      MmioWrite64 NVME_REG_ASQ (nSqPhys q) ;;
      MmioWrite64 NVME_REG_ACQ (nCqPhys q) ;;
      update_queue AdminQueue (set_nSqTail 0) ;;
      update_queue AdminQueue (set_nCqHead 0) ;;
      update_queue AdminQueue (set_bCqPhase true) ;;
      ret NVME_STATUS_OK.

Definition CreateIoQueue `{Platform} (uQueueId uEntries : Z) : M Z :=
  let uSqSize := sizeof_TNVMeCommand * uEntries in
  let uCqSize := sizeof_TNVMeCompletion * uEntries in
  do pSq <- Allocate uSqSize NVME_PAGE_SIZE NVME_BLOCK_BOUNDARY;
  if pSq =? 0 then ret NVME_STATUS_ERROR_NO_RESOURCE
  else
    do pCq <- Allocate uCqSize NVME_PAGE_SIZE NVME_BLOCK_BOUNDARY;
    if pCq =? 0 then ret NVME_STATUS_ERROR_NO_RESOURCE
    else
      modify (set_mem (set_mem_cmd
        (memset_cmd pSq (Z.to_nat (uSqSize / sizeof_TNVMeCommand))))) ;;
      emit (EvMemset pCq 0 uCqSize) ;;
      update_queue IoQueue
        (set_queue_mem pSq pCq (PhysicalOf pSq) (PhysicalOf pCq)) ;;
      do q <- the_queue IoQueue;
      let uCdw10 :=
        u32 (Z.lor (Z.land uQueueId 0xffff) (Z.shiftl (uEntries - 1) 16)) in
      let uCdw11 := Z.lor (Z.lor (BIT 0) (BIT 1)) (Z.shiftl 0 16) in
      do nRet <- AdminCommand NVME_ADMIN_OPC_CREATE_IO_CQ 0 uCdw10 uCdw11
                   (nCqPhys q);
      if negb (nRet =? NVME_STATUS_OK) then ret nRet
      else
        let uCdw10 :=
          u32 (Z.lor (Z.land uQueueId 0xffff) (Z.shiftl (uEntries - 1) 16)) in
        let uCdw11 := Z.lor (u32 (Z.shiftl uQueueId 16)) 1 in
        do nRet <- AdminCommand NVME_ADMIN_OPC_CREATE_IO_SQ 0 uCdw10 uCdw11
                     (nSqPhys q);
        if negb (nRet =? NVME_STATUS_OK) then ret nRet
        else
          update_queue IoQueue (set_nSqTail 0) ;;
          update_queue IoQueue (set_nCqHead 0) ;;
          update_queue IoQueue (set_bCqPhase true) ;;
          ret NVME_STATUS_OK.

(** The doorbell stride [Initialize] derives from the capabilities. *)
Definition stride_of_caps (ulCaps : Z) : Z :=
  DOORBELL_STRIDE
    (u64 (Z.shiftl (Z.land ulCaps NVME_REG_CAP_DSTRD__MASK)
            NVME_REG_CAP_DSTRD__SHIFT)).

(** The ready timeout [Initialize] derives from the capabilities. *)
Definition timeout_of_caps `{Platform} (ulCaps : Z) : Z :=
  u32 (MSEC2HZ
         (u64 (Z.shiftr (Z.land ulCaps (u64 NVME_REG_CAP_TO__MASK))
                 NVME_REG_CAP_TO__SHIFT * 500))).

(** The value [Initialize] writes to CC to enable the controller, from the
    value [nCC] it has read there. *)
Definition nCC_enable (nCC : Z) : Z :=
  let nCC :=
    Z.land nCC
      (not32 (Z.lor NVME_REG_CC_IOCQES__MASK NVME_REG_CC_IOCQES__MASK)) in
  Z.lor nCC
    (Z.lor (Z.lor (Z.shiftl NVME_REG_CC_IOSQES_64B NVME_REG_CC_IOSQES__SHIFT)
                  (Z.shiftl NVME_REG_CC_IOCQES_16B NVME_REG_CC_IOCQES__SHIFT))
           NVME_REG_CC_EN).

(** Little-endian load of [n] bytes at [p] from the bytes [f]. *)
Fixpoint load_le (f : Z -> Z) (p : Z) (n : nat) : Z :=
  match n with
  | O => 0
  | S k => u8 (f p) + 256 * load_le f (p + 1) k
  end.

(** One round of the loop of [Initialize] over [nCNS]; [false] where the
    source returns [false] from [Initialize]. The block size is
    [1 << uchLBADS] on a 32-bit [int]: the shift of the target takes its
    count modulo 32. *)
Definition Initialize_identify `{Platform} (nCNS pIdBuf : Z) : M bool :=
  do nRet <- Identify nCNS pIdBuf (if nCNS =? 0 then NSID else 0);
  if negb (nRet =? NVME_STATUS_OK) then
    emit (EvLog "Identify failed (cns %u, err %d)" [nCNS; nRet]) ;;
    ret false
  else
    do IdBuf <- load_ident;
    if nCNS =? 0 then
      let uchFLBAS := u8 (IdBuf 26) in
      let nLBAFormat := load_le IdBuf (128 + 4 * Z.land uchFLBAS 0xF) 4 in
      let uchLBADS := u8 (Z.land (Z.shiftr nLBAFormat 16) 0xFF) in
      let nLBASize := u32 (Z.shiftl 1 (uchLBADS mod 32)) in
      if negb (nLBASize =? NVME_LBA_SIZE) then
        emit (EvLog "LBA size not supported (%u)" [nLBASize]) ;;
        Free pIdBuf ;;
        ret false
      else
        modify (set_dev (set_m_ulNamespaceSize
                  (u64 (load_le IdBuf 0 8 * nLBASize)))) ;;
        let usMS := u16 (Z.land nLBAFormat 0xFFFF) in
        if negb (usMS =? 0) then
          emit (EvLog "Metadata not supported (%u)" [usMS]) ;;
          Free pIdBuf ;;
          ret false
        else ret true
    else ret true.

(** [Initialize]. The partition manager is code outside the driver: of
    its [Initialize] the model has the result, not the requests it makes
    of the device on the way. *)
Definition Initialize `{Platform} : M bool :=
  do ok <- extern_call;
  if negb ok then emit (EvLog "Cannot init external PCIe" []) ;; ret false
  else
  do ok <- extern_call;
  if negb ok then emit (EvLog "Cannot enable PCIe device" []) ;; ret false
  else
  do nVersion <- MmioRead32 NVME_REG_VER;
  modify (set_dev (set_m_nVersion nVersion)) ;;
  let nMjr := Z.shiftr (Z.land nVersion (u32 NVME_REG_VER_MJR__MASK))
                NVME_REG_VER_MJR__SHIFT in
  let nMnr := Z.shiftr (Z.land nVersion NVME_REG_VER_MNR__MASK)
                NVME_REG_VER_MNR__SHIFT in
  if negb (nMjr =? 1) || (negb (nMnr =? 3) && negb (nMnr =? 4)) then
    emit (EvLog "NVMe version not supported (0x%X)" [nVersion]) ;; ret false
  else
  do ulCaps <- MmioRead64 NVME_REG_CAP;
  modify (set_dev (set_m_ulCaps ulCaps)) ;;
  modify (set_dev (set_m_nDoorbellStride (stride_of_caps ulCaps))) ;;
  modify (set_dev (set_m_nTimeoutHZ (timeout_of_caps ulCaps))) ;;
  (if timeout_of_caps ulCaps =? 0 then
     emit (EvLog "Timeout adjusted" []) ;;
     modify (set_dev (set_m_nTimeoutHZ (u32 (5 * HZ))))
   else ret tt) ;;
  do nCC <- MmioRead32 NVME_REG_CC;
  MmioWrite32 NVME_REG_CC (Z.land nCC (not32 NVME_REG_CC_EN)) ;;
  do ok <- WaitReady false;
  if negb ok then emit (EvLog "Cannot reset controller" []) ;; ret false
  else
  do nRet <- CreateAdminQueues;
  if negb (nRet =? NVME_STATUS_OK) then
    emit (EvLog "Cannot create admin queues" []) ;; ret false
  else
  do nCC <- MmioRead32 NVME_REG_CC;
  MmioWrite32 NVME_REG_CC (nCC_enable nCC) ;;
  do ok <- WaitReady true;
  if negb ok then emit (EvLog "Cannot enable controller" []) ;; ret false
  else
  do nRet <- CreateIoQueue IOQID NVME_IO_QUEUE_ENTRIES;
  if negb (nRet =? NVME_STATUS_OK) then
    emit (EvLog "Cannot create I/O queue" []) ;; ret false
  else
  do pIdBuf <- Allocate 4096 NVME_PAGE_SIZE NVME_BLOCK_BOUNDARY;
  if pIdBuf =? 0 then emit (EvLog "Allocation failed" []) ;; ret false
  else
  do ok <- Initialize_identify 0 pIdBuf;
  if negb ok then ret false
  else
  do ok <- Initialize_identify 1 pIdBuf;
  if negb ok then ret false
  else
  Free pIdBuf ;;
  do ulNamespaceSize <- gets (fun w => m_ulNamespaceSize (dev w));
  emit (EvLog "%luGB NVMe Model %s" [ulNamespaceSize / GIGABYTE]) ;;
  do pPartitionManager <- gets (fun w => m_pPartitionManager (dev w));
  assert (negb pPartitionManager) ;;
  modify (set_dev (set_m_pPartitionManager true)) ;;
  do ok <- extern_call;
  if negb ok then ret false
  else
    emit EvAddDevice ;;
    ret true.

(** ** Vocabulary of the statements *)

(** The fields of a CC value. *)
Definition CC_IOSQES (nCC : Z) : Z :=
  Z.shiftr (Z.land nCC NVME_REG_CC_IOSQES__MASK) NVME_REG_CC_IOSQES__SHIFT.
Definition CC_IOCQES (nCC : Z) : Z :=
  Z.shiftr (Z.land nCC NVME_REG_CC_IOCQES__MASK) NVME_REG_CC_IOCQES__SHIFT.
Definition CC_EN (nCC : Z) : Z := Z.land nCC NVME_REG_CC_EN.

(** [keeps R m]: the world [m] ends in is related by [R] to the world it
    started in, whatever the result. *)
Definition keeps (R : World -> World -> Prop) {A} (m : M A) : Prop :=
  forall w, R w (snd (m w)).

(** The members of the device that only [Initialize] and [Seek] assign. *)
Definition config (d : CNVMeDevice) : Z * Z * Z * Z * Z * Z * bool :=
  (m_nVersion d, m_ulCaps d, m_nDoorbellStride d, m_nTimeoutHZ d,
   m_ulNamespaceSize d, m_ulOffset d, m_pPartitionManager d).

Definition same_config (w w' : World) : Prop :=
  config (dev w') = config (dev w).

Definition same_cmd (w w' : World) : Prop :=
  mem_cmd (mem w') = mem_cmd (mem w).

Definition trace_extends (w w' : World) : Prop :=
  exists evs, trace w' = trace w ++ evs.

(** What the I/O path leaves as it is before it stores the command: the
    command slots, the I/O queue, the doorbell stride and the completions
    still to come. *)
Definition same_submission (w w' : World) : Prop :=
  mem_cmd (mem w') = mem_cmd (mem w)
  /\ m_IoQueue (dev w') = m_IoQueue (dev w)
  /\ m_nDoorbellStride (dev w') = m_nDoorbellStride (dev w)
  /\ in_cq (env w') = in_cq (env w)
  /\ trace_extends w w'.

Definition queue_of (pQueue : QueueRef) (w : World) : TQueue :=
  match pQueue with
  | AdminQueue => m_AdminQueue (dev w)
  | IoQueue => m_IoQueue (dev w)
  end.

(** A block header that records the specification of the blocks the
    allocator recycles. *)
Definition canonical (h : TNVMeBlockHeader) : Prop :=
  nMagic h = NVME_BLOCK_MAGIC /\ nSize h = NVME_BLOCK_SIZE
  /\ nAlign h = NVME_BLOCK_ALIGN /\ nBoundary h = NVME_BLOCK_BOUNDARY.

(** The header of the block at [pBlock]. *)
Definition header_of (pBlock : Z) (w : World) : option TNVMeBlockHeader :=
  mem_hdr (mem w) !! u64 (pBlock - sizeof_TNVMeBlockHeader).

(** [K] times: allocate a block of the given specification, then free it;
    the blocks that were handed out. *)
Fixpoint alloc_free_cycles (K : nat) (nSize nAlign nBoundary : Z)
    : M (list Z) :=
  match K with
  | O => ret []
  | S k =>
      do p <- Allocate nSize nAlign nBoundary;
      Free p ;;
      do l <- alloc_free_cycles k nSize nAlign nBoundary;
      ret (p :: l)
  end.

(** The bytes of arena a run from [w] to [w'] has consumed. *)
Definition arena_consumed (w w' : World) : Z :=
  GetFreeSpace (m_Allocator (dev w)) - GetFreeSpace (m_Allocator (dev w')).

(** The block at [p] is the head of the free list, with a header of the
    recycled specification, in an allocator that passes the assertions of
    [Allocate]. *)
Definition recyclable (p : Z) (w : World) : Prop :=
  let a := m_Allocator (dev w) in
  m_nMemStart a <> 0 /\ m_nMemEnd a <> 0
  /\ 0 < p < 2 ^ 64 /\ p mod 4096 = 0
  /\ m_pFreeList a = u64 (p - sizeof_TNVMeBlockHeader)
  /\ exists h, header_of p w = Some h /\ canonical h.

(** The bytes left in the page of [B] from [B] on, the start of that page,
    and division rounding up. *)
Definition first_remain (B : Z) : Z := NVME_PAGE_SIZE - B mod NVME_PAGE_SIZE.
Definition page_of (B : Z) : Z := B - B mod NVME_PAGE_SIZE.
Definition ceil_div (a b : Z) : Z := (a + b - 1) / b.

(** A request that fits the recycled specification and passes the
    assertions of [Allocate] on its arguments. *)
Definition fits (nSize nAlign nBoundary : Z) : Prop :=
  0 < nSize <= NVME_BLOCK_SIZE /\ 0 < nAlign <= NVME_BLOCK_ALIGN
  /\ nAlign <= nBoundary <= NVME_BLOCK_BOUNDARY.

(** The result [PollForCompletion] returns for a completion it has taken,
    from the status word of that completion. *)
Definition status_result (usStatus : Z) : Z :=
  let nSCT := status_SCT usStatus in
  let nSC := status_SC usStatus in
  if negb (nSCT =? 0) || negb (nSC =? 0) then
    if (nSCT =? 0) && (nSC =? 0x80)
    then NVME_STATUS_ERROR_LBA_RANGE
    else NVME_STATUS_ERROR_CONTROLLER
  else NVME_STATUS_OK.

(** The number of the first [n] completions taken from [q] on at which the
    expected phase changes. *)
Fixpoint phase_toggles (n : nat) (q : TQueue) : nat :=
  match n with
  | O => O
  | S k =>
      ((if Bool.eqb (bCqPhase (advance_head q)) (bCqPhase q) then 0 else 1)
       + phase_toggles k (advance_head q))%nat
  end.

(** The world after a round of the poll loop that takes the completion. *)
Definition taken (pQueue : QueueRef) (rest : list TNVMeCompletion)
    (usStatus : Z) (w : World) : World :=
  let w1 := set_env (set_in_cq rest)
              (set_trace (fun t => t ++ [EvDataMemBarrier]) w) in
  let w2 := set_dev (fun d =>
              match pQueue with
              | AdminQueue => set_m_AdminQueue (advance_head (m_AdminQueue d)) d
              | IoQueue => set_m_IoQueue (advance_head (m_IoQueue d)) d
              end) w1 in
  let w3 := set_trace (fun t => t ++ [EvDataSyncBarrier]) w2 in
  let w4 := set_trace (fun t => t ++
              [EvMmioWrite32
                 (NVME_DOORBELL_CQ_OFFSET (m_nDoorbellStride (dev w3))
                    (usID (queue_of pQueue w3)))
                 (nCqHead (queue_of pQueue w3))]) w3 in
  if negb (status_SCT usStatus =? 0) || negb (status_SC usStatus =? 0)
  then set_trace (fun t => t ++
         [EvLog "%s command failed (sct %u, sc 0x%X)"
            [status_SCT usStatus; status_SC usStatus]]) w4
  else w4.

(** The worlds of a round of the poll loop that does not take the
    completion: with the completion read, and with the ticks read too. *)
Definition skipped_cq (rest : list TNVMeCompletion) (w : World) : World :=
  set_env (set_in_cq rest) (set_trace (fun t => t ++ [EvDataMemBarrier]) w).
Definition skipped (rest : list TNVMeCompletion) (ticks : list Z) (w : World)
    : World :=
  set_env (set_in_ticks ticks) (skipped_cq rest w).

(** The slot the next command of the I/O queue goes to. *)
Definition io_slot (w : World) : Z :=
  u64 (pSqVirt (m_IoQueue (dev w))
       + sizeof_TNVMeCommand * nSqTail (m_IoQueue (dev w))).

(** The write to the submission doorbell of the I/O queue that follows the
    next command. *)
Definition io_doorbell (w : World) : Event :=
  EvMmioWrite32
    (NVME_DOORBELL_SQ_OFFSET (m_nDoorbellStride (dev w))
       (usID (m_IoQueue (dev w))))
    (u16 ((nSqTail (m_IoQueue (dev w)) + 1) mod nEntries (m_IoQueue (dev w)))).

(** The world [w'] has the command [c] in the next slot of the I/O queue of
    [w], nothing else changed in the slots, and the doorbell rung after
    the trace of [w]. *)
Definition submitted (w w' : World) (c : TNVMeCommand) : Prop :=
  mem_cmd (mem w') = <[io_slot w := c]> (mem_cmd (mem w))
  /\ exists evs evs',
       trace w' = trace w ++ evs ++ EvDataSyncBarrier :: io_doorbell w :: evs'.

(** The command [Read] and [Write] hand to the queue, for the byte offset
    and count they start from. *)
Definition io_command (bIsWrite : bool) (ulOffset ulCount : Z)
    (c : TNVMeCommand) : Prop :=
  opc c = (if bIsWrite then NVME_IO_OPC_WRITE else NVME_IO_OPC_READ)
  /\ nsid c = NSID
  /\ cdw10 c = (ulOffset / NVME_LBA_SIZE) mod 2 ^ 32
  /\ cdw11 c = 0
  /\ cdw12 c = u32 (u32 (ulCount / NVME_LBA_SIZE) - 1).

(** What a transfer does to the command slots and what it returns, for
    the byte offset [off] the block address was taken from. *)
Definition transfer_spec (wr : bool) (off n : Z) (w : World) (r : Res Z * World)
    : Prop :=
  (same_cmd w (snd r)
   \/ exists c, submitted w (snd r) c /\ io_command wr off n c)
  /\ forall x, fst r = Done x ->
       (x = NVME_STATUS_ERROR_NO_RESOURCE /\ same_cmd w (snd r))
       \/ ((exists c, submitted w (snd r) c /\ io_command wr off n c)
           /\ (x = NVME_STATUS_ERROR_TIMEOUT \/ x = to_int n
               \/ exists ce, In ce (in_cq (env w))
                    /\ x = status_result (status ce))).

(** The world [w] with another namespace size stored in the device. *)
Definition with_ns (n : Z) (w : World) : World :=
  set_dev (set_m_ulNamespaceSize n) w.

(** [ns_blind m]: the stored namespace size has no part in what [m] returns
    and does. *)
Definition ns_blind {A} (m : M A) : Prop :=
  forall n w, m (with_ns n w) = (fst (m w), with_ns n (snd (m w))).

(** The result [x] stands for the status word [usStatus]: OK for no status
    code type and no status code, LBA_RANGE for status code 0x80 of type 0,
    CONTROLLER for every other. *)
Definition decodes (x usStatus : Z) : Prop :=
  (x = NVME_STATUS_OK <-> status_SCT usStatus = 0 /\ status_SC usStatus = 0)
  /\ (x = NVME_STATUS_ERROR_LBA_RANGE <->
        status_SCT usStatus = 0 /\ status_SC usStatus = 0x80)
  /\ (x = NVME_STATUS_ERROR_CONTROLLER <->
        ~ (status_SCT usStatus = 0 /\ status_SC usStatus = 0)
        /\ ~ (status_SCT usStatus = 0 /\ status_SC usStatus = 0x80)).

(** ** A machine for the examples *)

(** Circle on a Raspberry Pi 5: 100 ticks a second, 64-byte cache lines. *)
Definition sample_platform : Platform :=
  {| GetDMAAddress := 0x1000000000;
     HZ := 100;
     MSEC2HZ := fun ms => ms * 100 / 1000;
     IS_CACHE_ALIGNED := fun p n => (Z.land p 63 =? 0) && (Z.land n 63 =? 0);
     DEVICE_IOCTL_SYNC := 1;
     GIGABYTE := 0x40000000 |}.

(** The bytes of an Identify Namespace buffer with [nsze] blocks in LBA
    format 0, which has 512-byte blocks and no metadata, and those of an
    Identify Controller buffer. *)
Definition sample_identify_ns (nsze : Z) (p : Z) : Z :=
  if (0 <=? p) && (p <? 8) then Z.shiftr nsze (8 * p) mod 256
  else if p =? 130 then 9
  else 0.
Definition sample_identify_ctrl (p : Z) : Z := 0x20.

(** A completion of command [c] of queue [q] with status code type [sct]
    and status code [sc], in phase 1. *)
Definition sample_completion (q c sct sc : Z) : TNVMeCompletion :=
  mkCompletion 0 0 0 q c (Z.lor (Z.lor (Z.shiftl sct 9) (Z.shiftl sc 1)) 1).

(** A controller of version 1.4 with capabilities [cap], that has [cc] in
    CC when it is about to be enabled, becomes ready at once, completes the
    four admin commands of [Initialize] and then answers the I/O commands
    with the completions [io]; a namespace of 2048 blocks. *)
Definition sample_env (cap cc : Z) (io : list TNVMeCompletion) : Env :=
  mkEnv [0x00010400; cap; 0; 0; cc; 1]
        (repeat 0 16)
        ([sample_completion 0 0 0 0; sample_completion 0 1 0 0;
          sample_completion 0 2 0 0; sample_completion 0 3 0 0] ++ io)
        [0x300000]
        [sample_identify_ns 2048; sample_identify_ctrl]
        [true; true; true].

Definition sample_world (cap cc : Z) (io : list TNVMeCompletion) : World :=
  mkWorld (CNVMeDevice_new 0x1000 0x200000) (mkMemory ∅ ∅ ∅) []
    (sample_env cap cc io).

(** The same machine once [Initialize] has run. *)
Definition sample_booted (cap cc : Z) (io : list TNVMeCompletion) : World :=
  snd (@Initialize sample_platform (sample_world cap cc io)).

(** The writes to doorbell registers in a trace: offset and value. *)
Definition doorbell_writes (t : list Event) : list (Z * Z) :=
  flat_map (fun e =>
    match e with
    | EvMmioWrite32 o v => if NVME_REG_DOORBELL_BASE <=? o then [(o, v)] else []
    | _ => []
    end) t.

(** The writes to the register at [nOffset] in a trace. *)
Definition writes_to (nOffset : Z) (t : list Event) : list Z :=
  flat_map (fun e =>
    match e with
    | EvMmioWrite32 o v => if o =? nOffset then [v] else []
    | _ => []
    end) t.

(** ** Vocabulary for the rest of the driver *)

(** The address [Allocate] gives a new block of [nSize] bytes when the
    cursor is at [start]: behind the header, aligned, and moved on to the
    next boundary where the block would cross one. *)
Definition carve_start (start nSize nAlign nBoundary : Z) : Z :=
  let start := u64 (start + sizeof_TNVMeBlockHeader) in
  let nAlignMask := u64 (nAlign - 1) in
  let start :=
    if negb (Z.land start nAlignMask =? 0)
    then Z.land (u64 (start + nAlignMask)) (not64 nAlignMask)
    else start in
  let nBoundaryMask := u64 (nBoundary - 1) in
  if negb (Z.land start (not64 nBoundaryMask)
           =? Z.land (u64 (u64 (start + nSize) - 1)) (not64 nBoundaryMask))
  then Z.land (u64 (start + nBoundaryMask)) (not64 nBoundaryMask)
  else start.

(** The test of [Allocate] for a request the recycled blocks serve, and the
    size, alignment and boundary of the block it carves for a request. *)
Definition fits_page (nSize nAlign nBoundary : Z) : bool :=
  (nSize <=? NVME_BLOCK_SIZE) && (nAlign <=? NVME_BLOCK_ALIGN)
  && (nBoundary <=? NVME_BLOCK_BOUNDARY).

Definition carved_size (nSize nAlign nBoundary : Z) : Z :=
  if fits_page nSize nAlign nBoundary then NVME_BLOCK_SIZE else nSize.

(** What the queues leave as it is: the allocator and the block headers;
    the trace only grows. *)
Definition same_blocks (w w' : World) : Prop :=
  m_Allocator (dev w') = m_Allocator (dev w)
  /\ mem_hdr (mem w') = mem_hdr (mem w)
  /\ trace_extends w w'.

(** The 32-bit writes to controller registers in a trace: offset and
    value. *)
Definition mmio_writes32 (t : list Event) : list (Z * Z) :=
  flat_map (fun e =>
    match e with
    | EvMmioWrite32 o v => [(o, v)]
    | _ => []
    end) t.

(** The ready bit of a value read from CSTS. *)
Definition csts_ready (v : Z) : bool :=
  negb (Z.land (u32 v) NVME_REG_CSTS_RDY =? 0).

(** The events of a command that is completed at the first look at the
    completion queue: the tail written to the submission doorbell, the
    head to the completion doorbell. *)
Definition command_events (pQueue : QueueRef) (w : World) : list Event :=
  let q := queue_of pQueue w in
  [EvDataSyncBarrier;
   EvMmioWrite32
     (NVME_DOORBELL_SQ_OFFSET (m_nDoorbellStride (dev w)) (usID q))
     ((nSqTail q + 1) mod nEntries q);
   EvDataMemBarrier;
   EvDataSyncBarrier;
   EvMmioWrite32
     (NVME_DOORBELL_CQ_OFFSET (m_nDoorbellStride (dev w)) (usID q))
     (nCqHead (advance_head q))].

(** The buffer [Read] and [Write] hand to the controller: the buffer of the
    caller, or the temporary one that [new] returns next. *)
Definition transfer_buffer `{Platform} (pBuffer ulCount : Z) (w : World) : Z :=
  if IS_CACHE_ALIGNED pBuffer ulCount then pBuffer
  else u64 (hd 0 (in_new (env w))).

(** What a command on one queue leaves of the other. *)
Definition admin_queue_kept (w w' : World) : Prop :=
  m_AdminQueue (dev w') = m_AdminQueue (dev w).
Definition io_queue_kept (w w' : World) : Prop :=
  m_IoQueue (dev w') = m_IoQueue (dev w).

(** What an allocation leaves as it is: the trace, the queues and the
    command slots. *)
Definition allocation_frame (w w' : World) : Prop :=
  trace w' = trace w
  /\ m_AdminQueue (dev w') = m_AdminQueue (dev w)
  /\ m_IoQueue (dev w') = m_IoQueue (dev w)
  /\ mem_cmd (mem w') = mem_cmd (mem w)
  /\ config (dev w') = config (dev w)
  /\ env w' = env w.

(** A command slot after [memset (..., 0, ...)]. *)
Definition zero_command : TNVMeCommand := mkCommand 0 0 0 0 0 0 0 0 0 0 0 0 0 0.

(** The line [PollForCompletion] logs for a completion with an error
    status. *)
Definition failure_log (usStatus : Z) : list Event :=
  if negb (status_SCT usStatus =? 0) || negb (status_SC usStatus =? 0)
  then [EvLog "%s command failed (sct %u, sc 0x%X)"
          [status_SCT usStatus; status_SC usStatus]]
  else [].

(** [Initialize] as far as the partition manager: the body of the function
    up to the line it logs about the namespace, [true] where it goes on
    to construct the partition manager, [false] where it has returned
    [false]. *)
Definition Initialize_bring_up `{Platform} : M bool :=
  do ok <- extern_call;
  if negb ok then emit (EvLog "Cannot init external PCIe" []) ;; ret false
  else
  do ok <- extern_call;
  if negb ok then emit (EvLog "Cannot enable PCIe device" []) ;; ret false
  else
  do nVersion <- MmioRead32 NVME_REG_VER;
  modify (set_dev (set_m_nVersion nVersion)) ;;
  let nMjr := Z.shiftr (Z.land nVersion (u32 NVME_REG_VER_MJR__MASK))
                NVME_REG_VER_MJR__SHIFT in
  let nMnr := Z.shiftr (Z.land nVersion NVME_REG_VER_MNR__MASK)
                NVME_REG_VER_MNR__SHIFT in
  if negb (nMjr =? 1) || (negb (nMnr =? 3) && negb (nMnr =? 4)) then
    emit (EvLog "NVMe version not supported (0x%X)" [nVersion]) ;; ret false
  else
  do ulCaps <- MmioRead64 NVME_REG_CAP;
  modify (set_dev (set_m_ulCaps ulCaps)) ;;
  modify (set_dev (set_m_nDoorbellStride (stride_of_caps ulCaps))) ;;
  modify (set_dev (set_m_nTimeoutHZ (timeout_of_caps ulCaps))) ;;
  (if timeout_of_caps ulCaps =? 0 then
     emit (EvLog "Timeout adjusted" []) ;;
     modify (set_dev (set_m_nTimeoutHZ (u32 (5 * HZ))))
   else ret tt) ;;
  do nCC <- MmioRead32 NVME_REG_CC;
  MmioWrite32 NVME_REG_CC (Z.land nCC (not32 NVME_REG_CC_EN)) ;;
  do ok <- WaitReady false;
  if negb ok then emit (EvLog "Cannot reset controller" []) ;; ret false
  else
  do nRet <- CreateAdminQueues;
  if negb (nRet =? NVME_STATUS_OK) then
    emit (EvLog "Cannot create admin queues" []) ;; ret false
  else
  do nCC <- MmioRead32 NVME_REG_CC;
  MmioWrite32 NVME_REG_CC (nCC_enable nCC) ;;
  do ok <- WaitReady true;
  if negb ok then emit (EvLog "Cannot enable controller" []) ;; ret false
  else
  do nRet <- CreateIoQueue IOQID NVME_IO_QUEUE_ENTRIES;
  if negb (nRet =? NVME_STATUS_OK) then
    emit (EvLog "Cannot create I/O queue" []) ;; ret false
  else
  do pIdBuf <- Allocate 4096 NVME_PAGE_SIZE NVME_BLOCK_BOUNDARY;
  if pIdBuf =? 0 then emit (EvLog "Allocation failed" []) ;; ret false
  else
  do ok <- Initialize_identify 0 pIdBuf;
  if negb ok then ret false
  else
  do ok <- Initialize_identify 1 pIdBuf;
  if negb ok then ret false
  else
  Free pIdBuf ;;
  do ulNamespaceSize <- gets (fun w => m_ulNamespaceSize (dev w));
  emit (EvLog "%luGB NVMe Model %s" [ulNamespaceSize / GIGABYTE]) ;;
  ret true.

(** The world in which [CreateIoQueue] sends its commands: the memory of
    the queue cleared and its addresses stored. *)
Definition io_queue_memory `{Platform} (pSq pCq uEntries : Z) (w : World)
    : World :=
  set_dev (fun d =>
    set_m_IoQueue
      (set_queue_mem pSq pCq (PhysicalOf pSq) (PhysicalOf pCq) (m_IoQueue d)) d)
    (set_trace (fun t => t ++ [EvMemset pCq 0 (sizeof_TNVMeCompletion * uEntries)])
       (set_mem (set_mem_cmd
          (memset_cmd pSq
             (Z.to_nat (sizeof_TNVMeCommand * uEntries / sizeof_TNVMeCommand))))
          w)).

(** The world in which [CreateIoQueue] returns OK: the queue empty, in
    phase 1. *)
Definition io_queue_reset (w : World) : World :=
  set_dev (fun d =>
    set_m_IoQueue
      (set_bCqPhase true (set_nCqHead 0 (set_nSqTail 0 (m_IoQueue d)))) d) w.
(** * Properties *)

(** ** Fixed-width arithmetic *)

Lemma wrap_range w x : 0 <= w -> 0 <= wrap w x < 2 ^ w.
Proof. intros Hw. unfold wrap. apply Z.mod_pos_bound. apply Z.pow_pos_nonneg; lia. Qed.

Lemma wrap_small w x : 0 <= x < 2 ^ w -> wrap w x = x.
Proof. intros Hx. unfold wrap. apply Z.mod_small. exact Hx. Qed.

Lemma u64_small x : 0 <= x < 2 ^ 64 -> u64 x = x.
Proof. apply wrap_small. Qed.

Lemma u32_small x : 0 <= x < 2 ^ 32 -> u32 x = x.
Proof. apply wrap_small. Qed.

Lemma u16_small x : 0 <= x < 2 ^ 16 -> u16 x = x.
Proof. apply wrap_small. Qed.

Lemma u64_range x : 0 <= u64 x < 2 ^ 64.
Proof. apply wrap_range. lia. Qed.

Lemma u32_range x : 0 <= u32 x < 2 ^ 32.
Proof. apply wrap_range. lia. Qed.

Lemma wrap_testbit w x n :
  0 <= w -> 0 <= n -> Z.testbit (wrap w x) n = (n <? w) && Z.testbit x n.
Proof.
  intros Hw Hn. unfold wrap. destruct (Z.ltb_spec n w) as [Hlt | Hge].
  - rewrite Z.mod_pow2_bits_low by lia. reflexivity.
  - rewrite Z.mod_pow2_bits_high by lia. reflexivity.
Qed.

(** ** The doorbell stride *)

Lemma DSTRD_shifted_out v :
  u64 (Z.shiftl (Z.land v NVME_REG_CAP_DSTRD__MASK)
         NVME_REG_CAP_DSTRD__SHIFT) = 0.
Proof.
  apply Z.bits_inj'. intros n Hn.
  unfold u64 at 1. rewrite wrap_testbit by lia.
  rewrite Z.bits_0.
  destruct (Z.ltb_spec n 64) as [Hlt | Hge]; [| reflexivity].
  unfold NVME_REG_CAP_DSTRD__SHIFT, NVME_REG_CAP_DSTRD__MASK. simpl andb.
  destruct (Z.ltb_spec n 32) as [Hlo | Hhi].
  - apply Z.shiftl_spec_low. lia.
  - rewrite Z.shiftl_spec by lia. rewrite Z.land_spec.
    rewrite (Z.shiftl_spec_low 15 32 (n - 32)) by lia.
    apply andb_false_r.
Qed.

Lemma stride_of_caps_const v : stride_of_caps v = 4.
Proof. unfold stride_of_caps. rewrite DSTRD_shifted_out. reflexivity. Qed.

(** ** Bit fields *)

Lemma testbit_field_mask k s m :
  0 <= k -> 0 <= s -> 0 <= m ->
  Z.testbit (Z.shiftl (Z.ones k) s) m = (s <=? m) && (m <? s + k).
Proof.
  intros Hk Hs Hm. destruct (Z.leb_spec s m) as [Hle | Hlt].
  - rewrite Z.shiftl_spec by lia. simpl andb.
    destruct (Z.ltb_spec m (s + k)) as [Hin | Hout].
    + apply Z.ones_spec_low. lia.
    + apply Z.ones_spec_high. lia.
  - apply Z.shiftl_spec_low. lia.
Qed.

Lemma testbit_field c k s n :
  0 <= k -> 0 <= s -> 0 <= n ->
  Z.testbit (Z.shiftr (Z.land c (Z.shiftl (Z.ones k) s)) s) n
  = (n <? k) && Z.testbit c (n + s).
Proof.
  intros Hk Hs Hn. rewrite Z.shiftr_spec by lia. rewrite Z.land_spec.
  rewrite testbit_field_mask by lia.
  replace (s <=? n + s) with true by (symmetry; apply Z.leb_le; lia).
  replace (n + s <? s + k) with (n <? k).
  - simpl. apply andb_comm.
  - destruct (Z.ltb_spec n k), (Z.ltb_spec (n + s) (s + k)); lia || reflexivity.
Qed.

Ltac testbit_consts :=
  repeat match goal with
  | |- context [Z.testbit (Zpos ?p) (Zpos ?q)] =>
      let b := eval vm_compute in (Z.testbit (Zpos p) (Zpos q)) in
      change (Z.testbit (Zpos p) (Zpos q)) with b
  | |- context [Z.testbit (Zpos ?p) 0] =>
      let b := eval vm_compute in (Z.testbit (Zpos p) 0) in
      change (Z.testbit (Zpos p) 0) with b
  end.

Ltac small_index n H :=
  let rec go k :=
    lazymatch k with
    | O => exfalso; lia
    | S ?k' =>
        let E := fresh "E" in
        destruct (Z.eq_dec n (Z.of_nat k')) as [E | E];
        [ simpl Z.of_nat in E; subst n | go k' ]
    end in
  go H.

(** ** The value written to CC when the controller is enabled *)

Lemma nCC_enable_unfold x :
  nCC_enable x = Z.lor (Z.land x 0xFF0FFFFF) 0x460001.
Proof. reflexivity. Qed.

Lemma nCC_enable_IOCQES v : CC_IOCQES (nCC_enable (u32 v)) = 4.
Proof.
  generalize (u32 v). intros x. rewrite nCC_enable_unfold.
  unfold CC_IOCQES, NVME_REG_CC_IOCQES__MASK, NVME_REG_CC_IOCQES__SHIFT.
  change 0xF with (Z.ones 4).
  apply Z.bits_inj'. intros n Hn. rewrite testbit_field by lia.
  destruct (Z.ltb_spec n 4) as [Hlt | Hge]; simpl andb.
  - rewrite Z.lor_spec, Z.land_spec.
    small_index n 4%nat; simpl Z.add; testbit_consts;
      rewrite ?andb_false_r; reflexivity.
  - symmetry. change 4 with (Z.shiftl (Z.ones 1) 2).
    rewrite testbit_field_mask by lia.
    destruct (Z.leb_spec 2 n), (Z.ltb_spec n (2 + 1)); lia || reflexivity.
Qed.

Lemma nCC_enable_EN v : CC_EN (nCC_enable (u32 v)) = 1.
Proof.
  generalize (u32 v). intros x. rewrite nCC_enable_unfold.
  unfold CC_EN, NVME_REG_CC_EN, BIT. change (Z.shiftl 1 0) with (Z.ones 1).
  rewrite Z.land_ones by lia. change (2 ^ 1) with 2.
  rewrite <- Z.bit0_mod. rewrite Z.lor_spec. testbit_consts.
  rewrite orb_true_r. reflexivity.
Qed.

Lemma nCC_enable_IOSQES v :
  CC_IOSQES (nCC_enable (u32 v)) = Z.lor (CC_IOSQES (u32 v)) 6.
Proof.
  generalize (u32 v). intros x. rewrite nCC_enable_unfold.
  unfold CC_IOSQES, NVME_REG_CC_IOSQES__MASK, NVME_REG_CC_IOSQES__SHIFT.
  change 0xF with (Z.ones 4).
  apply Z.bits_inj'. intros n Hn.
  rewrite Z.lor_spec. rewrite !testbit_field by lia.
  destruct (Z.ltb_spec n 4) as [Hlt | Hge]; simpl andb.
  - rewrite Z.lor_spec, Z.land_spec.
    small_index n 4%nat; simpl Z.add; testbit_consts;
      rewrite ?andb_true_r; reflexivity.
  - symmetry. change 6 with (Z.shiftl (Z.ones 2) 1).
    rewrite testbit_field_mask by lia.
    destruct (Z.leb_spec 1 n), (Z.ltb_spec n (1 + 2)); lia || reflexivity.
Qed.

(** ** Stepping through driver code *)

Lemma bind_ret {A B} (a : A) (k : A -> M B) w : bind (ret a) k w = k a w.
Proof. reflexivity. Qed.

Lemma bind_gets {A B} (f : World -> A) (k : A -> M B) w :
  bind (gets f) k w = k (f w) w.
Proof. reflexivity. Qed.

Lemma bind_modify {B} (g : World -> World) (k : unit -> M B) w :
  bind (modify g) k w = k tt (g w).
Proof. reflexivity. Qed.

Lemma bind_emit {B} (e : Event) (k : unit -> M B) w :
  bind (emit e) k w = k tt (set_trace (fun t => t ++ [e]) w).
Proof. reflexivity. Qed.

Lemma bind_assert {B} (b : bool) (k : unit -> M B) w :
  bind (assert b) k w = if b then k tt w else (Abort, w).
Proof. destruct b; reflexivity. Qed.

Lemma bind_bind {A B C} (m : M A) (k : A -> M B) (h : B -> M C) w :
  bind (bind m k) h w = bind m (fun a => bind (k a) h) w.
Proof. unfold bind. destruct (m w) as [[a | |] w1]; reflexivity. Qed.

Lemma bind_Done {A B} (m : M A) (k : A -> M B) w a w1 :
  m w = (Done a, w1) -> bind m k w = k a w1.
Proof. intros E. unfold bind. rewrite E. reflexivity. Qed.

Lemma bind_inv {A B} (m : M A) (k : A -> M B) w r w' :
  bind m k w = (r, w') ->
  (exists a w1, m w = (Done a, w1) /\ k a w1 = (r, w'))
  \/ (m w = (Abort, w') /\ r = Abort)
  \/ (m w = (Stuck, w') /\ r = Stuck).
Proof.
  unfold bind. destruct (m w) as [[a | |] w1]; intros E.
  - left. eauto.
  - right. left. inversion E. auto.
  - right. right. inversion E. auto.
Qed.

(** ** What driver code leaves as it was *)

Create HintDb keeps.

Section Keeps.
Variable R : World -> World -> Prop.
Hypothesis R_refl : forall w, R w w.
Hypothesis R_trans : forall a b c, R a b -> R b c -> R a c.
Hypothesis R_emit : forall e w, R w (set_trace (fun t => t ++ [e]) w).
Hypothesis R_in_mmio : forall l w, R w (set_env (set_in_mmio l) w).
Hypothesis R_in_ticks : forall l w, R w (set_env (set_in_ticks l) w).
Hypothesis R_in_cq : forall l w, R w (set_env (set_in_cq l) w).
Hypothesis R_in_new : forall l w, R w (set_env (set_in_new l) w).
Hypothesis R_in_ident : forall l w, R w (set_env (set_in_ident l) w).
Hypothesis R_in_call : forall l w, R w (set_env (set_in_call l) w).
Hypothesis R_hdr : forall g w, R w (set_mem (set_mem_hdr g) w).
Hypothesis R_u64 : forall g w, R w (set_mem (set_mem_u64 g) w).
Hypothesis R_cmd : forall g w, R w (set_mem (set_mem_cmd g) w).
Hypothesis R_alloc : forall g w,
  R w (set_dev (fun d => set_m_Allocator (g (m_Allocator d)) d) w).
Hypothesis R_adminq : forall g w,
  R w (set_dev (fun d => set_m_AdminQueue (g (m_AdminQueue d)) d) w).
Hypothesis R_ioq : forall g w,
  R w (set_dev (fun d => set_m_IoQueue (g (m_IoQueue d)) d) w).
Hypothesis R_version : forall v w, R w (set_dev (set_m_nVersion v) w).
Hypothesis R_caps : forall v w, R w (set_dev (set_m_ulCaps v) w).
Hypothesis R_stride : forall v w,
  R w (set_dev (set_m_nDoorbellStride (stride_of_caps v)) w).
Hypothesis R_timeout : forall v w, R w (set_dev (set_m_nTimeoutHZ v) w).
Hypothesis R_ns : forall v w, R w (set_dev (set_m_ulNamespaceSize v) w).
Hypothesis R_pm : forall v w, R w (set_dev (set_m_pPartitionManager v) w).

Lemma keeps_ret {A} (a : A) : keeps R (ret a).
Proof. intros w. apply R_refl. Qed.

Lemma keeps_abort {A} : keeps R (@abort A).
Proof. intros w. apply R_refl. Qed.

Lemma keeps_stuck {A} : keeps R (@stuck A).
Proof. intros w. apply R_refl. Qed.

Lemma keeps_gets {A} (f : World -> A) : keeps R (gets f).
Proof. intros w. apply R_refl. Qed.

Lemma keeps_assert b : keeps R (assert b).
Proof. destruct b; intros w; apply R_refl. Qed.

Lemma keeps_bind {A B} (m : M A) (k : A -> M B) :
  keeps R m -> (forall a, keeps R (k a)) -> keeps R (bind m k).
Proof.
  intros Hm Hk w. unfold bind. specialize (Hm w).
  destruct (m w) as [[a | |] w1]; simpl in *; try assumption.
  eapply R_trans; [exact Hm | apply Hk].
Qed.

Lemma keeps_emit e : keeps R (emit e).
Proof. intros w. apply R_emit. Qed.

Lemma keeps_in_mmio l : keeps R (modify (set_env (set_in_mmio l))).
Proof. intros w. apply R_in_mmio. Qed.

Lemma keeps_in_ticks l : keeps R (modify (set_env (set_in_ticks l))).
Proof. intros w. apply R_in_ticks. Qed.

Lemma keeps_in_cq l : keeps R (modify (set_env (set_in_cq l))).
Proof. intros w. apply R_in_cq. Qed.

Lemma keeps_in_new l : keeps R (modify (set_env (set_in_new l))).
Proof. intros w. apply R_in_new. Qed.

Lemma keeps_in_ident l : keeps R (modify (set_env (set_in_ident l))).
Proof. intros w. apply R_in_ident. Qed.

Lemma keeps_in_call l : keeps R (modify (set_env (set_in_call l))).
Proof. intros w. apply R_in_call. Qed.

Lemma keeps_store_hdr p h : keeps R (store_hdr p h).
Proof. intros w. apply R_hdr. Qed.

Lemma keeps_mem_u64 g : keeps R (modify (set_mem (set_mem_u64 g))).
Proof. intros w. apply R_u64. Qed.

Lemma keeps_store_cmd p c : keeps R (store_cmd p c).
Proof. intros w. apply R_cmd. Qed.

Lemma keeps_mem_cmd g : keeps R (modify (set_mem (set_mem_cmd g))).
Proof. intros w. apply R_cmd. Qed.

Lemma keeps_update_allocator g : keeps R (update_allocator g).
Proof. intros w. apply R_alloc. Qed.

Lemma keeps_update_queue pQueue g : keeps R (update_queue pQueue g).
Proof. intros w. destruct pQueue; [apply R_adminq | apply R_ioq]. Qed.

#[local] Hint Resolve keeps_ret keeps_abort keeps_stuck keeps_gets keeps_assert
  keeps_emit keeps_in_mmio keeps_in_ticks keeps_in_cq keeps_in_new
  keeps_in_ident keeps_in_call keeps_store_hdr keeps_mem_u64 keeps_store_cmd
  keeps_mem_cmd keeps_update_allocator keeps_update_queue : keeps.

Ltac keeps_struct :=
  repeat first
    [ solve [auto with keeps]
    | apply keeps_bind; [| intros ?]
    | match goal with
      | |- keeps _ (if ?b then _ else _) => destruct b
      | |- keeps _ (match ?x with _ => _ end) => destruct x
      end ].

Lemma keeps_load_hdr p : keeps R (load_hdr p).
Proof. unfold load_hdr. keeps_struct. Qed.

Lemma keeps_MmioWrite32 o v : keeps R (MmioWrite32 o v).
Proof. apply keeps_emit. Qed.

Lemma keeps_MmioWrite64 o v : keeps R (MmioWrite64 o v).
Proof. apply keeps_emit. Qed.

Lemma keeps_MmioRead32 o : keeps R (MmioRead32 o).
Proof. unfold MmioRead32. keeps_struct. Qed.

Lemma keeps_MmioRead64 o : keeps R (MmioRead64 o).
Proof. unfold MmioRead64. keeps_struct. Qed.

Lemma keeps_GetTicks : keeps R GetTicks.
Proof. unfold GetTicks. keeps_struct. Qed.

Lemma keeps_load_completion : keeps R load_completion.
Proof. unfold load_completion. keeps_struct. Qed.

Lemma keeps_new_array n : keeps R (new_array n).
Proof. unfold new_array. keeps_struct. Qed.

Lemma keeps_load_ident : keeps R load_ident.
Proof. unfold load_ident. keeps_struct. Qed.

Lemma keeps_extern_call : keeps R extern_call.
Proof. unfold extern_call. keeps_struct. Qed.

#[local] Hint Resolve keeps_load_hdr keeps_MmioWrite32 keeps_MmioWrite64
  keeps_MmioRead32 keeps_MmioRead64 keeps_GetTicks keeps_load_completion
  keeps_new_array keeps_load_ident keeps_extern_call : keeps.

Lemma keeps_Allocate_recycle : keeps R Allocate_recycle.
Proof. unfold Allocate_recycle, the_allocator. keeps_struct. Qed.

Lemma keeps_Allocate_carve s a b : keeps R (Allocate_carve s a b).
Proof. unfold Allocate_carve, the_allocator. keeps_struct. Qed.

#[local] Hint Resolve keeps_Allocate_recycle keeps_Allocate_carve : keeps.

Lemma keeps_Allocate s a b : keeps R (Allocate s a b).
Proof. unfold Allocate, the_allocator. keeps_struct. Qed.

Lemma keeps_Free p : keeps R (Free p).
Proof. unfold Free, the_allocator. keeps_struct. Qed.

#[local] Hint Resolve keeps_Allocate keeps_Free : keeps.

Lemma keeps_BuildForBuffer `{Platform} this p n :
  keeps R (BuildForBuffer this p n).
Proof. unfold BuildForBuffer. keeps_struct. Qed.

Lemma keeps_CNVMePRP_delete this : keeps R (CNVMePRP_delete this).
Proof. unfold CNVMePRP_delete. keeps_struct. Qed.

Lemma keeps_poll_loop fuel pQueue usCid nStart nTimeoutHZ :
  keeps R (poll_loop fuel pQueue usCid nStart nTimeoutHZ).
Proof.
  induction fuel as [| fuel IH]; simpl; [auto with keeps |].
  unfold the_queue. keeps_struct.
Qed.

#[local] Hint Resolve keeps_BuildForBuffer keeps_CNVMePRP_delete keeps_poll_loop : keeps.

Lemma keeps_PollForCompletion pQueue usCid nTimeoutHZ :
  keeps R (PollForCompletion pQueue usCid nTimeoutHZ).
Proof. unfold PollForCompletion, the_queue. keeps_struct. Qed.

Lemma keeps_wait_loop fuel bOn nStart : keeps R (wait_loop fuel bOn nStart).
Proof.
  induction fuel as [| fuel IH]; simpl; [auto with keeps |].
  keeps_struct.
Qed.

#[local] Hint Resolve keeps_PollForCompletion keeps_wait_loop : keeps.

Lemma keeps_WaitReady bOn : keeps R (WaitReady bOn).
Proof. unfold WaitReady. keeps_struct. Qed.

#[local] Hint Resolve keeps_WaitReady : keeps.

Lemma keeps_SubmitCommand `{Platform} pQueue o n c10 c11 c12 p1 p2 :
  keeps R (SubmitCommand pQueue o n c10 c11 c12 p1 p2).
Proof. unfold SubmitCommand, the_queue. keeps_struct. Qed.

#[local] Hint Resolve keeps_SubmitCommand : keeps.

Lemma keeps_AdminCommand `{Platform} o n c10 c11 p :
  keeps R (AdminCommand o n c10 c11 p).
Proof. unfold AdminCommand. keeps_struct. Qed.

Lemma keeps_IoPassThrough `{Platform} ns lba n p b :
  keeps R (IoPassThrough ns lba n p b).
Proof. unfold IoPassThrough. keeps_struct. Qed.

Lemma keeps_Flush `{Platform} ns : keeps R (Flush ns).
Proof. unfold Flush. keeps_struct. Qed.

#[local] Hint Resolve keeps_AdminCommand keeps_IoPassThrough keeps_Flush : keeps.

Lemma keeps_Read_transfer `{Platform} p n lba b d :
  keeps R (Read_transfer p n lba b d).
Proof. unfold Read_transfer. keeps_struct. Qed.

Lemma keeps_Write_transfer `{Platform} n lba b d :
  keeps R (Write_transfer n lba b d).
Proof. unfold Write_transfer. keeps_struct. Qed.

#[local] Hint Resolve keeps_Read_transfer keeps_Write_transfer : keeps.

Lemma keeps_Read `{Platform} p n : keeps R (Read p n).
Proof. unfold Read. keeps_struct. Qed.

Lemma keeps_Write `{Platform} p n : keeps R (Write p n).
Proof. unfold Write. keeps_struct. Qed.

Lemma keeps_IOCtl `{Platform} c p : keeps R (IOCtl c p).
Proof. unfold IOCtl. keeps_struct. Qed.

Lemma keeps_Identify `{Platform} c p n : keeps R (Identify c p n).
Proof. unfold Identify. keeps_struct. Qed.

Lemma keeps_CreateAdminQueues `{Platform} : keeps R CreateAdminQueues.
Proof. unfold CreateAdminQueues, the_queue. keeps_struct. Qed.

Lemma keeps_CreateIoQueue `{Platform} q n : keeps R (CreateIoQueue q n).
Proof. unfold CreateIoQueue, the_queue. keeps_struct. Qed.

#[local] Hint Resolve keeps_Identify keeps_CreateAdminQueues keeps_CreateIoQueue
  : keeps.

Lemma keeps_version v : keeps R (modify (set_dev (set_m_nVersion v))).
Proof. intros w. apply R_version. Qed.

Lemma keeps_caps v : keeps R (modify (set_dev (set_m_ulCaps v))).
Proof. intros w. apply R_caps. Qed.

Lemma keeps_stride v :
  keeps R (modify (set_dev (set_m_nDoorbellStride (stride_of_caps v)))).
Proof. intros w. apply R_stride. Qed.

Lemma keeps_timeout v : keeps R (modify (set_dev (set_m_nTimeoutHZ v))).
Proof. intros w. apply R_timeout. Qed.

Lemma keeps_ns v : keeps R (modify (set_dev (set_m_ulNamespaceSize v))).
Proof. intros w. apply R_ns. Qed.

Lemma keeps_pm v : keeps R (modify (set_dev (set_m_pPartitionManager v))).
Proof. intros w. apply R_pm. Qed.

#[local] Hint Resolve keeps_version keeps_caps keeps_stride keeps_timeout
  keeps_ns keeps_pm : keeps.

Lemma keeps_Initialize_identify `{Platform} nCNS pIdBuf :
  keeps R (Initialize_identify nCNS pIdBuf).
Proof. unfold Initialize_identify. keeps_struct. Qed.

#[local] Hint Resolve keeps_Initialize_identify : keeps.

Lemma keeps_Initialize `{Platform} : keeps R Initialize.
Proof. unfold Initialize. keeps_struct. Qed.

End Keeps.

(** ** The allocator *)

Lemma bind_load_hdr {B} p (k : TNVMeBlockHeader -> M B) w h :
  mem_hdr (mem w) !! p = Some h -> bind (load_hdr p) k w = k h w.
Proof.
  intros E. unfold load_hdr. rewrite bind_bind, bind_gets, E. reflexivity.
Qed.

Ltac mstep :=
  unfold the_allocator, update_allocator, the_queue, update_queue, store_hdr,
    store_u64, store_cmd, MmioWrite32, MmioWrite64;
  repeat first
    [ rewrite bind_ret | rewrite bind_gets | rewrite bind_modify
    | rewrite bind_emit | rewrite bind_bind
    | progress cbn [negb andb orb fst snd]
    | progress cbv beta ].

Lemma u64_header_data p :
  u64 (u64 (p - sizeof_TNVMeBlockHeader) + sizeof_TNVMeBlockHeader) = u64 p.
Proof.
  unfold u64, wrap. rewrite Zplus_mod_idemp_l. f_equal. lia.
Qed.

Lemma land_4095 x : Z.land x 4095 = x mod 4096.
Proof. change 4095 with (Z.ones 12). rewrite Z.land_ones by lia. reflexivity. Qed.

Lemma aligned_header_nonzero p :
  0 < p < 2 ^ 64 -> p mod 4096 = 0 ->
  u64 (p - sizeof_TNVMeBlockHeader) = p - 24 /\ 0 < p - 24.
Proof.
  intros Hp Ha. unfold sizeof_TNVMeBlockHeader.
  assert (4096 <= p).
  { pose proof (Z.div_mod p 4096). rewrite Ha in *. 
    assert (0 < p / 4096) by (apply Z.div_str_pos; lia || (destruct (Z.le_gt_cases 4096 p); [lia|]; rewrite Z.mod_small in Ha; lia)).
    lia. }
  split; [apply u64_small; lia | lia].
Qed.

Lemma Free_canonical w p h :
  p <> 0 -> header_of p w = Some h -> canonical h ->
  Free p w =
    (Done tt,
     set_dev (fun d =>
       set_m_Allocator
         (set_m_pFreeList (u64 (p - sizeof_TNVMeBlockHeader)) (m_Allocator d)) d)
       (set_mem (set_mem_hdr (fun m =>
          <[u64 (p - sizeof_TNVMeBlockHeader)
            := set_pNext (m_pFreeList (m_Allocator (dev w))) h]> m)) w)).
Proof.
  intros Hp Hh (Hm & Hs & Ha & Hb). unfold header_of in Hh.
  unfold Free. rewrite bind_assert.
  replace (p =? 0) with false by (symmetry; apply Z.eqb_neq; exact Hp).
  mstep. rewrite (bind_load_hdr _ _ _ _ Hh). rewrite bind_assert.
  unfold is_page_block.
  rewrite Hm, Hs, Ha, Hb. rewrite !Z.eqb_refl. mstep. reflexivity.
Qed.

Lemma Free_other w p h :
  p <> 0 -> header_of p w = Some h -> nMagic h = NVME_BLOCK_MAGIC ->
  is_page_block h = false ->
  Free p w =
    (Done tt,
     set_trace (fun t => t ++
       [EvLog "Trying to free shared memory at 0x%lX (size %u, align %u)"
          [p; nSize h; nAlign h]]) w).
Proof.
  intros Hp Hh Hm Hn. unfold header_of in Hh.
  unfold Free. rewrite bind_assert.
  replace (p =? 0) with false by (symmetry; apply Z.eqb_neq; exact Hp).
  mstep. rewrite (bind_load_hdr _ _ _ _ Hh). rewrite bind_assert.
  rewrite Hm, Z.eqb_refl, Hn. reflexivity.
Qed.

Lemma is_page_block_canonical h :
  nMagic h = NVME_BLOCK_MAGIC -> is_page_block h = true -> canonical h.
Proof.
  intros Hm Hb. unfold is_page_block in Hb.
  apply andb_prop in Hb. destruct Hb as [Hb H3].
  apply andb_prop in Hb. destruct Hb as [H1 H2].
  apply Z.eqb_eq in H1, H2, H3. repeat split; assumption.
Qed.

Lemma Allocate_recycle_head w p h nSize nAlign nBoundary :
  0 < nSize <= NVME_BLOCK_SIZE ->
  0 < nAlign <= NVME_BLOCK_ALIGN ->
  nAlign <= nBoundary <= NVME_BLOCK_BOUNDARY ->
  m_nMemStart (m_Allocator (dev w)) <> 0 ->
  m_nMemEnd (m_Allocator (dev w)) <> 0 ->
  0 < p < 2 ^ 64 -> p mod 4096 = 0 ->
  m_pFreeList (m_Allocator (dev w)) = u64 (p - sizeof_TNVMeBlockHeader) ->
  header_of p w = Some h -> canonical h ->
  Allocate nSize nAlign nBoundary w =
    (Done p,
     set_mem (set_mem_hdr (fun m =>
       <[u64 (p - sizeof_TNVMeBlockHeader) := set_pNext 0 h]> m))
       (set_dev (fun d =>
          set_m_Allocator (set_m_pFreeList (pNext h) (m_Allocator d)) d) w)).
Proof.
  intros Hs Ha Hb Hst Hen Hp Hal Hfl Hh (Hm & Hs' & Ha' & Hb').
  unfold header_of in Hh.
  destruct (aligned_header_nonzero p Hp Hal) as [Hu Hpos].
  unfold Allocate. rewrite !bind_assert.
  replace (nSize >? 0) with true by (symmetry; apply Z.gtb_lt; lia).
  replace (nAlign =? 0) with false by (symmetry; apply Z.eqb_neq; lia).
  replace (nAlign <=? nBoundary) with true by (symmetry; apply Z.leb_le; lia).
  mstep. rewrite !bind_assert.
  replace (m_nMemStart (m_Allocator (dev w)) =? 0) with false
    by (symmetry; apply Z.eqb_neq; exact Hst).
  replace (m_nMemEnd (m_Allocator (dev w)) =? 0) with false
    by (symmetry; apply Z.eqb_neq; exact Hen).
  mstep.
  replace (nSize <=? NVME_BLOCK_SIZE) with true by (symmetry; apply Z.leb_le; lia).
  replace (nAlign <=? NVME_BLOCK_ALIGN) with true by (symmetry; apply Z.leb_le; lia).
  replace (nBoundary <=? NVME_BLOCK_BOUNDARY) with true
    by (symmetry; apply Z.leb_le; lia).
  rewrite Hfl.
  replace (u64 (p - sizeof_TNVMeBlockHeader) =? 0) with false
    by (symmetry; apply Z.eqb_neq; lia).
  cbn [andb negb].
  unfold Allocate_recycle. mstep. rewrite Hfl.
  rewrite (bind_load_hdr _ _ _ _ Hh). rewrite !bind_assert.
  rewrite Hm, Hs', Ha', Hb'. rewrite !Z.eqb_refl. mstep.
  rewrite bind_assert.
  rewrite u64_header_data. rewrite (u64_small p) by lia.
  change (NVME_BLOCK_ALIGN - 1) with 4095. rewrite land_4095, Hal.
  reflexivity.
Qed.

Lemma canonical_set_pNext v h : canonical h -> canonical (set_pNext v h).
Proof. intros H. exact H. Qed.

Lemma u64_idem x : u64 (u64 x) = u64 x.
Proof. unfold u64, wrap. apply Z.mod_mod. lia. Qed.

Lemma u64_data_header x :
  u64 (u64 (u64 x + sizeof_TNVMeBlockHeader) - sizeof_TNVMeBlockHeader) = u64 x.
Proof.
  unfold u64, wrap. rewrite Zminus_mod_idemp_l.
  replace (x mod 2 ^ 64 + sizeof_TNVMeBlockHeader - sizeof_TNVMeBlockHeader)
    with (x mod 2 ^ 64) by lia.
  apply Z.mod_mod. lia.
Qed.

(** One allocate/free cycle on a recyclable block hands out that block and
    leaves the allocator as it was, the cursor included. *)
Lemma cycle_recyclable w p nSize nAlign nBoundary :
  recyclable p w -> fits nSize nAlign nBoundary ->
  exists w1 w2,
    Allocate nSize nAlign nBoundary w = (Done p, w1)
    /\ Free p w1 = (Done tt, w2)
    /\ m_nMemStart (m_Allocator (dev w1)) = m_nMemStart (m_Allocator (dev w))
    /\ m_nMemStart (m_Allocator (dev w2)) = m_nMemStart (m_Allocator (dev w))
    /\ m_nMemEnd (m_Allocator (dev w2)) = m_nMemEnd (m_Allocator (dev w))
    /\ trace w2 = trace w
    /\ recyclable p w2.
Proof.
  intros (Hst & Hen & Hp & Hal & Hfl & h & Hh & Hc) (Hs & Ha & Hb).
  eexists. eexists. split.
  { apply Allocate_recycle_head with (h := h); assumption. }
  assert (Hh1 : forall w0 x, header_of p
            (set_mem (set_mem_hdr (fun m =>
               <[u64 (p - sizeof_TNVMeBlockHeader) := x]> m)) w0) = Some x).
  { intros w0 x. unfold header_of. simpl. apply lookup_insert_eq. }
  split.
  { apply Free_canonical with (h := set_pNext 0 h).
    - lia.
    - apply Hh1.
    - apply canonical_set_pNext. exact Hc. }
  split; [reflexivity |]. split; [reflexivity |]. split; [reflexivity |].
  split; [reflexivity |].
  unfold recyclable. simpl.
  repeat (split; [assumption || reflexivity |]).
  eexists. split.
  - unfold header_of. simpl. apply lookup_insert_eq.
  - apply canonical_set_pNext, canonical_set_pNext. exact Hc.
Qed.

Lemma cycles_recyclable K w p nSize nAlign nBoundary :
  recyclable p w -> fits nSize nAlign nBoundary ->
  exists w',
    alloc_free_cycles K nSize nAlign nBoundary w = (Done (repeat p K), w')
    /\ m_nMemStart (m_Allocator (dev w')) = m_nMemStart (m_Allocator (dev w))
    /\ m_nMemEnd (m_Allocator (dev w')) = m_nMemEnd (m_Allocator (dev w))
    /\ trace w' = trace w
    /\ recyclable p w'.
Proof.
  intros Hr Hf. revert w Hr. induction K as [| K IH]; intros w Hr.
  - exists w. simpl. auto.
  - destruct (cycle_recyclable w p nSize nAlign nBoundary Hr Hf)
      as (w1 & w2 & HA & HF & _ & H2 & He2 & Ht & Hr2).
    destruct (IH w2 Hr2) as (w' & HC & Hs' & He' & Ht' & Hr').
    exists w'. simpl.
    rewrite (bind_Done _ _ _ _ _ HA). rewrite (bind_Done _ _ _ _ _ HF).
    rewrite (bind_Done _ _ _ _ _ HC).
    split; [reflexivity |]. split; [congruence |]. split; [congruence |].
    split; [congruence | exact Hr'].
Qed.

(** What a successful [Allocate] of a fitting request hands out. *)
Lemma Allocate_fits_post w size align boundary p w1 :
  fits size align boundary ->
  0 <= m_pFreeList (m_Allocator (dev w)) < 2 ^ 64 ->
  Allocate size align boundary w = (Done p, w1) -> p <> 0 ->
  0 < p < 2 ^ 64 /\ p mod 4096 = 0
  /\ (exists h, header_of p w1 = Some h /\ canonical h)
  /\ m_nMemEnd (m_Allocator (dev w1)) <> 0.
Proof.
  intros (Hs & Ha & Hb) Hfl HA Hp.
  unfold Allocate in HA. rewrite !bind_assert in HA.
  destruct (size >? 0); [| discriminate].
  destruct (negb (align =? 0)); [| discriminate].
  destruct (align <=? boundary); [| discriminate].
  unfold the_allocator in HA. rewrite bind_gets in HA.
  rewrite !bind_assert in HA.
  destruct (negb (m_nMemStart (m_Allocator (dev w)) =? 0)); [| discriminate].
  destruct (Z.eqb_spec (m_nMemEnd (m_Allocator (dev w))) 0) as [| Hen];
    [discriminate |]. cbn [negb] in HA.
  replace (size <=? NVME_BLOCK_SIZE) with true in HA
    by (symmetry; apply Z.leb_le; lia).
  replace (align <=? NVME_BLOCK_ALIGN) with true in HA
    by (symmetry; apply Z.leb_le; lia).
  replace (boundary <=? NVME_BLOCK_BOUNDARY) with true in HA
    by (symmetry; apply Z.leb_le; lia).
  cbn [andb] in HA.
  destruct (Z.eqb_spec (m_pFreeList (m_Allocator (dev w))) 0) as [Hz | Hnz];
    cbn [negb] in HA.
  - (* a new block *)
    unfold Allocate_carve, the_allocator, update_allocator, store_hdr in HA.
    rewrite bind_gets, bind_modify in HA.
    match type of HA with
    | (if ?c then _ else _) _ = _ => destruct c
    end.
    { inversion HA. congruence. }
    rewrite bind_modify, bind_assert in HA.
    match type of HA with
    | (if ?c then _ else _) = _ => destruct c eqn:Eal
    end; [| discriminate].
    injection HA as Hpe Hw. subst w1.
    apply Z.eqb_eq in Eal. rewrite Hpe in Eal.
    change (u64 (NVME_BLOCK_ALIGN - 1)) with 4095 in Eal.
    rewrite land_4095 in Eal.
    assert (Hr : 0 <= p < 2 ^ 64) by (rewrite <- Hpe; apply u64_range).
    split; [lia |]. split; [exact Eal |]. split; [| exact Hen].
    eexists. split.
    + unfold header_of. simpl. rewrite <- Hpe. rewrite u64_data_header.
      apply lookup_insert_eq.
    + repeat split.
  - (* the head of the free list *)
    unfold Allocate_recycle, the_allocator, update_allocator, store_hdr in HA.
    rewrite bind_gets in HA.
    destruct (mem_hdr (mem w) !! m_pFreeList (m_Allocator (dev w)))
      as [h |] eqn:Eh.
    2:{ unfold load_hdr in HA. rewrite bind_bind, bind_gets, Eh in HA.
        discriminate. }
    rewrite (bind_load_hdr _ _ _ _ Eh) in HA. rewrite !bind_assert in HA.
    destruct (Z.eqb_spec (nMagic h) NVME_BLOCK_MAGIC) as [Em |]; [| discriminate].
    destruct (Z.eqb_spec (nSize h) NVME_BLOCK_SIZE) as [Es |]; [| discriminate].
    destruct (Z.eqb_spec (nAlign h) NVME_BLOCK_ALIGN) as [Ea |]; [| discriminate].
    destruct (Z.eqb_spec (nBoundary h) NVME_BLOCK_BOUNDARY) as [Eb |];
      [| discriminate].
    rewrite !bind_modify, bind_assert in HA.
    match type of HA with
    | (if ?c then _ else _) = _ => destruct c eqn:Eal
    end; [| discriminate].
    injection HA as Hpe Hw. subst w1.
    apply Z.eqb_eq in Eal. rewrite Hpe in Eal.
    change (NVME_BLOCK_ALIGN - 1) with 4095 in Eal.
    rewrite land_4095 in Eal.
    assert (Hr : 0 <= p < 2 ^ 64) by (rewrite <- Hpe; apply u64_range).
    split; [lia |]. split; [exact Eal |]. split; [| exact Hen].
    eexists. split.
    + unfold header_of. simpl. rewrite <- Hpe.
      rewrite <- (u64_small (m_pFreeList (m_Allocator (dev w)))) at 1 by exact Hfl.
      rewrite u64_data_header. rewrite u64_small by exact Hfl.
      apply lookup_insert_eq.
    + repeat split; assumption.
Qed.

(** ** The PRP builder *)

Lemma land_not64_4095 B :
  0 <= B < 2 ^ 64 -> Z.land B (not64 4095) = B - B mod 4096.
Proof.
  intros HB. unfold not64, u64, wrap.
  rewrite <- Z.land_ones by lia.
  rewrite Z.land_assoc. rewrite (Z.land_comm B), <- Z.land_assoc.
  rewrite (Z.land_ones B) by lia. rewrite (Z.mod_small B) by lia.
  rewrite Z.land_comm. rewrite <- Z.ldiff_land.
  change 4095 with (Z.ones 12). rewrite Z.ldiff_ones_r by lia.
  rewrite Z.shiftr_div_pow2, Z.shiftl_mul_pow2 by lia.
  change (2 ^ 12) with 4096.
  pose proof (Z.div_mod B 4096). lia.
Qed.

Lemma u64_offsets_inj p j k :
  - 2 ^ 61 < j - k < 2 ^ 61 -> u64 (p + 8 * j) = u64 (p + 8 * k) -> j = k.
Proof.
  intros Hjk E. unfold u64, wrap in E.
  assert (D : (p + 8 * j - (p + 8 * k)) mod 2 ^ 64 = 0).
  { rewrite Zminus_mod, E, Z.sub_diag. reflexivity. }
  apply Z.mod_divide in D; [| lia]. destruct D as [c Hc]. lia.
Qed.

Lemma memset_u64_lookup n p m k :
  0 <= k < Z.of_nat n -> memset_u64 p n m !! u64 (p + 8 * k) = Some 0.
Proof.
  induction n as [| n IH]; intros Hk; [lia |].
  simpl memset_u64.
  destruct (decide (u64 (p + 8 * Z.of_nat n) = u64 (p + 8 * k))) as [E | E].
  - rewrite E. apply lookup_insert_eq.
  - rewrite lookup_insert_ne by exact E. apply IH.
    assert (k <> Z.of_nat n) by (intros ->; apply E; reflexivity). lia.
Qed.

Lemma memset_u64_other n p m a :
  (forall k, 0 <= k < Z.of_nat n -> u64 (p + 8 * k) <> a) ->
  memset_u64 p n m !! a = m !! a.
Proof.
  induction n as [| n IH]; intros Hk; [reflexivity |].
  simpl memset_u64. rewrite lookup_insert_ne by (apply Hk; lia).
  apply IH. intros k Hk'. apply Hk. lia.
Qed.

Section PRP.
Context `{Platform}.

Lemma fill_prp_list_other n pEntries uCur i m a :
  (forall j, i <= j < i + Z.of_nat n -> u64 (pEntries + 8 * j) <> a) ->
  fill_prp_list pEntries uCur i n m !! a = m !! a.
Proof.
  revert i m. induction n as [| n IH]; intros i m Hj; [reflexivity |].
  simpl fill_prp_list. rewrite IH.
  - apply lookup_insert_ne. apply Hj. lia.
  - intros j Hj'. apply Hj. lia.
Qed.

Lemma fill_prp_list_lookup n pEntries uCur i m k :
  Z.of_nat n < 2 ^ 61 -> i <= k < i + Z.of_nat n ->
  fill_prp_list pEntries uCur i n m !! u64 (pEntries + 8 * k)
  = Some (PhysicalOf (u64 (uCur + k * PRP_PAGE_SIZE))).
Proof.
  revert i m. induction n as [| n IH]; intros i m Hn Hk; [lia |].
  simpl fill_prp_list.
  destruct (Z.eq_dec k i) as [-> | Hne].
  - rewrite fill_prp_list_other.
    + apply lookup_insert_eq.
    + intros j Hj E. apply u64_offsets_inj in E; lia.
  - apply IH; lia.
Qed.

End PRP.

Section PRP_build.
Context `{Platform}.

Lemma first_remain_range B : 0 < first_remain B <= 4096.
Proof.
  unfold first_remain, NVME_PAGE_SIZE.
  pose proof (Z.mod_pos_bound B 4096). lia.
Qed.

Lemma page_of_first_remain B : page_of B + 4096 = B + first_remain B.
Proof. unfold page_of, first_remain, NVME_PAGE_SIZE. lia. Qed.

(** The arithmetic of [BuildForBuffer] on a buffer that lies in the address
    space. *)
Lemma build_arith B L :
  0 < B -> 0 < L -> B + L <= 2 ^ 64 ->
  Z.land B (PRP_PAGE_SIZE - 1) = B mod 4096
  /\ u64 (PRP_PAGE_SIZE - B mod 4096) = first_remain B
  /\ (first_remain B < L ->
      u64 (Z.land B (not64 (PRP_PAGE_SIZE - 1)) + PRP_PAGE_SIZE)
      = page_of B + 4096
      /\ u64 (L - first_remain B) = L - first_remain B
      /\ u64 (L - first_remain B + PRP_PAGE_SIZE - 1) / PRP_PAGE_SIZE
         = ceil_div (L - first_remain B) 4096).
Proof.
  intros HB HL HBL.
  pose proof (first_remain_range B) as Hfr.
  pose proof (page_of_first_remain B) as Hpg.
  assert (Hp0 : 0 <= page_of B).
  { unfold page_of, NVME_PAGE_SIZE. pose proof (Z.mod_le B 4096). lia. }
  change (PRP_PAGE_SIZE - 1) with 4095. change PRP_PAGE_SIZE with 4096.
  split; [apply land_4095 |].
  split; [apply u64_small; unfold first_remain, NVME_PAGE_SIZE in *; lia |].
  intros Hlt. rewrite land_not64_4095 by lia.
  fold NVME_PAGE_SIZE. fold (page_of B). unfold NVME_PAGE_SIZE.
  split; [apply u64_small; lia |].
  split; [apply u64_small; lia |].
  unfold ceil_div. rewrite u64_small by lia. reflexivity.
Qed.

Lemma ceil_div_bounds a b : 0 < b -> b * (ceil_div a b - 1) < a <= b * ceil_div a b.
Proof.
  intros Hb. unfold ceil_div.
  pose proof (Z.div_mod (a + b - 1) b). pose proof (Z.mod_pos_bound (a + b - 1) b).
  lia.
Qed.

Lemma BuildForBuffer_one_page this B L w :
  0 < B -> 0 < L -> B + L <= 2 ^ 64 -> L <= first_remain B ->
  BuildForBuffer this B L w
  = (Done (true, set_m_uPrp2 0 (set_m_uPrp1 (PhysicalOf B) this)), w).
Proof.
  intros HB HL HBL Hle.
  destruct (build_arith B L HB HL HBL) as (E1 & E2 & _).
  unfold BuildForBuffer.
  replace (B =? 0) with false by (symmetry; apply Z.eqb_neq; lia).
  replace (L =? 0) with false by (symmetry; apply Z.eqb_neq; lia).
  cbn [orb]. rewrite E1, E2.
  replace (L <=? first_remain B) with true by (symmetry; apply Z.leb_le; lia).
  reflexivity.
Qed.

Lemma BuildForBuffer_two_pages this B L w :
  0 < B -> 0 < L -> B + L <= 2 ^ 64 ->
  first_remain B < L <= first_remain B + 4096 ->
  BuildForBuffer this B L w
  = (Done (true, set_m_uPrp2 (PhysicalOf (page_of B + 4096))
                   (set_m_uPrp1 (PhysicalOf B) this)), w).
Proof.
  intros HB HL HBL Hle.
  destruct (build_arith B L HB HL HBL) as (E1 & E2 & E3).
  destruct E3 as (E3 & E4 & _); [lia |].
  unfold BuildForBuffer.
  replace (B =? 0) with false by (symmetry; apply Z.eqb_neq; lia).
  replace (L =? 0) with false by (symmetry; apply Z.eqb_neq; lia).
  cbn [orb]. rewrite E1, E2.
  replace (L <=? first_remain B) with false by (symmetry; apply Z.leb_gt; lia).
  rewrite E3, E4.
  replace (L - first_remain B <=? PRP_PAGE_SIZE) with true
    by (symmetry; apply Z.leb_le; unfold PRP_PAGE_SIZE, NVME_PAGE_SIZE; lia).
  reflexivity.
Qed.

Lemma BuildForBuffer_list this B L w :
  0 < B -> 0 < L -> B + L <= 2 ^ 64 -> first_remain B + 4096 < L ->
  let needed := ceil_div (L - first_remain B) 4096 in
  let pages := ceil_div needed 512 in
  let prp := set_m_uPrp2 (PhysicalOf (page_of B + 4096))
               (set_m_uPrp1 (PhysicalOf B) this) in
  BuildForBuffer this B L w
  = match Allocate (pages * 4096) PRP_PAGE_SIZE NVME_BLOCK_BOUNDARY w with
    | (Done pList, w1) =>
        if pList =? 0 then (Done (false, prp), w1)
        else
          (Done (true,
                 set_m_uPrp2 (PhysicalOf pList)
                   (set_m_nPrpListPages (u32 pages)
                      (set_m_pPrpListVirt pList prp))),
           set_mem (set_mem_u64
             (fill_prp_list pList (page_of B + 4096) 0 (Z.to_nat needed)))
             (set_mem (set_mem_u64
                (memset_u64 pList (Z.to_nat (pages * 512)))) w1))
    | (Abort, w1) => (Abort, w1)
    | (Stuck, w1) => (Stuck, w1)
    end.
Proof.
  intros HB HL HBL Hgt needed pages prp.
  destruct (build_arith B L HB HL HBL) as (E1 & E2 & E3).
  pose proof (first_remain_range B) as Hfr.
  destruct E3 as (E3 & E4 & E5); [lia |].
  pose proof (ceil_div_bounds (L - first_remain B) 4096 ltac:(lia)) as Hn.
  fold needed in Hn, E5.
  pose proof (ceil_div_bounds needed 512 ltac:(lia)) as Hp. fold pages in Hp.
  assert (Hnb : 2 <= needed <= 2 ^ 52) by lia.
  assert (Hpb : 1 <= pages <= 2 ^ 44) by lia.
  unfold BuildForBuffer.
  replace (B =? 0) with false by (symmetry; apply Z.eqb_neq; lia).
  replace (L =? 0) with false by (symmetry; apply Z.eqb_neq; lia).
  cbn [orb]. rewrite E1, E2.
  replace (L <=? first_remain B) with false by (symmetry; apply Z.leb_gt; lia).
  rewrite E3, E4.
  replace (L - first_remain B <=? PRP_PAGE_SIZE) with false
    by (symmetry; apply Z.leb_gt; unfold PRP_PAGE_SIZE, NVME_PAGE_SIZE; lia).
  rewrite E5.
  change (PRP_PAGE_SIZE / PRP_ENTRY_SIZE) with 512.
  replace (u64 (needed + 512 - 1) / 512) with pages
    by (unfold pages, ceil_div; rewrite u64_small by lia; reflexivity).
  change PRP_PAGE_SIZE with 4096.
  rewrite (u64_small (pages * 4096)) by lia.
  replace (pages * 4096 / 8) with (pages * 512)
    by (apply Z.div_unique_exact; lia).
  unfold bind.
  destruct (Allocate (pages * 4096) 4096 NVME_BLOCK_BOUNDARY w)
    as [[pList | |] w1]; try reflexivity.
  destruct (pList =? 0); reflexivity.
Qed.

End PRP_build.

Section PRP_list.
Context `{Platform}.

Lemma prp_list_entries pList B L m :
  0 < B -> 0 < L -> B + L <= 2 ^ 64 -> first_remain B + 4096 < L ->
  let needed := ceil_div (L - first_remain B) 4096 in
  let pages := ceil_div needed 512 in
  let m' :=
    fill_prp_list pList (page_of B + 4096) 0 (Z.to_nat needed)
      (memset_u64 pList (Z.to_nat (pages * 512)) m) in
  (forall i, 0 <= i < needed ->
     m' !! u64 (pList + 8 * i) = Some (PhysicalOf (page_of B + 4096 * (i + 1))))
  /\ (forall i, needed <= i < pages * 512 -> m' !! u64 (pList + 8 * i) = Some 0).
Proof.
  intros HB HL HBL Hgt needed pages m'.
  pose proof (first_remain_range B) as Hfr.
  pose proof (page_of_first_remain B) as Hpg.
  assert (Hp0 : 0 <= page_of B).
  { unfold page_of, NVME_PAGE_SIZE. pose proof (Z.mod_le B 4096). lia. }
  pose proof (ceil_div_bounds (L - first_remain B) 4096 ltac:(lia)) as Hn.
  fold needed in Hn.
  pose proof (ceil_div_bounds needed 512 ltac:(lia)) as Hp. fold pages in Hp.
  assert (Hnb : 2 <= needed <= 2 ^ 52) by lia.
  assert (Hpb : 1 <= pages <= 2 ^ 44) by lia.
  split; intros i Hi; unfold m'.
  - rewrite fill_prp_list_lookup by lia.
    change PRP_PAGE_SIZE with 4096. rewrite u64_small by lia.
    do 2 f_equal. lia.
  - rewrite fill_prp_list_other.
    + apply memset_u64_lookup. lia.
    + intros j Hj E. apply u64_offsets_inj in E; lia.
Qed.

End PRP_list.

(** ** Completions *)

Lemma status_result_cases s :
  let x := status_result s in
  (x = NVME_STATUS_OK <-> status_SCT s = 0 /\ status_SC s = 0)
  /\ (x = NVME_STATUS_ERROR_LBA_RANGE <-> status_SCT s = 0 /\ status_SC s = 0x80)
  /\ (x = NVME_STATUS_ERROR_CONTROLLER <->
        ~ (status_SCT s = 0 /\ status_SC s = 0)
        /\ ~ (status_SCT s = 0 /\ status_SC s = 0x80)).
Proof.
  unfold status_result.
  destruct (Z.eqb_spec (status_SCT s) 0) as [E1 | E1];
  destruct (Z.eqb_spec (status_SC s) 0) as [E2 | E2];
  destruct (Z.eqb_spec (status_SC s) 0x80) as [E3 | E3];
  cbn [negb orb andb];
  unfold NVME_STATUS_OK, NVME_STATUS_ERROR_LBA_RANGE,
    NVME_STATUS_ERROR_CONTROLLER;
  repeat split; intros; try discriminate; try lia; try tauto.
Qed.

Lemma bind_load_completion {B} (k : TNVMeCompletion -> M B) w ce rest :
  in_cq (env w) = ce :: rest ->
  bind load_completion k w = k ce (set_env (set_in_cq rest) w).
Proof.
  intros E. unfold load_completion. rewrite bind_bind, bind_gets, E.
  rewrite bind_bind, bind_modify, bind_ret. reflexivity.
Qed.

Lemma bind_load_completion_nil {B} (k : TNVMeCompletion -> M B) w :
  in_cq (env w) = [] -> bind load_completion k w = (Stuck, w).
Proof.
  intros E. unfold load_completion. rewrite bind_bind, bind_gets, E.
  reflexivity.
Qed.

Lemma bind_GetTicks {B} (k : Z -> M B) w t rest :
  in_ticks (env w) = t :: rest ->
  bind GetTicks k w = k (u32 t) (set_env (set_in_ticks rest) w).
Proof.
  intros E. unfold GetTicks. rewrite bind_bind, bind_gets, E.
  rewrite bind_bind, bind_modify, bind_ret. reflexivity.
Qed.

Lemma bind_GetTicks_nil {B} (k : Z -> M B) w :
  in_ticks (env w) = [] -> bind GetTicks k w = (Stuck, w).
Proof.
  intros E. unfold GetTicks. rewrite bind_bind, bind_gets, E. reflexivity.
Qed.

Lemma poll_loop_takes fuel pQueue usCid nStart nTimeoutHZ w ce rest :
  in_cq (env w) = ce :: rest ->
  completion_matches (queue_of pQueue w) usCid ce = true ->
  poll_loop (S fuel) pQueue usCid nStart nTimeoutHZ w
  = (Done (status_result (status ce)), taken pQueue rest (status ce) w).
Proof.
  intros Ecq Hm. cbn [poll_loop]. mstep.
  rewrite bind_load_completion with (ce := ce) (rest := rest) by exact Ecq.
  replace (completion_matches _ usCid ce) with true
    by (rewrite <- Hm; destruct pQueue; reflexivity).
  mstep. unfold taken, status_result.
  destruct (negb (status_SCT (status ce) =? 0) || negb (status_SC (status ce) =? 0)).
  - mstep. destruct ((status_SCT (status ce) =? 0) && (status_SC (status ce) =? 128));
      destruct pQueue; reflexivity.
  - destruct pQueue; reflexivity.
Qed.

Lemma poll_loop_skips fuel pQueue usCid nStart nTimeoutHZ w ce rest :
  in_cq (env w) = ce :: rest ->
  completion_matches (queue_of pQueue w) usCid ce = false ->
  poll_loop (S fuel) pQueue usCid nStart nTimeoutHZ w
  = match in_ticks (env w) with
    | [] => (Stuck, skipped_cq rest w)
    | t :: ticks =>
        if u32 (u32 t - nStart) >? nTimeoutHZ
        then (Done NVME_STATUS_ERROR_TIMEOUT, skipped rest ticks w)
        else poll_loop fuel pQueue usCid nStart nTimeoutHZ
               (set_trace (fun t => t ++ [EvUsDelay 1]) (skipped rest ticks w))
    end.
Proof.
  intros Ecq Hm. cbn [poll_loop]. mstep.
  rewrite bind_load_completion with (ce := ce) (rest := rest) by exact Ecq.
  replace (completion_matches _ usCid ce) with false
    by (rewrite <- Hm; destruct pQueue; reflexivity).
  destruct (in_ticks (env w)) as [| t ticks] eqn:Et.
  - rewrite bind_GetTicks_nil by exact Et. reflexivity.
  - rewrite bind_GetTicks with (t := t) (rest := ticks) by exact Et.
    destruct (u32 (u32 t - nStart) >? nTimeoutHZ); [reflexivity |].
    mstep. reflexivity.
Qed.

Lemma queue_of_taken pQueue rest s w :
  queue_of pQueue (taken pQueue rest s w) = advance_head (queue_of pQueue w).
Proof.
  unfold taken.
  destruct (negb (status_SCT s =? 0) || negb (status_SC s =? 0));
    destruct pQueue; reflexivity.
Qed.

(** Every result of the poll loop is a timeout that leaves the queue as it
    was, or the result of a completion that matched and that moved the
    head. *)
Lemma poll_loop_spec fuel pQueue usCid nStart nTimeoutHZ w :
  let q := queue_of pQueue w in
  let r := poll_loop fuel pQueue usCid nStart nTimeoutHZ w in
  match fst r with
  | Done x =>
      (x = NVME_STATUS_ERROR_TIMEOUT /\ queue_of pQueue (snd r) = q)
      \/ (exists ce, In ce (in_cq (env w))
            /\ completion_matches q usCid ce = true
            /\ x = status_result (status ce)
            /\ queue_of pQueue (snd r) = advance_head q)
  | _ => queue_of pQueue (snd r) = q
  end.
Proof.
  revert w. induction fuel as [| fuel IH]; intros w q r; subst r.
  - reflexivity.
  - destruct (in_cq (env w)) as [| ce rest] eqn:Ecq.
    + cbn [poll_loop]. mstep. rewrite bind_load_completion_nil by exact Ecq.
      destruct pQueue; reflexivity.
    + destruct (completion_matches q usCid ce) eqn:Hm.
      * rewrite (poll_loop_takes _ _ _ _ _ _ _ _ Ecq Hm). cbn [fst snd].
        right. exists ce. split; [left; reflexivity |].
        split; [exact Hm |]. split; [reflexivity |]. apply queue_of_taken.
      * rewrite (poll_loop_skips _ _ _ _ _ _ _ _ Ecq Hm).
        destruct (in_ticks (env w)) as [| t ticks].
        { destruct pQueue; reflexivity. }
        destruct (u32 (u32 t - nStart) >? nTimeoutHZ).
        { left. split; [reflexivity | destruct pQueue; reflexivity]. }
        specialize (IH (set_trace (fun t => t ++ [EvUsDelay 1])
                          (skipped rest ticks w))).
        cbv zeta in IH.
        replace (queue_of pQueue (set_trace _ (skipped rest ticks w))) with q
          in IH by (destruct pQueue; reflexivity).
        destruct (poll_loop fuel pQueue usCid nStart nTimeoutHZ _)
          as [[x | |] w'] eqn:E; cbn [fst snd] in *; try exact IH.
        destruct IH as [IH | (ce' & Hin & IH)]; [left; exact IH |].
        right. exists ce'. split; [right; exact Hin | exact IH].
Qed.

Lemma status_result_not_timeout s :
  status_result s <> NVME_STATUS_ERROR_TIMEOUT.
Proof.
  unfold status_result.
  destruct (negb (status_SCT s =? 0) || negb (status_SC s =? 0));
    [destruct ((status_SCT s =? 0) && (status_SC s =? 128)) |];
    discriminate.
Qed.

Lemma PollForCompletion_spec pQueue usCid nTimeoutHZ w :
  let q := queue_of pQueue w in
  let r := PollForCompletion pQueue usCid nTimeoutHZ w in
  match fst r with
  | Done x =>
      (x = NVME_STATUS_ERROR_TIMEOUT /\ queue_of pQueue (snd r) = q)
      \/ (exists ce, In ce (in_cq (env w))
            /\ completion_matches q usCid ce = true
            /\ x = status_result (status ce)
            /\ queue_of pQueue (snd r) = advance_head q)
  | _ => queue_of pQueue (snd r) = q
  end.
Proof.
  intros q r. subst r. unfold PollForCompletion. mstep.
  rewrite bind_assert.
  destruct (usCid <? nEntries _); [| reflexivity].
  destruct (in_ticks (env w)) as [| t ticks] eqn:Et.
  - rewrite bind_GetTicks_nil by exact Et. reflexivity.
  - rewrite bind_GetTicks with (t := t) (rest := ticks) by exact Et.
    mstep.
    pose proof (poll_loop_spec
      (length (in_cq (env (set_env (set_in_ticks ticks) w))))
      pQueue usCid (u32 t) nTimeoutHZ (set_env (set_in_ticks ticks) w)) as S.
    cbv zeta in S.
    replace (queue_of pQueue (set_env (set_in_ticks ticks) w)) with q in S
      by (destruct pQueue; reflexivity).
    exact S.
Qed.

(** ** Queue head and phase *)

Lemma advance_head_spec q :
  nEntries q = 64 -> 0 <= nCqHead q < 64 ->
  nCqHead (advance_head q) = (nCqHead q + 1) mod 64
  /\ bCqPhase (advance_head q)
     = (if (nCqHead q + 1) mod 64 =? 0 then negb (bCqPhase q) else bCqPhase q)
  /\ nEntries (advance_head q) = 64.
Proof.
  intros He Hh. unfold advance_head. rewrite He.
  assert (Hm : 0 <= (nCqHead q + 1) mod 64 < 64) by (apply Z.mod_pos_bound; lia).
  cbn [set_nCqHead nCqHead]. rewrite u16_small by lia.
  destruct ((nCqHead q + 1) mod 64 =? 0); cbn; auto.
Qed.

Lemma advance_head_below q k :
  nEntries q = 64 -> 0 <= nCqHead q -> nCqHead q + Z.of_nat k < 64 ->
  let q' := Nat.iter k advance_head q in
  nCqHead q' = nCqHead q + Z.of_nat k /\ bCqPhase q' = bCqPhase q
  /\ nEntries q' = 64 /\ phase_toggles k q = 0%nat.
Proof.
  revert q. induction k as [| k IH]; intros q He H0 Hk.
  - cbn. repeat split; first [lia | assumption].
  - rewrite Nat.iter_succ_r.
    destruct (advance_head_spec q He ltac:(lia)) as (Hh & Hp & He').
    assert (E : (nCqHead q + 1) mod 64 = nCqHead q + 1) by (apply Z.mod_small; lia).
    rewrite E in Hh, Hp.
    replace (nCqHead q + 1 =? 0) with false in Hp by (symmetry; apply Z.eqb_neq; lia).
    destruct (IH (advance_head q) He' ltac:(lia) ltac:(lia)) as (I1 & I2 & I3 & I4).
    cbv zeta. repeat split.
    + rewrite I1. lia.
    + rewrite I2. exact Hp.
    + exact I3.
    + cbn [phase_toggles]. rewrite I4, Hp, eqb_reflx. reflexivity.
Qed.

Lemma phase_toggles_succ k q :
  phase_toggles (S k) q
  = (phase_toggles k q
     + (if Bool.eqb (bCqPhase (advance_head (Nat.iter k advance_head q)))
                    (bCqPhase (Nat.iter k advance_head q))
        then 0 else 1))%nat.
Proof.
  revert q. induction k as [| k IHk]; intros q.
  - cbn [phase_toggles Nat.iter]. rewrite Nat.add_0_r. reflexivity.
  - change (phase_toggles (S (S k)) q)
      with ((if Bool.eqb (bCqPhase (advance_head q)) (bCqPhase q)
             then 0 else 1) + phase_toggles (S k) (advance_head q))%nat.
    rewrite IHk. rewrite <- !Nat.iter_succ_r.
    rewrite Nat.add_assoc. reflexivity.
Qed.

Lemma advance_head_to_wrap q k :
  nEntries q = 64 -> 0 <= nCqHead q -> nCqHead q + Z.of_nat k = 63 ->
  let q' := Nat.iter (S k) advance_head q in
  nCqHead q' = 0 /\ bCqPhase q' = negb (bCqPhase q)
  /\ phase_toggles (S k) q = 1%nat.
Proof.
  intros He H0 Hk.
  destruct (advance_head_below q k He H0 ltac:(lia)) as (I1 & I2 & I3 & I4).
  cbv zeta in I1, I2, I3. cbv zeta.
  rewrite Nat.iter_succ. rewrite phase_toggles_succ.
  remember (Nat.iter k advance_head q) as qk eqn:Eq.
  destruct (advance_head_spec qk I3 ltac:(lia)) as (Hh & Hp & _).
  replace ((nCqHead qk + 1) mod 64) with 0 in Hh, Hp
    by (rewrite I1, Hk; reflexivity).
  change (0 =? 0) with true in Hp. cbv iota in Hp.
  split; [exact Hh |]. split; [rewrite Hp, I2; reflexivity |].
  rewrite I4, Hp. destruct (bCqPhase qk); reflexivity.
Qed.

Lemma advance_head_wrap q :
  nEntries q = 64 -> nCqHead q = 0 ->
  let q' := Nat.iter 64 advance_head q in
  nCqHead q' = 0 /\ bCqPhase q' = negb (bCqPhase q)
  /\ phase_toggles 64 q = 1%nat.
Proof.
  intros He H0. apply (advance_head_to_wrap q 63 He).
  - rewrite H0. discriminate.
  - rewrite H0. reflexivity.
Qed.

Ltac minv H :=
  let a := fresh "a" in
  let w1 := fresh "w" in
  let E := fresh "E" in
  apply bind_inv in H;
  destruct H as [(a & w1 & E & H) | [(_ & H) | (_ & H)]];
  [| discriminate H | discriminate H].

Section Queues.
Context `{Platform}.

Lemma CreateAdminQueues_initial w w' :
  CreateAdminQueues w = (Done NVME_STATUS_OK, w') ->
  bCqPhase (m_AdminQueue (dev w')) = true
  /\ nCqHead (m_AdminQueue (dev w')) = 0
  /\ nSqTail (m_AdminQueue (dev w')) = 0.
Proof.
  intros HC. unfold CreateAdminQueues in HC.
  minv HC. destruct (a =? 0); [discriminate HC |].
  minv HC. destruct (a0 =? 0); [discriminate HC |].
  revert HC. mstep. intros HC. injection HC as <-.
  repeat split.
Qed.

Lemma CreateIoQueue_initial uQueueId uEntries w w' :
  CreateIoQueue uQueueId uEntries w = (Done NVME_STATUS_OK, w') ->
  bCqPhase (m_IoQueue (dev w')) = true
  /\ nCqHead (m_IoQueue (dev w')) = 0
  /\ nSqTail (m_IoQueue (dev w')) = 0.
Proof.
  intros HC. unfold CreateIoQueue in HC.
  minv HC. destruct (a =? 0); [discriminate HC |].
  minv HC. destruct (a0 =? 0); [discriminate HC |].
  revert HC. mstep. intros HC.
  minv HC.
  destruct (negb (a1 =? NVME_STATUS_OK)) eqn:N1.
  { injection HC as -> _. discriminate N1. }
  minv HC.
  destruct (negb (a2 =? NVME_STATUS_OK)) eqn:N2.
  { injection HC as -> _. discriminate N2. }
  revert HC. mstep. intros HC. injection HC as <-.
  repeat split.
Qed.

End Queues.

(** ** Frames of the I/O path *)

Lemma same_config_refl w : same_config w w.
Proof. reflexivity. Qed.

Lemma same_config_trans a b c : same_config a b -> same_config b c -> same_config a c.
Proof. unfold same_config. congruence. Qed.

Lemma same_cmd_refl w : same_cmd w w.
Proof. reflexivity. Qed.

Lemma same_cmd_trans a b c : same_cmd a b -> same_cmd b c -> same_cmd a c.
Proof. unfold same_cmd. congruence. Qed.

Lemma trace_extends_refl w : trace_extends w w.
Proof. exists []. symmetry. apply app_nil_r. Qed.

Lemma trace_extends_trans a b c :
  trace_extends a b -> trace_extends b c -> trace_extends a c.
Proof.
  intros [e1 H1] [e2 H2]. exists (e1 ++ e2). rewrite H2, H1. symmetry.
  apply app_assoc.
Qed.

Lemma trace_extends_emit e w :
  trace_extends w (set_trace (fun t => t ++ [e]) w).
Proof. exists [e]. reflexivity. Qed.

Lemma same_submission_refl w : same_submission w w.
Proof. repeat split. apply trace_extends_refl. Qed.

Lemma same_submission_trans a b c :
  same_submission a b -> same_submission b c -> same_submission a c.
Proof.
  intros (A1 & A2 & A3 & A4 & A5) (B1 & B2 & B3 & B4 & B5).
  repeat split; try congruence. eapply trace_extends_trans; eassumption.
Qed.

Ltac trace_side :=
  first
    [ apply trace_extends_emit
    | exists []; symmetry; apply app_nil_r ].

Ltac frame_side :=
  first
    [ exact same_config_refl | exact same_config_trans
    | exact same_cmd_refl | exact same_cmd_trans
    | exact trace_extends_refl | exact trace_extends_trans
    | exact same_submission_refl | exact same_submission_trans
    | intros; reflexivity
    | intros; trace_side
    | intros; unfold same_submission;
        split; [reflexivity |]; split; [reflexivity |];
        split; [reflexivity |]; split; [reflexivity |]; trace_side ].

Section IO.
Context `{Platform}.

Lemma Read_same_config p n w : same_config w (snd (Read p n w)).
Proof. apply (keeps_Read same_config); frame_side. Qed.

Lemma Write_same_config p n w : same_config w (snd (Write p n w)).
Proof. apply (keeps_Write same_config); frame_side. Qed.

Lemma IOCtl_same_config c p w : same_config w (snd (IOCtl c p w)).
Proof. apply (keeps_IOCtl same_config); frame_side. Qed.

Lemma snd_bind {A B} (m : M A) (k : A -> M B) w :
  snd (bind m k w)
  = match m w with
    | (Done a, w1) => snd (k a w1)
    | (_, w1) => w1
    end.
Proof. unfold bind. destruct (m w) as [[a | |] w1]; reflexivity. Qed.

Lemma fst_bind {A B} (m : M A) (k : A -> M B) w :
  fst (bind m k w)
  = match m w with
    | (Done a, w1) => fst (k a w1)
    | (Abort, _) => Abort
    | (Stuck, _) => Stuck
    end.
Proof. unfold bind. destruct (m w) as [[a | |] w1]; reflexivity. Qed.

Lemma PollForCompletion_same_cmd a b c w :
  same_cmd w (snd (PollForCompletion a b c w)).
Proof. apply (keeps_PollForCompletion same_cmd); frame_side. Qed.

Lemma PollForCompletion_trace a b c w :
  trace_extends w (snd (PollForCompletion a b c w)).
Proof. apply (keeps_PollForCompletion trace_extends); frame_side. Qed.

Lemma CNVMePRP_delete_same_cmd this w :
  same_cmd w (snd (CNVMePRP_delete this w)).
Proof. apply (keeps_CNVMePRP_delete same_cmd); frame_side. Qed.

Lemma CNVMePRP_delete_trace this w :
  trace_extends w (snd (CNVMePRP_delete this w)).
Proof. apply (keeps_CNVMePRP_delete trace_extends); frame_side. Qed.

Lemma BuildForBuffer_same_submission this p n w :
  same_submission w (snd (BuildForBuffer this p n w)).
Proof. apply (keeps_BuildForBuffer same_submission); frame_side. Qed.

Lemma new_array_same_submission n w :
  same_submission w (snd (new_array n w)).
Proof. apply (keeps_new_array same_submission); frame_side. Qed.

(** What [SubmitCommand] does with a command for the I/O queue. *)
Lemma SubmitCommand_io o ns c10 c11 c12 p1 p2 w :
  let q := m_IoQueue (dev w) in
  let r := SubmitCommand IoQueue o ns c10 c11 c12 p1 p2 w in
  submitted w (snd r)
    (mkCommand o 0 (u16 (Z.land (nSqTail q) 0xffff)) ns 0 0 p1 p2
       c10 c11 c12 0 0 0)
  /\ forall x, fst r = Done x ->
       x = NVME_STATUS_ERROR_TIMEOUT
       \/ exists ce, In ce (in_cq (env w)) /\ x = status_result (status ce).
Proof.
  intros q r. subst r. unfold SubmitCommand. mstep.
  match goal with
  | |- context [PollForCompletion ?a ?b ?c ?w1] =>
      set (w3 := w1); set (usCid := b)
  end.
  pose proof (PollForCompletion_same_cmd IoQueue usCid POLL_TIMEOUT_HZ w3) as Hc.
  pose proof (PollForCompletion_trace IoQueue usCid POLL_TIMEOUT_HZ w3) as Ht.
  pose proof (PollForCompletion_spec IoQueue usCid POLL_TIMEOUT_HZ w3) as Hs.
  cbv zeta in Hs. split.
  - split.
    + rewrite Hc. reflexivity.
    + destruct Ht as [evs Ht]. exists [], evs. rewrite Ht.
      subst w3. cbn [trace set_trace set_dev set_mem app]. 
      rewrite <- !app_assoc. reflexivity.
  - intros x Hx. rewrite Hx in Hs.
    destruct Hs as [[Hs _] | (ce & Hin & _ & Hs & _)]; [left; exact Hs |].
    right. exists ce. split; [exact Hin | exact Hs].
Qed.

End IO.

Section IO_effects.
Context `{Platform}.

Lemma submitted_compose w w1 w2 w3 c :
  same_submission w w1 -> submitted w1 w2 c ->
  same_cmd w2 w3 -> trace_extends w2 w3 ->
  submitted w w3 c.
Proof.
  intros (A1 & A2 & A3 & A4 & [e0 A5]) (B1 & e1 & e2 & B2) C1 [e3 C2].
  unfold submitted, io_slot, io_doorbell in *.
  rewrite A2, A3 in *. split.
  - rewrite C1, B1, A1. reflexivity.
  - exists (e0 ++ e1), (e2 ++ e3). rewrite C2, B2, A5.
    rewrite <- !app_assoc. cbn [app]. reflexivity.
Qed.

Lemma IoPassThrough_effect ns lba n buf wr w :
  let r := IoPassThrough ns lba n buf wr w in
  let sent c :=
    submitted w (snd r) c
    /\ opc c = (if wr then NVME_IO_OPC_WRITE else NVME_IO_OPC_READ)
    /\ nsid c = ns
    /\ cdw10 c = u32 (Z.land lba 0xffffffff)
    /\ cdw11 c = u32 (Z.land (Z.shiftr lba 32) 0xffffffff)
    /\ cdw12 c = u32 (n - 1) in
  (same_cmd w (snd r) \/ exists c, sent c)
  /\ forall x, fst r = Done x ->
       (x = NVME_STATUS_ERROR_NO_RESOURCE /\ same_cmd w (snd r))
       \/ ((exists c, sent c)
           /\ (x = NVME_STATUS_ERROR_TIMEOUT
               \/ exists ce, In ce (in_cq (env w))
                    /\ x = status_result (status ce))).
Proof.
  intros r sent. subst r sent. unfold IoPassThrough, bind, assert.
  destruct (negb (buf =? 0)); cbn [ret abort fst snd];
    [| split; [left; reflexivity | discriminate]].
  destruct (negb (n =? 0)); cbn [ret abort fst snd];
    [| split; [left; reflexivity | discriminate]].
  pose proof (BuildForBuffer_same_submission CNVMePRP_new buf
                (u64 (n * NVME_LBA_SIZE)) w) as HB.
  destruct (BuildForBuffer CNVMePRP_new buf (u64 (n * NVME_LBA_SIZE)) w)
    as [[[ok prp] | |] w1]; cbn [snd] in HB; cbn [fst snd];
    [| split; [left; apply HB | discriminate] ..].
  destruct ok; cbn [negb].
  - (* the command goes to the queue *)
    match goal with
    | |- context [SubmitCommand IoQueue ?o ?a ?b ?c ?d ?e ?f] =>
        pose proof (SubmitCommand_io o a b c d e f w1) as HS;
        destruct (SubmitCommand IoQueue o a b c d e f w1) as [rs w2]
    end.
    cbv zeta in HS. cbn [fst snd] in HS. destruct HS as [HS HR].
    assert (Hsent : forall w3, same_cmd w2 w3 -> trace_extends w2 w3 ->
              exists c, submitted w w3 c
                /\ opc c = (if wr then NVME_IO_OPC_WRITE else NVME_IO_OPC_READ)
                /\ nsid c = ns
                /\ cdw10 c = u32 (Z.land lba 0xffffffff)
                /\ cdw11 c = u32 (Z.land (Z.shiftr lba 32) 0xffffffff)
                /\ cdw12 c = u32 (n - 1)).
    { intros w3 H1 H2. eexists. split.
      - eapply submitted_compose; eassumption.
      - repeat split. }
    destruct rs as [x | |]; cbn [fst snd].
    + pose proof (CNVMePRP_delete_same_cmd prp w2) as D1.
      pose proof (CNVMePRP_delete_trace prp w2) as D2.
      destruct (CNVMePRP_delete prp w2) as [[[] | |] w3]; cbn [fst snd] in *.
      * split; [right; apply Hsent; assumption |].
        intros x' Hx. injection Hx as <-. right.
        split; [apply Hsent; assumption |].
        destruct (HR x eq_refl) as [HT | (ce & Hin & Hce)]; [left; exact HT |].
        right. exists ce. split; [| exact Hce].
        destruct HB as (_ & _ & _ & Hcq & _). rewrite <- Hcq. exact Hin.
      * split; [right; apply Hsent; assumption | discriminate].
      * split; [right; apply Hsent; assumption | discriminate].
    + split; [right; apply Hsent; frame_side | discriminate].
    + split; [right; apply Hsent; frame_side | discriminate].
  - (* the PRP could not be built *)
    pose proof (CNVMePRP_delete_same_cmd prp w1) as D1.
    destruct (CNVMePRP_delete prp w1) as [[[] | |] w3]; cbn [fst snd] in *;
      (split; [left; eapply same_cmd_trans; [apply HB | exact D1] |]);
      try discriminate.
    intros x Hx. injection Hx as <-. left.
    split; [reflexivity |]. eapply same_cmd_trans; [apply HB | exact D1].
Qed.

End IO_effects.

Lemma land_511 x : Z.land x (NVME_LBA_SIZE - 1) = x mod 512.
Proof.
  change (NVME_LBA_SIZE - 1) with (Z.ones 9). rewrite Z.land_ones by lia.
  reflexivity.
Qed.

(** A count of whole blocks is a multiple of 512 as an [int] too. *)
Lemma to_int_mod512 n : n mod 512 = 0 -> to_int n mod 512 = 0.
Proof.
  intros Hn. unfold to_int, u32, wrap.
  assert (E : (n mod 2 ^ 32) mod 512 = 0).
  { pose proof (Z.div_mod n (2 ^ 32) ltac:(lia)) as D.
    pose proof (Z.div_mod n 512 ltac:(lia)) as D'.
    replace (n mod 2 ^ 32) with ((n / 512 - 2 ^ 23 * (n / 2 ^ 32)) * 512) by lia.
    apply Z.mod_mul. lia. }
  destruct (n mod 2 ^ 32 <? 2 ^ 31); [exact E |].
  replace (n mod 2 ^ 32 - 2 ^ 32) with (n mod 2 ^ 32 + (- 2 ^ 23) * 512) by lia.
  rewrite Z.mod_add by lia. exact E.
Qed.

Lemma status_result_range s :
  status_result s = NVME_STATUS_OK
  \/ status_result s = NVME_STATUS_ERROR_LBA_RANGE
  \/ status_result s = NVME_STATUS_ERROR_CONTROLLER.
Proof.
  unfold status_result. cbv zeta.
  destruct (negb (status_SCT s =? 0) || negb (status_SC s =? 0)); [| auto].
  destruct ((status_SCT s =? 0) && (status_SC s =? 128)); auto.
Qed.

Lemma lba_lo (x : Z) : u32 (Z.land (u32 x) 0xffffffff) = x mod 2 ^ 32.
Proof.
  change 0xffffffff with (Z.ones 32). rewrite Z.land_ones by lia.
  unfold u32, wrap. rewrite !Z.mod_mod by lia. reflexivity.
Qed.

Lemma lba_hi (x : Z) : u32 (Z.land (Z.shiftr (u32 x) 32) 0xffffffff) = 0.
Proof.
  rewrite Z.shiftr_div_pow2 by lia.
  rewrite Z.div_small by apply u32_range. reflexivity.
Qed.

Section Read_Write.
Context `{Platform}.

Lemma io_command_intro (wr : bool) (off n : Z) (c : TNVMeCommand) :
  opc c = (if wr then NVME_IO_OPC_WRITE else NVME_IO_OPC_READ) ->
  nsid c = NSID ->
  cdw10 c = u32 (Z.land (u32 (off / NVME_LBA_SIZE)) 0xffffffff) ->
  cdw11 c = u32 (Z.land (Z.shiftr (u32 (off / NVME_LBA_SIZE)) 32) 0xffffffff) ->
  cdw12 c = u32 (u32 (n / NVME_LBA_SIZE) - 1) ->
  io_command wr off n c.
Proof.
  intros H1 H2 H3 H4 H5. rewrite lba_lo in H3. rewrite lba_hi in H4.
  repeat split; assumption.
Qed.

Lemma transfer_spec_prefix wr off n w w0 r :
  same_submission w w0 -> transfer_spec wr off n w0 r ->
  transfer_spec wr off n w r.
Proof.
  intros HP [HE HR].
  assert (S0 : forall c, submitted w0 (snd r) c -> submitted w (snd r) c).
  { intros c Hc. eapply submitted_compose; [exact HP | exact Hc | |]; frame_side. }
  assert (C0 : same_cmd w0 (snd r) -> same_cmd w (snd r)).
  { intros Hc. eapply same_cmd_trans; [apply HP | exact Hc]. }
  destruct HP as (_ & _ & _ & Hcq & _).
  split.
  - destruct HE as [HE | (c & HE & Hc)]; [left; auto | right; eauto].
  - intros x Hx. destruct (HR x Hx) as [[E Hc] | [(c & Hs & Hc) HX]].
    + left. auto.
    + right. split; [eauto |]. rewrite <- Hcq. exact HX.
Qed.

Lemma Read_transfer_spec p n off buf dma w :
  transfer_spec false off n w
    (Read_transfer p n (u32 (off / NVME_LBA_SIZE)) buf dma w).
Proof.
  unfold Read_transfer. rewrite bind_emit.
  apply transfer_spec_prefix
    with (w0 := set_trace (fun t => t ++ [EvInvalidateDataCacheRange buf n]) w);
    [frame_side |].
  set (w0 := set_trace _ w).
  pose proof (IoPassThrough_effect NSID (u32 (off / NVME_LBA_SIZE))
                (u32 (n / NVME_LBA_SIZE)) buf false w0) as HE.
  cbv zeta in HE. unfold bind.
  destruct (IoPassThrough NSID (u32 (off / NVME_LBA_SIZE))
              (u32 (n / NVME_LBA_SIZE)) buf false w0) as [[x | |] w1];
    cbn [fst snd] in HE; destruct HE as [HE HR].
  - assert (Hsent : forall w2, same_cmd w1 w2 -> trace_extends w1 w2 ->
              (exists c, submitted w0 w1 c
                 /\ opc c = NVME_IO_OPC_READ /\ nsid c = NSID
                 /\ cdw10 c = u32 (Z.land (u32 (off / NVME_LBA_SIZE)) 0xffffffff)
                 /\ cdw11 c = u32 (Z.land (Z.shiftr (u32 (off / NVME_LBA_SIZE)) 32)
                                     0xffffffff)
                 /\ cdw12 c = u32 (u32 (n / NVME_LBA_SIZE) - 1)) ->
              exists c, submitted w0 w2 c /\ io_command false off n c).
    { intros w2 H1 H2 (c & Hs & F1 & F2 & F3 & F4 & F5). exists c. split.
      - eapply submitted_compose;
          [apply same_submission_refl | exact Hs | exact H1 | exact H2].
      - apply io_command_intro; assumption. }
    assert (Hsame : forall w2, same_cmd w1 w2 -> same_cmd w0 w1 -> same_cmd w0 w2).
    { intros w2 H1 H2. eapply same_cmd_trans; eassumption. }
    destruct (HR x eq_refl) as [[Ex Hc] | [Hc HX]].
    + subst x. cbn [negb Z.eqb NVME_STATUS_ERROR_NO_RESOURCE NVME_STATUS_OK].
      cbn [emit modify ret fst snd]. split.
      * left. apply Hsame; [frame_side | exact Hc].
      * intros x Hx. injection Hx as <-. left. split; [reflexivity |].
        apply Hsame; [frame_side | exact Hc].
    + destruct (negb (x =? NVME_STATUS_OK)) eqn:Ex.
      * cbn [emit modify ret fst snd]. split.
        -- right. apply Hsent; [frame_side | frame_side | exact Hc].
        -- intros x' Hx. injection Hx as <-. right. split.
           ++ apply Hsent; [frame_side | frame_side | exact Hc].
           ++ destruct HX as [HX | HX]; [left; exact HX | right; right; exact HX].
      * destruct (negb (dma =? 0)); cbn [emit modify ret fst snd]; split;
          try (right; apply Hsent; [frame_side | | exact Hc]);
          try (intros x' Hx; injection Hx as <-; right; split;
               [apply Hsent; [frame_side | | exact Hc] | right; left; reflexivity]).
        all: unfold trace_extends; cbn [trace set_trace ret fst snd];
          rewrite <- ?app_assoc; eexists; reflexivity.
  - cbn [fst snd]. split; [| discriminate].
    destruct HE as [HE | (c & Hs & F1 & F2 & F3 & F4 & F5)]; [left; exact HE |].
    right. exists c. split; [exact Hs | apply io_command_intro; assumption].
  - cbn [fst snd]. split; [| discriminate].
    destruct HE as [HE | (c & Hs & F1 & F2 & F3 & F4 & F5)]; [left; exact HE |].
    right. exists c. split; [exact Hs | apply io_command_intro; assumption].
Qed.

Lemma Write_transfer_spec n off buf dma w :
  transfer_spec true off n w
    (Write_transfer n (u32 (off / NVME_LBA_SIZE)) buf dma w).
Proof.
  unfold Write_transfer. rewrite bind_emit.
  apply transfer_spec_prefix
    with (w0 := set_trace (fun t => t ++ [EvCleanDataCacheRange buf n]) w);
    [frame_side |].
  set (w0 := set_trace _ w).
  pose proof (IoPassThrough_effect NSID (u32 (off / NVME_LBA_SIZE))
                (u32 (n / NVME_LBA_SIZE)) buf true w0) as HE.
  cbv zeta in HE. unfold bind.
  destruct (IoPassThrough NSID (u32 (off / NVME_LBA_SIZE))
              (u32 (n / NVME_LBA_SIZE)) buf true w0) as [[x | |] w1];
    cbn [fst snd] in HE; destruct HE as [HE HR].
  - assert (Hsent : forall w2, same_cmd w1 w2 -> trace_extends w1 w2 ->
              (exists c, submitted w0 w1 c
                 /\ opc c = NVME_IO_OPC_WRITE /\ nsid c = NSID
                 /\ cdw10 c = u32 (Z.land (u32 (off / NVME_LBA_SIZE)) 0xffffffff)
                 /\ cdw11 c = u32 (Z.land (Z.shiftr (u32 (off / NVME_LBA_SIZE)) 32)
                                     0xffffffff)
                 /\ cdw12 c = u32 (u32 (n / NVME_LBA_SIZE) - 1)) ->
              exists c, submitted w0 w2 c /\ io_command true off n c).
    { intros w2 H1 H2 (c & Hs & F1 & F2 & F3 & F4 & F5). exists c. split.
      - eapply submitted_compose;
          [apply same_submission_refl | exact Hs | exact H1 | exact H2].
      - apply io_command_intro; assumption. }
    assert (Hsame : forall w2, same_cmd w1 w2 -> same_cmd w0 w1 -> same_cmd w0 w2).
    { intros w2 H1 H2. eapply same_cmd_trans; eassumption. }
    cbn [emit modify ret fst snd].
    destruct (HR x eq_refl) as [[Ex Hc] | [Hc HX]].
    + subst x. cbn [negb Z.eqb NVME_STATUS_ERROR_NO_RESOURCE NVME_STATUS_OK].
      cbn [ret fst snd]. split.
      * left. apply Hsame; [frame_side | exact Hc].
      * intros x Hx. injection Hx as <-. left. split; [reflexivity |].
        apply Hsame; [frame_side | exact Hc].
    + destruct (negb (x =? NVME_STATUS_OK)) eqn:Ex; cbn [ret fst snd]; split;
        try (right; apply Hsent; [frame_side | frame_side | exact Hc]);
        intros x' Hx; injection Hx as <-; right;
        (split; [apply Hsent; [frame_side | frame_side | exact Hc] |]).
      * destruct HX as [HX | HX]; [left; exact HX | right; right; exact HX].
      * right. left. reflexivity.
  - cbn [fst snd]. split; [| discriminate].
    destruct HE as [HE | (c & Hs & F1 & F2 & F3 & F4 & F5)]; [left; exact HE |].
    right. exists c. split; [exact Hs | apply io_command_intro; assumption].
  - cbn [fst snd]. split; [| discriminate].
    destruct HE as [HE | (c & Hs & F1 & F2 & F3 & F4 & F5)]; [left; exact HE |].
    right. exists c. split; [exact Hs | apply io_command_intro; assumption].
Qed.

Lemma transfer_spec_idle wr off n w r :
  snd r = w -> (forall x, fst r = Done x -> x = NVME_STATUS_ERROR_NO_RESOURCE) ->
  transfer_spec wr off n w r.
Proof.
  intros Hw Hx. split.
  - left. rewrite Hw. reflexivity.
  - intros x E. left. split; [apply Hx; exact E | rewrite Hw; reflexivity].
Qed.

(** [Read] and [Write] once the offset and the count have passed the
    checks. *)
Lemma Read_checked_spec p n w :
  transfer_spec false (m_ulOffset (dev w)) n w
    ((if negb (IS_CACHE_ALIGNED p n) then
        do pDMABuffer <- new_array n;
        if pDMABuffer =? 0 then ret NVME_STATUS_ERROR_NO_RESOURCE
        else Read_transfer p n (u32 (m_ulOffset (dev w) / NVME_LBA_SIZE))
               pDMABuffer pDMABuffer
      else Read_transfer p n (u32 (m_ulOffset (dev w) / NVME_LBA_SIZE)) p 0) w).
Proof.
  destruct (negb (IS_CACHE_ALIGNED p n)).
  - pose proof (new_array_same_submission n w) as HN. unfold bind.
    destruct (new_array n w) as [[dma | |] w1] eqn:EN; cbn [snd] in HN.
    + destruct (dma =? 0).
      * split; [left; apply HN |]. intros x Hx. injection Hx as <-.
        left. split; [reflexivity | apply HN].
      * eapply transfer_spec_prefix; [exact HN | apply Read_transfer_spec].
    + split; [left; apply HN | discriminate].
    + split; [left; apply HN | discriminate].
  - apply Read_transfer_spec.
Qed.

Lemma Write_checked_spec p n w :
  transfer_spec true (m_ulOffset (dev w)) n w
    ((if negb (IS_CACHE_ALIGNED p n) then
        do pDMABuffer <- new_array n;
        if pDMABuffer =? 0 then ret NVME_STATUS_ERROR_NO_RESOURCE
        else
          emit (EvMemcpy pDMABuffer p n) ;;
          Write_transfer n (u32 (m_ulOffset (dev w) / NVME_LBA_SIZE))
            pDMABuffer pDMABuffer
      else Write_transfer n (u32 (m_ulOffset (dev w) / NVME_LBA_SIZE)) p 0) w).
Proof.
  destruct (negb (IS_CACHE_ALIGNED p n)).
  - pose proof (new_array_same_submission n w) as HN. unfold bind at 1.
    destruct (new_array n w) as [[dma | |] w1] eqn:EN; cbn [snd] in HN.
    + destruct (dma =? 0).
      * split; [left; apply HN |]. intros x Hx. injection Hx as <-.
        left. split; [reflexivity | apply HN].
      * rewrite bind_emit.
        eapply transfer_spec_prefix; [| apply Write_transfer_spec].
        eapply same_submission_trans; [exact HN | frame_side].
    + split; [left; apply HN | discriminate].
    + split; [left; apply HN | discriminate].
  - apply Write_transfer_spec.
Qed.

(** [Read] and [Write] return BAD_PARAM with nothing done, or behave as
    the transfer does. *)
Lemma Read_spec p n w :
  Read p n w = (Done NVME_STATUS_ERROR_BAD_PARAM, w)
  \/ transfer_spec false (m_ulOffset (dev w)) n w (Read p n w).
Proof.
  unfold Read. rewrite bind_assert.
  destruct (negb (p =? 0));
    [| right; apply transfer_spec_idle; [reflexivity | discriminate]].
  rewrite bind_gets.
  destruct (negb (Z.land (m_ulOffset (dev w)) (NVME_LBA_SIZE - 1) =? 0));
    [left; reflexivity |].
  destruct ((n =? 0) || negb (Z.land n (NVME_LBA_SIZE - 1) =? 0));
    [left; reflexivity |].
  right. apply Read_checked_spec.
Qed.

Lemma Write_spec p n w :
  Write p n w = (Done NVME_STATUS_ERROR_BAD_PARAM, w)
  \/ transfer_spec true (m_ulOffset (dev w)) n w (Write p n w).
Proof.
  unfold Write. rewrite bind_assert.
  destruct (negb (p =? 0));
    [| right; apply transfer_spec_idle; [reflexivity | discriminate]].
  rewrite bind_gets.
  destruct (negb (Z.land (m_ulOffset (dev w)) (NVME_LBA_SIZE - 1) =? 0));
    [left; reflexivity |].
  destruct ((n =? 0) || negb (Z.land n (NVME_LBA_SIZE - 1) =? 0));
    [left; reflexivity |].
  right. apply Write_checked_spec.
Qed.

(** A request of whole blocks at an offset of whole blocks passes the
    checks. *)
Lemma Read_aligned_spec p n w :
  p <> 0 -> m_ulOffset (dev w) mod 512 = 0 -> n <> 0 -> n mod 512 = 0 ->
  transfer_spec false (m_ulOffset (dev w)) n w (Read p n w).
Proof.
  intros Hp Ho Hn Hm. unfold Read. rewrite bind_assert.
  replace (p =? 0) with false by (symmetry; apply Z.eqb_neq; exact Hp).
  cbn [negb]. rewrite bind_gets. rewrite !land_511, Ho, Hm.
  replace (n =? 0) with false by (symmetry; apply Z.eqb_neq; exact Hn).
  cbn [Z.eqb negb orb]. apply Read_checked_spec.
Qed.

Lemma Write_aligned_spec p n w :
  p <> 0 -> m_ulOffset (dev w) mod 512 = 0 -> n <> 0 -> n mod 512 = 0 ->
  transfer_spec true (m_ulOffset (dev w)) n w (Write p n w).
Proof.
  intros Hp Ho Hn Hm. unfold Write. rewrite bind_assert.
  replace (p =? 0) with false by (symmetry; apply Z.eqb_neq; exact Hp).
  cbn [negb]. rewrite bind_gets. rewrite !land_511, Ho, Hm.
  replace (n =? 0) with false by (symmetry; apply Z.eqb_neq; exact Hn).
  cbn [Z.eqb negb orb]. apply Write_checked_spec.
Qed.

(** What a transfer of whole blocks returns: never one of the results the
    driver gives without asking the controller but NO_RESOURCE, and the
    results LBA_RANGE and CONTROLLER only as the status of a completion. *)
Lemma transfer_spec_results wr off n w r x :
  n mod 512 = 0 -> transfer_spec wr off n w r -> fst r = Done x ->
  x <> NVME_STATUS_ERROR_BAD_PARAM /\ x <> NVME_STATUS_ERROR_READ_ONLY
  /\ (x = NVME_STATUS_ERROR_LBA_RANGE \/ x = NVME_STATUS_ERROR_CONTROLLER ->
        (exists c, submitted w (snd r) c /\ io_command wr off n c)
        /\ exists ce, In ce (in_cq (env w)) /\ x = status_result (status ce)).
Proof.
  intros Hm [_ HR] Hx. pose proof (to_int_mod512 n Hm) as Hi.
  assert (Hno : forall v, v mod 512 <> 0 -> to_int n <> v) by congruence.
  destruct (HR x Hx) as [[-> _] | [Hs [-> | [-> | (ce & Hin & ->)]]]].
  - split; [discriminate |]. split; [discriminate |].
    intros [E | E]; discriminate.
  - split; [discriminate |]. split; [discriminate |].
    intros [E | E]; discriminate.
  - split; [apply Hno; discriminate |]. split; [apply Hno; discriminate |].
    intros [E | E]; exfalso; revert E; apply Hno; discriminate.
  - split; [| split].
    + destruct (status_result_range (status ce)) as [-> | [-> | ->]]; discriminate.
    + destruct (status_result_range (status ce)) as [-> | [-> | ->]]; discriminate.
    + intros _. split; [exact Hs |]. exists ce. split; [exact Hin | reflexivity].
Qed.

End Read_Write.

(** ** Requests that need no resource

    A request of at most two pages needs no PRP list, and one from a
    cache-aligned buffer no bounce buffer: such a request always reaches
    the queue. *)

Section Small_requests.
Context `{Platform}.

Lemma submitted_later w w1 w2 c :
  submitted w w1 c -> same_cmd w1 w2 -> trace_extends w1 w2 ->
  submitted w w2 c.
Proof.
  intros Hs H1 H2.
  eapply submitted_compose; [apply same_submission_refl | exact Hs | exact H1 | exact H2].
Qed.

Lemma submitted_after_emit w ev w1 c :
  submitted (set_trace (fun t => t ++ [ev]) w) w1 c -> submitted w w1 c.
Proof.
  intros Hs.
  eapply submitted_compose;
    [| exact Hs | apply same_cmd_refl | apply trace_extends_refl].
  frame_side.
Qed.

Lemma IoPassThrough_small ns lba n buf wr w :
  0 < buf -> 0 < n -> buf + n * NVME_LBA_SIZE <= 2 ^ 64 ->
  n * NVME_LBA_SIZE <= first_remain buf + 4096 ->
  exists c,
    submitted w (snd (IoPassThrough ns lba n buf wr w)) c
    /\ opc c = (if wr then NVME_IO_OPC_WRITE else NVME_IO_OPC_READ)
    /\ nsid c = ns
    /\ cdw10 c = u32 (Z.land lba 0xffffffff)
    /\ cdw11 c = u32 (Z.land (Z.shiftr lba 32) 0xffffffff)
    /\ cdw12 c = u32 (n - 1)
    /\ prp1 c = PhysicalOf buf
    /\ prp2 c = (if n * NVME_LBA_SIZE <=? first_remain buf then 0
                 else PhysicalOf (page_of buf + 4096)).
Proof.
  intros Hb Hn Hr Hsmall.
  assert (HL : 0 < n * NVME_LBA_SIZE) by (unfold NVME_LBA_SIZE; lia).
  unfold IoPassThrough. rewrite !bind_assert.
  replace (buf =? 0) with false by (symmetry; apply Z.eqb_neq; lia).
  replace (n =? 0) with false by (symmetry; apply Z.eqb_neq; lia).
  cbn [negb]. rewrite (u64_small (n * NVME_LBA_SIZE)) by lia.
  assert (EB : exists prp,
            BuildForBuffer CNVMePRP_new buf (n * NVME_LBA_SIZE) w
            = (Done (true, prp), w)
            /\ m_uPrp1 prp = PhysicalOf buf
            /\ m_uPrp2 prp = (if n * NVME_LBA_SIZE <=? first_remain buf then 0
                              else PhysicalOf (page_of buf + 4096))).
  { destruct (Z.leb_spec (n * NVME_LBA_SIZE) (first_remain buf)) as [H1 | H1].
    - eexists. split; [apply BuildForBuffer_one_page; assumption |].
      split; reflexivity.
    - eexists. split; [apply BuildForBuffer_two_pages; try assumption; lia |].
      split; reflexivity. }
  destruct EB as (prp & EB & P1 & P2).
  unfold bind at 1. rewrite EB. cbn [negb].
  rewrite snd_bind.
  match goal with
  | |- context [SubmitCommand IoQueue ?o ?a ?b ?c ?d ?e ?f w] =>
      pose proof (SubmitCommand_io o a b c d e f w) as HS;
      destruct (SubmitCommand IoQueue o a b c d e f w) as [rs w2]
  end.
  cbv zeta in HS. cbn [fst snd] in HS. destruct HS as [HS _].
  eexists. split.
  - destruct rs as [x | |]; try exact HS.
    rewrite snd_bind.
    pose proof (CNVMePRP_delete_same_cmd prp w2) as D1.
    pose proof (CNVMePRP_delete_trace prp w2) as D2.
    destruct (CNVMePRP_delete prp w2) as [[[] | |] w3]; cbn [fst snd ret] in *;
      eapply submitted_later; eassumption.
  - cbn [opc nsid cdw10 cdw11 cdw12 prp1 prp2]. rewrite P1, P2. repeat split.
Qed.

(** What follows [IoPassThrough] in [Read] and [Write] leaves the command
    slots as they are. *)
Lemma Read_transfer_submits p n lba buf dma w c :
  submitted (set_trace (fun t => t ++ [EvInvalidateDataCacheRange buf n]) w)
    (snd (IoPassThrough NSID lba (u32 (n / NVME_LBA_SIZE)) buf false
            (set_trace (fun t => t ++ [EvInvalidateDataCacheRange buf n]) w))) c ->
  submitted w (snd (Read_transfer p n lba buf dma w)) c.
Proof.
  unfold Read_transfer. rewrite bind_emit. set (w0 := set_trace _ w).
  intros Hs. apply submitted_after_emit in Hs. rewrite snd_bind.
  destruct (IoPassThrough NSID lba (u32 (n / NVME_LBA_SIZE)) buf false w0)
    as [[x | |] w1]; cbn [snd] in Hs; try exact Hs.
  destruct (negb (x =? NVME_STATUS_OK)).
  - rewrite bind_emit. cbn [ret snd].
    eapply submitted_later; [exact Hs | frame_side | frame_side].
  - rewrite bind_emit. destruct (negb (dma =? 0)).
    + rewrite bind_bind, bind_emit, bind_emit. cbn [ret snd].
      eapply submitted_later; [exact Hs | frame_side |].
      exists [EvInvalidateDataCacheRange buf n; EvMemcpy p dma n; EvDeleteArray dma].
      cbn [trace set_trace]. rewrite <- !app_assoc. reflexivity.
    + rewrite bind_ret. cbn [ret snd].
      eapply submitted_later; [exact Hs | frame_side | frame_side].
Qed.

Lemma Write_transfer_submits n lba buf dma w c :
  submitted (set_trace (fun t => t ++ [EvCleanDataCacheRange buf n]) w)
    (snd (IoPassThrough NSID lba (u32 (n / NVME_LBA_SIZE)) buf true
            (set_trace (fun t => t ++ [EvCleanDataCacheRange buf n]) w))) c ->
  submitted w (snd (Write_transfer n lba buf dma w)) c.
Proof.
  unfold Write_transfer. rewrite bind_emit. set (w0 := set_trace _ w).
  intros Hs. apply submitted_after_emit in Hs. rewrite snd_bind.
  destruct (IoPassThrough NSID lba (u32 (n / NVME_LBA_SIZE)) buf true w0)
    as [[x | |] w1]; cbn [snd] in Hs; try exact Hs.
  rewrite bind_emit.
  destruct (negb (x =? NVME_STATUS_OK)); cbn [ret snd];
    (eapply submitted_later; [exact Hs | frame_side | frame_side]).
Qed.

Lemma small_count n :
  0 < n <= 8192 -> n mod 512 = 0 ->
  0 < u32 (n / NVME_LBA_SIZE) /\ u32 (n / NVME_LBA_SIZE) * NVME_LBA_SIZE = n.
Proof.
  intros Hn Hm. unfold NVME_LBA_SIZE.
  pose proof (Z.div_mod n 512 ltac:(lia)) as D.
  rewrite u32_small by lia. lia.
Qed.

(** A [Read] or [Write] of whole blocks, at most two pages, from a
    cache-aligned buffer hands its command to the I/O queue. *)
Lemma small_transfer_submits p n w :
  0 < p -> m_ulOffset (dev w) mod 512 = 0 -> 0 < n -> n mod 512 = 0 ->
  IS_CACHE_ALIGNED p n = true ->
  n <= first_remain p + 4096 -> p + n <= 2 ^ 64 ->
  (exists c, submitted w (snd (Read p n w)) c
     /\ io_command false (m_ulOffset (dev w)) n c
     /\ prp1 c = PhysicalOf p)
  /\ (exists c, submitted w (snd (Write p n w)) c
        /\ io_command true (m_ulOffset (dev w)) n c
        /\ prp1 c = PhysicalOf p).
Proof.
  intros Hp Ho Hn Hm Hca Hsmall Hr.
  assert (Hfr : first_remain p <= 4096).
  { unfold first_remain, NVME_PAGE_SIZE.
    pose proof (Z.mod_pos_bound p 4096 ltac:(lia)). lia. }
  destruct (small_count n ltac:(lia) Hm) as [Hb Hbn].
  split.
  - unfold Read. rewrite bind_assert.
    replace (p =? 0) with false by (symmetry; apply Z.eqb_neq; lia).
    cbn [negb]. rewrite bind_gets. rewrite !land_511, Ho, Hm.
    replace (n =? 0) with false by (symmetry; apply Z.eqb_neq; lia).
    cbn [Z.eqb negb orb]. rewrite Hca. cbn [negb].
    set (w0 := set_trace (fun t => t ++ [EvInvalidateDataCacheRange p n]) w).
    destruct (IoPassThrough_small NSID (u32 (m_ulOffset (dev w) / NVME_LBA_SIZE))
                (u32 (n / NVME_LBA_SIZE)) p false w0 Hp Hb
                ltac:(rewrite Hbn; lia) ltac:(rewrite Hbn; lia))
      as (c & Hs & F1 & F2 & F3 & F4 & F5 & F6 & _).
    exists c. split; [apply Read_transfer_submits; exact Hs |].
    split; [apply io_command_intro; assumption | exact F6].
  - unfold Write. rewrite bind_assert.
    replace (p =? 0) with false by (symmetry; apply Z.eqb_neq; lia).
    cbn [negb]. rewrite bind_gets. rewrite !land_511, Ho, Hm.
    replace (n =? 0) with false by (symmetry; apply Z.eqb_neq; lia).
    cbn [Z.eqb negb orb]. rewrite Hca. cbn [negb].
    set (w0 := set_trace (fun t => t ++ [EvCleanDataCacheRange p n]) w).
    destruct (IoPassThrough_small NSID (u32 (m_ulOffset (dev w) / NVME_LBA_SIZE))
                (u32 (n / NVME_LBA_SIZE)) p true w0 Hp Hb
                ltac:(rewrite Hbn; lia) ltac:(rewrite Hbn; lia))
      as (c & Hs & F1 & F2 & F3 & F4 & F5 & F6 & _).
    exists c. split; [apply Write_transfer_submits; exact Hs |].
    split; [apply io_command_intro; assumption | exact F6].
Qed.

End Small_requests.

(** ** Code that never consults the namespace size *)

Create HintDb nsblind.

Lemma ns_blind_ret {A} (a : A) : ns_blind (ret a).
Proof. intros n w. reflexivity. Qed.

Lemma ns_blind_abort {A} : ns_blind (@abort A).
Proof. intros n w. reflexivity. Qed.

Lemma ns_blind_stuck {A} : ns_blind (@stuck A).
Proof. intros n w. reflexivity. Qed.

Lemma ns_blind_assert b : ns_blind (assert b).
Proof. destruct b; intros n w; reflexivity. Qed.

Lemma ns_blind_gets {A} (f : World -> A) :
  (forall n w, f (with_ns n w) = f w) -> ns_blind (gets f).
Proof. intros Hf n w. unfold gets. rewrite Hf. reflexivity. Qed.

Lemma ns_blind_modify (g : World -> World) :
  (forall n w, g (with_ns n w) = with_ns n (g w)) -> ns_blind (modify g).
Proof. intros Hg n w. unfold modify. rewrite Hg. reflexivity. Qed.

Lemma ns_blind_bind {A B} (m : M A) (k : A -> M B) :
  ns_blind m -> (forall a, ns_blind (k a)) -> ns_blind (bind m k).
Proof.
  intros Hm Hk n w. unfold bind. rewrite Hm.
  destruct (m w) as [[a | |] w1]; cbn [fst snd]; try reflexivity.
  apply Hk.
Qed.

Lemma ns_blind_emit e : ns_blind (emit e).
Proof. apply ns_blind_modify. reflexivity. Qed.

Lemma ns_blind_the_queue pQueue : ns_blind (the_queue pQueue).
Proof. apply ns_blind_gets. intros n w. destruct pQueue; reflexivity. Qed.

Lemma ns_blind_update_queue pQueue g : ns_blind (update_queue pQueue g).
Proof. apply ns_blind_modify. intros n w. destruct pQueue; reflexivity. Qed.

#[local] Hint Resolve ns_blind_ret ns_blind_abort ns_blind_stuck
  ns_blind_assert ns_blind_emit ns_blind_the_queue ns_blind_update_queue
  : nsblind.

Ltac ns_struct :=
  repeat first
    [ solve [auto with nsblind]
    | apply ns_blind_bind; [| intros ?]
    | apply ns_blind_gets; intros; reflexivity
    | apply ns_blind_modify; intros; reflexivity
    | match goal with
      | |- ns_blind (if ?b then _ else _) => destruct b
      | |- ns_blind (match ?x with _ => _ end) => destruct x
      end ].

Lemma ns_blind_load_hdr p : ns_blind (load_hdr p).
Proof. unfold load_hdr. ns_struct. Qed.

Lemma ns_blind_GetTicks : ns_blind GetTicks.
Proof. unfold GetTicks. ns_struct. Qed.

Lemma ns_blind_load_completion : ns_blind load_completion.
Proof. unfold load_completion. ns_struct. Qed.

Lemma ns_blind_new_array n : ns_blind (new_array n).
Proof. unfold new_array. ns_struct. Qed.

#[local] Hint Resolve ns_blind_load_hdr ns_blind_GetTicks
  ns_blind_load_completion ns_blind_new_array : nsblind.

Lemma ns_blind_Allocate s a b : ns_blind (Allocate s a b).
Proof.
  unfold Allocate, Allocate_recycle, Allocate_carve, the_allocator,
    update_allocator, store_hdr.
  ns_struct.
Qed.

Lemma ns_blind_Free p : ns_blind (Free p).
Proof. unfold Free, the_allocator, update_allocator, store_hdr. ns_struct. Qed.

#[local] Hint Resolve ns_blind_Allocate ns_blind_Free : nsblind.

Lemma ns_blind_poll_loop fuel pQueue usCid nStart nTimeoutHZ :
  ns_blind (poll_loop fuel pQueue usCid nStart nTimeoutHZ).
Proof.
  induction fuel as [| fuel IH]; cbn [poll_loop]; [auto with nsblind |].
  unfold MmioWrite32. ns_struct.
Qed.

#[local] Hint Resolve ns_blind_poll_loop : nsblind.

Section NS.
Context `{Platform}.

Lemma ns_blind_BuildForBuffer this p n : ns_blind (BuildForBuffer this p n).
Proof. unfold BuildForBuffer. ns_struct. Qed.

Lemma ns_blind_CNVMePRP_delete this : ns_blind (CNVMePRP_delete this).
Proof. unfold CNVMePRP_delete. ns_struct. Qed.

Lemma ns_blind_PollForCompletion pQueue usCid nTimeoutHZ :
  ns_blind (PollForCompletion pQueue usCid nTimeoutHZ).
Proof. unfold PollForCompletion. ns_struct. Qed.

#[local] Hint Resolve ns_blind_BuildForBuffer ns_blind_CNVMePRP_delete
  ns_blind_PollForCompletion : nsblind.

Lemma ns_blind_SubmitCommand pQueue o ns c10 c11 c12 p1 p2 :
  ns_blind (SubmitCommand pQueue o ns c10 c11 c12 p1 p2).
Proof. unfold SubmitCommand, store_cmd, MmioWrite32. ns_struct. Qed.

#[local] Hint Resolve ns_blind_SubmitCommand : nsblind.

Lemma ns_blind_IoPassThrough ns lba n p b : ns_blind (IoPassThrough ns lba n p b).
Proof. unfold IoPassThrough. ns_struct. Qed.

#[local] Hint Resolve ns_blind_IoPassThrough : nsblind.

Lemma ns_blind_Read p n : ns_blind (Read p n).
Proof. unfold Read, Read_transfer. ns_struct. Qed.

Lemma ns_blind_Write p n : ns_blind (Write p n).
Proof. unfold Write, Write_transfer. ns_struct. Qed.

End NS.

(** * The driver against its specification *)

(** C1 (the driver departs from its specification, which has the doorbells
    of queue 1 at 0x1000 + 2*(4<<DSTRD) and 4 bytes further). [Initialize]
    shifts the DSTRD field of CAP left, out of the word, where the field is
    32 bits to the right: the stride it derives is 4 whatever CAP is, so
    [Initialize] leaves the stride at 4 or, where it gives up before it
    reads CAP, as it was, and the doorbells of queue 1 are written at
    0x1008 and 0x100C. With DSTRD = 1 the specification has 0x1010 and
    0x1014; the driver initialised on such a controller rings 0x1008 and
    0x100C for its first I/O command. *)
Theorem C1_doorbell_stride_ignores_DSTRD `{Platform} :
  (forall ulCaps, stride_of_caps ulCaps = 4)
  /\ (forall ulCaps,
        NVME_DOORBELL_SQ_OFFSET (stride_of_caps ulCaps) IOQID = 0x1008
        /\ NVME_DOORBELL_CQ_OFFSET (stride_of_caps ulCaps) IOQID = 0x100C)
  /\ (forall w,
        m_nDoorbellStride (dev (snd (Initialize w))) = 4
        \/ m_nDoorbellStride (dev (snd (Initialize w)))
           = m_nDoorbellStride (dev w))
  /\ (let DSTRD := 1 in
      let w := sample_booted (Z.shiftl DSTRD NVME_REG_CAP_DSTRD__SHIFT) 0
                 [sample_completion IOQID 0 0 0] in
      m_nDoorbellStride (dev w) = 4
      /\ doorbell_writes (trace (snd (@Flush sample_platform NSID w)))
         = doorbell_writes (trace w) ++ [(0x1008, 1); (0x100C, 1)]
      /\ 0x1000 + 2 * Z.shiftl 4 DSTRD = 0x1010).
Proof.
  split; [exact stride_of_caps_const |].
  split.
  { intros v. rewrite stride_of_caps_const. split; reflexivity. }
  split.
  - apply (keeps_Initialize
             (fun w w' =>
                m_nDoorbellStride (dev w') = 4
                \/ m_nDoorbellStride (dev w') = m_nDoorbellStride (dev w)));
      try (intros; right; reflexivity).
    + intros a b c Hb [Hc | Hc]; [left; exact Hc |]. rewrite Hc. exact Hb.
    + intros v w. left. apply stride_of_caps_const.
  - cbv zeta. split; [vm_compute; reflexivity |].
    split; vm_compute; reflexivity.
Qed.

(** C2 (the driver departs from its specification, which has the starting LBA
    offset/512 with its high 32 bits in CDW11). [Read] and [Write] keep the
    block address in an [unsigned]: whatever they submit carries
    (offset/512) mod 2^32 in CDW10 and 0 in CDW11. After [Seek] to 2^41,
    block 2^32, a [Read] of one block is submitted for block 0. *)
Theorem C2_starting_LBA_truncated `{Platform} (pBuffer ulCount : Z) (w : World) :
  (Read pBuffer ulCount w = (Done NVME_STATUS_ERROR_BAD_PARAM, w)
   \/ same_cmd w (snd (Read pBuffer ulCount w))
   \/ exists c, submitted w (snd (Read pBuffer ulCount w)) c
        /\ cdw10 c = (m_ulOffset (dev w) / NVME_LBA_SIZE) mod 2 ^ 32
        /\ cdw11 c = 0)
  /\ (Write pBuffer ulCount w = (Done NVME_STATUS_ERROR_BAD_PARAM, w)
      \/ same_cmd w (snd (Write pBuffer ulCount w))
      \/ exists c, submitted w (snd (Write pBuffer ulCount w)) c
           /\ cdw10 c = (m_ulOffset (dev w) / NVME_LBA_SIZE) mod 2 ^ 32
           /\ cdw11 c = 0)
  /\ (let w0 := sample_booted 0 0 [sample_completion IOQID 0 0 0] in
      let r := (Seek (2 ^ 41) ;; @Read sample_platform 0x400000 512) w0 in
      fst r = Done 512
      /\ (cdw10 <$> mem_cmd (mem (snd r)) !! io_slot w0) = Some 0
      /\ (cdw11 <$> mem_cmd (mem (snd r)) !! io_slot w0) = Some 0
      /\ Z.shiftr (2 ^ 41 / NVME_LBA_SIZE) 32 = 1).
Proof.
  split; [| split].
  - destruct (Read_spec pBuffer ulCount w) as [E | [[S | (c & S & I)] _]].
    + left. exact E.
    + right. left. exact S.
    + right. right. exists c. destruct I as (_ & _ & I1 & I2 & _). auto.
  - destruct (Write_spec pBuffer ulCount w) as [E | [[S | (c & S & I)] _]].
    + left. exact E.
    + right. left. exact S.
    + right. right. exists c. destruct I as (_ & _ & I1 & I2 & _). auto.
  - cbv zeta. repeat split; vm_compute; reflexivity.
Qed.

(** C3 (the driver departs from its specification, which has IOSQES = 6 in the value
    written). The enable step clears IOCQES twice and IOSQES never: the
    value it writes has IOCQES = 4 and EN = 1, and in IOSQES the bits of 6
    on top of those that were there. Where CC reads 0x00080000, IOSQES
    8, [Initialize] writes 0x004E0001, IOSQES 14. *)
Theorem C3_enable_keeps_old_IOSQES_bits :
  (forall v,
     CC_IOCQES (nCC_enable (u32 v)) = 4
     /\ CC_EN (nCC_enable (u32 v)) = 1
     /\ CC_IOSQES (nCC_enable (u32 v)) = Z.lor (CC_IOSQES (u32 v)) 6)
  /\ (let nCC := 0x00080000 in
      CC_IOSQES nCC = 8
      /\ CC_IOSQES (nCC_enable nCC) = 14
      /\ writes_to NVME_REG_CC (trace (sample_booted 0 nCC [])) = [0; 0x004E0001]).
Proof.
  split.
  - intros v. split; [apply nCC_enable_IOCQES |].
    split; [apply nCC_enable_EN | apply nCC_enable_IOSQES].
  - cbv zeta. repeat split; vm_compute; reflexivity.
Qed.

(** C4. For a non-null buffer [B] of [L > 0] bytes that lies in the address
    space, [BuildForBuffer] sets PRP1 to the bus address of [B]; sets PRP2
    to 0 when [L] is at most [first_remain B]; sets PRP2 to the bus address
    of the page after that of [B] when the rest is at most a page; and
    otherwise allocates a list block, zeroes it, writes the bus addresses of
    the pages from [page_of B + 4096] on into its first
    ceil((L - first_remain B)/4096) 8-byte entries and sets PRP2 to the bus
    address of the block. It returns [false] only where that allocation
    returns null. *)
Theorem C4_BuildForBuffer `{Platform} (this : CNVMePRP) (B L : Z) (w : World) :
  0 < B -> 0 < L -> B + L <= 2 ^ 64 ->
  let needed := ceil_div (L - first_remain B) NVME_PAGE_SIZE in
  let pages := ceil_div needed (NVME_PAGE_SIZE / PRP_ENTRY_SIZE) in
  if L <=? first_remain B then
    BuildForBuffer this B L w
    = (Done (true, set_m_uPrp2 0 (set_m_uPrp1 (PhysicalOf B) this)), w)
  else if L - first_remain B <=? NVME_PAGE_SIZE then
    BuildForBuffer this B L w
    = (Done (true, set_m_uPrp2 (PhysicalOf (page_of B + NVME_PAGE_SIZE))
                     (set_m_uPrp1 (PhysicalOf B) this)), w)
  else
    match Allocate (pages * NVME_PAGE_SIZE) NVME_PAGE_SIZE NVME_BLOCK_BOUNDARY w
    with
    | (Done pList, w1) =>
        if pList =? 0 then
          exists prp, BuildForBuffer this B L w = (Done (false, prp), w1)
        else
          exists w2,
            BuildForBuffer this B L w
            = (Done (true, mkPRP (PhysicalOf B) (PhysicalOf pList) pList
                             (u32 pages)), w2)
            /\ (forall i, 0 <= i < needed ->
                  mem_u64 (mem w2) !! u64 (pList + PRP_ENTRY_SIZE * i)
                  = Some (PhysicalOf (page_of B + NVME_PAGE_SIZE * (i + 1))))
            /\ (forall i,
                  needed <= i < pages * (NVME_PAGE_SIZE / PRP_ENTRY_SIZE) ->
                  mem_u64 (mem w2) !! u64 (pList + PRP_ENTRY_SIZE * i) = Some 0)
            /\ dev w2 = dev w1 /\ mem_hdr (mem w2) = mem_hdr (mem w1)
            /\ mem_cmd (mem w2) = mem_cmd (mem w1)
            /\ trace w2 = trace w1 /\ env w2 = env w1
    | (Abort, w1) => BuildForBuffer this B L w = (Abort, w1)
    | (Stuck, w1) => BuildForBuffer this B L w = (Stuck, w1)
    end.
Proof.
  intros HB HL HBL needed pages.
  change (NVME_PAGE_SIZE / PRP_ENTRY_SIZE) with 512 in *.
  change NVME_PAGE_SIZE with 4096 in *. change PRP_ENTRY_SIZE with 8.
  destruct (Z.leb_spec L (first_remain B)) as [H1 | H1].
  { apply BuildForBuffer_one_page; assumption. }
  destruct (Z.leb_spec (L - first_remain B) 4096) as [H2 | H2].
  { apply BuildForBuffer_two_pages; lia. }
  rewrite (BuildForBuffer_list this B L w HB HL HBL ltac:(lia)).
  cbv zeta. fold needed. fold pages.
  change PRP_PAGE_SIZE with 4096.
  destruct (Allocate (pages * 4096) 4096 NVME_BLOCK_BOUNDARY w)
    as [[pList | |] w1]; try reflexivity.
  destruct (pList =? 0); [eexists; reflexivity |].
  eexists. split; [reflexivity |].
  destruct (prp_list_entries pList B L (mem_u64 (mem w1)) HB HL HBL ltac:(lia))
    as [E1 E2].
  split; [exact E1 |]. split; [exact E2 |].
  repeat split.
Qed.

(** C4 on the machine of the examples: 64 KiB at a page boundary take a
    list of 15 entries. *)
Lemma C4_BuildForBuffer_witness :
  (0 < 0x400000 /\ 0 < 0x10000 /\ 0x400000 + 0x10000 <= 2 ^ 64)
  /\ exists w2,
       @BuildForBuffer sample_platform CNVMePRP_new 0x400000 0x10000
         (sample_world 0 0 [])
       = (Done (true, mkPRP 0x1000400000 0x1000002000 0x2000 1), w2)
       /\ mem_u64 (mem w2) !! 0x2000 = Some 0x1000401000
       /\ mem_u64 (mem w2) !! (0x2000 + 8 * 14) = Some 0x100040F000
       /\ mem_u64 (mem w2) !! (0x2000 + 8 * 15) = Some 0.
Proof.
  split; [lia |].
  pose proof (@C4_BuildForBuffer sample_platform CNVMePRP_new 0x400000 0x10000
                (sample_world 0 0 []) ltac:(lia) ltac:(lia) ltac:(lia)) as T.
  cbv zeta in T.
  change (0x10000 <=? first_remain 0x400000) with false in T.
  change (0x10000 - first_remain 0x400000 <=? NVME_PAGE_SIZE) with false in T.
  cbv iota in T.
  destruct (Allocate _ _ _ (sample_world 0 0 [])) as [[pList | |] w1] eqn:E in T;
    vm_compute in E; try discriminate E.
  injection E as <- <-.
  change (8192 =? 0) with false in T. cbv iota in T.
  destruct T as (w2 & EB & Hent & Hzero & _).
  exists w2. split; [exact EB |].
  split; [exact (Hent 0 ltac:(vm_compute; split; [discriminate | reflexivity])) |].
  split; [exact (Hent 14 ltac:(vm_compute; split; [discriminate | reflexivity])) |].
  exact (Hzero 15 ltac:(vm_compute; split; [discriminate | reflexivity])).
Defined.

(** C5. After [CreateAdminQueues] and [CreateIoQueue] the expected phase of
    the queue is 1 and its head 0; every completion [PollForCompletion]
    takes moves the head of the 64-entry queue one on modulo 64, and the
    expected phase changes exactly when the head comes to 0; so the 64
    completions after the queues are made change the phase once and bring
    the head back to 0. *)
Theorem C5_phase_discipline `{Platform}
    (w0 w1 w2 w3 w : World) (uQueueId uEntries : Z)
    (pQueue : QueueRef) (usCid nTimeoutHZ : Z) (q : TQueue) :
  CreateAdminQueues w0 = (Done NVME_STATUS_OK, w1) ->
  CreateIoQueue uQueueId uEntries w2 = (Done NVME_STATUS_OK, w3) ->
  nEntries (queue_of pQueue w) = 64 -> 0 <= nCqHead (queue_of pQueue w) < 64 ->
  nEntries q = 64 -> nCqHead q = 0 -> bCqPhase q = true ->
  (bCqPhase (m_AdminQueue (dev w1)) = true /\ nCqHead (m_AdminQueue (dev w1)) = 0)
  /\ (bCqPhase (m_IoQueue (dev w3)) = true /\ nCqHead (m_IoQueue (dev w3)) = 0)
  /\ (let r := PollForCompletion pQueue usCid nTimeoutHZ w in
      let before := queue_of pQueue w in
      let after := queue_of pQueue (snd r) in
      match fst r with
      | Done x =>
          if x =? NVME_STATUS_ERROR_TIMEOUT then after = before
          else
            after = advance_head before
            /\ nCqHead after = (nCqHead before + 1) mod 64
            /\ (bCqPhase after = negb (bCqPhase before) <-> nCqHead after = 0)
            /\ (bCqPhase after = bCqPhase before <-> nCqHead after <> 0)
      | _ => after = before
      end)
  /\ (nCqHead (Nat.iter 64 advance_head q) = 0
      /\ bCqPhase (Nat.iter 64 advance_head q) = false
      /\ phase_toggles 64 q = 1%nat).
Proof.
  intros HA HI He Hh Hqe Hqh Hqp.
  split; [destruct (CreateAdminQueues_initial _ _ HA) as (? & ? & _); auto |].
  split; [destruct (CreateIoQueue_initial _ _ _ _ HI) as (? & ? & _); auto |].
  split.
  - pose proof (PollForCompletion_spec pQueue usCid nTimeoutHZ w) as S.
    cbv zeta in *.
    destruct (fst (PollForCompletion pQueue usCid nTimeoutHZ w)) as [x | |];
      try exact S.
    destruct S as [[-> S] | (ce & _ & _ & -> & S)].
    + exact S.
    + replace (status_result (status ce) =? NVME_STATUS_ERROR_TIMEOUT) with false
        by (symmetry; apply Z.eqb_neq, status_result_not_timeout).
      split; [exact S |]. rewrite S.
      destruct (advance_head_spec _ He Hh) as (A1 & A2 & _).
      split; [exact A1 |]. rewrite A2, A1.
      destruct (Z.eqb_spec ((nCqHead (queue_of pQueue w) + 1) mod 64) 0) as [E | E];
        destruct (bCqPhase (queue_of pQueue w)); cbn; split; split; intros;
        congruence.
  - destruct (advance_head_wrap q Hqe Hqh) as (W1 & W2 & W3).
    cbv zeta in *. rewrite Hqp in W2. auto.
Qed.

(** C5 on the machine of the examples. *)
Lemma C5_phase_discipline_witness :
  let w0 := sample_world 0 0 [] in
  let w1 := snd (@CreateAdminQueues sample_platform w0) in
  let w3 := snd (@CreateIoQueue sample_platform IOQID NVME_IO_QUEUE_ENTRIES w1) in
  let q := m_IoQueue (dev w3) in
  (@CreateAdminQueues sample_platform w0 = (Done NVME_STATUS_OK, w1)
   /\ @CreateIoQueue sample_platform IOQID NVME_IO_QUEUE_ENTRIES w1
      = (Done NVME_STATUS_OK, w3)
   /\ nEntries (queue_of AdminQueue w3) = 64
   /\ 0 <= nCqHead (queue_of AdminQueue w3) < 64
   /\ nEntries q = 64 /\ nCqHead q = 0 /\ bCqPhase q = true)
  /\ nCqHead (queue_of AdminQueue (snd (PollForCompletion AdminQueue 2 500 w3))) = 3
  /\ nCqHead (Nat.iter 64 advance_head q) = 0
  /\ bCqPhase (Nat.iter 64 advance_head q) = false
  /\ phase_toggles 64 q = 1%nat.
Proof.
  intros w0 w1 w3 q.
  assert (HA : @CreateAdminQueues sample_platform w0 = (Done NVME_STATUS_OK, w1))
    by (vm_compute; reflexivity).
  assert (HI : @CreateIoQueue sample_platform IOQID NVME_IO_QUEUE_ENTRIES w1
               = (Done NVME_STATUS_OK, w3)) by (vm_compute; reflexivity).
  assert (He : nEntries (queue_of AdminQueue w3) = 64) by (vm_compute; reflexivity).
  assert (Hh : 0 <= nCqHead (queue_of AdminQueue w3) < 64)
    by (vm_compute; split; [discriminate | reflexivity]).
  assert (Hqe : nEntries q = 64) by (vm_compute; reflexivity).
  assert (Hqh : nCqHead q = 0) by (vm_compute; reflexivity).
  assert (Hqp : bCqPhase q = true) by (vm_compute; reflexivity).
  split; [exact (conj HA (conj HI (conj He (conj Hh (conj Hqe (conj Hqh Hqp)))))) |].
  destruct (@C5_phase_discipline sample_platform w0 w1 w1 w3 w3 IOQID
              NVME_IO_QUEUE_ENTRIES AdminQueue 2 500 q HA HI He Hh Hqe Hqh Hqp)
    as (_ & _ & T & W).
  split; [| exact W].
  cbv zeta in T.
  assert (Er : fst (PollForCompletion AdminQueue 2 500 w3) = Done NVME_STATUS_OK)
    by (vm_compute; reflexivity).
  rewrite Er in T. change (NVME_STATUS_OK =? NVME_STATUS_ERROR_TIMEOUT) with false in T.
  destruct T as (_ & T & _). rewrite T. vm_compute. reflexivity.
Defined.

Lemma PollForCompletion_takes_first pQueue usCid nTimeoutHZ w ce rest :
  usCid < nEntries (queue_of pQueue w) -> in_ticks (env w) <> [] ->
  in_cq (env w) = ce :: rest ->
  completion_matches (queue_of pQueue w) usCid ce = true ->
  fst (PollForCompletion pQueue usCid nTimeoutHZ w)
  = Done (status_result (status ce)).
Proof.
  intros Hc Ht Ecq Hm. unfold PollForCompletion. mstep. rewrite bind_assert.
  replace (usCid <? nEntries _) with true
    by (symmetry; apply Z.ltb_lt; destruct pQueue; exact Hc).
  destruct (in_ticks (env w)) as [| t ticks] eqn:Et; [congruence |].
  rewrite bind_GetTicks with (t := t) (rest := ticks) by exact Et.
  mstep. cbn [in_cq env set_env set_in_ticks]. rewrite Ecq. cbn [length].
  rewrite poll_loop_takes with (ce := ce) (rest := rest).
  - reflexivity.
  - exact Ecq.
  - rewrite <- Hm. destruct pQueue; reflexivity.
Qed.



(** C7. [Read] and [Write] on an offset that is not a multiple of 512, or
    for a count that is zero or not a multiple of 512, return BAD_PARAM
    and leave the world as it was: no slot written, no doorbell rung, no
    member of the device changed. *)
Theorem C7_misaligned_is_BAD_PARAM `{Platform} (pBuffer ulCount : Z) (w : World) :
  pBuffer <> 0 ->
  m_ulOffset (dev w) mod 512 <> 0 \/ ulCount = 0 \/ ulCount mod 512 <> 0 ->
  Read pBuffer ulCount w = (Done NVME_STATUS_ERROR_BAD_PARAM, w)
  /\ Write pBuffer ulCount w = (Done NVME_STATUS_ERROR_BAD_PARAM, w).
Proof.
  intros Hp Hbad. unfold Read, Write. rewrite !bind_assert.
  replace (pBuffer =? 0) with false by (symmetry; apply Z.eqb_neq; exact Hp).
  cbn [negb]. rewrite !bind_gets. rewrite !land_511.
  destruct (Z.eqb_spec (m_ulOffset (dev w) mod 512) 0) as [Eo | Eo];
    cbn [negb]; [| split; reflexivity].
  destruct (Z.eqb_spec ulCount 0) as [Ec | Ec]; cbn [orb]; [split; reflexivity |].
  destruct (Z.eqb_spec (ulCount mod 512) 0) as [Em | Em]; cbn [negb];
    [| split; reflexivity].
  exfalso. destruct Hbad as [Hb | [Hb | Hb]]; contradiction.
Qed.

(** C7 on the machine of the examples: a count of 100 bytes. *)
Lemma C7_misaligned_is_BAD_PARAM_witness :
  let w := sample_booted 0 0 [] in
  (0x400000 <> 0 /\ (m_ulOffset (dev w) mod 512 <> 0 \/ 100 = 0 \/ 100 mod 512 <> 0))
  /\ @Read sample_platform 0x400000 100 w = (Done NVME_STATUS_ERROR_BAD_PARAM, w)
  /\ @Write sample_platform 0x400000 100 w = (Done NVME_STATUS_ERROR_BAD_PARAM, w).
Proof.
  intros w.
  assert (Hp : 0x400000 <> 0) by discriminate.
  assert (Hb : m_ulOffset (dev w) mod 512 <> 0 \/ 100 = 0 \/ 100 mod 512 <> 0)
    by (right; right; vm_compute; discriminate).
  split; [split; assumption |].
  exact (@C7_misaligned_is_BAD_PARAM sample_platform 0x400000 100 w Hp Hb).
Defined.

(** After [Free] has taken a block of the recycled specification, the block
    is the head of the free list. *)
Lemma Free_recyclable w p h :
  0 < p < 2 ^ 64 -> p mod 4096 = 0 ->
  m_nMemStart (m_Allocator (dev w)) <> 0 ->
  m_nMemEnd (m_Allocator (dev w)) <> 0 ->
  header_of p w = Some h -> canonical h ->
  exists w1,
    Free p w = (Done tt, w1)
    /\ m_pFreeList (m_Allocator (dev w1)) = u64 (p - sizeof_TNVMeBlockHeader)
    /\ header_of p w1 = Some (set_pNext (m_pFreeList (m_Allocator (dev w))) h)
    /\ m_nMemStart (m_Allocator (dev w1)) = m_nMemStart (m_Allocator (dev w))
    /\ m_nMemEnd (m_Allocator (dev w1)) = m_nMemEnd (m_Allocator (dev w))
    /\ trace w1 = trace w
    /\ recyclable p w1.
Proof.
  intros Hp Hal Hst Hen Hh Hc. eexists. split.
  { apply Free_canonical with (h := h); [lia | exact Hh | exact Hc]. }
  assert (Hh1 : header_of p
            (set_dev (fun d =>
               set_m_Allocator
                 (set_m_pFreeList (u64 (p - sizeof_TNVMeBlockHeader))
                    (m_Allocator d)) d)
               (set_mem (set_mem_hdr (fun m =>
                  <[u64 (p - sizeof_TNVMeBlockHeader)
                    := set_pNext (m_pFreeList (m_Allocator (dev w))) h]> m)) w))
            = Some (set_pNext (m_pFreeList (m_Allocator (dev w))) h)).
  { unfold header_of. simpl. apply lookup_insert_eq. }
  split; [reflexivity |]. split; [exact Hh1 |].
  split; [reflexivity |]. split; [reflexivity |]. split; [reflexivity |].
  unfold recyclable. cbv zeta.
  split; [exact Hst |]. split; [exact Hen |]. split; [exact Hp |].
  split; [exact Hal |]. split; [reflexivity |].
  eexists. split; [exact Hh1 | apply canonical_set_pNext; exact Hc].
Qed.

Lemma arena_consumed_same w w1 w2 :
  m_nMemStart (m_Allocator (dev w2)) = m_nMemStart (m_Allocator (dev w1)) ->
  m_nMemEnd (m_Allocator (dev w2)) = m_nMemEnd (m_Allocator (dev w1)) ->
  arena_consumed w w2 = arena_consumed w w1.
Proof.
  intros Hs He. unfold arena_consumed, GetFreeSpace. rewrite Hs, He. reflexivity.
Qed.

Lemma arena_consumed_refl w : arena_consumed w w = 0.
Proof. unfold arena_consumed. lia. Qed.

Lemma land_not64_ones B k :
  0 <= k < 64 -> 0 <= B < 2 ^ 64 ->
  Z.land B (not64 (Z.ones k)) = B - B mod 2 ^ k.
Proof.
  intros Hk HB. unfold not64, u64, wrap.
  rewrite <- Z.land_ones by lia.
  rewrite Z.land_assoc. rewrite (Z.land_comm B), <- Z.land_assoc.
  rewrite (Z.land_ones B) by lia. rewrite (Z.mod_small B) by lia.
  rewrite Z.land_comm. rewrite <- Z.ldiff_land.
  rewrite Z.ldiff_ones_r by lia.
  rewrite Z.shiftr_div_pow2, Z.shiftl_mul_pow2 by lia.
  pose proof (Z.div_mod B (2 ^ k)). lia.
Qed.

Lemma round_up_4096 s :
  0 <= s -> s + 4095 < 2 ^ 64 ->
  (if negb (Z.land s 4095 =? 0)
   then Z.land (u64 (s + 4095)) (not64 4095) else s)
  = 4096 * ((s + 4095) / 4096).
Proof.
  intros Hs Hr. rewrite land_4095.
  pose proof (Z.div_mod s 4096 ltac:(lia)) as D.
  pose proof (Z.mod_pos_bound s 4096 ltac:(lia)) as B.
  destruct (Z.eqb_spec (s mod 4096) 0) as [E | E]; cbn [negb].
  - replace (s + 4095) with (4095 + (s / 4096) * 4096) by lia.
    rewrite Z.div_add by lia. change (4095 / 4096) with 0. lia.
  - rewrite u64_small by lia. rewrite land_not64_4095 by lia.
    pose proof (Z.div_mod (s + 4095) 4096 ltac:(lia)). lia.
Qed.

Lemma same_megabyte p :
  0 <= p -> p + 4096 < 2 ^ 64 -> p mod 4096 = 0 ->
  Z.land p (not64 (Z.ones 20))
  = Z.land (u64 (u64 (p + 4096) - 1)) (not64 (Z.ones 20)).
Proof.
  intros Hp Hr Ha.
  rewrite (u64_small (p + 4096)) by lia. rewrite u64_small by lia.
  rewrite !land_not64_ones by lia.
  pose proof (Z.div_mod p 4096 ltac:(lia)) as D.
  pose proof (Z.div_mod p (2 ^ 20) ltac:(lia)) as D'.
  pose proof (Z.mod_pos_bound p (2 ^ 20) ltac:(lia)) as B'.
  assert (M : (p mod 2 ^ 20) mod 4096 = 0).
  { replace (p mod 2 ^ 20) with ((p / 4096 - 256 * (p / 2 ^ 20)) * 4096) by lia.
    apply Z.mod_mul. lia. }
  pose proof (Z.div_mod (p mod 2 ^ 20) 4096 ltac:(lia)) as D2.
  assert (E : (p + 4096 - 1) mod 2 ^ 20 = p mod 2 ^ 20 + 4095).
  { symmetry. apply Z.mod_unique with (q := p / 2 ^ 20); lia. }
  lia.
Qed.

(** The first block of the recycled specification: what [Allocate] makes
    of an arena with an empty free list and room for the block. *)
Lemma Allocate_first w size align boundary :
  fits size align boundary ->
  m_pFreeList (m_Allocator (dev w)) = 0 ->
  0 < m_nMemStart (m_Allocator (dev w)) ->
  m_nMemStart (m_Allocator (dev w)) + 8215 <= m_nMemEnd (m_Allocator (dev w)) ->
  m_nMemEnd (m_Allocator (dev w)) < 2 ^ 64 ->
  let p := 4096 * ((m_nMemStart (m_Allocator (dev w)) + 24 + 4095) / 4096) in
  exists w1,
    Allocate size align boundary w = (Done p, w1)
    /\ m_nMemStart (m_Allocator (dev w1)) = p + 4096
    /\ m_nMemEnd (m_Allocator (dev w1)) = m_nMemEnd (m_Allocator (dev w))
    /\ arena_consumed w w1 = p + 4096 - m_nMemStart (m_Allocator (dev w))
    /\ 4096 + 24 <= arena_consumed w w1 <= 4096 + 24 + 4095.
Proof.
  intros (Hs & Ha & Hb) Hfl Hst Hroom Hend p.
  set (s := m_nMemStart (m_Allocator (dev w))) in *.
  set (e := m_nMemEnd (m_Allocator (dev w))) in *.
  pose proof (Z.div_mod (s + 24 + 4095) 4096 ltac:(lia)) as D.
  pose proof (Z.mod_pos_bound (s + 24 + 4095) 4096 ltac:(lia)) as B.
  assert (Hp : s + 24 <= p <= s + 24 + 4095) by (subst p; lia).
  assert (Hpa : p mod 4096 = 0).
  { subst p. rewrite Z.mul_comm. apply Z.mod_mul. lia. }
  unfold Allocate. rewrite !bind_assert.
  replace (size >? 0) with true by (symmetry; apply Z.gtb_lt; lia).
  replace (align =? 0) with false by (symmetry; apply Z.eqb_neq; lia).
  replace (align <=? boundary) with true by (symmetry; apply Z.leb_le; lia).
  cbn [negb]. unfold the_allocator. rewrite bind_gets. rewrite !bind_assert.
  fold s. fold e.
  replace (s =? 0) with false by (symmetry; apply Z.eqb_neq; lia).
  replace (e =? 0) with false by (symmetry; apply Z.eqb_neq; lia).
  cbn [negb].
  replace (size <=? NVME_BLOCK_SIZE) with true by (symmetry; apply Z.leb_le; lia).
  replace (align <=? NVME_BLOCK_ALIGN) with true by (symmetry; apply Z.leb_le; lia).
  replace (boundary <=? NVME_BLOCK_BOUNDARY) with true
    by (symmetry; apply Z.leb_le; lia).
  cbn [andb]. rewrite Hfl. cbn [Z.eqb negb].
  unfold Allocate_carve, the_allocator. rewrite bind_gets. cbv zeta.
  fold s. fold e.
  change (u64 (NVME_BLOCK_ALIGN - 1)) with 4095.
  change (u64 (NVME_BLOCK_BOUNDARY - 1)) with (Z.ones 20).
  change NVME_BLOCK_SIZE with 4096. change sizeof_TNVMeBlockHeader with 24.
  rewrite (u64_small (s + 24)) by lia.
  rewrite (round_up_4096 (s + 24)) by lia. fold p.
  rewrite <- (same_megabyte p) by lia. rewrite Z.eqb_refl. cbn [negb].
  rewrite (u64_small (p + 4096)) by lia. rewrite (u64_small (p - 24)) by lia.
  replace (p - 24 + 24) with p by lia. rewrite (u64_small p) by lia.
  rewrite land_4095, Hpa.
  replace (p + 4096 >? e) with false
    by (symmetry; rewrite Z.gtb_ltb; apply Z.ltb_ge; lia).
  unfold update_allocator, store_hdr. rewrite !bind_modify, bind_assert.
  cbn [Z.eqb ret]. eexists. split; [reflexivity |].
  cbn [dev set_dev set_mem m_Allocator set_m_Allocator m_nMemStart m_nMemEnd
       set_m_nMemStart].
  split; [reflexivity |]. split; [reflexivity |].
  assert (A : arena_consumed w
                (set_mem
                   (set_mem_hdr
                      (fun m =>
                       <[p - 24 := mkHeader NVME_BLOCK_MAGIC (u32 4096)
                                     (u32 NVME_BLOCK_ALIGN)
                                     (u32 NVME_BLOCK_BOUNDARY) 0]> m))
                   (set_dev
                      (fun d =>
                       set_m_Allocator (set_m_nMemStart (p + 4096) (m_Allocator d))
                         d) w))
              = p + 4096 - s).
  { unfold arena_consumed, GetFreeSpace.
    cbn [dev set_dev set_mem m_Allocator set_m_Allocator m_nMemStart m_nMemEnd
         set_m_nMemStart].
    fold s. fold e.
    replace (e >? s) with true by (symmetry; apply Z.gtb_lt; lia).
    rewrite (u64_small (e - s)) by lia.
    destruct (Z.gtb_spec e (p + 4096)) as [G | G].
    - rewrite u64_small by lia. lia.
    - lia. }
  split; [exact A |]. rewrite A. lia.
Qed.

(** From a state in which [Allocate] succeeds, [K + 1] cycles hand out the
    block of the first allocation every time, and cost the arena that this
    allocation cost. *)
Lemma cycles_after_Allocate K w size align boundary p w1 :
  fits size align boundary ->
  0 <= m_pFreeList (m_Allocator (dev w)) < 2 ^ 64 ->
  Allocate size align boundary w = (Done p, w1) -> p <> 0 ->
  m_nMemStart (m_Allocator (dev w1)) <> 0 ->
  exists w',
    alloc_free_cycles (S K) size align boundary w = (Done (repeat p (S K)), w')
    /\ arena_consumed w w' = arena_consumed w w1.
Proof.
  intros Hfits Hfl HA Hp0 Hst1.
  destruct (Allocate_fits_post w size align boundary p w1 Hfits Hfl HA Hp0)
    as (Hp & Hal & (h & Hh & Hc) & Hen1).
  destruct (Free_recyclable w1 p h Hp Hal Hst1 Hen1 Hh Hc)
    as (w2 & HF & _ & _ & Hs2 & He2 & _ & Hr2).
  destruct (cycles_recyclable K w2 p size align boundary Hr2 Hfits)
    as (w' & HC & Hs' & He' & _ & _).
  exists w'. split.
  - cbn [alloc_free_cycles repeat]. unfold bind at 1. rewrite HA.
    unfold bind at 1. rewrite HF. unfold bind. rewrite HC. reflexivity.
  - apply arena_consumed_same; congruence.
Qed.

(** C8, taken by the letter, does not hold: on a fresh arena that starts at
    0x1000, one cycle for the block of 4096 bytes hands out the block at
    0x2000 and leaves 8192 bytes less of arena, the header and the padding
    in front of the block with the page itself; that is more than one
    page. *)
Lemma C8_first_cycle_consumes_more_than_a_page :
  let w := sample_world 0 0 [] in
  let r := alloc_free_cycles 1 NVME_BLOCK_SIZE NVME_BLOCK_ALIGN
             NVME_BLOCK_BOUNDARY w in
  fst r = Done [0x2000]
  /\ arena_consumed w (snd r) = 8192
  /\ ~ arena_consumed w (snd r) <= NVME_PAGE_SIZE.
Proof.
  cbv zeta. split; [vm_compute; reflexivity |].
  split; [vm_compute; reflexivity |].
  intros Hle. vm_compute in Hle. apply Hle. reflexivity.
Qed.

(** C8, with the cost of the first allocation told apart. For a request that fits the
    recycled specification:
    - [Free] of a block whose header has that specification (size 4096,
      alignment 4096, boundary 0x100000) makes it the head of the free
      list, in front of the former head; the next [Allocate] hands out the
      same block and restores the former head, and [K] cycles of [Allocate]
      and [Free] all hand out that block; none of this moves the cursor or
      costs any arena;
    - [Free] of a block with another header adds a line to the log and
      leaves the free list, the memory and the cursor as they are;
    - from any state in which [Allocate] succeeds, [K + 1] cycles hand out
      the block of the first allocation every time and cost the arena that
      this first allocation cost, whatever [K] is;
    - where the free list is empty and the arena has room, that cost is the
      page, the 24 bytes of its header and the padding that aligns it:
      from 4120 to 8215 bytes. *)
Theorem C8_recycled_block_costs_no_arena
    (K : nat) (size align boundary : Z) :
  fits size align boundary ->
  (forall w p h,
     0 < p < 2 ^ 64 -> header_of p w = Some h ->
     nMagic h = NVME_BLOCK_MAGIC ->
     if is_page_block h then
       p mod NVME_BLOCK_ALIGN = 0 ->
       m_nMemStart (m_Allocator (dev w)) <> 0 ->
       m_nMemEnd (m_Allocator (dev w)) <> 0 ->
       exists w1,
         Free p w = (Done tt, w1)
         /\ m_pFreeList (m_Allocator (dev w1))
            = u64 (p - sizeof_TNVMeBlockHeader)
         /\ header_of p w1
            = Some (set_pNext (m_pFreeList (m_Allocator (dev w))) h)
         /\ arena_consumed w w1 = 0
         /\ (exists w2,
               Allocate size align boundary w1 = (Done p, w2)
               /\ m_pFreeList (m_Allocator (dev w2))
                  = m_pFreeList (m_Allocator (dev w))
               /\ m_nMemStart (m_Allocator (dev w2))
                  = m_nMemStart (m_Allocator (dev w))
               /\ arena_consumed w w2 = 0)
         /\ (exists w3,
               alloc_free_cycles K size align boundary w1
               = (Done (repeat p K), w3)
               /\ m_nMemStart (m_Allocator (dev w3))
                  = m_nMemStart (m_Allocator (dev w))
               /\ arena_consumed w w3 = 0)
     else
       Free p w =
         (Done tt,
          set_trace (fun t => t ++
            [EvLog "Trying to free shared memory at 0x%lX (size %u, align %u)"
               [p; nSize h; nAlign h]]) w))
  /\ (forall w p w1,
        0 <= m_pFreeList (m_Allocator (dev w)) < 2 ^ 64 ->
        Allocate size align boundary w = (Done p, w1) -> p <> 0 ->
        m_nMemStart (m_Allocator (dev w1)) <> 0 ->
        exists w',
          alloc_free_cycles (S K) size align boundary w
          = (Done (repeat p (S K)), w')
          /\ arena_consumed w w' = arena_consumed w w1)
  /\ (forall w,
        m_pFreeList (m_Allocator (dev w)) = 0 ->
        0 < m_nMemStart (m_Allocator (dev w)) ->
        m_nMemStart (m_Allocator (dev w)) + 8215
        <= m_nMemEnd (m_Allocator (dev w)) ->
        m_nMemEnd (m_Allocator (dev w)) < 2 ^ 64 ->
        let p := 4096 * ((m_nMemStart (m_Allocator (dev w)) + 24 + 4095) / 4096) in
        exists w',
          alloc_free_cycles (S K) size align boundary w
          = (Done (repeat p (S K)), w')
          /\ 4096 + 24 <= arena_consumed w w' <= 4096 + 24 + 4095).
Proof.
  intros Hfits. split; [| split].
  - intros w p h Hp Hh Hm. destruct (is_page_block h) eqn:Epb.
    + intros Hal Hst Hen.
      pose proof (is_page_block_canonical h Hm Epb) as Hc.
      destruct (Free_recyclable w p h Hp Hal Hst Hen Hh Hc)
        as (w1 & HF & Hfl & Hh1 & Hs1 & He1 & Ht1 & Hr1).
      exists w1. split; [exact HF |]. split; [exact Hfl |].
      split; [exact Hh1 |].
      assert (A1 : arena_consumed w w1 = 0).
      { rewrite (arena_consumed_same w w w1 Hs1 He1). apply arena_consumed_refl. }
      split; [exact A1 |]. split.
      * destruct Hfits as (Hsz & Han & Hbn).
        eexists. split.
        { apply Allocate_recycle_head
            with (h := set_pNext (m_pFreeList (m_Allocator (dev w))) h);
            try assumption; try (apply canonical_set_pNext; exact Hc);
            congruence. }
        split; [reflexivity |]. split; [simpl; exact Hs1 |].
        rewrite <- A1. apply arena_consumed_same; simpl; reflexivity.
      * destruct (cycles_recyclable K w1 p size align boundary Hr1 Hfits)
          as (w3 & HC & Hs3 & He3 & _ & _).
        exists w3. split; [exact HC |]. split; [congruence |].
        rewrite <- A1. apply arena_consumed_same; assumption.
    + apply Free_other; [lia | exact Hh | exact Hm | exact Epb].
  - intros w p w1 Hfl HA Hp0 Hst1.
    apply cycles_after_Allocate; assumption.
  - intros w Hfl Hst Hroom Hend p.
    destruct (Allocate_first w size align boundary Hfits Hfl Hst Hroom Hend)
      as (w1 & HA & Hs1 & _ & _ & Hcost).
    fold p in HA, Hs1.
    assert (Hp : 0 < p).
    { subst p.
      pose proof (Z.div_mod (m_nMemStart (m_Allocator (dev w)) + 24 + 4095) 4096
                    ltac:(lia)).
      pose proof (Z.mod_pos_bound
                    (m_nMemStart (m_Allocator (dev w)) + 24 + 4095) 4096
                    ltac:(lia)).
      lia. }
    destruct (cycles_after_Allocate K w size align boundary p w1 Hfits
                ltac:(rewrite Hfl; lia) HA ltac:(lia) ltac:(lia))
      as (w' & HC & Hcons).
    exists w'. split; [exact HC |]. rewrite Hcons. exact Hcost.
Qed.

(** C8 on the machine of the examples: three cycles from the fresh arena
    at 0x1000 hand out the block at 0x2000 three times, and cost no more
    than the one block with its header and padding. *)
Lemma C8_recycled_block_costs_no_arena_witness :
  fits NVME_BLOCK_SIZE NVME_BLOCK_ALIGN NVME_BLOCK_BOUNDARY
  /\ exists w',
       alloc_free_cycles 3 NVME_BLOCK_SIZE NVME_BLOCK_ALIGN NVME_BLOCK_BOUNDARY
         (sample_world 0 0 [])
       = (Done [0x2000; 0x2000; 0x2000], w')
       /\ 4120 <= arena_consumed (sample_world 0 0 []) w' <= 8215.
Proof.
  assert (Hf : fits NVME_BLOCK_SIZE NVME_BLOCK_ALIGN NVME_BLOCK_BOUNDARY).
  { unfold fits. vm_compute. intuition discriminate. }
  split; [exact Hf |].
  destruct (C8_recycled_block_costs_no_arena 2 NVME_BLOCK_SIZE NVME_BLOCK_ALIGN
              NVME_BLOCK_BOUNDARY Hf) as (_ & _ & T).
  exact (T (sample_world 0 0 []) eq_refl eq_refl
           ltac:(vm_compute; discriminate) eq_refl).
Defined.

Lemma same_config_offset w w' :
  same_config w w' -> m_ulOffset (dev w') = m_ulOffset (dev w).
Proof. unfold same_config, config. congruence. Qed.

(** C9. [Read] and [Write] leave the stored byte offset as it was,
    whatever they return, and so does [IOCtl]; [Seek] stores the offset it
    is given. So a second [Read] or [Write] with no [Seek] in between takes
    its starting block from the same offset as the first: the command it
    hands to the queue has the block address of the first one. *)
Theorem C9_offset_kept_by_Read_and_Write `{Platform}
    (pBuffer ulCount pBuffer' ulCount' ulOffset ulCmd pData : Z) (w : World) :
  let w1 := snd (Read pBuffer ulCount w) in
  let w2 := snd (Write pBuffer ulCount w) in
  m_ulOffset (dev w1) = m_ulOffset (dev w)
  /\ m_ulOffset (dev w2) = m_ulOffset (dev w)
  /\ m_ulOffset (dev (snd (IOCtl ulCmd pData w))) = m_ulOffset (dev w)
  /\ Seek ulOffset w = (Done ulOffset, set_dev (set_m_ulOffset ulOffset) w)
  /\ m_ulOffset (dev (snd (Seek ulOffset w))) = ulOffset
  /\ (Read pBuffer ulCount w = (Done NVME_STATUS_ERROR_BAD_PARAM, w)
      \/ transfer_spec false (m_ulOffset (dev w)) ulCount w
           (Read pBuffer ulCount w))
  /\ (Read pBuffer' ulCount' w1 = (Done NVME_STATUS_ERROR_BAD_PARAM, w1)
      \/ transfer_spec false (m_ulOffset (dev w)) ulCount' w1
           (Read pBuffer' ulCount' w1))
  /\ (Write pBuffer ulCount w = (Done NVME_STATUS_ERROR_BAD_PARAM, w)
      \/ transfer_spec true (m_ulOffset (dev w)) ulCount w
           (Write pBuffer ulCount w))
  /\ (Write pBuffer' ulCount' w2 = (Done NVME_STATUS_ERROR_BAD_PARAM, w2)
      \/ transfer_spec true (m_ulOffset (dev w)) ulCount' w2
           (Write pBuffer' ulCount' w2)).
Proof.
  intros w1 w2.
  assert (E1 : m_ulOffset (dev w1) = m_ulOffset (dev w))
    by apply same_config_offset, Read_same_config.
  assert (E2 : m_ulOffset (dev w2) = m_ulOffset (dev w))
    by apply same_config_offset, Write_same_config.
  split; [exact E1 |]. split; [exact E2 |].
  split; [apply same_config_offset, IOCtl_same_config |].
  split; [reflexivity |]. split; [reflexivity |].
  split; [apply Read_spec |].
  split; [rewrite <- E1; apply Read_spec |].
  split; [apply Write_spec |].
  rewrite <- E2. apply Write_spec.
Qed.

Lemma same_trace_not_submitted w w' c :
  trace w' = trace w -> ~ submitted w w' c.
Proof.
  intros E (_ & evs & evs' & Ht). rewrite E in Ht.
  apply (f_equal (@length Event)) in Ht.
  rewrite !length_app in Ht. cbn [length] in Ht. lia.
Qed.




(** * Further properties of the driver *)

(** ** Powers of two as masks *)

Lemma u64_mask a : 0 <= a < 64 -> u64 (2 ^ a - 1) = Z.ones a.
Proof.
  intros Ha. rewrite Z.ones_equiv. unfold Z.pred.
  apply u64_small.
  assert (0 < 2 ^ a) by (apply Z.pow_pos_nonneg; lia).
  assert (2 ^ a < 2 ^ 64) by (apply Z.pow_lt_mono_r; lia).
  lia.
Qed.

Lemma pow2_split a b : 0 <= a <= b -> 2 ^ b = 2 ^ a * 2 ^ (b - a).
Proof. intros H. rewrite <- Z.pow_add_r by lia. f_equal. lia. Qed.

Lemma mod_pow2_weaken p a b :
  0 <= a <= b -> p mod 2 ^ b = 0 -> p mod 2 ^ a = 0.
Proof.
  intros H E.
  assert (0 < 2 ^ a) by (apply Z.pow_pos_nonneg; lia).
  assert (0 < 2 ^ b) by (apply Z.pow_pos_nonneg; lia).
  apply Z.mod_divide in E; [| lia]. destruct E as [k ->].
  replace (k * 2 ^ b) with (k * 2 ^ (b - a) * 2 ^ a)
    by (rewrite (pow2_split a b H); ring).
  apply Z.mod_mul. lia.
Qed.

(** Rounding [s] up to a multiple of [2 ^ a], as [Allocate] does it. *)
Lemma round_up_pow2 s a :
  0 <= a < 64 -> 0 <= s -> s + 2 ^ a <= 2 ^ 64 ->
  (if negb (Z.land s (Z.ones a) =? 0)
   then Z.land (u64 (s + Z.ones a)) (not64 (Z.ones a)) else s)
  = 2 ^ a * ((s + 2 ^ a - 1) / 2 ^ a).
Proof.
  intros Ha Hs Hr. rewrite Z.land_ones by lia.
  assert (HA : 0 < 2 ^ a) by (apply Z.pow_pos_nonneg; lia).
  pose proof (Z.div_mod s (2 ^ a) ltac:(lia)) as D.
  pose proof (Z.mod_pos_bound s (2 ^ a) ltac:(lia)) as B.
  destruct (Z.eqb_spec (s mod 2 ^ a) 0) as [E | E]; cbn [negb].
  - replace ((s + 2 ^ a - 1) / 2 ^ a) with (s / 2 ^ a); [lia |].
    apply Z.div_unique with (r := 2 ^ a - 1); lia.
  - assert (EO : Z.ones a = 2 ^ a - 1) by (rewrite Z.ones_equiv; lia).
    rewrite (u64_small (s + Z.ones a)) by lia.
    rewrite land_not64_ones by lia. rewrite EO.
    replace (s + (2 ^ a - 1)) with (s + 2 ^ a - 1) by lia.
    pose proof (Z.div_mod (s + 2 ^ a - 1) (2 ^ a) ltac:(lia)). lia.
Qed.

(** A block that starts at a multiple of [2 ^ g] and is no longer than
    [2 ^ g] and [2 ^ b] lies between two multiples of [2 ^ b]. *)
Lemma same_block p size g b :
  0 <= g -> 0 <= b -> 0 <= p -> p mod 2 ^ g = 0 ->
  0 < size <= 2 ^ g -> size <= 2 ^ b ->
  p / 2 ^ b = (p + size - 1) / 2 ^ b.
Proof.
  intros Hg Hb Hp Hal Hs Hsb.
  assert (HG : 0 < 2 ^ g) by (apply Z.pow_pos_nonneg; lia).
  assert (HB : 0 < 2 ^ b) by (apply Z.pow_pos_nonneg; lia).
  pose proof (Z.div_mod p (2 ^ b) ltac:(lia)) as D.
  pose proof (Z.mod_pos_bound p (2 ^ b) ltac:(lia)) as B.
  apply Z.div_unique with (r := p mod 2 ^ b + size - 1); [| lia].
  left. split; [lia |].
  destruct (Z.le_gt_cases b g) as [Hbg | Hgb].
  - rewrite (mod_pow2_weaken p b g) by (lia || exact Hal). lia.
  - pose proof (pow2_split g b ltac:(lia)) as PS.
    assert (HC : 0 < 2 ^ (b - g)) by (apply Z.pow_pos_nonneg; lia).
    remember (p / 2 ^ b) as q eqn:Eq. remember (p mod 2 ^ b) as r eqn:Er.
    remember (2 ^ g) as G eqn:EG. remember (2 ^ (b - g)) as C eqn:EC.
    remember (2 ^ b) as Bd eqn:EB.
    apply Z.mod_divide in Hal; [| lia]. destruct Hal as [k Hk].
    assert (M : r = G * (k - C * q)) by (subst Bd; nia).
    assert (k - C * q < C) by nia.
    nia.
Qed.

(** ** Where [Allocate] puts a new block *)

Lemma carve_start_spec s size a b :
  0 <= a <= b -> b < 64 -> 0 < size <= 2 ^ b -> 0 <= s ->
  s + 24 + 2 ^ a + 2 ^ b + size <= 2 ^ 64 ->
  let p := carve_start s size (2 ^ a) (2 ^ b) in
  s + 24 <= p <= s + 22 + 2 ^ a + 2 ^ b
  /\ p mod 2 ^ a = 0
  /\ p / 2 ^ b = (p + size - 1) / 2 ^ b.
Proof.
  intros Hab Hb Hsize Hs Hroom.
  assert (HA : 0 < 2 ^ a) by (apply Z.pow_pos_nonneg; lia).
  assert (HB : 0 < 2 ^ b) by (apply Z.pow_pos_nonneg; lia).
  unfold carve_start. cbv zeta. change sizeof_TNVMeBlockHeader with 24.
  rewrite (u64_small (s + 24)) by lia.
  rewrite !u64_mask by lia.
  rewrite (round_up_pow2 (s + 24) a) by lia.
  set (p0 := 2 ^ a * ((s + 24 + 2 ^ a - 1) / 2 ^ a)).
  pose proof (Z.div_mod (s + 24 + 2 ^ a - 1) (2 ^ a) ltac:(lia)) as D0.
  pose proof (Z.mod_pos_bound (s + 24 + 2 ^ a - 1) (2 ^ a) ltac:(lia)) as B0.
  assert (Hp0 : s + 24 <= p0 <= s + 24 + 2 ^ a - 1) by (subst p0; lia).
  assert (Hp0a : p0 mod 2 ^ a = 0).
  { subst p0. rewrite Z.mul_comm. apply Z.mod_mul. lia. }
  rewrite (u64_small (p0 + size)) by lia.
  rewrite (u64_small (p0 + size - 1)) by lia.
  rewrite !land_not64_ones by lia.
  assert (EO : Z.ones b = 2 ^ b - 1) by (rewrite Z.ones_equiv; lia).
  rewrite (u64_small (p0 + Z.ones b)) by lia.
  rewrite land_not64_ones by lia. rewrite EO.
  pose proof (Z.div_mod p0 (2 ^ b) ltac:(lia)) as D1.
  pose proof (Z.div_mod (p0 + size - 1) (2 ^ b) ltac:(lia)) as D2.
  destruct (Z.eqb_spec (p0 - p0 mod 2 ^ b)
              (p0 + size - 1 - (p0 + size - 1) mod 2 ^ b)) as [E | E];
    cbn [negb].
  - split; [lia |]. split; [exact Hp0a |].
    apply Z.mul_reg_l with (p := 2 ^ b); lia.
  - pose proof (Z.div_mod (p0 + (2 ^ b - 1)) (2 ^ b) ltac:(lia)) as D3.
    pose proof (Z.mod_pos_bound (p0 + (2 ^ b - 1)) (2 ^ b) ltac:(lia)) as B3.
    set (p := p0 + (2 ^ b - 1) - (p0 + (2 ^ b - 1)) mod 2 ^ b) in *.
    assert (Hpb : p mod 2 ^ b = 0).
    { replace p with ((p0 + (2 ^ b - 1)) / 2 ^ b * 2 ^ b) by (subst p; lia).
      apply Z.mod_mul. lia. }
    split; [subst p; lia |].
    split; [apply (mod_pow2_weaken p a b); [lia | exact Hpb] |].
    apply (same_block p size b b); lia.
Qed.

Lemma Allocate_carve_unfold nSize nAlign nBoundary w :
  Allocate_carve nSize nAlign nBoundary w
  = let a := m_Allocator (dev w) in
    let p := carve_start (m_nMemStart a) nSize nAlign nBoundary in
    let w1 :=
      set_dev (fun d =>
        set_m_Allocator (set_m_nMemStart (u64 (p + nSize)) (m_Allocator d)) d)
        w in
    if u64 (p + nSize) >? m_nMemEnd a then (Done 0, w1)
    else
      let w2 :=
        set_mem (set_mem_hdr (fun m =>
          <[u64 (p - sizeof_TNVMeBlockHeader)
            := mkHeader NVME_BLOCK_MAGIC (u32 nSize) (u32 nAlign)
                 (u32 nBoundary) 0]> m)) w1 in
      if Z.land (u64 (u64 (p - sizeof_TNVMeBlockHeader)
                      + sizeof_TNVMeBlockHeader)) (u64 (nAlign - 1)) =? 0
      then (Done (u64 (u64 (p - sizeof_TNVMeBlockHeader)
                       + sizeof_TNVMeBlockHeader)), w2)
      else (Abort, w2).
Proof.
  unfold Allocate_carve, the_allocator, update_allocator, store_hdr.
  rewrite bind_gets. cbv zeta. rewrite bind_modify.
  fold (carve_start (m_nMemStart (m_Allocator (dev w))) nSize nAlign nBoundary).
  destruct (_ >? _); [reflexivity |].
  rewrite bind_modify, bind_assert.
  destruct (_ =? 0); reflexivity.
Qed.

Lemma fits_page_fits size align boundary :
  0 < size -> 0 < align <= boundary ->
  fits_page size align boundary = true -> fits size align boundary.
Proof.
  intros Hs Ha Hf. unfold fits_page in Hf.
  apply andb_prop in Hf. destruct Hf as [Hf H3].
  apply andb_prop in Hf. destruct Hf as [H1 H2].
  apply Z.leb_le in H1, H2, H3. unfold fits. lia.
Qed.

(** [Allocate] with an empty free list, or for a request the recycled
    blocks do not serve, carves a block. *)
Lemma Allocate_carves w size align boundary :
  0 < size -> 0 < align <= boundary ->
  m_nMemStart (m_Allocator (dev w)) <> 0 ->
  m_nMemEnd (m_Allocator (dev w)) <> 0 ->
  fits_page size align boundary = false
  \/ m_pFreeList (m_Allocator (dev w)) = 0 ->
  Allocate size align boundary w
  = if fits_page size align boundary
    then Allocate_carve NVME_BLOCK_SIZE NVME_BLOCK_ALIGN NVME_BLOCK_BOUNDARY w
    else Allocate_carve size align boundary w.
Proof.
  intros Hs Ha Hst Hen Hc. unfold Allocate. rewrite !bind_assert.
  replace (size >? 0) with true by (symmetry; apply Z.gtb_lt; lia).
  replace (align =? 0) with false by (symmetry; apply Z.eqb_neq; lia).
  replace (align <=? boundary) with true by (symmetry; apply Z.leb_le; lia).
  cbn [negb]. unfold the_allocator. rewrite bind_gets, !bind_assert.
  replace (m_nMemStart (m_Allocator (dev w)) =? 0) with false
    by (symmetry; apply Z.eqb_neq; exact Hst).
  replace (m_nMemEnd (m_Allocator (dev w)) =? 0) with false
    by (symmetry; apply Z.eqb_neq; exact Hen).
  cbn [negb]. fold (fits_page size align boundary).
  destruct (fits_page size align boundary); [| reflexivity].
  destruct Hc as [Hc | Hc]; [discriminate |]. rewrite Hc. reflexivity.
Qed.

(** What a carved block is like: behind the cursor with room for its
    header, aligned, between two boundaries, and the cursor behind it. *)
Lemma Allocate_carve_ok w size a b p w1 :
  0 <= a <= b -> b < 64 -> 0 < size <= 2 ^ b ->
  0 <= m_nMemStart (m_Allocator (dev w)) ->
  m_nMemStart (m_Allocator (dev w)) + 24 + 2 ^ a + 2 ^ b + size <= 2 ^ 64 ->
  Allocate_carve size (2 ^ a) (2 ^ b) w = (Done p, w1) -> p <> 0 ->
  m_nMemStart (m_Allocator (dev w)) + 24 <= p
  /\ p mod 2 ^ a = 0
  /\ p / 2 ^ b = (p + size - 1) / 2 ^ b
  /\ m_nMemStart (m_Allocator (dev w1)) = p + size
  /\ p + size <= m_nMemEnd (m_Allocator (dev w))
  /\ m_nMemEnd (m_Allocator (dev w1)) = m_nMemEnd (m_Allocator (dev w))
  /\ m_pFreeList (m_Allocator (dev w1)) = m_pFreeList (m_Allocator (dev w))
  /\ header_of p w1
     = Some (mkHeader NVME_BLOCK_MAGIC (u32 size) (u32 (2 ^ a)) (u32 (2 ^ b)) 0)
  /\ trace w1 = trace w.
Proof.
  intros Hab Hb Hsize Hs Hroom HA Hp.
  assert (H2a : 0 < 2 ^ a) by (apply Z.pow_pos_nonneg; lia).
  assert (H2b : 0 < 2 ^ b) by (apply Z.pow_pos_nonneg; lia).
  destruct (carve_start_spec _ size a b Hab Hb Hsize Hs Hroom)
    as (Hr & Hal & Hbd).
  rewrite Allocate_carve_unfold in HA. cbv zeta in HA.
  set (q := carve_start (m_nMemStart (m_Allocator (dev w))) size (2 ^ a) (2 ^ b))
    in *.
  change sizeof_TNVMeBlockHeader with 24 in HA.
  rewrite (u64_small (q + size)) in HA by lia.
  rewrite (u64_small (q - 24)) in HA by lia.
  replace (q - 24 + 24) with q in HA by lia.
  rewrite (u64_small q) in HA by lia.
  destruct (Z.gtb_spec (q + size) (m_nMemEnd (m_Allocator (dev w)))) as [G | G].
  { injection HA as HA _. congruence. }
  destruct (_ =? 0); [| discriminate].
  injection HA as <- <-.
  split; [lia |]. split; [exact Hal |]. split; [exact Hbd |].
  split; [reflexivity |]. split; [lia |]. split; [reflexivity |].
  split; [reflexivity |]. split; [| reflexivity].
  unfold header_of. cbn [mem set_mem set_dev mem_hdr set_mem_hdr].
  change sizeof_TNVMeBlockHeader with 24. rewrite (u64_small (q - 24)) by lia.
  apply lookup_insert_eq.
Qed.

(** What is left when [Allocate] has no room for the block: the cursor
    behind the end of the arena. *)
Lemma Allocate_carve_fail w size a b w1 :
  0 <= a <= b -> b < 64 -> 0 < size <= 2 ^ b ->
  0 <= m_nMemStart (m_Allocator (dev w)) ->
  m_nMemStart (m_Allocator (dev w)) + 24 + 2 ^ a + 2 ^ b + size <= 2 ^ 64 ->
  Allocate_carve size (2 ^ a) (2 ^ b) w = (Done 0, w1) ->
  m_nMemEnd (m_Allocator (dev w)) < m_nMemStart (m_Allocator (dev w1))
  /\ m_nMemStart (m_Allocator (dev w)) + 24 + size
     <= m_nMemStart (m_Allocator (dev w1))
     <= m_nMemStart (m_Allocator (dev w)) + 22 + 2 ^ a + 2 ^ b + size
  /\ m_nMemEnd (m_Allocator (dev w1)) = m_nMemEnd (m_Allocator (dev w))
  /\ m_pFreeList (m_Allocator (dev w1)) = m_pFreeList (m_Allocator (dev w))
  /\ mem w1 = mem w /\ trace w1 = trace w.
Proof.
  intros Hab Hb Hsize Hs Hroom HA.
  assert (H2a : 0 < 2 ^ a) by (apply Z.pow_pos_nonneg; lia).
  assert (H2b : 0 < 2 ^ b) by (apply Z.pow_pos_nonneg; lia).
  destruct (carve_start_spec _ size a b Hab Hb Hsize Hs Hroom)
    as (Hr & Hal & Hbd).
  rewrite Allocate_carve_unfold in HA. cbv zeta in HA.
  set (q := carve_start (m_nMemStart (m_Allocator (dev w))) size (2 ^ a) (2 ^ b))
    in *.
  change sizeof_TNVMeBlockHeader with 24 in HA.
  rewrite (u64_small (q + size)) in HA by lia.
  rewrite (u64_small (q - 24)) in HA by lia.
  replace (q - 24 + 24) with q in HA by lia.
  rewrite (u64_small q) in HA by lia.
  destruct (Z.gtb_spec (q + size) (m_nMemEnd (m_Allocator (dev w)))) as [G | G].
  - injection HA as <-. cbn. repeat split; lia.
  - destruct (_ =? 0); [| discriminate]. injection HA as HA _. lia.
Qed.

Lemma Allocate_asserts w size align boundary r w1 :
  Allocate size align boundary w = (Done r, w1) ->
  0 < size /\ align <> 0 /\ align <= boundary
  /\ m_nMemStart (m_Allocator (dev w)) <> 0
  /\ m_nMemEnd (m_Allocator (dev w)) <> 0.
Proof.
  intros HA. unfold Allocate in HA. rewrite !bind_assert in HA.
  destruct (Z.gtb_spec size 0); [| discriminate].
  destruct (Z.eqb_spec align 0); [discriminate |]. cbn [negb] in HA.
  destruct (Z.leb_spec align boundary); [| discriminate].
  unfold the_allocator in HA. rewrite bind_gets, !bind_assert in HA.
  destruct (Z.eqb_spec (m_nMemStart (m_Allocator (dev w))) 0);
    [discriminate |]. cbn [negb] in HA.
  destruct (Z.eqb_spec (m_nMemEnd (m_Allocator (dev w))) 0);
    [discriminate |].
  repeat split; assumption || lia.
Qed.

Lemma pow2_le_inv a c : 0 <= a -> 0 <= c -> 2 ^ a <= 2 ^ c -> a <= c.
Proof. intros Ha Hc H. apply (Z.pow_le_mono_r_iff 2); lia. Qed.

(** A new block, with the size [Allocate] takes for it. *)
Lemma Allocate_carved w size a b p w1 :
  0 <= a <= b -> b < 64 -> 0 < size <= 2 ^ b ->
  0 <= m_nMemStart (m_Allocator (dev w)) ->
  m_nMemStart (m_Allocator (dev w)) + 2 ^ 21 + 2 ^ a + 2 ^ b + size <= 2 ^ 64 ->
  fits_page size (2 ^ a) (2 ^ b) = false
  \/ m_pFreeList (m_Allocator (dev w)) = 0 ->
  Allocate size (2 ^ a) (2 ^ b) w = (Done p, w1) -> p <> 0 ->
  m_nMemStart (m_Allocator (dev w)) + 24 <= p
  /\ m_nMemStart (m_Allocator (dev w1)) = p + carved_size size (2 ^ a) (2 ^ b)
  /\ size <= carved_size size (2 ^ a) (2 ^ b)
  /\ p + carved_size size (2 ^ a) (2 ^ b) <= m_nMemEnd (m_Allocator (dev w))
  /\ m_nMemEnd (m_Allocator (dev w1)) = m_nMemEnd (m_Allocator (dev w))
  /\ m_pFreeList (m_Allocator (dev w1)) = m_pFreeList (m_Allocator (dev w)).
Proof.
  intros Hab Hb Hsize Hs Hroom Hc HA Hp.
  assert (H2a : 0 < 2 ^ a) by (apply Z.pow_pos_nonneg; lia).
  assert (H2b : 0 < 2 ^ b) by (apply Z.pow_pos_nonneg; lia).
  assert (Hle : 2 ^ a <= 2 ^ b) by (apply Z.pow_le_mono_r; lia).
  destruct (Allocate_asserts _ _ _ _ _ _ HA) as (_ & _ & _ & Hst & Hen).
  rewrite Allocate_carves in HA by (assumption || lia).
  unfold carved_size.
  destruct (fits_page size (2 ^ a) (2 ^ b)) eqn:Ef.
  - change NVME_BLOCK_ALIGN with (2 ^ 12) in HA.
    change NVME_BLOCK_BOUNDARY with (2 ^ 20) in HA.
    destruct (Allocate_carve_ok w NVME_BLOCK_SIZE 12 20 p w1
                ltac:(lia) ltac:(lia) ltac:(vm_compute; split; [reflexivity | discriminate]) Hs
                ltac:(change NVME_BLOCK_SIZE with 4096; lia) HA Hp)
      as (G1 & _ & _ & G2 & G3 & G4 & G5 & _).
    unfold fits_page in Ef. apply andb_prop in Ef. destruct Ef as [Ef _].
    apply andb_prop in Ef. destruct Ef as [Ef _]. apply Z.leb_le in Ef.
    repeat split; assumption || lia.
  - destruct (Allocate_carve_ok w size a b p w1 Hab Hb Hsize Hs
                ltac:(lia) HA Hp)
      as (G1 & _ & _ & G2 & G3 & G4 & G5 & _).
    repeat split; assumption || lia.
Qed.

(** X1. Whatever the free list holds, a block [Allocate] hands out for a
    power of two as alignment and one as boundary starts at a multiple of
    the alignment, lies between two multiples of the boundary, and has a
    header with the magic number in front of it. *)
Theorem Allocate_honours_alignment_and_boundary w size a b p w1 :
  0 <= a <= b -> b < 64 -> 0 < size <= 2 ^ b ->
  0 <= m_nMemStart (m_Allocator (dev w)) ->
  m_nMemStart (m_Allocator (dev w)) + 24 + 2 ^ a + 2 ^ b + size <= 2 ^ 64 ->
  0 <= m_pFreeList (m_Allocator (dev w)) < 2 ^ 64 ->
  Allocate size (2 ^ a) (2 ^ b) w = (Done p, w1) -> p <> 0 ->
  p mod 2 ^ a = 0
  /\ p / 2 ^ b = (p + size - 1) / 2 ^ b
  /\ exists h, header_of p w1 = Some h /\ nMagic h = NVME_BLOCK_MAGIC.
Proof.
  intros Hab Hb Hsize Hs Hroom Hfl HA Hp.
  assert (H2a : 0 < 2 ^ a) by (apply Z.pow_pos_nonneg; lia).
  assert (Hle : 2 ^ a <= 2 ^ b) by (apply Z.pow_le_mono_r; lia).
  destruct (Allocate_asserts _ _ _ _ _ _ HA) as (_ & _ & _ & Hst & Hen).
  destruct (fits_page size (2 ^ a) (2 ^ b)) eqn:Ef.
  - pose proof (fits_page_fits size (2 ^ a) (2 ^ b) ltac:(lia) ltac:(lia) Ef)
      as Hf.
    destruct (Allocate_fits_post w size (2 ^ a) (2 ^ b) p w1 Hf Hfl HA Hp)
      as (Hr & Hal & (h & Hh & Hc) & _).
    destruct Hf as (F1 & F2 & F3).
    change NVME_BLOCK_ALIGN with (2 ^ 12) in F2.
    change NVME_BLOCK_SIZE with (2 ^ 12) in F1.
    split; [apply (mod_pow2_weaken p a 12);
            [split; [lia | apply pow2_le_inv; lia] | exact Hal] |].
    split; [apply (same_block p size 12 b); lia || exact Hal |].
    exists h. split; [exact Hh | apply Hc].
  - rewrite Allocate_carves in HA by (auto || lia). rewrite Ef in HA.
    destruct (Allocate_carve_ok w size a b p w1 Hab Hb Hsize Hs Hroom HA Hp)
      as (_ & G1 & G2 & _ & _ & _ & _ & G3 & _).
    split; [exact G1 |]. split; [exact G2 |].
    eexists. split; [exact G3 | reflexivity].
Qed.

(** X1 on the machine of the examples: two pages from the fresh arena. *)
Lemma Allocate_honours_alignment_and_boundary_witness :
  let w := sample_world 0 0 [] in
  let r := Allocate 8192 (2 ^ 12) (2 ^ 20) w in
  (0 <= 12 <= 20 /\ 20 < 64 /\ 0 < 8192 <= 2 ^ 20
   /\ 0 <= m_nMemStart (m_Allocator (dev w))
   /\ m_nMemStart (m_Allocator (dev w)) + 24 + 2 ^ 12 + 2 ^ 20 + 8192 <= 2 ^ 64
   /\ 0 <= m_pFreeList (m_Allocator (dev w)) < 2 ^ 64
   /\ r = (Done 0x2000, snd r) /\ 0x2000 <> 0)
  /\ 0x2000 mod 2 ^ 12 = 0
  /\ 0x2000 / 2 ^ 20 = (0x2000 + 8192 - 1) / 2 ^ 20
  /\ exists h, header_of 0x2000 (snd r) = Some h /\ nMagic h = NVME_BLOCK_MAGIC.
Proof.
  intros w r.
  assert (H1 : 0 <= 12 <= 20) by lia.
  assert (H2 : 20 < 64) by lia.
  assert (H3 : 0 < 8192 <= 2 ^ 20) by lia.
  assert (H4 : 0 <= m_nMemStart (m_Allocator (dev w)))
    by (vm_compute; discriminate).
  assert (H5 : m_nMemStart (m_Allocator (dev w)) + 24 + 2 ^ 12 + 2 ^ 20 + 8192
               <= 2 ^ 64) by (vm_compute; discriminate).
  assert (H6 : 0 <= m_pFreeList (m_Allocator (dev w)) < 2 ^ 64)
    by (vm_compute; split; [discriminate | reflexivity]).
  assert (H7 : r = (Done 0x2000, snd r)) by (vm_compute; reflexivity).
  assert (H8 : 0x2000 <> 0) by discriminate.
  split; [exact (conj H1 (conj H2 (conj H3 (conj H4 (conj H5 (conj H6
                  (conj H7 H8))))))) |].
  exact (Allocate_honours_alignment_and_boundary w 8192 12 20 0x2000 (snd r)
           H1 H2 H3 H4 H5 H6 H7 H8).
Defined.

(** X2. Two blocks [Allocate] carves one after the other do not overlap:
    the second, with its header, starts behind the end of the first, and
    both lie in the arena. *)
Theorem Allocate_blocks_do_not_overlap
    w size1 a1 b1 size2 a2 b2 p1 p2 w1 w2 :
  0 <= a1 <= b1 -> b1 < 64 -> 0 < size1 <= 2 ^ b1 ->
  0 <= a2 <= b2 -> b2 < 64 -> 0 < size2 <= 2 ^ b2 ->
  m_pFreeList (m_Allocator (dev w)) = 0 ->
  0 <= m_nMemStart (m_Allocator (dev w)) <= m_nMemEnd (m_Allocator (dev w)) ->
  m_nMemEnd (m_Allocator (dev w)) + 2 ^ 21 + 2 ^ a1 + 2 ^ b1 + size1 <= 2 ^ 64 ->
  m_nMemEnd (m_Allocator (dev w)) + 2 ^ 21 + 2 ^ a2 + 2 ^ b2 + size2 <= 2 ^ 64 ->
  Allocate size1 (2 ^ a1) (2 ^ b1) w = (Done p1, w1) -> p1 <> 0 ->
  Allocate size2 (2 ^ a2) (2 ^ b2) w1 = (Done p2, w2) -> p2 <> 0 ->
  m_nMemStart (m_Allocator (dev w)) + sizeof_TNVMeBlockHeader <= p1
  /\ p1 + size1 <= p2 - sizeof_TNVMeBlockHeader
  /\ p2 + size2 <= m_nMemEnd (m_Allocator (dev w)).
Proof.
  intros Hab1 Hb1 Hs1 Hab2 Hb2 Hs2 Hfl Hse Hr1 Hr2 HA1 Hp1 HA2 Hp2.
  destruct (Allocate_carved w size1 a1 b1 p1 w1 Hab1 Hb1 Hs1 ltac:(lia)
              ltac:(lia) (or_intror Hfl) HA1 Hp1)
    as (G1 & G2 & G3 & G4 & G5 & G6).
  destruct (Allocate_carved w1 size2 a2 b2 p2 w2 Hab2 Hb2 Hs2 ltac:(lia)
              ltac:(lia) ltac:(right; congruence) HA2 Hp2)
    as (K1 & K2 & K3 & K4 & K5 & K6).
  change sizeof_TNVMeBlockHeader with 24. lia.
Qed.

(** X2 on the machine of the examples: the two queues of 4096 and 1024
    bytes that [CreateAdminQueues] asks for. *)
Lemma Allocate_blocks_do_not_overlap_witness :
  let w := sample_world 0 0 [] in
  let r1 := Allocate 4096 (2 ^ 12) (2 ^ 20) w in
  let r2 := Allocate 1024 (2 ^ 12) (2 ^ 20) (snd r1) in
  (fst r1 = Done 0x2000 /\ fst r2 = Done 0x4000)
  /\ m_nMemStart (m_Allocator (dev w)) + sizeof_TNVMeBlockHeader <= 0x2000
  /\ 0x2000 + 4096 <= 0x4000 - sizeof_TNVMeBlockHeader
  /\ 0x4000 + 1024 <= m_nMemEnd (m_Allocator (dev w)).
Proof.
  intros w r1 r2.
  assert (E1 : r1 = (Done 0x2000, snd r1)) by (vm_compute; reflexivity).
  assert (E2 : r2 = (Done 0x4000, snd r2)) by (vm_compute; reflexivity).
  split; [split; [rewrite E1 | rewrite E2]; reflexivity |].
  assert (Hfl : m_pFreeList (m_Allocator (dev w)) = 0) by reflexivity.
  assert (Hse : 0 <= m_nMemStart (m_Allocator (dev w))
                <= m_nMemEnd (m_Allocator (dev w)))
    by (vm_compute; split; discriminate).
  assert (Hr1 : m_nMemEnd (m_Allocator (dev w)) + 2 ^ 21 + 2 ^ 12 + 2 ^ 20 + 4096
                <= 2 ^ 64) by (vm_compute; discriminate).
  assert (Hr2 : m_nMemEnd (m_Allocator (dev w)) + 2 ^ 21 + 2 ^ 12 + 2 ^ 20 + 1024
                <= 2 ^ 64) by (vm_compute; discriminate).
  exact (Allocate_blocks_do_not_overlap w 4096 12 20 1024 12 20 0x2000 0x4000
           (snd r1) (snd r2) ltac:(lia) ltac:(lia) ltac:(lia) ltac:(lia)
           ltac:(lia) ltac:(lia) Hfl Hse Hr1 Hr2 E1 ltac:(discriminate)
           E2 ltac:(discriminate)).
Defined.

Lemma Allocate_carve_no_room w size a b :
  0 <= a <= b -> b < 64 -> 0 < size <= 2 ^ b ->
  0 <= m_nMemStart (m_Allocator (dev w)) ->
  m_nMemStart (m_Allocator (dev w)) + 24 + 2 ^ a + 2 ^ b + size <= 2 ^ 64 ->
  m_nMemEnd (m_Allocator (dev w))
  < m_nMemStart (m_Allocator (dev w)) + 24 + size ->
  exists w1, Allocate_carve size (2 ^ a) (2 ^ b) w = (Done 0, w1).
Proof.
  intros Hab Hb Hsize Hs Hroom Hno.
  assert (H2a : 0 < 2 ^ a) by (apply Z.pow_pos_nonneg; lia).
  assert (H2b : 0 < 2 ^ b) by (apply Z.pow_pos_nonneg; lia).
  destruct (carve_start_spec _ size a b Hab Hb Hsize Hs Hroom)
    as (Hr & _ & _).
  rewrite Allocate_carve_unfold. cbv zeta.
  set (q := carve_start (m_nMemStart (m_Allocator (dev w))) size (2 ^ a) (2 ^ b))
    in *.
  rewrite (u64_small (q + size)) by lia.
  replace (q + size >? m_nMemEnd (m_Allocator (dev w))) with true
    by (symmetry; apply Z.gtb_lt; lia).
  eexists. reflexivity.
Qed.

(** X3. An [Allocate] that finds no room for a new block returns null and
    leaves the cursor behind the end of the arena: no space is free any
    more, and every later request for a new block gets null as well. *)
Theorem Allocate_failure_exhausts_the_arena w size a b w1 :
  0 <= a <= b -> b < 64 -> 0 < size <= 2 ^ b ->
  0 <= m_nMemStart (m_Allocator (dev w)) ->
  m_nMemStart (m_Allocator (dev w)) + 2 ^ 21 + 2 ^ a + 2 ^ b + size <= 2 ^ 64 ->
  m_pFreeList (m_Allocator (dev w)) = 0 ->
  Allocate size (2 ^ a) (2 ^ b) w = (Done 0, w1) ->
  GetFreeSpace (m_Allocator (dev w1)) = 0
  /\ m_nMemEnd (m_Allocator (dev w1)) < m_nMemStart (m_Allocator (dev w1))
  /\ mem w1 = mem w
  /\ forall size' a' b',
       0 <= a' <= b' -> b' < 64 -> 0 < size' <= 2 ^ b' ->
       m_nMemStart (m_Allocator (dev w1)) + 2 ^ 21 + 2 ^ a' + 2 ^ b' + size'
       <= 2 ^ 64 ->
       exists w2, Allocate size' (2 ^ a') (2 ^ b') w1 = (Done 0, w2).
Proof.
  intros Hab Hb Hsize Hs Hroom Hfl HA.
  assert (H2a : 0 < 2 ^ a) by (apply Z.pow_pos_nonneg; lia).
  assert (H2b : 0 < 2 ^ b) by (apply Z.pow_pos_nonneg; lia).
  assert (Hle : 2 ^ a <= 2 ^ b) by (apply Z.pow_le_mono_r; lia).
  destruct (Allocate_asserts _ _ _ _ _ _ HA) as (_ & _ & _ & Hst & Hen).
  rewrite Allocate_carves in HA by (auto || lia).
  assert (F : m_nMemEnd (m_Allocator (dev w)) < m_nMemStart (m_Allocator (dev w1))
              /\ m_nMemStart (m_Allocator (dev w)) + 24
                 <= m_nMemStart (m_Allocator (dev w1))
              /\ m_nMemEnd (m_Allocator (dev w1)) = m_nMemEnd (m_Allocator (dev w))
              /\ m_pFreeList (m_Allocator (dev w1)) = 0
              /\ mem w1 = mem w).
  { destruct (fits_page size (2 ^ a) (2 ^ b)).
    - change NVME_BLOCK_ALIGN with (2 ^ 12) in HA.
      change NVME_BLOCK_BOUNDARY with (2 ^ 20) in HA.
      destruct (Allocate_carve_fail w NVME_BLOCK_SIZE 12 20 w1
                  ltac:(lia) ltac:(lia)
                  ltac:(vm_compute; split; [reflexivity | discriminate]) Hs
                  ltac:(change NVME_BLOCK_SIZE with 4096; lia) HA)
        as (G1 & G2 & G3 & G4 & G5 & _).
      change NVME_BLOCK_SIZE with 4096 in G2.
      split; [lia |]. split; [lia |]. split; [exact G3 |].
      split; [congruence | exact G5].
    - destruct (Allocate_carve_fail w size a b w1 Hab Hb Hsize Hs
                  ltac:(lia) HA)
        as (G1 & G2 & G3 & G4 & G5 & _).
      split; [lia |]. split; [lia |]. split; [exact G3 |].
      split; [congruence | exact G5]. }
  destruct F as (F1 & F2 & F3 & F4 & F5).
  split.
  { unfold GetFreeSpace.
    replace (m_nMemEnd (m_Allocator (dev w1))
             >? m_nMemStart (m_Allocator (dev w1))) with false
      by (symmetry; rewrite Z.gtb_ltb; apply Z.ltb_ge; lia).
    reflexivity. }
  split; [lia |]. split; [exact F5 |].
  intros size' a' b' Hab' Hb' Hsize' Hroom'.
  assert (H2a' : 0 < 2 ^ a') by (apply Z.pow_pos_nonneg; lia).
  assert (H2b' : 0 < 2 ^ b') by (apply Z.pow_pos_nonneg; lia).
  assert (Hle' : 2 ^ a' <= 2 ^ b') by (apply Z.pow_le_mono_r; lia).
  rewrite Allocate_carves by (auto || lia).
  destruct (fits_page size' (2 ^ a') (2 ^ b')).
  - change NVME_BLOCK_ALIGN with (2 ^ 12).
    change NVME_BLOCK_BOUNDARY with (2 ^ 20).
    apply Allocate_carve_no_room; try lia.
    + vm_compute. split; [reflexivity | discriminate].
    + change NVME_BLOCK_SIZE with 4096. lia.
    + change NVME_BLOCK_SIZE with 4096. lia.
  - apply Allocate_carve_no_room; lia.
Qed.

(** X3 on the machine of the examples: a block of 2 MiB is more than the
    arena has. *)
Lemma Allocate_failure_exhausts_the_arena_witness :
  let w := sample_world 0 0 [] in
  let r := Allocate 0x200000 (2 ^ 12) (2 ^ 21) w in
  fst r = Done 0
  /\ 0 < GetFreeSpace (m_Allocator (dev w))
  /\ GetFreeSpace (m_Allocator (dev (snd r))) = 0
  /\ exists w2, Allocate 4096 (2 ^ 12) (2 ^ 20) (snd r) = (Done 0, w2).
Proof.
  intros w r.
  assert (E : r = (Done 0, snd r)) by (vm_compute; reflexivity).
  split; [rewrite E; reflexivity |].
  split; [vm_compute; reflexivity |].
  destruct (Allocate_failure_exhausts_the_arena w 0x200000 12 21 (snd r)
              ltac:(lia) ltac:(lia) ltac:(lia)
              ltac:(vm_compute; discriminate) ltac:(vm_compute; discriminate)
              eq_refl E) as (G1 & _ & _ & G2).
  split; [exact G1 |].
  apply (G2 4096 12 20); try lia. vm_compute. discriminate.
Defined.

(** ** The free list *)

Lemma Free_pushes w p h :
  0 < p < 2 ^ 64 -> p mod 4096 = 0 ->
  header_of p w = Some h -> canonical h ->
  exists w1,
    Free p w = (Done tt, w1)
    /\ m_pFreeList (m_Allocator (dev w1)) = p - 24
    /\ header_of p w1 = Some (set_pNext (m_pFreeList (m_Allocator (dev w))) h)
    /\ (forall q, 0 < q < 2 ^ 64 -> q mod 4096 = 0 -> q <> p ->
          header_of q w1 = header_of q w)
    /\ m_nMemStart (m_Allocator (dev w1)) = m_nMemStart (m_Allocator (dev w))
    /\ m_nMemEnd (m_Allocator (dev w1)) = m_nMemEnd (m_Allocator (dev w))
    /\ trace w1 = trace w.
Proof.
  intros Hp Hal Hh Hc.
  destruct (aligned_header_nonzero p Hp Hal) as [Hu _].
  eexists. split.
  { apply Free_canonical with (h := h); [lia | exact Hh | exact Hc]. }
  unfold header_of.
  cbn [dev mem set_dev set_mem mem_hdr set_mem_hdr m_Allocator set_m_Allocator
       m_pFreeList set_m_pFreeList m_nMemStart m_nMemEnd trace].
  split; [exact Hu |]. split; [apply lookup_insert_eq |].
  split; [| repeat split].
  intros q Hq Hqa Hne.
  destruct (aligned_header_nonzero q Hq Hqa) as [Hv _].
  apply lookup_insert_ne. rewrite Hu, Hv. lia.
Qed.

Lemma Allocate_pops w p h size align boundary :
  fits size align boundary ->
  m_nMemStart (m_Allocator (dev w)) <> 0 ->
  m_nMemEnd (m_Allocator (dev w)) <> 0 ->
  0 < p < 2 ^ 64 -> p mod 4096 = 0 ->
  m_pFreeList (m_Allocator (dev w)) = p - 24 ->
  header_of p w = Some h -> canonical h ->
  exists w1,
    Allocate size align boundary w = (Done p, w1)
    /\ m_pFreeList (m_Allocator (dev w1)) = pNext h
    /\ header_of p w1 = Some (set_pNext 0 h)
    /\ (forall q, 0 < q < 2 ^ 64 -> q mod 4096 = 0 -> q <> p ->
          header_of q w1 = header_of q w)
    /\ m_nMemStart (m_Allocator (dev w1)) = m_nMemStart (m_Allocator (dev w))
    /\ m_nMemEnd (m_Allocator (dev w1)) = m_nMemEnd (m_Allocator (dev w))
    /\ trace w1 = trace w.
Proof.
  intros (Hs & Ha & Hb) Hst Hen Hp Hal Hfl Hh Hc.
  destruct (aligned_header_nonzero p Hp Hal) as [Hu _].
  eexists. split.
  { apply Allocate_recycle_head with (h := h); try assumption.
    rewrite Hu. exact Hfl. }
  unfold header_of.
  cbn [dev mem set_dev set_mem mem_hdr set_mem_hdr m_Allocator set_m_Allocator
       m_pFreeList set_m_pFreeList m_nMemStart m_nMemEnd trace].
  split; [reflexivity |]. split; [apply lookup_insert_eq |].
  split; [| repeat split].
  intros q Hq Hqa Hne.
  destruct (aligned_header_nonzero q Hq Hqa) as [Hv _].
  apply lookup_insert_ne. rewrite Hu, Hv. lia.
Qed.

(** X4. The free list is a stack: of two blocks freed one after the
    other, the next [Allocate] hands out the one freed last and the one
    after it the one freed first, and the free list is then what it was. *)
Theorem free_list_is_last_in_first_out
    w p1 p2 h1 h2 size align boundary :
  fits size align boundary ->
  m_nMemStart (m_Allocator (dev w)) <> 0 ->
  m_nMemEnd (m_Allocator (dev w)) <> 0 ->
  0 < p1 < 2 ^ 64 -> p1 mod 4096 = 0 ->
  0 < p2 < 2 ^ 64 -> p2 mod 4096 = 0 -> p1 <> p2 ->
  header_of p1 w = Some h1 -> canonical h1 ->
  header_of p2 w = Some h2 -> canonical h2 ->
  exists w',
    (Free p1 ;; Free p2 ;;
     do x <- Allocate size align boundary;
     do y <- Allocate size align boundary;
     ret (x, y)) w = (Done (p2, p1), w')
    /\ m_pFreeList (m_Allocator (dev w')) = m_pFreeList (m_Allocator (dev w))
    /\ arena_consumed w w' = 0.
Proof.
  intros Hf Hst Hen Hp1 Ha1 Hp2 Ha2 Hne Hh1 Hc1 Hh2 Hc2.
  destruct (Free_pushes w p1 h1 Hp1 Ha1 Hh1 Hc1)
    as (w1 & E1 & F1 & H1 & O1 & S1 & N1 & _).
  destruct (Free_pushes w1 p2 h2 Hp2 Ha2
              ltac:(rewrite (O1 p2 Hp2 Ha2 ltac:(congruence)); exact Hh2) Hc2)
    as (w2 & E2 & F2 & H2 & O2 & S2 & N2 & _).
  destruct (Allocate_pops w2 p2 _ size align boundary Hf
              ltac:(congruence) ltac:(congruence) Hp2 Ha2 F2 H2
              ltac:(apply canonical_set_pNext; exact Hc2))
    as (w3 & E3 & F3 & H3 & O3 & S3 & N3 & _).
  cbn [pNext set_pNext] in F3.
  destruct (Allocate_pops w3 p1 _ size align boundary Hf
              ltac:(congruence) ltac:(congruence) Hp1 Ha1
              ltac:(congruence)
              ltac:(rewrite (O3 p1 Hp1 Ha1 Hne), (O2 p1 Hp1 Ha1 Hne); exact H1)
              ltac:(apply canonical_set_pNext; exact Hc1))
    as (w4 & E4 & F4 & H4 & O4 & S4 & N4 & _).
  cbn [pNext set_pNext] in F4.
  exists w4. split.
  { unfold bind. rewrite E1, E2, E3, E4. reflexivity. }
  split; [exact F4 |].
  rewrite (arena_consumed_same w w w4) by congruence.
  apply arena_consumed_refl.
Qed.

(** X5. [Free] does not see that a block is on the free list already: a
    block freed twice is handed out by each of the next two calls of
    [Allocate], and the blocks that were on the free list before are no
    longer on it. *)
Theorem block_freed_twice_is_handed_out_twice
    w p h size align boundary :
  fits size align boundary ->
  m_nMemStart (m_Allocator (dev w)) <> 0 ->
  m_nMemEnd (m_Allocator (dev w)) <> 0 ->
  0 < p < 2 ^ 64 -> p mod 4096 = 0 ->
  header_of p w = Some h -> canonical h ->
  exists w',
    (Free p ;; Free p ;;
     do x <- Allocate size align boundary;
     do y <- Allocate size align boundary;
     ret (x, y)) w = (Done (p, p), w')
    /\ m_pFreeList (m_Allocator (dev w')) = 0.
Proof.
  intros Hf Hst Hen Hp Ha Hh Hc.
  destruct (Free_pushes w p h Hp Ha Hh Hc)
    as (w1 & E1 & F1 & H1 & _ & S1 & N1 & _).
  destruct (Free_pushes w1 p _ Hp Ha H1
              ltac:(apply canonical_set_pNext; exact Hc))
    as (w2 & E2 & F2 & H2 & _ & S2 & N2 & _).
  destruct (Allocate_pops w2 p _ size align boundary Hf
              ltac:(congruence) ltac:(congruence) Hp Ha F2 H2
              ltac:(apply canonical_set_pNext, canonical_set_pNext; exact Hc))
    as (w3 & E3 & F3 & H3 & _ & S3 & N3 & _).
  cbn [pNext set_pNext] in F3.
  destruct (Allocate_pops w3 p _ size align boundary Hf
              ltac:(congruence) ltac:(congruence) Hp Ha
              ltac:(congruence) H3
              ltac:(repeat apply canonical_set_pNext; exact Hc))
    as (w4 & E4 & F4 & _).
  cbn [pNext set_pNext] in F4.
  exists w4. split; [| exact F4].
  unfold bind. rewrite E1, E2, E3, E4. reflexivity.
Qed.

(** X4 on the machine of the examples: the blocks at 0x2000 and 0x4000. *)
Lemma free_list_is_last_in_first_out_witness :
  let w := snd ((Allocate 4096 4096 0x100000 ;; Allocate 4096 4096 0x100000)
                  (sample_world 0 0 [])) in
  let h := mkHeader NVME_BLOCK_MAGIC 4096 4096 0x100000 0 in
  (header_of 0x2000 w = Some h /\ header_of 0x4000 w = Some h)
  /\ exists w',
       (Free 0x2000 ;; Free 0x4000 ;;
        do x <- Allocate 4096 4096 0x100000;
        do y <- Allocate 4096 4096 0x100000;
        ret (x, y)) w = (Done (0x4000, 0x2000), w')
       /\ m_pFreeList (m_Allocator (dev w')) = m_pFreeList (m_Allocator (dev w))
       /\ arena_consumed w w' = 0.
Proof.
  intros w h.
  assert (Hh1 : header_of 0x2000 w = Some h) by (vm_compute; reflexivity).
  assert (Hh2 : header_of 0x4000 w = Some h) by (vm_compute; reflexivity).
  assert (Hc : canonical h) by (repeat split).
  assert (Hf : fits 4096 4096 0x100000) by (unfold fits; vm_compute; intuition discriminate).
  split; [exact (conj Hh1 Hh2) |].
  exact (free_list_is_last_in_first_out w 0x2000 0x4000 h h 4096 4096 0x100000
           Hf ltac:(vm_compute; discriminate) ltac:(vm_compute; discriminate)
           ltac:(lia) eq_refl ltac:(lia) eq_refl ltac:(discriminate)
           Hh1 Hc Hh2 Hc).
Defined.

(** X5 on the machine of the examples: the block at 0x2000, freed twice. *)
Lemma block_freed_twice_is_handed_out_twice_witness :
  let w := snd (Allocate 4096 4096 0x100000 (sample_world 0 0 [])) in
  let h := mkHeader NVME_BLOCK_MAGIC 4096 4096 0x100000 0 in
  header_of 0x2000 w = Some h
  /\ exists w',
       (Free 0x2000 ;; Free 0x2000 ;;
        do x <- Allocate 4096 4096 0x100000;
        do y <- Allocate 4096 4096 0x100000;
        ret (x, y)) w = (Done (0x2000, 0x2000), w')
       /\ m_pFreeList (m_Allocator (dev w')) = 0.
Proof.
  intros w h.
  assert (Hh : header_of 0x2000 w = Some h) by (vm_compute; reflexivity).
  assert (Hc : canonical h) by (repeat split).
  assert (Hf : fits 4096 4096 0x100000) by (unfold fits; vm_compute; intuition discriminate).
  split; [exact Hh |].
  exact (block_freed_twice_is_handed_out_twice w 0x2000 h 4096 4096 0x100000
           Hf ltac:(vm_compute; discriminate) ltac:(vm_compute; discriminate)
           ltac:(lia) eq_refl Hh Hc).
Defined.

(** A block of more than a page, and what [Free] makes of it. *)
Lemma large_block_freed w size a b p w1 :
  0 <= a <= b -> b < 64 -> NVME_BLOCK_SIZE < size <= 2 ^ b -> size < 2 ^ 32 ->
  0 <= m_nMemStart (m_Allocator (dev w)) ->
  m_nMemStart (m_Allocator (dev w)) + 24 + 2 ^ a + 2 ^ b + size <= 2 ^ 64 ->
  Allocate size (2 ^ a) (2 ^ b) w = (Done p, w1) -> p <> 0 ->
  header_of p w1
  = Some (mkHeader NVME_BLOCK_MAGIC size (u32 (2 ^ a)) (u32 (2 ^ b)) 0)
  /\ is_page_block
       (mkHeader NVME_BLOCK_MAGIC size (u32 (2 ^ a)) (u32 (2 ^ b)) 0) = false
  /\ m_nMemStart (m_Allocator (dev w)) + sizeof_TNVMeBlockHeader + size
     <= m_nMemStart (m_Allocator (dev w1))
  /\ m_pFreeList (m_Allocator (dev w1)) = m_pFreeList (m_Allocator (dev w)).
Proof.
  intros Hab Hb Hsize H32 Hs Hroom HA Hp.
  change NVME_BLOCK_SIZE with 4096 in Hsize.
  assert (H2a : 0 < 2 ^ a) by (apply Z.pow_pos_nonneg; lia).
  assert (Hle : 2 ^ a <= 2 ^ b) by (apply Z.pow_le_mono_r; lia).
  destruct (Allocate_asserts _ _ _ _ _ _ HA) as (_ & _ & _ & Hst & Hen).
  assert (Ef : fits_page size (2 ^ a) (2 ^ b) = false).
  { unfold fits_page.
    replace (size <=? NVME_BLOCK_SIZE) with false
      by (symmetry; apply Z.leb_gt; change NVME_BLOCK_SIZE with 4096; lia).
    reflexivity. }
  rewrite Allocate_carves in HA by (auto || lia). rewrite Ef in HA.
  destruct (Allocate_carve_ok w size a b p w1 Hab Hb ltac:(lia) Hs Hroom HA Hp)
    as (G1 & _ & _ & G2 & _ & _ & G3 & G4 & _).
  rewrite (u32_small size) in G4 by lia.
  split; [exact G4 |].
  split; [| split; [change sizeof_TNVMeBlockHeader with 24; lia | exact G3]].
  unfold is_page_block. cbn [nSize].
  replace (size =? NVME_BLOCK_SIZE) with false
    by (symmetry; apply Z.eqb_neq; change NVME_BLOCK_SIZE with 4096; lia).
  reflexivity.
Qed.

(** X6. A block of more than a page is never taken back: [Free] only
    writes a line to the log, and the free list, the cursor and the memory
    stay as [Allocate] left them, the cursor behind the block. *)
Theorem block_above_a_page_is_never_reclaimed w size a b p w1 :
  0 <= a <= b -> b < 64 -> NVME_BLOCK_SIZE < size <= 2 ^ b -> size < 2 ^ 32 ->
  0 <= m_nMemStart (m_Allocator (dev w)) ->
  m_nMemStart (m_Allocator (dev w)) + 24 + 2 ^ a + 2 ^ b + size <= 2 ^ 64 ->
  Allocate size (2 ^ a) (2 ^ b) w = (Done p, w1) -> p <> 0 ->
  Free p w1
  = (Done tt,
     set_trace (fun t => t ++
       [EvLog "Trying to free shared memory at 0x%lX (size %u, align %u)"
          [p; size; u32 (2 ^ a)]]) w1)
  /\ m_nMemStart (m_Allocator (dev w)) + sizeof_TNVMeBlockHeader + size
     <= m_nMemStart (m_Allocator (dev w1))
  /\ m_pFreeList (m_Allocator (dev w1)) = m_pFreeList (m_Allocator (dev w)).
Proof.
  intros Hab Hb Hsize H32 Hs Hroom HA Hp.
  destruct (large_block_freed w size a b p w1 Hab Hb Hsize H32 Hs Hroom HA Hp)
    as (G1 & G2 & G3 & G4).
  split; [| split; assumption].
  rewrite (Free_other w1 p _ Hp G1 eq_refl G2). reflexivity.
Qed.

(** X6 on the machine of the examples: a block of two pages. *)
Lemma block_above_a_page_is_never_reclaimed_witness :
  let w := sample_world 0 0 [] in
  let r := Allocate 8192 (2 ^ 12) (2 ^ 20) w in
  fst r = Done 0x2000
  /\ fst (Free 0x2000 (snd r)) = Done tt
  /\ m_Allocator (dev (snd (Free 0x2000 (snd r)))) = m_Allocator (dev (snd r))
  /\ m_nMemStart (m_Allocator (dev w)) + sizeof_TNVMeBlockHeader + 8192
     <= m_nMemStart (m_Allocator (dev (snd r))).
Proof.
  intros w r.
  assert (E : r = (Done 0x2000, snd r)) by (vm_compute; reflexivity).
  split; [rewrite E; reflexivity |].
  destruct (block_above_a_page_is_never_reclaimed w 8192 12 20 0x2000 (snd r)
              ltac:(lia) ltac:(lia)
              ltac:(vm_compute; split; [reflexivity | discriminate])
              ltac:(lia) ltac:(vm_compute; discriminate)
              ltac:(vm_compute; discriminate) E ltac:(discriminate))
    as (G1 & G2 & _).
  rewrite G1. split; [reflexivity |]. split; [reflexivity | exact G2].
Defined.

(** [Allocate] from the free list leaves the cursor alone. *)
Lemma Allocate_recycled w size align boundary p w1 :
  fits size align boundary ->
  m_pFreeList (m_Allocator (dev w)) <> 0 ->
  Allocate size align boundary w = (Done p, w1) ->
  m_nMemStart (m_Allocator (dev w1)) = m_nMemStart (m_Allocator (dev w))
  /\ m_nMemEnd (m_Allocator (dev w1)) = m_nMemEnd (m_Allocator (dev w))
  /\ trace w1 = trace w.
Proof.
  intros (Hs & Ha & Hb) Hfl HA.
  unfold Allocate in HA. rewrite !bind_assert in HA.
  destruct (size >? 0); [| discriminate].
  destruct (negb (align =? 0)); [| discriminate].
  destruct (align <=? boundary); [| discriminate].
  unfold the_allocator in HA. rewrite bind_gets, !bind_assert in HA.
  destruct (negb (m_nMemStart (m_Allocator (dev w)) =? 0)); [| discriminate].
  destruct (negb (m_nMemEnd (m_Allocator (dev w)) =? 0)); [| discriminate].
  replace (size <=? NVME_BLOCK_SIZE) with true in HA
    by (symmetry; apply Z.leb_le; lia).
  replace (align <=? NVME_BLOCK_ALIGN) with true in HA
    by (symmetry; apply Z.leb_le; lia).
  replace (boundary <=? NVME_BLOCK_BOUNDARY) with true in HA
    by (symmetry; apply Z.leb_le; lia).
  cbn [andb] in HA.
  replace (m_pFreeList (m_Allocator (dev w)) =? 0) with false in HA
    by (symmetry; apply Z.eqb_neq; exact Hfl).
  cbn [negb] in HA.
  unfold Allocate_recycle, the_allocator, update_allocator, store_hdr in HA.
  rewrite bind_gets in HA.
  destruct (mem_hdr (mem w) !! m_pFreeList (m_Allocator (dev w)))
    as [h |] eqn:Eh.
  2:{ unfold load_hdr in HA. rewrite bind_bind, bind_gets, Eh in HA.
      discriminate. }
  rewrite (bind_load_hdr _ _ _ _ Eh) in HA. rewrite !bind_assert in HA.
  destruct (nMagic h =? NVME_BLOCK_MAGIC); [| discriminate].
  destruct (nSize h =? NVME_BLOCK_SIZE); [| discriminate].
  destruct (nAlign h =? NVME_BLOCK_ALIGN); [| discriminate].
  destruct (nBoundary h =? NVME_BLOCK_BOUNDARY); [| discriminate].
  rewrite !bind_modify, bind_assert in HA.
  match type of HA with
  | (if ?c then _ else _) = _ => destruct c
  end; [| discriminate].
  injection HA as _ <-. repeat split.
Qed.

(** After a block of the recycled specification has been handed out, the
    allocator passes the assertions of the next calls. *)
Lemma Allocate_fits_cursor w size align boundary p w1 :
  fits size align boundary ->
  0 <= m_nMemStart (m_Allocator (dev w)) ->
  m_nMemStart (m_Allocator (dev w)) + 2 ^ 22 <= 2 ^ 64 ->
  Allocate size align boundary w = (Done p, w1) -> p <> 0 ->
  m_nMemStart (m_Allocator (dev w1)) <> 0.
Proof.
  intros Hf Hs Hroom HA Hp.
  destruct (Allocate_asserts _ _ _ _ _ _ HA) as (_ & _ & _ & Hst & Hen).
  destruct (Z.eq_dec (m_pFreeList (m_Allocator (dev w))) 0) as [Z0 | NZ].
  - destruct Hf as (F1 & F2 & F3).
    rewrite Allocate_carves in HA by (auto || lia).
    replace (fits_page size align boundary) with true in HA.
    2:{ symmetry. unfold fits_page.
        rewrite !andb_true_iff, !Z.leb_le. lia. }
    change NVME_BLOCK_ALIGN with (2 ^ 12) in HA.
    change NVME_BLOCK_BOUNDARY with (2 ^ 20) in HA.
    destruct (Allocate_carve_ok w NVME_BLOCK_SIZE 12 20 p w1
                ltac:(lia) ltac:(lia)
                ltac:(vm_compute; split; [reflexivity | discriminate]) Hs
                ltac:(change NVME_BLOCK_SIZE with 4096; lia) HA Hp)
      as (G1 & _ & _ & G2 & _).
    rewrite G2. change NVME_BLOCK_SIZE with 4096. lia.
  - destruct (Allocate_recycled w size align boundary p w1 Hf NZ HA)
      as (G & _). rewrite G. exact Hst.
Qed.

(** ** Bus addresses and PRP entries *)

Section Bus_addresses.
Context `{Platform}.

(** X7. [PhysicalOf] sets the bits of the DMA window in the address: it
    adds the base of the window exactly when the address has none of these
    bits, it gives the same bus address before and after, and with a
    window base that is a multiple of the page size it keeps the offset
    in the page. *)
Theorem PhysicalOf_sets_the_window_bits (pVirt : Z) :
  0 <= pVirt -> 0 <= GetDMAAddress ->
  PhysicalOf pVirt = pVirt + GetDMAAddress - Z.land pVirt GetDMAAddress
  /\ (PhysicalOf pVirt = pVirt + GetDMAAddress
      <-> Z.land pVirt GetDMAAddress = 0)
  /\ PhysicalOf (PhysicalOf pVirt) = PhysicalOf pVirt
  /\ (GetDMAAddress mod NVME_PAGE_SIZE = 0 ->
      PhysicalOf pVirt mod NVME_PAGE_SIZE = pVirt mod NVME_PAGE_SIZE).
Proof.
  intros Hp Hd. unfold PhysicalOf.
  pose proof (Z.add_lor_land pVirt GetDMAAddress) as E.
  split; [lia |]. split; [lia |]. split.
  - rewrite <- Z.lor_assoc, Z.lor_diag. reflexivity.
  - change NVME_PAGE_SIZE with (2 ^ 12). intros Hm.
    rewrite <- !Z.land_ones by lia. rewrite <- !Z.land_ones in Hm by lia.
    rewrite Z.land_lor_distr_l, Hm, Z.lor_0_r. reflexivity.
Qed.

End Bus_addresses.

(** X7 with the window of the examples at 0x1000000000. *)
Lemma PhysicalOf_sets_the_window_bits_witness :
  (0 <= 0x400123 /\ 0 <= @GetDMAAddress sample_platform)
  /\ @PhysicalOf sample_platform 0x400123 = 0x1000400123
  /\ @PhysicalOf sample_platform 0x1000400123 = 0x1000400123
  /\ @PhysicalOf sample_platform 0x400123 mod NVME_PAGE_SIZE = 0x123.
Proof.
  assert (Hp : 0 <= 0x400123) by lia.
  assert (Hd : 0 <= @GetDMAAddress sample_platform) by (vm_compute; discriminate).
  split; [exact (conj Hp Hd) |].
  destruct (@PhysicalOf_sets_the_window_bits sample_platform 0x400123 Hp Hd)
    as (E1 & _ & E3 & E4).
  split; [rewrite E1; reflexivity |].
  split; [vm_compute; reflexivity |].
  rewrite (E4 eq_refl). reflexivity.
Defined.

(** The page of the last byte of a buffer. *)
Lemma last_page B L :
  0 < B -> 0 < L ->
  page_of (B + L - 1)
  = page_of B
    + 4096 * (if L <=? first_remain B then 0
              else ceil_div (L - first_remain B) 4096).
Proof.
  intros HB HL. unfold page_of, first_remain, ceil_div, NVME_PAGE_SIZE.
  pose proof (Z.div_mod B 4096 ltac:(lia)) as D.
  pose proof (Z.mod_pos_bound B 4096 ltac:(lia)) as R.
  pose proof (Z.div_mod (B + L - 1) 4096 ltac:(lia)) as D'.
  destruct (Z.leb_spec L (4096 - B mod 4096)) as [Hle | Hgt].
  - assert (E : (B + L - 1) / 4096 = B / 4096).
    { symmetry. apply Z.div_unique with (r := B mod 4096 + L - 1); lia. }
    rewrite E in D'. lia.
  - set (x := L - (4096 - B mod 4096)) in *.
    pose proof (Z.div_mod (x + 4096 - 1) 4096 ltac:(lia)) as Dx.
    pose proof (Z.mod_pos_bound (x + 4096 - 1) 4096 ltac:(lia)) as Rx.
    assert (E : (B + L - 1) / 4096 = B / 4096 + (x + 4096 - 1) / 4096).
    { symmetry. apply Z.div_unique with (r := (x + 4096 - 1) mod 4096); lia. }
    rewrite E in D'. lia.
Qed.

Section PRP_coverage.
Context `{Platform}.

(** X8. The pages [BuildForBuffer] names are the pages of the buffer, from
    the one of its first byte to the one of its last byte: PRP2 is 0 for a
    buffer in one page and the page of the last byte for one in two, and
    of a list one entry stands for each further page, the last one for the
    page of the last byte. *)
Theorem PRP_entries_end_at_the_last_byte
    (this : CNVMePRP) (B L : Z) (w w' : World) (prp : CNVMePRP) :
  0 < B -> 0 < L -> B + L <= 2 ^ 64 ->
  BuildForBuffer this B L w = (Done (true, prp), w') ->
  let further := (page_of (B + L - 1) - page_of B) / NVME_PAGE_SIZE in
  m_uPrp1 prp = PhysicalOf B
  /\ (further = 0 -> m_uPrp2 prp = 0)
  /\ (further = 1 -> m_uPrp2 prp = PhysicalOf (page_of (B + L - 1)))
  /\ (2 <= further ->
      m_uPrp2 prp = PhysicalOf (m_pPrpListVirt prp)
      /\ (forall i, 0 <= i < further ->
            mem_u64 (mem w') !! u64 (m_pPrpListVirt prp + PRP_ENTRY_SIZE * i)
            = Some (PhysicalOf (page_of B + NVME_PAGE_SIZE * (i + 1))))
      /\ mem_u64 (mem w')
           !! u64 (m_pPrpListVirt prp + PRP_ENTRY_SIZE * (further - 1))
         = Some (PhysicalOf (page_of (B + L - 1)))).
Proof.
  intros HB HL HBL HR further.
  pose proof (first_remain_range B) as Hfr.
  pose proof (last_page B L HB HL) as LP.
  change NVME_PAGE_SIZE with 4096 in *. change PRP_ENTRY_SIZE with 8.
  destruct (Z.leb_spec L (first_remain B)) as [H1 | H1].
  { assert (F0 : further = 0).
    { unfold further. rewrite LP. replace (page_of B + 4096 * 0 - page_of B)
        with 0 by lia. reflexivity. }
    rewrite (BuildForBuffer_one_page this B L w HB HL HBL H1) in HR.
    injection HR as <- <-. cbn [m_uPrp1 m_uPrp2 set_m_uPrp1 set_m_uPrp2].
    split; [reflexivity |]. split; [reflexivity |]. split; lia. }
  set (needed := ceil_div (L - first_remain B) 4096) in *.
  pose proof (ceil_div_bounds (L - first_remain B) 4096 ltac:(lia)) as Hn.
  fold needed in Hn.
  assert (Ff : further = needed).
  { unfold further. rewrite LP.
    replace (page_of B + 4096 * needed - page_of B) with (needed * 4096) by lia.
    apply Z.div_mul. lia. }
  destruct (Z.le_gt_cases (L - first_remain B) 4096) as [H2 | H2].
  { assert (needed = 1) by lia.
    rewrite (BuildForBuffer_two_pages this B L w HB HL HBL ltac:(lia)) in HR.
    injection HR as <- <-. cbn [m_uPrp1 m_uPrp2 set_m_uPrp1 set_m_uPrp2].
    split; [reflexivity |]. split; [lia |]. split; [| lia].
    intros _. f_equal. lia. }
  assert (2 <= needed) by lia.
  rewrite (BuildForBuffer_list this B L w HB HL HBL ltac:(lia)) in HR.
  cbv zeta in HR. fold needed in HR.
  destruct (Allocate _ _ _ w) as [[pList | |] w1]; try discriminate.
  destruct (pList =? 0); [discriminate |].
  injection HR as <- <-.
  cbn [m_uPrp1 m_uPrp2 m_pPrpListVirt set_m_uPrp1 set_m_uPrp2
       set_m_pPrpListVirt set_m_nPrpListPages].
  split; [reflexivity |]. split; [lia |]. split; [lia |].
  intros _. split; [reflexivity |].
  destruct (prp_list_entries pList B L (mem_u64 (mem w1)) HB HL HBL ltac:(lia))
    as [E1 _]. fold needed in E1.
  rewrite Ff.
  split; [exact E1 |].
  replace (page_of (B + L - 1)) with (page_of B + 4096 * (needed - 1 + 1))
    by lia.
  exact (E1 (needed - 1) ltac:(lia)).
Qed.

End PRP_coverage.

(** X8 on the machine of the examples: 64 KiB at a page boundary, 16 pages,
    15 of them in the list. *)
Lemma PRP_entries_end_at_the_last_byte_witness :
  let r := @BuildForBuffer sample_platform CNVMePRP_new 0x400000 0x10000
             (sample_world 0 0 []) in
  (0 < 0x400000 /\ 0 < 0x10000 /\ 0x400000 + 0x10000 <= 2 ^ 64
   /\ r = (Done (true, mkPRP 0x1000400000 0x1000002000 0x2000 1), snd r))
  /\ (page_of (0x400000 + 0x10000 - 1) - page_of 0x400000) / NVME_PAGE_SIZE = 15
  /\ mem_u64 (mem (snd r)) !! (0x2000 + 8 * 14) = Some 0x100040F000.
Proof.
  intros r.
  assert (E : r = (Done (true, mkPRP 0x1000400000 0x1000002000 0x2000 1), snd r))
    by (vm_compute; reflexivity).
  split; [split; [lia | split; [lia | split; [lia | exact E]]] |].
  split; [reflexivity |].
  destruct (@PRP_entries_end_at_the_last_byte sample_platform CNVMePRP_new
              0x400000 0x10000 (sample_world 0 0 []) (snd r) _
              ltac:(lia) ltac:(lia) ltac:(lia) E) as (_ & _ & _ & T).
  destruct (T ltac:(vm_compute; discriminate)) as (_ & _ & T3).
  exact T3.
Defined.

(** ** What a command leaves of the allocator *)

Lemma keeps_run {A} (R : World -> World -> Prop) (m : M A) w r w1 :
  keeps R m -> m w = (r, w1) -> R w w1.
Proof. intros K E. specialize (K w). rewrite E in K. exact K. Qed.

Lemma same_blocks_refl w : same_blocks w w.
Proof. repeat split. exists []. symmetry. apply app_nil_r. Qed.

Lemma same_blocks_trans a b c :
  same_blocks a b -> same_blocks b c -> same_blocks a c.
Proof.
  intros (A1 & A2 & A3) (B1 & B2 & B3). split; [congruence |].
  split; [congruence |]. eapply trace_extends_trans; eassumption.
Qed.

Ltac blocks_side :=
  first
    [ exact same_blocks_refl | exact same_blocks_trans
    | intros; split; [reflexivity |]; split; [reflexivity |]; trace_side ].

Section PRP_list_block.
Context `{Platform}.

Lemma SubmitCommand_same_blocks pQueue o ns c10 c11 c12 p1 p2 w :
  same_blocks w (snd (SubmitCommand pQueue o ns c10 c11 c12 p1 p2 w)).
Proof. apply (keeps_SubmitCommand same_blocks); blocks_side. Qed.

(** X9. A PRP list of one page goes back to the free list when the command
    is over, the block ready for the next list; a list of more pages is
    lost: [IoPassThrough] leaves a line in the log, the free list as it
    was and the cursor behind the list. *)
Theorem PRP_list_is_recycled_only_if_one_page
    (ns lba n buf : Z) (wr : bool) (w w' : World) (x : Z) :
  0 < buf -> 0 < n -> buf + n * NVME_LBA_SIZE <= 2 ^ 64 ->
  first_remain buf + NVME_PAGE_SIZE < n * NVME_LBA_SIZE ->
  let needed :=
    ceil_div (n * NVME_LBA_SIZE - first_remain buf) NVME_PAGE_SIZE in
  let pages := ceil_div needed (NVME_PAGE_SIZE / PRP_ENTRY_SIZE) in
  pages <= 256 ->
  0 <= m_nMemStart (m_Allocator (dev w)) ->
  m_nMemStart (m_Allocator (dev w)) + 2 ^ 22 <= 2 ^ 64 ->
  0 <= m_pFreeList (m_Allocator (dev w)) < 2 ^ 64 ->
  IoPassThrough ns lba n buf wr w = (Done x, w') ->
  x <> NVME_STATUS_ERROR_NO_RESOURCE ->
  if pages =? 1 then
    exists pList, recyclable pList w'
  else
    m_pFreeList (m_Allocator (dev w')) = m_pFreeList (m_Allocator (dev w))
    /\ m_nMemStart (m_Allocator (dev w)) + sizeof_TNVMeBlockHeader
       + pages * NVME_PAGE_SIZE
       <= m_nMemStart (m_Allocator (dev w'))
    /\ exists pList,
         In (EvLog "Trying to free shared memory at 0x%lX (size %u, align %u)"
               [pList; pages * NVME_PAGE_SIZE; NVME_PAGE_SIZE])
            (trace w').
Proof.
  intros Hb Hn Hr Hlong needed pages Hpages Hs Hroom Hfl HR Hx.
  change NVME_PAGE_SIZE with 4096 in *. change NVME_LBA_SIZE with 512 in *.
  change (4096 / PRP_ENTRY_SIZE) with 512 in *.
  pose proof (first_remain_range buf) as Hfr.
  pose proof (ceil_div_bounds (n * 512 - first_remain buf) 4096 ltac:(lia)) as Hn'.
  fold needed in Hn'.
  pose proof (ceil_div_bounds needed 512 ltac:(lia)) as Hp. fold pages in Hp.
  assert (Hp1 : 1 <= pages) by lia.
  unfold IoPassThrough in HR. rewrite !bind_assert in HR.
  replace (buf =? 0) with false in HR by (symmetry; apply Z.eqb_neq; lia).
  replace (n =? 0) with false in HR by (symmetry; apply Z.eqb_neq; lia).
  cbn [negb] in HR. change NVME_LBA_SIZE with 512 in HR.
  rewrite (u64_small (n * 512)) in HR by lia.
  unfold bind at 1 in HR.
  rewrite (BuildForBuffer_list CNVMePRP_new buf (n * 512) w Hb ltac:(lia) Hr
             ltac:(lia)) in HR.
  cbv zeta in HR. fold needed in HR. fold pages in HR.
  change PRP_PAGE_SIZE with (2 ^ 12) in HR.
  change NVME_BLOCK_BOUNDARY with (2 ^ 20) in HR.
  destruct (Allocate (pages * 4096) (2 ^ 12) (2 ^ 20) w)
    as [[pList | |] w1] eqn:EA; try discriminate.
  destruct (Z.eqb_spec pList 0) as [E0 | Hne].
  { cbn [negb] in HR. unfold bind, CNVMePRP_delete in HR.
    cbn [m_pPrpListVirt set_m_uPrp1 set_m_uPrp2 CNVMePRP_new Z.eqb negb ret]
      in HR.
    injection HR as HR _. congruence. }
  cbn [negb] in HR.
  set (w2 := set_mem _ (set_mem _ w1)) in HR.
  apply bind_inv in HR.
  destruct HR as [(a & w3 & ES & HR) | [(_ & HR) | (_ & HR)]];
    [| discriminate HR | discriminate HR].
  pose proof (SubmitCommand_same_blocks IoQueue
                (if wr then NVME_IO_OPC_WRITE else NVME_IO_OPC_READ) ns
                (u32 (Z.land lba 0xffffffff))
                (u32 (Z.land (Z.shiftr lba 32) 0xffffffff)) (u32 (n - 1))
                (PhysicalOf buf) (PhysicalOf pList) w2) as SB.
  cbn [m_uPrp1 m_uPrp2 set_m_uPrp1 set_m_uPrp2 set_m_pPrpListVirt
       set_m_nPrpListPages CNVMePRP_new] in ES.
  rewrite ES in SB. cbn [snd] in SB. destruct SB as (SA & SH & ST).
  unfold CNVMePRP_delete in HR.
  cbn [m_pPrpListVirt set_m_uPrp2 set_m_nPrpListPages set_m_pPrpListVirt] in HR.
  replace (pList =? 0) with false in HR by (symmetry; apply Z.eqb_neq; exact Hne).
  cbn [negb] in HR.
  assert (Hhd : forall q, header_of q w3 = header_of q w1).
  { intros q. unfold header_of. rewrite SH. reflexivity. }
  assert (Hal : m_Allocator (dev w3) = m_Allocator (dev w1)) by exact SA.
  destruct (Z.eqb_spec pages 1) as [E1 | E1].
  - (* one page: the block of the recycled specification *)
    rewrite E1 in EA.
    assert (Hf : fits (1 * 4096) (2 ^ 12) (2 ^ 20))
      by (unfold fits; vm_compute; intuition discriminate).
    destruct (Allocate_fits_post w (1 * 4096) (2 ^ 12) (2 ^ 20) pList w1
                Hf Hfl EA Hne) as (Hpr & Hpa & (h & Hh & Hc) & Hen1).
    pose proof (Allocate_fits_cursor w _ _ _ pList w1 Hf Hs Hroom EA Hne)
      as Hst1.
    destruct (Free_pushes w3 pList h Hpr Hpa
                ltac:(rewrite Hhd; exact Hh) Hc)
      as (w4 & EF & F1 & F2 & _ & F3 & F4 & _).
    unfold bind in HR. rewrite EF in HR. injection HR as _ <-.
    exists pList. unfold recyclable. cbv zeta.
    destruct (aligned_header_nonzero pList Hpr Hpa) as [Hu _].
    split; [rewrite F3, Hal; exact Hst1 |].
    split; [rewrite F4, Hal; exact Hen1 |].
    split; [exact Hpr |]. split; [exact Hpa |].
    split; [rewrite F1, Hu; reflexivity |].
    eexists. split; [exact F2 | apply canonical_set_pNext; exact Hc].
  - (* more pages: a block [Free] does not take *)
    destruct (large_block_freed w (pages * 4096) 12 20 pList w1
                ltac:(lia) ltac:(lia)
                ltac:(change NVME_BLOCK_SIZE with 4096; lia) ltac:(lia)
                Hs ltac:(lia) EA Hne) as (G1 & G2 & G3 & G4).
    unfold bind in HR.
    rewrite (Free_other w3 pList _ Hne ltac:(rewrite Hhd; exact G1) eq_refl G2)
      in HR.
    cbn [nSize nAlign ret] in HR. injection HR as _ <-.
    cbn [dev set_trace trace]. rewrite Hal.
    split; [exact G4 |]. split; [exact G3 |].
    exists pList. apply in_or_app. right. left. reflexivity.
Qed.

End PRP_list_block.

(** X9 on the machine of the examples: a read of 4112 blocks, 514 pages,
    takes a list of 513 entries in two pages. *)
Lemma PRP_list_is_recycled_only_if_one_page_witness :
  let w := sample_booted 0 0 [sample_completion IOQID 0 0 0] in
  let r := @IoPassThrough sample_platform NSID 0 4112 0x400000 false w in
  fst r = Done NVME_STATUS_OK
  /\ m_pFreeList (m_Allocator (dev (snd r))) = m_pFreeList (m_Allocator (dev w))
  /\ m_nMemStart (m_Allocator (dev w)) + sizeof_TNVMeBlockHeader
     + 2 * NVME_PAGE_SIZE
     <= m_nMemStart (m_Allocator (dev (snd r))).
Proof.
  intros w r.
  assert (E : r = (Done NVME_STATUS_OK, snd r)) by (vm_compute; reflexivity).
  split; [rewrite E; reflexivity |].
  pose proof (@PRP_list_is_recycled_only_if_one_page sample_platform
                NSID 0 4112 0x400000 false w (snd r) NVME_STATUS_OK
                ltac:(lia) ltac:(lia)
                ltac:(vm_compute; discriminate) ltac:(vm_compute; reflexivity)
                ltac:(vm_compute; discriminate) ltac:(vm_compute; discriminate)
                ltac:(vm_compute; discriminate)
                ltac:(vm_compute; split; [discriminate | reflexivity])
                E ltac:(discriminate)) as T.
  cbv zeta in T.
  match type of T with
  | (if ?c then _ else _) => change c with false in T
  end.
  cbv iota in T. destruct T as (T1 & T2 & _).
  split; [exact T1 | exact T2].
Defined.

(** ** Submission *)

Lemma advance_head_keeps_tail q :
  nSqTail (advance_head q) = nSqTail q
  /\ pSqVirt (advance_head q) = pSqVirt q
  /\ usID (advance_head q) = usID q
  /\ nEntries (advance_head q) = nEntries q.
Proof.
  unfold advance_head. cbv zeta.
  destruct (nCqHead (set_nCqHead _ q) =? 0); repeat split.
Qed.

Lemma PollForCompletion_queue pQueue usCid nTimeoutHZ w :
  queue_of pQueue (snd (PollForCompletion pQueue usCid nTimeoutHZ w))
  = queue_of pQueue w
  \/ queue_of pQueue (snd (PollForCompletion pQueue usCid nTimeoutHZ w))
     = advance_head (queue_of pQueue w).
Proof.
  pose proof (PollForCompletion_spec pQueue usCid nTimeoutHZ w) as S.
  cbv zeta in S.
  destruct (fst (PollForCompletion pQueue usCid nTimeoutHZ w)) as [x | |];
    [| left; exact S | left; exact S].
  destruct S as [[_ S] | (ce & _ & _ & _ & S)]; [left | right]; exact S.
Qed.

Section Submission.
Context `{Platform}.

(** X10. Whatever becomes of the command, [SubmitCommand] stores it in the
    slot at the tail of the queue, with the index of the slot as its
    command identifier, moves the tail one slot on, from the last slot to
    the first, and writes the new tail to the doorbell of the queue after
    a data synchronization barrier. *)
Theorem SubmitCommand_takes_the_slot_at_the_tail
    (pQueue : QueueRef) (o ns c10 c11 c12 p1 p2 : Z) (w : World) :
  nEntries (queue_of pQueue w) = 64 ->
  0 <= nSqTail (queue_of pQueue w) < 64 ->
  let q := queue_of pQueue w in
  let w' := snd (SubmitCommand pQueue o ns c10 c11 c12 p1 p2 w) in
  mem_cmd (mem w')
  = <[u64 (pSqVirt q + sizeof_TNVMeCommand * nSqTail q)
      := mkCommand o 0 (nSqTail q) ns 0 0 p1 p2 c10 c11 c12 0 0 0]>
      (mem_cmd (mem w))
  /\ nSqTail (queue_of pQueue w') = (nSqTail q + 1) mod 64
  /\ (nSqTail (queue_of pQueue w') = 0 <-> nSqTail q = 63)
  /\ exists evs,
       trace w'
       = trace w
         ++ EvDataSyncBarrier
         :: EvMmioWrite32
              (NVME_DOORBELL_SQ_OFFSET (m_nDoorbellStride (dev w)) (usID q))
              ((nSqTail q + 1) mod 64)
         :: evs.
Proof.
  intros He Ht q w'. subst w'. unfold SubmitCommand. mstep.
  change (match pQueue with
          | AdminQueue => m_AdminQueue (dev w)
          | IoQueue => m_IoQueue (dev w)
          end) with q.
  assert (Ec : u16 (Z.land (nSqTail q) 0xffff) = nSqTail q).
  { change 0xffff with (Z.ones 16). rewrite Z.land_ones by lia.
    rewrite Z.mod_small by (subst q; lia). apply u16_small. subst q; lia. }
  assert (Et : u16 ((nSqTail q + 1) mod nEntries q) = (nSqTail q + 1) mod 64).
  { subst q. rewrite He. apply u16_small.
    pose proof (Z.mod_pos_bound (nSqTail (queue_of pQueue w) + 1) 64). lia. }
  rewrite Ec.
  match goal with
  | |- context [PollForCompletion ?a ?b ?c ?w1] => set (w3 := w1)
  end.
  pose proof (PollForCompletion_same_cmd pQueue (nSqTail q) POLL_TIMEOUT_HZ w3)
    as Hc.
  pose proof (PollForCompletion_trace pQueue (nSqTail q) POLL_TIMEOUT_HZ w3)
    as [evs Hev].
  pose proof (PollForCompletion_queue pQueue (nSqTail q) POLL_TIMEOUT_HZ w3)
    as Hq.
  assert (Eq3 : nSqTail (queue_of pQueue w3) = (nSqTail q + 1) mod 64).
  { rewrite <- Et. subst w3 q. destruct pQueue; reflexivity. }
  assert (Etail : nSqTail (queue_of pQueue
                    (snd (PollForCompletion pQueue (nSqTail q)
                            POLL_TIMEOUT_HZ w3)))
                  = (nSqTail q + 1) mod 64).
  { destruct Hq as [-> | ->]; [exact Eq3 |].
    destruct (advance_head_keeps_tail (queue_of pQueue w3)) as [-> _].
    exact Eq3. }
  split; [rewrite Hc; subst w3 q; destruct pQueue; reflexivity |].
  split; [exact Etail |].
  split.
  { rewrite Etail. subst q.
    pose proof (Z.div_mod (nSqTail (queue_of pQueue w) + 1) 64 ltac:(lia)).
    pose proof (Z.mod_pos_bound (nSqTail (queue_of pQueue w) + 1) 64 ltac:(lia)).
    split; intros E.
    - assert ((nSqTail (queue_of pQueue w) + 1) / 64 = 1) by lia. lia.
    - rewrite E. reflexivity. }
  exists evs. rewrite Hev. subst w3.
  cbn [trace set_trace set_dev set_mem].
  rewrite <- !app_assoc. cbn [app]. rewrite <- Et.
  subst q. destruct pQueue; reflexivity.
Qed.

End Submission.

(** X10 on the machine of the examples: the first command of the I/O
    queue. *)
Lemma SubmitCommand_takes_the_slot_at_the_tail_witness :
  let w := sample_booted 0 0 [sample_completion IOQID 0 0 0] in
  let w' := snd (@SubmitCommand sample_platform IoQueue NVME_IO_OPC_FLUSH NSID
                   0 0 0 0 0 w) in
  (nEntries (queue_of IoQueue w) = 64 /\ 0 <= nSqTail (queue_of IoQueue w) < 64)
  /\ nSqTail (queue_of IoQueue w) = 0
  /\ nSqTail (queue_of IoQueue w') = 1.
Proof.
  intros w w'.
  assert (He : nEntries (queue_of IoQueue w) = 64) by (vm_compute; reflexivity).
  assert (Ht : 0 <= nSqTail (queue_of IoQueue w) < 64)
    by (vm_compute; split; [discriminate | reflexivity]).
  assert (E0 : nSqTail (queue_of IoQueue w) = 0) by (vm_compute; reflexivity).
  split; [exact (conj He Ht) |]. split; [exact E0 |].
  destruct (@SubmitCommand_takes_the_slot_at_the_tail sample_platform IoQueue
              NVME_IO_OPC_FLUSH NSID 0 0 0 0 0 w He Ht) as (_ & T & _).
  fold w' in T. rewrite T, E0. reflexivity.
Defined.

(** ** Polling *)

Lemma usID_advance_head q : usID (advance_head q) = usID q.
Proof. apply advance_head_keeps_tail. Qed.

Lemma mmio_writes32_app t1 t2 :
  mmio_writes32 (t1 ++ t2) = mmio_writes32 t1 ++ mmio_writes32 t2.
Proof. apply flat_map_app. Qed.

Lemma poll_loop_writes fuel pQueue usCid nStart nTimeoutHZ w :
  let q := queue_of pQueue w in
  let r := poll_loop fuel pQueue usCid nStart nTimeoutHZ w in
  mmio_writes32 (trace (snd r))
  = mmio_writes32 (trace w)
    ++ match fst r with
       | Done x =>
           if x =? NVME_STATUS_ERROR_TIMEOUT then []
           else [(NVME_DOORBELL_CQ_OFFSET (m_nDoorbellStride (dev w)) (usID q),
                  nCqHead (advance_head q))]
       | _ => []
       end.
Proof.
  revert w. induction fuel as [| fuel IH]; intros w q r; subst r.
  - cbn. rewrite app_nil_r. reflexivity.
  - destruct (in_cq (env w)) as [| ce rest] eqn:Ecq.
    + cbn [poll_loop]. mstep. rewrite bind_load_completion_nil by exact Ecq.
      cbn [fst snd trace set_trace]. rewrite mmio_writes32_app. reflexivity.
    + destruct (completion_matches q usCid ce) eqn:Hm.
      * rewrite (poll_loop_takes _ _ _ _ _ _ _ _ Ecq Hm). cbn [fst snd].
        replace (status_result (status ce) =? NVME_STATUS_ERROR_TIMEOUT)
          with false
          by (symmetry; apply Z.eqb_neq, status_result_not_timeout).
        unfold taken. cbv zeta.
        destruct (negb (status_SCT (status ce) =? 0)
                  || negb (status_SC (status ce) =? 0));
          cbn [trace set_trace set_env set_dev];
          rewrite !mmio_writes32_app; cbn [mmio_writes32 flat_map app];
          rewrite ?app_nil_r; subst q; destruct pQueue;
          cbn [queue_of dev set_trace set_dev set_env m_AdminQueue m_IoQueue
               set_m_AdminQueue set_m_IoQueue m_nDoorbellStride];
          rewrite usID_advance_head; reflexivity.
      * rewrite (poll_loop_skips _ _ _ _ _ _ _ _ Ecq Hm).
        destruct (in_ticks (env w)) as [| t ticks].
        { cbn [fst snd skipped_cq trace set_trace set_env].
          rewrite mmio_writes32_app. reflexivity. }
        destruct (u32 (u32 t - nStart) >? nTimeoutHZ).
        { cbn [fst snd skipped skipped_cq trace set_trace set_env].
          rewrite mmio_writes32_app. reflexivity. }
        specialize (IH (set_trace (fun t => t ++ [EvUsDelay 1])
                          (skipped rest ticks w))).
        cbv zeta in IH. rewrite IH.
        cbn [skipped skipped_cq trace set_trace set_env dev set_dev].
        rewrite !mmio_writes32_app. cbn [mmio_writes32 flat_map app].
        rewrite !app_nil_r.
        replace (queue_of pQueue
                   (set_trace (fun t0 => t0 ++ [EvUsDelay 1])
                      (set_env (set_in_ticks ticks)
                         (set_env (set_in_cq rest)
                            (set_trace (fun t0 => t0 ++ [EvDataMemBarrier]) w)))))
          with q by (subst q; destruct pQueue; reflexivity).
        reflexivity.
Qed.

(** X11. [PollForCompletion] writes to the controller only when it takes a
    completion: then once, the new head to the completion doorbell of the
    queue. A poll that times out, or that stops on an assertion, writes
    nothing. *)
Theorem PollForCompletion_rings_only_for_a_completion
    (pQueue : QueueRef) (usCid nTimeoutHZ : Z) (w : World) :
  let q := queue_of pQueue w in
  let r := PollForCompletion pQueue usCid nTimeoutHZ w in
  mmio_writes32 (trace (snd r))
  = mmio_writes32 (trace w)
    ++ match fst r with
       | Done x =>
           if x =? NVME_STATUS_ERROR_TIMEOUT then []
           else [(NVME_DOORBELL_CQ_OFFSET (m_nDoorbellStride (dev w)) (usID q),
                  nCqHead (advance_head q))]
       | _ => []
       end.
Proof.
  intros q r. subst r. unfold PollForCompletion. mstep. rewrite bind_assert.
  destruct (usCid <? nEntries _).
  2:{ cbn. rewrite app_nil_r. reflexivity. }
  destruct (in_ticks (env w)) as [| t ticks] eqn:Et.
  - rewrite bind_GetTicks_nil by exact Et. cbn. rewrite app_nil_r. reflexivity.
  - rewrite bind_GetTicks with (t := t) (rest := ticks) by exact Et.
    mstep.
    pose proof (poll_loop_writes
      (length (in_cq (env (set_env (set_in_ticks ticks) w))))
      pQueue usCid (u32 t) nTimeoutHZ (set_env (set_in_ticks ticks) w)) as S.
    cbv zeta in S. rewrite S.
    replace (queue_of pQueue (set_env (set_in_ticks ticks) w)) with q
      by (subst q; destruct pQueue; reflexivity).
    reflexivity.
Qed.

(** ** Waiting for the controller *)

Lemma bind_MmioRead32 {B} (k : Z -> M B) o w v rest :
  in_mmio (env w) = v :: rest ->
  bind (MmioRead32 o) k w = k (u32 v) (set_env (set_in_mmio rest) w).
Proof.
  intros E. unfold MmioRead32. rewrite bind_bind, bind_gets, E.
  rewrite bind_bind, bind_modify, bind_ret. reflexivity.
Qed.

Lemma bind_MmioRead32_nil {B} (k : Z -> M B) o w :
  in_mmio (env w) = [] -> bind (MmioRead32 o) k w = (Stuck, w).
Proof.
  intros E. unfold MmioRead32. rewrite bind_bind, bind_gets, E. reflexivity.
Qed.

Lemma wait_loop_spec fuel bOn nStart w :
  let r := wait_loop fuel bOn nStart w in
  dev (snd r) = dev w /\ mem (snd r) = mem w
  /\ exists k,
       trace (snd r) = trace w ++ repeat (EvMsDelay 1) k
       /\ match fst r with
          | Done true =>
              exists pre v,
                in_mmio (env w) = pre ++ v :: in_mmio (env (snd r))
                /\ length pre = k
                /\ Forall (fun c => csts_ready c = negb bOn) pre
                /\ csts_ready v = bOn
          | Done false =>
              exists t, In t (in_ticks (env w))
                /\ m_nTimeoutHZ (dev w) <= u32 (u32 t - nStart)
          | _ => True
          end.
Proof.
  revert w. induction fuel as [| fuel IH]; intros w r; subst r.
  - cbn. repeat split. exists 0%nat. cbn. rewrite app_nil_r. auto.
  - cbn [wait_loop].
    destruct (in_mmio (env w)) as [| v regs] eqn:Em.
    { rewrite bind_MmioRead32_nil by exact Em. cbn. repeat split.
      exists 0%nat. cbn. rewrite app_nil_r. auto. }
    rewrite bind_MmioRead32 with (v := v) (rest := regs) by exact Em.
    fold (csts_ready v).
    destruct (Bool.eqb (csts_ready v) bOn) eqn:Er.
    { cbn. repeat split. exists 0%nat. cbn. rewrite app_nil_r.
      split; [reflexivity |]. exists [], v. cbn.
      repeat split; [constructor | apply eqb_prop; exact Er]. }
    destruct (in_ticks (env w)) as [| t ticks] eqn:Et.
    { rewrite bind_GetTicks_nil by exact Et. cbn. repeat split.
      exists 0%nat. cbn. rewrite app_nil_r. auto. }
    rewrite bind_GetTicks with (t := t) (rest := ticks) by exact Et.
    rewrite bind_gets. cbn [dev set_env].
    destruct (Z.geb_spec (u32 (u32 t - nStart)) (m_nTimeoutHZ (dev w)))
      as [Hto | Hto].
    { cbn. repeat split. exists 0%nat. cbn. rewrite app_nil_r.
      split; [reflexivity |]. exists t. split; [left; reflexivity | lia]. }
    rewrite bind_emit.
    set (w2 := set_trace _ (set_env _ (set_env _ w))).
    specialize (IH w2). cbv zeta in IH.
    destruct IH as (Hd & Hmem & k & Htr & Hres).
    split; [exact Hd |]. split; [exact Hmem |].
    exists (S k). split.
    { rewrite Htr. subst w2. cbn [trace set_trace set_env].
      rewrite <- app_assoc. reflexivity. }
    destruct (fst (wait_loop fuel bOn nStart w2)) as [[|] | |]; [| | exact I ..].
    + destruct Hres as (pre & v' & E1 & E2 & E3 & E4).
      exists (v :: pre), v'. subst w2. cbn [env set_trace set_env in_mmio
        set_in_mmio set_in_ticks] in E1.
      split; [cbn [app]; f_equal; exact E1 |].
      split; [cbn [length]; f_equal; exact E2 |].
      split; [| exact E4].
      constructor; [| exact E3].
      destruct (csts_ready v), bOn; cbn in Er; congruence || reflexivity.
    + destruct Hres as (t' & Hin & Hle). exists t'.
      subst w2. cbn [env set_trace set_env in_ticks set_in_ticks set_in_mmio]
        in Hin.
      split; [right; exact Hin | exact Hle].
Qed.

(** X12. [WaitReady] only reads and waits: it changes nothing of the
    device or of the memory and writes no register, and the only events
    are waits of a millisecond. It returns [true] at the first value of
    CSTS that has the ready bit right, after one wait for each value
    before it; it returns [false] only when the tick counter, modulo
    2^32, is the ready timeout or more away from the tick it started
    at. *)
Theorem WaitReady_only_reads_and_waits (bOn : bool) (w : World) :
  let r := WaitReady bOn w in
  dev (snd r) = dev w /\ mem (snd r) = mem w
  /\ exists k,
       trace (snd r) = trace w ++ repeat (EvMsDelay 1) k
       /\ match fst r with
          | Done true =>
              exists pre v,
                in_mmio (env w) = pre ++ v :: in_mmio (env (snd r))
                /\ length pre = k
                /\ Forall (fun c => csts_ready c = negb bOn) pre
                /\ csts_ready v = bOn
          | Done false =>
              exists t0 t ticks,
                in_ticks (env w) = t0 :: ticks /\ In t ticks
                /\ m_nTimeoutHZ (dev w) <= u32 (u32 t - u32 t0)
          | _ => True
          end.
Proof.
  intros r. subst r. unfold WaitReady.
  destruct (in_ticks (env w)) as [| t0 ticks] eqn:Et.
  { rewrite bind_GetTicks_nil by exact Et. cbn. repeat split.
    exists 0%nat. cbn. rewrite app_nil_r. auto. }
  rewrite bind_GetTicks with (t := t0) (rest := ticks) by exact Et.
  rewrite bind_gets.
  set (w1 := set_env (set_in_ticks ticks) w).
  pose proof (wait_loop_spec (length (in_mmio (env w1))) bOn (u32 t0) w1) as S.
  cbv zeta in S. destruct S as (Hd & Hm & k & Htr & Hres).
  split; [exact Hd |]. split; [exact Hm |].
  exists k. split; [exact Htr |].
  destruct (fst (wait_loop _ bOn (u32 t0) w1)) as [[|] | |]; [| | exact I ..].
  - exact Hres.
  - destruct Hres as (t & Hin & Hle). exists t0, t, ticks.
    split; [reflexivity |]. split; [exact Hin | exact Hle].
Qed.

(** ** Bringing the controller up *)

Lemma field_div_mod c k s :
  0 <= k -> 0 <= s ->
  Z.shiftr (Z.land c (Z.shiftl (Z.ones k) s)) s = (c / 2 ^ s) mod 2 ^ k.
Proof.
  intros Hk Hs. apply Z.bits_inj'. intros n Hn.
  rewrite testbit_field by lia.
  rewrite <- Z.land_ones by lia. rewrite Z.land_spec.
  rewrite <- Z.shiftr_div_pow2 by lia. rewrite Z.shiftr_spec by lia.
  destruct (Z.ltb_spec n k) as [Hlt | Hge].
  - rewrite Z.ones_spec_low by lia. rewrite andb_true_r. reflexivity.
  - rewrite Z.ones_spec_high by lia. rewrite andb_false_r. reflexivity.
Qed.

Lemma timeout_field ulCaps :
  Z.shiftr (Z.land ulCaps (u64 NVME_REG_CAP_TO__MASK)) NVME_REG_CAP_TO__SHIFT
  = (ulCaps / 2 ^ 32) mod 2 ^ 32 * 256 + (ulCaps / 2 ^ 24) mod 256.
Proof.
  change (u64 NVME_REG_CAP_TO__MASK) with (Z.shiftl (Z.ones 40) 24).
  unfold NVME_REG_CAP_TO__SHIFT. rewrite field_div_mod by lia.
  replace (ulCaps / 2 ^ 32) with (ulCaps / 2 ^ 24 / 256)
    by (rewrite Z.div_div by lia; reflexivity).
  generalize (ulCaps / 2 ^ 24). intros x.
  change (2 ^ 40) with (256 * 2 ^ 32).
  rewrite Z.rem_mul_r by lia. lia.
Qed.

Section Ready_timeout.
Context `{Platform}.

(** X13. The ready timeout is not computed from the TO field of CAP alone:
    the mask [(0xFF << 24)] is a negative [int], which widens to a mask of
    the bits 63 to 24, so that the upper half of CAP is counted in, 256
    times. Only for capabilities with an empty upper half it is TO times
    500 ms. *)
Theorem ready_timeout_counts_the_upper_half_of_CAP (ulCaps : Z) :
  timeout_of_caps ulCaps
  = u32 (MSEC2HZ (u64 (((ulCaps / 2 ^ 32) mod 2 ^ 32 * 256
                        + (ulCaps / 2 ^ 24) mod 256) * 500)))
  /\ ((ulCaps / 2 ^ 32) mod 2 ^ 32 = 0 ->
      timeout_of_caps ulCaps = u32 (MSEC2HZ ((ulCaps / 2 ^ 24) mod 256 * 500))).
Proof.
  unfold timeout_of_caps. rewrite timeout_field. split; [reflexivity |].
  intros E. rewrite E. cbn [Z.mul Z.add].
  rewrite u64_small; [reflexivity |].
  pose proof (Z.mod_pos_bound (ulCaps / 2 ^ 24) 256 ltac:(lia)). lia.
Qed.

End Ready_timeout.

Lemma ready_timeout_counts_the_upper_half_of_CAP_witness :
  (0x2000000000 / 2 ^ 32) mod 2 ^ 32 = 32
  /\ @timeout_of_caps sample_platform 0x2000000000 = 409600
  /\ @timeout_of_caps sample_platform 0x14000000 = 1000.
Proof.
  split; [reflexivity |].
  split.
  - rewrite (proj1 (@ready_timeout_counts_the_upper_half_of_CAP
                      sample_platform 0x2000000000)).
    vm_compute. reflexivity.
  - rewrite (proj2 (@ready_timeout_counts_the_upper_half_of_CAP
                      sample_platform 0x14000000) ltac:(reflexivity)).
    vm_compute. reflexivity.
Defined.

(** The fields of a version that fits 32 bits. *)
Lemma version_fields v :
  Z.shiftr (Z.land (u32 v) (u32 NVME_REG_VER_MJR__MASK)) NVME_REG_VER_MJR__SHIFT
  = u32 v / 2 ^ 16
  /\ Z.shiftr (Z.land (u32 v) NVME_REG_VER_MNR__MASK) NVME_REG_VER_MNR__SHIFT
     = (u32 v / 2 ^ 8) mod 2 ^ 8.
Proof.
  pose proof (u32_range v) as R.
  change (u32 NVME_REG_VER_MJR__MASK) with (Z.shiftl (Z.ones 16) 16).
  change NVME_REG_VER_MNR__MASK with (Z.shiftl (Z.ones 8) 8).
  unfold NVME_REG_VER_MJR__SHIFT, NVME_REG_VER_MNR__SHIFT.
  rewrite !field_div_mod by lia. split; [| reflexivity].
  apply Z.mod_small. split.
  - apply Z.div_pos; lia.
  - apply Z.div_lt_upper_bound; lia.
Qed.

(** The version check of [Initialize], as a range. *)
Lemma version_check v :
  negb (Z.shiftr (Z.land (u32 v) (u32 NVME_REG_VER_MJR__MASK))
          NVME_REG_VER_MJR__SHIFT =? 1)
  || (negb (Z.shiftr (Z.land (u32 v) NVME_REG_VER_MNR__MASK)
              NVME_REG_VER_MNR__SHIFT =? 3)
      && negb (Z.shiftr (Z.land (u32 v) NVME_REG_VER_MNR__MASK)
                 NVME_REG_VER_MNR__SHIFT =? 4))
  = negb ((0x10300 <=? u32 v) && (u32 v <? 0x10500)).
Proof.
  destruct (version_fields v) as [-> ->].
  pose proof (u32_range v) as R. generalize dependent (u32 v). intros x R.
  change (2 ^ 16) with 65536. change (2 ^ 8) with 256.
  destruct (Z.eqb_spec (x / 65536) 1) as [E1 | E1];
  destruct (Z.eqb_spec ((x / 256) mod 256) 3) as [E3 | E3];
  destruct (Z.eqb_spec ((x / 256) mod 256) 4) as [E4 | E4];
  destruct (Z.leb_spec 0x10300 x) as [L | L];
  destruct (Z.ltb_spec x 0x10500) as [U | U];
  cbn [negb andb orb]; try reflexivity; exfalso;
  revert E1 E3 E4; clear -L U R; intros; Z.div_mod_to_equations; lia.
Qed.

Section Bring_up.
Context `{Platform}.

Lemma bind_extern_call {B} (k : bool -> M B) w b rest :
  in_call (env w) = b :: rest ->
  bind extern_call k w = k b (set_env (set_in_call rest) w).
Proof.
  intros E. unfold extern_call. rewrite bind_bind, bind_gets, E.
  rewrite bind_bind, bind_modify, bind_ret. reflexivity.
Qed.

(** X14. [Initialize] gives up before it programs anything when the host
    bridge cannot be set up, when the device cannot be enabled, and when
    the version register reads anything but 1.3.x or 1.4.x: it returns
    [false] with one line logged, no register written, no memory taken;
    in the third case the version it has read stays in the device. *)
Theorem Initialize_gives_up_before_it_programs_anything
    (w : World) (b1 b2 : bool) (calls : list bool) (v : Z) (regs : list Z) :
  in_call (env w) = b1 :: b2 :: calls ->
  in_mmio (env w) = v :: regs ->
  b1 && b2 && (0x10300 <=? u32 v) && (u32 v <? 0x10500) = false ->
  let r := Initialize w in
  fst r = Done false
  /\ mem (snd r) = mem w
  /\ dev (snd r)
     = (if b1 && b2 then set_m_nVersion (u32 v) (dev w) else dev w)
  /\ in_mmio (env (snd r)) = (if b1 && b2 then regs else v :: regs)
  /\ trace (snd r)
     = trace w
       ++ [if negb b1 then EvLog "Cannot init external PCIe" []
           else if negb b2 then EvLog "Cannot enable PCIe device" []
           else EvLog "NVMe version not supported (0x%X)" [u32 v]].
Proof.
  intros Ec Em Hb r. subst r. unfold Initialize.
  rewrite bind_extern_call with (b := b1) (rest := b2 :: calls) by exact Ec.
  destruct b1; cbn [negb andb] in *.
  2:{ rewrite bind_emit. cbn. rewrite Em. repeat split. }
  rewrite bind_extern_call with (b := b2) (rest := calls) by reflexivity.
  destruct b2; cbn [negb andb] in *.
  2:{ rewrite bind_emit. cbn. rewrite Em. repeat split. }
  rewrite bind_MmioRead32 with (v := v) (rest := regs) by exact Em.
  rewrite bind_modify. rewrite version_check.
  replace ((0x10300 <=? u32 v) && (u32 v <? 0x10500)) with false
    by (symmetry; exact Hb).
  cbn [negb]. rewrite bind_emit. cbn. repeat split.
Qed.

End Bring_up.

Lemma Initialize_gives_up_before_it_programs_anything_witness :
  let w := set_env (set_in_mmio [0x00010200; 0; 0])
             (sample_world 0 0 []) in
  fst (@Initialize sample_platform w) = Done false
  /\ writes_to NVME_REG_CC (trace (snd (@Initialize sample_platform w))) = []
  /\ m_nVersion (dev (snd (@Initialize sample_platform w))) = 0x00010200.
Proof.
  intros w.
  assert (Ec : in_call (env w) = true :: true :: [true])
    by (vm_compute; reflexivity).
  assert (Em : in_mmio (env w) = 0x00010200 :: [0; 0])
    by (vm_compute; reflexivity).
  assert (Hb : true && true && (0x10300 <=? u32 0x00010200)
               && (u32 0x00010200 <? 0x10500) = false)
    by (vm_compute; reflexivity).
  pose proof (@Initialize_gives_up_before_it_programs_anything
                sample_platform w true true [true] 0x00010200 [0; 0]
                Ec Em Hb) as P.
  cbv zeta in P. destruct P as (P1 & _ & P3 & _ & P5).
  split; [exact P1 |]. split.
  - rewrite P5. vm_compute. reflexivity.
  - rewrite P3. vm_compute. reflexivity.
Defined.

(** ** Commands that complete at once *)

Lemma PollForCompletion_takes pQueue usCid nTimeoutHZ w t ticks ce rest :
  usCid < nEntries (queue_of pQueue w) ->
  in_ticks (env w) = t :: ticks ->
  in_cq (env w) = ce :: rest ->
  completion_matches (queue_of pQueue w) usCid ce = true ->
  PollForCompletion pQueue usCid nTimeoutHZ w
  = (Done (status_result (status ce)),
     taken pQueue rest (status ce) (set_env (set_in_ticks ticks) w)).
Proof.
  intros Hc Et Ecq Hm. unfold PollForCompletion. mstep. rewrite bind_assert.
  replace (usCid <? nEntries _) with true
    by (symmetry; apply Z.ltb_lt; destruct pQueue; exact Hc).
  rewrite bind_GetTicks with (t := t) (rest := ticks) by exact Et.
  mstep. cbn [in_cq env set_env set_in_ticks]. rewrite Ecq. cbn [length].
  apply poll_loop_takes.
  - exact Ecq.
  - rewrite <- Hm. destruct pQueue; reflexivity.
Qed.

Lemma completion_matches_tail q v usCid ce :
  completion_matches (set_nSqTail v q) usCid ce = completion_matches q usCid ce.
Proof. reflexivity. Qed.

Lemma advance_head_set_tail v q :
  nCqHead (advance_head (set_nSqTail v q)) = nCqHead (advance_head q).
Proof.
  unfold advance_head. cbv zeta. cbn [nCqHead nEntries set_nSqTail set_nCqHead].
  destruct (u16 ((nCqHead q + 1) mod nEntries q) =? 0); reflexivity.
Qed.

Lemma taken_ok pQueue rest s w :
  status_result s = NVME_STATUS_OK ->
  let w' := taken pQueue rest s w in
  trace w'
  = trace w
    ++ [EvDataMemBarrier; EvDataSyncBarrier;
        EvMmioWrite32
          (NVME_DOORBELL_CQ_OFFSET (m_nDoorbellStride (dev w))
             (usID (queue_of pQueue w)))
          (nCqHead (advance_head (queue_of pQueue w)))]
  /\ mem w' = mem w
  /\ m_Allocator (dev w') = m_Allocator (dev w)
  /\ config (dev w') = config (dev w)
  /\ in_cq (env w') = rest
  /\ in_new (env w') = in_new (env w).
Proof.
  intros Hok. unfold status_result in Hok. unfold taken.
  destruct (negb (status_SCT s =? 0) || negb (status_SC s =? 0)).
  { destruct ((status_SCT s =? 0) && (status_SC s =? 128)); discriminate Hok. }
  cbv zeta. split.
  { cbn [trace set_trace set_dev set_env dev]. rewrite <- !app_assoc.
    cbn [app]. destruct pQueue;
      cbn [queue_of dev set_trace set_dev set_env m_AdminQueue m_IoQueue
           set_m_AdminQueue set_m_IoQueue m_nDoorbellStride];
      rewrite usID_advance_head; reflexivity. }
  destruct pQueue; repeat split.
Qed.

Section Completed_commands.
Context `{Platform}.

Lemma SubmitCommand_completes pQueue o ns c10 c11 c12 p1 p2 w t ticks ce rest :
  nEntries (queue_of pQueue w) = 64 ->
  0 <= nSqTail (queue_of pQueue w) < 64 ->
  in_ticks (env w) = t :: ticks ->
  in_cq (env w) = ce :: rest ->
  completion_matches (queue_of pQueue w) (nSqTail (queue_of pQueue w)) ce
  = true ->
  status_result (status ce) = NVME_STATUS_OK ->
  let q := queue_of pQueue w in
  exists w',
    SubmitCommand pQueue o ns c10 c11 c12 p1 p2 w = (Done NVME_STATUS_OK, w')
    /\ mem_cmd (mem w')
       = <[u64 (pSqVirt q + sizeof_TNVMeCommand * nSqTail q)
           := mkCommand o 0 (nSqTail q) ns 0 0 p1 p2 c10 c11 c12 0 0 0]>
           (mem_cmd (mem w))
    /\ trace w' = trace w ++ command_events pQueue w
    /\ queue_of pQueue w'
       = advance_head (set_nSqTail ((nSqTail q + 1) mod 64) q)
    /\ same_blocks w w'
    /\ same_config w w'
    /\ mem_u64 (mem w') = mem_u64 (mem w)
    /\ in_cq (env w') = rest
    /\ in_new (env w') = in_new (env w).
Proof.
  intros He Ht Et Ecq Hm Hok q.
  unfold SubmitCommand. mstep.
  change (match pQueue with
          | AdminQueue => m_AdminQueue (dev w)
          | IoQueue => m_IoQueue (dev w)
          end) with q.
  assert (Ec : u16 (Z.land (nSqTail q) 0xffff) = nSqTail q).
  { change 0xffff with (Z.ones 16). rewrite Z.land_ones by lia.
    rewrite Z.mod_small by (subst q; lia). apply u16_small. subst q; lia. }
  assert (Etl : u16 ((nSqTail q + 1) mod nEntries q) = (nSqTail q + 1) mod 64).
  { subst q. rewrite He. apply u16_small.
    pose proof (Z.mod_pos_bound (nSqTail (queue_of pQueue w) + 1) 64). lia. }
  assert (Etl2 : u16 ((nSqTail q + 1) mod nEntries q)
                 = (nSqTail q + 1) mod nEntries q)
    by (rewrite Etl; subst q; rewrite He; reflexivity).
  rewrite Ec.
  match goal with
  | |- context [PollForCompletion ?a ?b ?c ?w1] => set (w3 := w1)
  end.
  assert (Eq3 : queue_of pQueue w3 = set_nSqTail ((nSqTail q + 1) mod 64) q).
  { rewrite <- Etl. subst w3 q. destruct pQueue; reflexivity. }
  assert (Etr : trace w3
            = trace w ++ [EvDataSyncBarrier;
                EvMmioWrite32
                  (NVME_DOORBELL_SQ_OFFSET (m_nDoorbellStride (dev w)) (usID q))
                  ((nSqTail q + 1) mod nEntries q)]).
  { subst w3. cbn [trace set_trace set_dev set_mem]. rewrite <- !app_assoc.
    cbn [app]. rewrite <- Etl2. subst q. destruct pQueue; reflexivity. }
  assert (Es : m_nDoorbellStride (dev w3) = m_nDoorbellStride (dev w))
    by (subst w3; destruct pQueue; reflexivity).
  assert (Ea : m_Allocator (dev w3) = m_Allocator (dev w))
    by (subst w3; destruct pQueue; reflexivity).
  assert (Eg : config (dev w3) = config (dev w))
    by (subst w3; destruct pQueue; reflexivity).
  assert (Em : mem_cmd (mem w3)
            = <[u64 (pSqVirt q + sizeof_TNVMeCommand * nSqTail q)
                := mkCommand o 0 (nSqTail q) ns 0 0 p1 p2 c10 c11 c12 0 0 0]>
                (mem_cmd (mem w))) by (subst w3; reflexivity).
  assert (Eh : mem_hdr (mem w3) = mem_hdr (mem w)) by (subst w3; reflexivity).
  assert (Eu : mem_u64 (mem w3) = mem_u64 (mem w)) by (subst w3; reflexivity).
  assert (En : in_new (env w3) = in_new (env w)) by (subst w3; reflexivity).
  assert (Et3 : in_ticks (env w3) = t :: ticks) by (subst w3; exact Et).
  assert (Ec3 : in_cq (env w3) = ce :: rest) by (subst w3; exact Ecq).
  clearbody w3.
  rewrite (PollForCompletion_takes pQueue (nSqTail q) POLL_TIMEOUT_HZ w3
             t ticks ce rest).
  2:{ rewrite Eq3. cbn [nEntries set_nSqTail]. subst q. lia. }
  2:{ exact Et3. }
  2:{ exact Ec3. }
  2:{ rewrite Eq3. exact Hm. }
  rewrite Hok. eexists. split; [reflexivity |].
  pose proof (taken_ok pQueue rest (status ce)
                (set_env (set_in_ticks ticks) w3) Hok) as T.
  cbv zeta in T. destruct T as (T1 & T2 & T3 & T4 & T5 & T6).
  replace (queue_of pQueue (set_env (set_in_ticks ticks) w3))
    with (queue_of pQueue w3) in T1 by (destruct pQueue; reflexivity).
  cbn [trace mem dev env set_env in_new set_in_ticks] in T1, T2, T3, T4, T6.
  split; [rewrite T2; exact Em |].
  split.
  { rewrite T1, Etr, Es, Eq3. unfold command_events. cbv zeta. fold q.
    rewrite <- app_assoc. cbn [app usID set_nSqTail].
    rewrite advance_head_set_tail. reflexivity. }
  split.
  { rewrite queue_of_taken.
    replace (queue_of pQueue (set_env (set_in_ticks ticks) w3))
      with (queue_of pQueue w3) by (destruct pQueue; reflexivity).
    rewrite Eq3. reflexivity. }
  split.
  { split; [congruence |]. split; [rewrite T2; exact Eh |].
    eexists. rewrite T1, Etr, <- app_assoc. reflexivity. }
  split; [unfold same_config; congruence |].
  split; [rewrite T2; exact Eu |].
  split; [exact T5 | congruence].
Qed.

Lemma IoPassThrough_completes ns lba n buf wr w t ticks ce rest :
  0 < buf -> 0 < n -> buf + n * NVME_LBA_SIZE <= 2 ^ 64 ->
  n * NVME_LBA_SIZE <= first_remain buf + 4096 ->
  nEntries (m_IoQueue (dev w)) = 64 ->
  0 <= nSqTail (m_IoQueue (dev w)) < 64 ->
  in_ticks (env w) = t :: ticks ->
  in_cq (env w) = ce :: rest ->
  completion_matches (m_IoQueue (dev w)) (nSqTail (m_IoQueue (dev w))) ce
  = true ->
  status_result (status ce) = NVME_STATUS_OK ->
  exists w',
    IoPassThrough ns lba n buf wr w = (Done NVME_STATUS_OK, w')
    /\ mem_cmd (mem w')
       = <[io_slot w
           := mkCommand (if wr then NVME_IO_OPC_WRITE else NVME_IO_OPC_READ)
                0 (nSqTail (m_IoQueue (dev w))) ns 0 0 (PhysicalOf buf)
                (if n * NVME_LBA_SIZE <=? first_remain buf then 0
                 else PhysicalOf (page_of buf + 4096))
                (u32 (Z.land lba 0xffffffff))
                (u32 (Z.land (Z.shiftr lba 32) 0xffffffff))
                (u32 (n - 1)) 0 0 0]>
           (mem_cmd (mem w))
    /\ trace w' = trace w ++ command_events IoQueue w
    /\ m_IoQueue (dev w')
       = advance_head
           (set_nSqTail ((nSqTail (m_IoQueue (dev w)) + 1) mod 64)
              (m_IoQueue (dev w)))
    /\ same_blocks w w'
    /\ same_config w w'
    /\ mem_u64 (mem w') = mem_u64 (mem w)
    /\ in_cq (env w') = rest
    /\ in_new (env w') = in_new (env w).
Proof.
  intros Hb Hn Hr Hsmall He Ht Et Ecq Hm Hok.
  assert (HL : 0 < n * NVME_LBA_SIZE) by (unfold NVME_LBA_SIZE; lia).
  unfold IoPassThrough. rewrite !bind_assert.
  replace (buf =? 0) with false by (symmetry; apply Z.eqb_neq; lia).
  replace (n =? 0) with false by (symmetry; apply Z.eqb_neq; lia).
  cbn [negb]. rewrite (u64_small (n * NVME_LBA_SIZE)) by lia.
  destruct (Z.leb_spec (n * NVME_LBA_SIZE) (first_remain buf)) as [H1 | H1].
  - unfold bind at 1.
    rewrite BuildForBuffer_one_page by assumption. cbn [negb].
    cbn [m_uPrp1 m_uPrp2 set_m_uPrp1 set_m_uPrp2 CNVMePRP_new].
    match goal with
    | |- context [SubmitCommand IoQueue ?o ?a ?b ?c ?d ?e ?f] =>
        destruct (SubmitCommand_completes IoQueue o a b c d e f w t ticks ce
                    rest He Ht Et Ecq Hm Hok) as (w' & E & F)
    end.
    rewrite (bind_Done _ _ _ _ _ E).
    exists w'. split; [reflexivity | exact F].
  - unfold bind at 1.
    rewrite BuildForBuffer_two_pages by (try assumption; lia). cbn [negb].
    cbn [m_uPrp1 m_uPrp2 set_m_uPrp1 set_m_uPrp2 CNVMePRP_new].
    match goal with
    | |- context [SubmitCommand IoQueue ?o ?a ?b ?c ?d ?e ?f] =>
        destruct (SubmitCommand_completes IoQueue o a b c d e f w t ticks ce
                    rest He Ht Et Ecq Hm Hok) as (w' & E & F)
    end.
    rewrite (bind_Done _ _ _ _ _ E).
    exists w'. split; [reflexivity | exact F].
Qed.

End Completed_commands.

Lemma to_int_small n : 0 <= n < 2 ^ 31 -> to_int n = n.
Proof.
  intros Hn. unfold to_int. rewrite u32_small by lia.
  replace (n <? 2 ^ 31) with true by (symmetry; apply Z.ltb_lt; lia).
  reflexivity.
Qed.

Lemma bind_new_array {B} (k : Z -> M B) n w v rest :
  in_new (env w) = v :: rest ->
  bind (new_array n) k w = k (u64 v) (set_env (set_in_new rest) w).
Proof.
  intros E. unfold new_array. rewrite bind_bind, bind_gets, E.
  rewrite bind_bind, bind_modify, bind_ret. reflexivity.
Qed.

Section Transfers.
Context `{Platform}.

(** The command of a transfer of [n] bytes at the offset of [w], from or
    to the buffer [tb]. *)
Lemma transfer_command (wr : bool) (off n tb tail : Z) :
  0 < n <= 8192 -> n mod 512 = 0 ->
  mkCommand (if wr then NVME_IO_OPC_WRITE else NVME_IO_OPC_READ) 0 tail NSID
    0 0 (PhysicalOf tb)
    (if u32 (n / NVME_LBA_SIZE) * NVME_LBA_SIZE <=? first_remain tb then 0
     else PhysicalOf (page_of tb + 4096))
    (u32 (Z.land (u32 (off / NVME_LBA_SIZE)) 0xffffffff))
    (u32 (Z.land (Z.shiftr (u32 (off / NVME_LBA_SIZE)) 32) 0xffffffff))
    (u32 (u32 (n / NVME_LBA_SIZE) - 1)) 0 0 0
  = mkCommand (if wr then NVME_IO_OPC_WRITE else NVME_IO_OPC_READ) 0 tail NSID
      0 0 (PhysicalOf tb)
      (if n <=? first_remain tb then 0 else PhysicalOf (page_of tb + 4096))
      ((off / 512) mod 2 ^ 32) 0 (n / 512 - 1) 0 0 0.
Proof.
  intros Hn Hm. destruct (small_count n Hn Hm) as [C1 C2].
  rewrite C2, lba_lo, lba_hi. unfold NVME_LBA_SIZE in *.
  pose proof (Z.div_mod n 512 ltac:(lia)) as D.
  rewrite (u32_small (n / 512)) by lia.
  rewrite (u32_small (n / 512 - 1)) by lia. reflexivity.
Qed.

(** X15. A [Read] of up to two pages that the controller completes at once
    with success: the count is returned; the cache range of the transfer
    buffer is invalidated before the command is queued and again after
    its completion was taken, and only then a temporary buffer is copied
    to the buffer of the caller and deleted; the command names the blocks
    from the offset on and the pages of the transfer buffer; no shared
    memory is taken. *)
Theorem Read_completed_at_once
    (pBuffer n : Z) (w : World) (t : Z) (ticks : list Z)
    (ce : TNVMeCompletion) (rest : list TNVMeCompletion) :
  let q := m_IoQueue (dev w) in
  let tb := transfer_buffer pBuffer n w in
  pBuffer <> 0 ->
  m_ulOffset (dev w) mod 512 = 0 ->
  0 < n -> n mod 512 = 0 ->
  (IS_CACHE_ALIGNED pBuffer n = false -> in_new (env w) <> []) ->
  0 < tb -> tb + n <= 2 ^ 64 -> n <= first_remain tb + 4096 ->
  nEntries q = 64 -> 0 <= nSqTail q < 64 ->
  in_ticks (env w) = t :: ticks ->
  in_cq (env w) = ce :: rest ->
  completion_matches q (nSqTail q) ce = true ->
  status_result (status ce) = NVME_STATUS_OK ->
  exists w',
    Read pBuffer n w = (Done n, w')
    /\ trace w'
       = trace w
         ++ [EvInvalidateDataCacheRange tb n]
         ++ command_events IoQueue w
         ++ [EvInvalidateDataCacheRange tb n]
         ++ (if IS_CACHE_ALIGNED pBuffer n then []
             else [EvMemcpy pBuffer tb n; EvDeleteArray tb])
    /\ mem_cmd (mem w')
       = <[io_slot w
           := mkCommand NVME_IO_OPC_READ 0 (nSqTail q) NSID 0 0 (PhysicalOf tb)
                (if n <=? first_remain tb then 0
                 else PhysicalOf (page_of tb + 4096))
                ((m_ulOffset (dev w) / 512) mod 2 ^ 32) 0 (n / 512 - 1) 0 0 0]>
           (mem_cmd (mem w))
    /\ m_Allocator (dev w') = m_Allocator (dev w)
    /\ mem_hdr (mem w') = mem_hdr (mem w)
    /\ in_cq (env w') = rest.
Proof.
  intros q tb Hb Ho Hn Hm Hnew Htb Hr Hsmall He Ht Et Ecq Hmt Hok.
  pose proof (first_remain_range tb) as Hfr.
  assert (Hn8 : 0 < n <= 8192) by lia.
  destruct (small_count n Hn8 Hm) as [C1 C2].
  unfold Read. rewrite bind_assert.
  replace (pBuffer =? 0) with false by (symmetry; apply Z.eqb_neq; exact Hb).
  cbn [negb]. rewrite bind_gets.
  rewrite !land_511, Ho, Hm.
  replace (n =? 0) with false by (symmetry; apply Z.eqb_neq; lia).
  cbn [Z.eqb negb orb].
  assert (Core : forall w0 dma,
            dev w0 = dev w -> mem w0 = mem w -> trace w0 = trace w ->
            in_ticks (env w0) = t :: ticks -> in_cq (env w0) = ce :: rest ->
            exists w',
              Read_transfer pBuffer n (u32 (m_ulOffset (dev w) / NVME_LBA_SIZE))
                tb dma w0
              = (Done n, w')
              /\ trace w'
                 = trace w
                   ++ [EvInvalidateDataCacheRange tb n]
                   ++ command_events IoQueue w
                   ++ [EvInvalidateDataCacheRange tb n]
                   ++ (if negb (dma =? 0)
                       then [EvMemcpy pBuffer dma n; EvDeleteArray dma]
                       else [])
              /\ mem_cmd (mem w')
                 = <[io_slot w
                     := mkCommand NVME_IO_OPC_READ 0 (nSqTail q) NSID 0 0
                          (PhysicalOf tb)
                          (if n <=? first_remain tb then 0
                           else PhysicalOf (page_of tb + 4096))
                          ((m_ulOffset (dev w) / 512) mod 2 ^ 32) 0
                          (n / 512 - 1) 0 0 0]>
                     (mem_cmd (mem w))
              /\ m_Allocator (dev w') = m_Allocator (dev w)
              /\ mem_hdr (mem w') = mem_hdr (mem w)
              /\ in_cq (env w') = rest).
  { intros w0 dma Ed Em Etr Et0 Ec0.
    unfold Read_transfer. rewrite bind_emit.
    set (w1 := set_trace _ w0).
    destruct (IoPassThrough_completes NSID
                (u32 (m_ulOffset (dev w) / NVME_LBA_SIZE))
                (u32 (n / NVME_LBA_SIZE)) tb false w1 t ticks ce rest)
      as (w2 & E & F1 & F2 & _ & (F3 & F4 & _) & _ & _ & F5 & _);
      try (subst w1; cbn [dev env set_trace]; rewrite ?Ed; assumption);
      try lia.
    rewrite (bind_Done _ _ _ _ _ E). cbn [Z.eqb negb NVME_STATUS_OK].
    rewrite bind_emit.
    rewrite (transfer_command false _ n tb _ Hn8 Hm) in F1.
    assert (Ecmd : command_events IoQueue w1 = command_events IoQueue w)
      by (subst w1; unfold command_events, queue_of; cbn [dev set_trace];
          rewrite Ed; reflexivity).
    assert (Eslot : io_slot w1 = io_slot w)
      by (subst w1; unfold io_slot; cbn [dev set_trace]; rewrite Ed;
          reflexivity).
    rewrite Ecmd in F2. rewrite Eslot in F1.
    replace (nSqTail (m_IoQueue (dev w1))) with (nSqTail q) in F1
      by (subst w1 q; cbn [dev set_trace]; rewrite Ed; reflexivity).
    replace (mem_cmd (mem w1)) with (mem_cmd (mem w)) in F1
      by (subst w1; cbn [mem set_trace]; rewrite Em; reflexivity).
    replace (trace w1) with (trace w ++ [EvInvalidateDataCacheRange tb n])
      in F2 by (subst w1; cbn [trace set_trace]; rewrite Etr; reflexivity).
    replace (m_Allocator (dev w1)) with (m_Allocator (dev w)) in F3
      by (subst w1; cbn [dev set_trace]; rewrite Ed; reflexivity).
    replace (mem_hdr (mem w1)) with (mem_hdr (mem w)) in F4
      by (subst w1; cbn [mem set_trace]; rewrite Em; reflexivity).
    clearbody w1.
    rewrite to_int_small by lia.
    destruct (negb (dma =? 0)).
    - rewrite bind_bind, bind_emit, bind_emit.
      eexists. split; [reflexivity |].
      cbn [trace mem dev env set_trace]. rewrite F2, <- !app_assoc.
      cbn [app]. repeat split; assumption.
    - rewrite !bind_ret.
      eexists. split; [reflexivity |].
      cbn [trace mem dev env set_trace]. rewrite F2, <- !app_assoc.
      cbn [app]. rewrite ?app_nil_r. repeat split; assumption. }
  unfold transfer_buffer in tb.
  destruct (IS_CACHE_ALIGNED pBuffer n) eqn:Ea; cbn [negb].
  - destruct (Core w 0 eq_refl eq_refl eq_refl Et Ecq) as (w' & E & F).
    exists w'. split; [exact E | exact F].
  - destruct (in_new (env w)) as [| v news] eqn:En;
      [exfalso; apply Hnew; reflexivity |].
    cbn [hd] in tb.
    rewrite bind_new_array with (v := v) (rest := news) by exact En.
    fold tb. replace (tb =? 0) with false by (symmetry; apply Z.eqb_neq; lia).
    destruct (Core (set_env (set_in_new news) w) tb eq_refl eq_refl eq_refl
                Et Ecq) as (w' & E & F).
    replace (negb (tb =? 0)) with true in F
      by (symmetry; apply negb_true_iff, Z.eqb_neq; lia).
    exists w'. split; [exact E | exact F].
Qed.

(** X16. A [Write] of up to two pages that the controller completes at
    once with success: the count is returned; the data is copied to a
    temporary buffer first when the buffer of the caller is not cache
    aligned, the cache range of the transfer buffer is cleaned before the
    command is queued, and the temporary buffer is deleted after the
    completion was taken; the command names the blocks from the offset on
    and the pages of the transfer buffer; no shared memory is taken. *)
Theorem Write_completed_at_once
    (pBuffer n : Z) (w : World) (t : Z) (ticks : list Z)
    (ce : TNVMeCompletion) (rest : list TNVMeCompletion) :
  let q := m_IoQueue (dev w) in
  let tb := transfer_buffer pBuffer n w in
  pBuffer <> 0 ->
  m_ulOffset (dev w) mod 512 = 0 ->
  0 < n -> n mod 512 = 0 ->
  (IS_CACHE_ALIGNED pBuffer n = false -> in_new (env w) <> []) ->
  0 < tb -> tb + n <= 2 ^ 64 -> n <= first_remain tb + 4096 ->
  nEntries q = 64 -> 0 <= nSqTail q < 64 ->
  in_ticks (env w) = t :: ticks ->
  in_cq (env w) = ce :: rest ->
  completion_matches q (nSqTail q) ce = true ->
  status_result (status ce) = NVME_STATUS_OK ->
  exists w',
    Write pBuffer n w = (Done n, w')
    /\ trace w'
       = trace w
         ++ (if IS_CACHE_ALIGNED pBuffer n then []
             else [EvMemcpy tb pBuffer n])
         ++ [EvCleanDataCacheRange tb n]
         ++ command_events IoQueue w
         ++ [EvDeleteArray (if IS_CACHE_ALIGNED pBuffer n then 0 else tb)]
    /\ mem_cmd (mem w')
       = <[io_slot w
           := mkCommand NVME_IO_OPC_WRITE 0 (nSqTail q) NSID 0 0 (PhysicalOf tb)
                (if n <=? first_remain tb then 0
                 else PhysicalOf (page_of tb + 4096))
                ((m_ulOffset (dev w) / 512) mod 2 ^ 32) 0 (n / 512 - 1) 0 0 0]>
           (mem_cmd (mem w))
    /\ m_Allocator (dev w') = m_Allocator (dev w)
    /\ mem_hdr (mem w') = mem_hdr (mem w)
    /\ in_cq (env w') = rest.
Proof.
  intros q tb Hb Ho Hn Hm Hnew Htb Hr Hsmall He Ht Et Ecq Hmt Hok.
  pose proof (first_remain_range tb) as Hfr.
  assert (Hn8 : 0 < n <= 8192) by lia.
  destruct (small_count n Hn8 Hm) as [C1 C2].
  unfold Write. rewrite bind_assert.
  replace (pBuffer =? 0) with false by (symmetry; apply Z.eqb_neq; exact Hb).
  cbn [negb]. rewrite bind_gets.
  rewrite !land_511, Ho, Hm.
  replace (n =? 0) with false by (symmetry; apply Z.eqb_neq; lia).
  cbn [Z.eqb negb orb].
  assert (Core : forall w0 dma pre,
            dev w0 = dev w -> mem w0 = mem w -> trace w0 = trace w ++ pre ->
            in_ticks (env w0) = t :: ticks -> in_cq (env w0) = ce :: rest ->
            exists w',
              Write_transfer n (u32 (m_ulOffset (dev w) / NVME_LBA_SIZE))
                tb dma w0
              = (Done n, w')
              /\ trace w'
                 = trace w ++ pre
                   ++ [EvCleanDataCacheRange tb n]
                   ++ command_events IoQueue w
                   ++ [EvDeleteArray dma]
              /\ mem_cmd (mem w')
                 = <[io_slot w
                     := mkCommand NVME_IO_OPC_WRITE 0 (nSqTail q) NSID 0 0
                          (PhysicalOf tb)
                          (if n <=? first_remain tb then 0
                           else PhysicalOf (page_of tb + 4096))
                          ((m_ulOffset (dev w) / 512) mod 2 ^ 32) 0
                          (n / 512 - 1) 0 0 0]>
                     (mem_cmd (mem w))
              /\ m_Allocator (dev w') = m_Allocator (dev w)
              /\ mem_hdr (mem w') = mem_hdr (mem w)
              /\ in_cq (env w') = rest).
  { intros w0 dma pre Ed Em Etr Et0 Ec0.
    unfold Write_transfer. rewrite bind_emit.
    set (w1 := set_trace _ w0).
    destruct (IoPassThrough_completes NSID
                (u32 (m_ulOffset (dev w) / NVME_LBA_SIZE))
                (u32 (n / NVME_LBA_SIZE)) tb true w1 t ticks ce rest)
      as (w2 & E & F1 & F2 & _ & (F3 & F4 & _) & _ & _ & F5 & _);
      try (subst w1; cbn [dev env set_trace]; rewrite ?Ed; assumption);
      try lia.
    rewrite (bind_Done _ _ _ _ _ E). rewrite bind_emit.
    cbn [Z.eqb negb NVME_STATUS_OK].
    rewrite (transfer_command true _ n tb _ Hn8 Hm) in F1.
    assert (Ecmd : command_events IoQueue w1 = command_events IoQueue w)
      by (subst w1; unfold command_events, queue_of; cbn [dev set_trace];
          rewrite Ed; reflexivity).
    assert (Eslot : io_slot w1 = io_slot w)
      by (subst w1; unfold io_slot; cbn [dev set_trace]; rewrite Ed;
          reflexivity).
    rewrite Ecmd in F2. rewrite Eslot in F1.
    replace (nSqTail (m_IoQueue (dev w1))) with (nSqTail q) in F1
      by (subst w1 q; cbn [dev set_trace]; rewrite Ed; reflexivity).
    replace (mem_cmd (mem w1)) with (mem_cmd (mem w)) in F1
      by (subst w1; cbn [mem set_trace]; rewrite Em; reflexivity).
    replace (trace w1)
      with ((trace w ++ pre) ++ [EvCleanDataCacheRange tb n])
      in F2 by (subst w1; cbn [trace set_trace]; rewrite Etr; reflexivity).
    replace (m_Allocator (dev w1)) with (m_Allocator (dev w)) in F3
      by (subst w1; cbn [dev set_trace]; rewrite Ed; reflexivity).
    replace (mem_hdr (mem w1)) with (mem_hdr (mem w)) in F4
      by (subst w1; cbn [mem set_trace]; rewrite Em; reflexivity).
    clearbody w1.
    rewrite to_int_small by lia.
    eexists. split; [reflexivity |].
    cbn [trace mem dev env set_trace]. rewrite F2, <- !app_assoc.
    cbn [app]. repeat split; assumption. }
  unfold transfer_buffer in tb.
  destruct (IS_CACHE_ALIGNED pBuffer n) eqn:Ea; cbn [negb].
  - destruct (Core w 0 [] eq_refl eq_refl (eq_sym (app_nil_r _)) Et Ecq)
      as (w' & E & F).
    exists w'. split; [exact E | exact F].
  - destruct (in_new (env w)) as [| v news] eqn:En;
      [exfalso; apply Hnew; reflexivity |].
    cbn [hd] in tb.
    rewrite bind_new_array with (v := v) (rest := news) by exact En.
    fold tb. replace (tb =? 0) with false by (symmetry; apply Z.eqb_neq; lia).
    rewrite bind_emit.
    destruct (Core (set_trace (fun t => t ++ [EvMemcpy tb pBuffer n])
                      (set_env (set_in_new news) w))
                tb [EvMemcpy tb pBuffer n] eq_refl eq_refl eq_refl Et Ecq)
      as (w' & E & F).
    exists w'. split; [exact E | exact F].
Qed.

End Transfers.

(** X15 on the machine of the examples: the first read of the sample
    kernel, [Seek (0)] and [Read] of a block. *)
Lemma Read_completed_at_once_witness :
  let w := snd (Seek 0 (sample_booted 0 0 [sample_completion IOQID 0 0 0])) in
  @transfer_buffer sample_platform 0x400000 512 w = 0x400000
  /\ completion_matches (m_IoQueue (dev w)) (nSqTail (m_IoQueue (dev w)))
       (sample_completion IOQID 0 0 0) = true
  /\ exists w', @Read sample_platform 0x400000 512 w = (Done 512, w')
       /\ in_cq (env w') = [].
Proof.
  intros w.
  assert (H1 : 0x400000 <> 0) by discriminate.
  assert (H2 : m_ulOffset (dev w) mod 512 = 0) by (vm_compute; reflexivity).
  assert (H3 : 0 < 512) by reflexivity.
  assert (H4 : 512 mod 512 = 0) by reflexivity.
  assert (H5 : @IS_CACHE_ALIGNED sample_platform 0x400000 512 = false ->
               in_new (env w) <> []) by (vm_compute; discriminate).
  assert (E6 : @transfer_buffer sample_platform 0x400000 512 w = 0x400000)
    by (vm_compute; reflexivity).
  assert (H6 : 0 < @transfer_buffer sample_platform 0x400000 512 w)
    by (rewrite E6; reflexivity).
  assert (H7 : @transfer_buffer sample_platform 0x400000 512 w + 512 <= 2 ^ 64)
    by (rewrite E6; vm_compute; discriminate).
  assert (H8 : 512 <= first_remain
                        (@transfer_buffer sample_platform 0x400000 512 w) + 4096)
    by (rewrite E6; vm_compute; discriminate).
  assert (H9 : nEntries (m_IoQueue (dev w)) = 64) by (vm_compute; reflexivity).
  assert (H10 : 0 <= nSqTail (m_IoQueue (dev w)) < 64)
    by (vm_compute; split; [discriminate | reflexivity]).
  assert (H11 : in_ticks (env w) = 0 :: repeat 0 9) by (vm_compute; reflexivity).
  assert (H12 : in_cq (env w) = sample_completion IOQID 0 0 0 :: [])
    by (vm_compute; reflexivity).
  assert (H13 : completion_matches (m_IoQueue (dev w))
                  (nSqTail (m_IoQueue (dev w)))
                  (sample_completion IOQID 0 0 0) = true)
    by (vm_compute; reflexivity).
  assert (H14 : status_result (status (sample_completion IOQID 0 0 0))
                = NVME_STATUS_OK) by (vm_compute; reflexivity).
  split; [exact E6 |]. split; [exact H13 |].
  destruct (@Read_completed_at_once sample_platform 0x400000 512 w 0
              (repeat 0 9) (sample_completion IOQID 0 0 0) []
              H1 H2 H3 H4 H5 H6 H7 H8 H9 H10 H11 H12 H13 H14)
    as (w' & E & _ & _ & _ & _ & F).
  exists w'. split; [exact E | exact F].
Defined.

(** X16 on the machine of the examples: a write from a buffer that is not
    cache aligned goes through the temporary buffer. *)
Lemma Write_completed_at_once_witness :
  let w := snd (Seek 4096 (sample_booted 0 0 [sample_completion IOQID 0 0 0])) in
  @transfer_buffer sample_platform 0x400020 512 w = 0x300000
  /\ completion_matches (m_IoQueue (dev w)) (nSqTail (m_IoQueue (dev w)))
       (sample_completion IOQID 0 0 0) = true
  /\ exists w', @Write sample_platform 0x400020 512 w = (Done 512, w')
       /\ in_cq (env w') = [].
Proof.
  intros w.
  assert (H1 : 0x400020 <> 0) by discriminate.
  assert (H2 : m_ulOffset (dev w) mod 512 = 0) by (vm_compute; reflexivity).
  assert (H3 : 0 < 512) by reflexivity.
  assert (H4 : 512 mod 512 = 0) by reflexivity.
  assert (H5 : @IS_CACHE_ALIGNED sample_platform 0x400020 512 = false ->
               in_new (env w) <> []) by (vm_compute; discriminate).
  assert (E6 : @transfer_buffer sample_platform 0x400020 512 w = 0x300000)
    by (vm_compute; reflexivity).
  assert (H6 : 0 < @transfer_buffer sample_platform 0x400020 512 w)
    by (rewrite E6; reflexivity).
  assert (H7 : @transfer_buffer sample_platform 0x400020 512 w + 512 <= 2 ^ 64)
    by (rewrite E6; vm_compute; discriminate).
  assert (H8 : 512 <= first_remain
                        (@transfer_buffer sample_platform 0x400020 512 w) + 4096)
    by (rewrite E6; vm_compute; discriminate).
  assert (H9 : nEntries (m_IoQueue (dev w)) = 64) by (vm_compute; reflexivity).
  assert (H10 : 0 <= nSqTail (m_IoQueue (dev w)) < 64)
    by (vm_compute; split; [discriminate | reflexivity]).
  assert (H11 : in_ticks (env w) = 0 :: repeat 0 9) by (vm_compute; reflexivity).
  assert (H12 : in_cq (env w) = sample_completion IOQID 0 0 0 :: [])
    by (vm_compute; reflexivity).
  assert (H13 : completion_matches (m_IoQueue (dev w))
                  (nSqTail (m_IoQueue (dev w)))
                  (sample_completion IOQID 0 0 0) = true)
    by (vm_compute; reflexivity).
  assert (H14 : status_result (status (sample_completion IOQID 0 0 0))
                = NVME_STATUS_OK) by (vm_compute; reflexivity).
  split; [exact E6 |]. split; [exact H13 |].
  destruct (@Write_completed_at_once sample_platform 0x400020 512 w 0
              (repeat 0 9) (sample_completion IOQID 0 0 0) []
              H1 H2 H3 H4 H5 H6 H7 H8 H9 H10 H11 H12 H13 H14)
    as (w' & E & _ & _ & _ & _ & F).
  exists w'. split; [exact E | exact F].
Defined.

(** ** Each command on its own queue *)

Lemma admin_queue_kept_refl w : admin_queue_kept w w.
Proof. reflexivity. Qed.

Lemma admin_queue_kept_trans a b c :
  admin_queue_kept a b -> admin_queue_kept b c -> admin_queue_kept a c.
Proof. unfold admin_queue_kept. congruence. Qed.

Lemma io_queue_kept_refl w : io_queue_kept w w.
Proof. reflexivity. Qed.

Lemma io_queue_kept_trans a b c :
  io_queue_kept a b -> io_queue_kept b c -> io_queue_kept a c.
Proof. unfold io_queue_kept. congruence. Qed.

Ltac queue_side :=
  first
    [ exact admin_queue_kept_refl | exact admin_queue_kept_trans
    | exact io_queue_kept_refl | exact io_queue_kept_trans
    | intros; reflexivity ].

Ltac struct_by side :=
  repeat first
    [ assumption
    | match goal with K : _ |- keeps _ _ => solve [apply K] end
    | apply keeps_ret; side
    | apply keeps_abort; side
    | apply keeps_stuck; side
    | apply keeps_gets; side
    | apply keeps_assert; side
    | apply keeps_emit; side
    | apply keeps_store_cmd; side
    | apply keeps_load_completion; side
    | apply keeps_GetTicks; side
    | apply keeps_MmioWrite32; side
    | apply keeps_new_array; side
    | apply keeps_load_ident; side
    | apply keeps_Allocate; side
    | apply keeps_Free; side
    | apply keeps_CNVMePRP_delete; side
    | apply keeps_BuildForBuffer; side
    | apply keeps_ns; side
    | apply keeps_bind; [side | | intros ?]
    | match goal with
      | |- keeps _ (update_queue _ _) => intros ?; reflexivity
      | |- keeps _ (modify _) => intros ?; reflexivity
      | |- keeps _ (if ?b then _ else _) => destruct b
      | |- keeps _ (match ?x with _ => _ end) => destruct x
      end ].

Ltac queue_struct := struct_by ltac:(queue_side).

Lemma poll_loop_io_keeps_admin fuel usCid nStart nTimeoutHZ :
  keeps admin_queue_kept (poll_loop fuel IoQueue usCid nStart nTimeoutHZ).
Proof.
  induction fuel as [| fuel IH]; cbn [poll_loop]; [queue_struct |].
  unfold the_queue. queue_struct.
Qed.

Lemma poll_loop_admin_keeps_io fuel usCid nStart nTimeoutHZ :
  keeps io_queue_kept (poll_loop fuel AdminQueue usCid nStart nTimeoutHZ).
Proof.
  induction fuel as [| fuel IH]; cbn [poll_loop]; [queue_struct |].
  unfold the_queue. queue_struct.
Qed.

Section Own_queue.
Context `{Platform}.

Lemma SubmitCommand_io_keeps_admin o ns c10 c11 c12 p1 p2 :
  keeps admin_queue_kept (SubmitCommand IoQueue o ns c10 c11 c12 p1 p2).
Proof.
  pose proof poll_loop_io_keeps_admin.
  unfold SubmitCommand, PollForCompletion, the_queue. queue_struct.
Qed.

Lemma SubmitCommand_admin_keeps_io o ns c10 c11 c12 p1 p2 :
  keeps io_queue_kept (SubmitCommand AdminQueue o ns c10 c11 c12 p1 p2).
Proof.
  pose proof poll_loop_admin_keeps_io.
  unfold SubmitCommand, PollForCompletion, the_queue. queue_struct.
Qed.

Lemma IoPassThrough_keeps_admin ns lba n p b :
  keeps admin_queue_kept (IoPassThrough ns lba n p b).
Proof.
  pose proof SubmitCommand_io_keeps_admin.
  unfold IoPassThrough. queue_struct.
Qed.

Lemma Identify_keeps_io c p n : keeps io_queue_kept (Identify c p n).
Proof.
  pose proof SubmitCommand_admin_keeps_io.
  unfold Identify, AdminCommand. queue_struct.
Qed.

Lemma Initialize_identify_keeps_io nCNS pIdBuf :
  keeps io_queue_kept (Initialize_identify nCNS pIdBuf).
Proof.
  pose proof Identify_keeps_io.
  unfold Initialize_identify. queue_struct.
Qed.

(** X17. The commands of the block device stay on the I/O queue: whatever
    they return, [Read], [Write] and [IOCtl] leave the admin queue, its
    tail, head and phase, as it was. *)
Theorem block_commands_leave_the_admin_queue (p n c : Z) (w : World) :
  m_AdminQueue (dev (snd (Read p n w))) = m_AdminQueue (dev w)
  /\ m_AdminQueue (dev (snd (Write p n w))) = m_AdminQueue (dev w)
  /\ m_AdminQueue (dev (snd (IOCtl c p w))) = m_AdminQueue (dev w).
Proof.
  pose proof IoPassThrough_keeps_admin as KI.
  pose proof SubmitCommand_io_keeps_admin as KS.
  assert (KR : keeps admin_queue_kept (Read p n))
    by (unfold Read, Read_transfer; queue_struct).
  assert (KW : keeps admin_queue_kept (Write p n))
    by (unfold Write, Write_transfer; queue_struct).
  assert (KC : keeps admin_queue_kept (IOCtl c p))
    by (unfold IOCtl, Flush; queue_struct).
  exact (conj (KR w) (conj (KW w) (KC w))).
Qed.

End Own_queue.

(** ** A successful [Initialize] *)

Lemma config_fields a b :
  same_config a b ->
  m_nVersion (dev b) = m_nVersion (dev a)
  /\ m_ulCaps (dev b) = m_ulCaps (dev a)
  /\ m_nDoorbellStride (dev b) = m_nDoorbellStride (dev a)
  /\ m_nTimeoutHZ (dev b) = m_nTimeoutHZ (dev a)
  /\ m_ulNamespaceSize (dev b) = m_ulNamespaceSize (dev a)
  /\ m_ulOffset (dev b) = m_ulOffset (dev a)
  /\ m_pPartitionManager (dev b) = m_pPartitionManager (dev a).
Proof.
  unfold same_config, config. intros E. injection E. auto 10.
Qed.

Lemma MmioRead32_inv o w a w1 :
  MmioRead32 o w = (Done a, w1) ->
  exists v rest,
    in_mmio (env w) = v :: rest /\ a = u32 v
    /\ w1 = set_env (set_in_mmio rest) w.
Proof.
  intros E. destruct (in_mmio (env w)) as [| v rest] eqn:Em.
  - pose proof (bind_MmioRead32_nil ret o w Em) as B.
    unfold bind in B. rewrite E in B. discriminate B.
  - pose proof (bind_MmioRead32 ret o w v rest Em) as B.
    unfold bind in B. rewrite E in B. unfold ret in B.
    injection B as -> ->. exists v, rest. auto.
Qed.

Ltac dead H := exfalso; revert H; mstep; discriminate.

Ltac kept R K E :=
  let F := fresh "F" in
  pose proof (keeps_run R _ _ _ _ ltac:(apply K; first [frame_side | queue_side]) E) as F.

Lemma shift_is_512 k :
  u32 (Z.shiftl 1 (k mod 32)) = NVME_LBA_SIZE -> k mod 32 = 9.
Proof.
  pose proof (Z.mod_pos_bound k 32 ltac:(lia)) as B.
  generalize dependent (k mod 32). intros j B E.
  rewrite Z.shiftl_mul_pow2, Z.mul_1_l in E by lia.
  assert (P : 2 ^ j < 2 ^ 32) by (apply Z.pow_lt_mono_r; lia).
  rewrite u32_small in E by lia.
  change NVME_LBA_SIZE with (2 ^ 9) in E.
  apply (Z.pow_inj_r 2); lia.
Qed.

Section Initialized.
Context `{Platform}.

Lemma Initialize_identify_controller pIdBuf :
  keeps same_config (Initialize_identify 1 pIdBuf).
Proof.
  assert (KI : forall c p n, keeps same_config (Identify c p n))
    by (intros; apply keeps_Identify; frame_side).
  unfold Initialize_identify. cbn [Z.eqb]. struct_by ltac:(frame_side).
Qed.

Lemma Initialize_identify_namespace pIdBuf w w1 :
  Initialize_identify 0 pIdBuf w = (Done true, w1) ->
  same_config (with_ns (m_ulNamespaceSize (dev w1)) w) w1
  /\ io_queue_kept w w1
  /\ exists IdBuf,
       let nLBAFormat :=
         load_le IdBuf (128 + 4 * Z.land (u8 (IdBuf 26)) 0xF) 4 in
       m_ulNamespaceSize (dev w1) = u64 (load_le IdBuf 0 8 * 512)
       /\ u8 (Z.land (Z.shiftr nLBAFormat 16) 0xFF) mod 32 = 9
       /\ u16 (Z.land nLBAFormat 0xFFFF) = 0.
Proof.
  intros HI. unfold Initialize_identify in HI.
  minv HI. kept same_config (@keeps_Identify same_config) E.
  pose proof (keeps_run io_queue_kept _ _ _ _ (Identify_keeps_io _ _ _) E) as Q.
  destruct (negb (a =? NVME_STATUS_OK)); [dead HI |].
  minv HI. kept same_config keeps_load_ident E0.
  kept io_queue_kept keeps_load_ident E0.
  cbn [Z.eqb] in HI. cbv zeta in HI.
  set (f := load_le a0 (128 + 4 * Z.land (u8 (a0 26)) 0xF) 4) in *.
  destruct (Z.eqb_spec
              (u32 (Z.shiftl 1 (u8 (Z.land (Z.shiftr f 16) 0xFF) mod 32)))
              NVME_LBA_SIZE) as [EL | EL]; cbn [negb] in HI.
  2:{ exfalso. revert HI. mstep. unfold bind.
      destruct (Free pIdBuf _) as [[[] | |] ?]; discriminate. }
  revert HI. mstep. intros HI.
  destruct (Z.eqb_spec (u16 (Z.land f 0xFFFF)) 0) as [EM | EM];
    cbn [negb] in HI.
  2:{ exfalso. revert HI. mstep. unfold bind.
      destruct (Free pIdBuf _) as [[[] | |] ?]; discriminate. }
  unfold ret in HI. injection HI as <-.
  split.
  { unfold same_config, with_ns, config in *.
    cbn [dev set_dev m_nVersion m_ulCaps m_nDoorbellStride m_nTimeoutHZ
         m_ulNamespaceSize m_ulOffset m_pPartitionManager
         set_m_ulNamespaceSize].
    injection F as G1 G2 G3 G4 G5 G6 G7.
    injection F0 as K1 K2 K3 K4 K5 K6 K7. congruence. }
  split.
  { unfold io_queue_kept in *. cbn [dev set_dev m_IoQueue set_m_ulNamespaceSize].
    congruence. }
  exists a0. cbv zeta. fold f. rewrite EL.
  split; [reflexivity |]. split; [apply shift_is_512; exact EL | exact EM].
Qed.

Ltac facts E K1 K2 :=
  let F := fresh "F" in
  let T := fresh "T" in
  pose proof (keeps_run same_config _ _ _ _
                ltac:(apply K1; frame_side) E) as F;
  pose proof (keeps_run trace_extends _ _ _ _
                ltac:(apply K2; frame_side) E) as T;
  apply config_fields in F;
  cbn [dev set_dev set_trace set_env set_mem
       m_nVersion m_ulCaps m_nDoorbellStride m_nTimeoutHZ m_ulNamespaceSize
       m_ulOffset m_pPartitionManager
       set_m_nVersion set_m_ulCaps set_m_nDoorbellStride set_m_nTimeoutHZ
       set_m_ulNamespaceSize set_m_pPartitionManager] in F;
  destruct F as (? & ? & ? & ? & ? & ? & ?).

Ltac trace_chain :=
  repeat first
    [ exact (trace_extends_refl _)
    | match goal with
      | |- trace_extends ?a (set_dev _ ?x) => change (trace_extends a x)
      | |- trace_extends ?a (set_env _ ?x) => change (trace_extends a x)
      | |- trace_extends ?a (set_mem _ ?x) => change (trace_extends a x)
      | |- trace_extends ?a (set_trace (fun t => t ++ [?e]) ?x) =>
          apply (trace_extends_trans a x _); [| apply trace_extends_emit]
      end
    | eapply trace_extends_trans; [| eassumption] ].


End Initialized.

Lemma bind_ext {A B} (m : M A) (k k' : A -> M B) w :
  (forall a w1, k a w1 = k' a w1) -> bind m k w = bind m k' w.
Proof.
  intros E. unfold bind. destruct (m w) as [[a | |] w1];
    [apply E | reflexivity | reflexivity].
Qed.

(** [Initialize_bring_up] is the first part of [Initialize]: what follows
    it there is the construction of the partition manager. *)
Lemma Initialize_after_bring_up `{Platform} (w : World) :
  Initialize w
  = (do ok <- Initialize_bring_up;
     if negb ok then ret false
     else
       do pPartitionManager <- gets (fun w => m_pPartitionManager (dev w));
       assert (negb pPartitionManager) ;;
       modify (set_dev (set_m_pPartitionManager true)) ;;
       do ok <- extern_call;
       if negb ok then ret false
       else emit EvAddDevice ;; ret true) w.
Proof.
  unfold Initialize, Initialize_bring_up. cbv zeta.
  repeat first
    [ reflexivity
    | lazymatch goal with
      | |- bind ?m ?k ?w0 = bind (bind ?m ?k1) ?K ?w0 =>
          rewrite (bind_bind m k1 K w0); apply bind_ext; intros ? ?;
          cbv beta
      | |- (if ?c then _ else _) ?w0 = bind (if ?c then _ else _) _ ?w0 =>
          destruct c
      | |- _ = bind (bind (emit ?e) (fun _ => ret false)) _ ?w0 =>
          rewrite bind_bind, !bind_emit, bind_ret; cbn [negb]
      | |- _ = bind (ret ?b) _ ?w0 => rewrite bind_ret; cbn [negb]
      end ].
Qed.

Lemma run_Done {A} (m : M A) (w : World) (a : A) :
  fst (m w) = Done a -> m w = (Done a, snd (m w)).
Proof. destruct (m w) as [r w1]. cbn. intros ->. reflexivity. Qed.


(** ** Creating the queues *)

Lemma allocation_frame_refl w : allocation_frame w w.
Proof. repeat split. Qed.

Lemma allocation_frame_trans a b c :
  allocation_frame a b -> allocation_frame b c -> allocation_frame a c.
Proof.
  intros (A1 & A2 & A3 & A4 & A5 & A6) (B1 & B2 & B3 & B4 & B5 & B6).
  repeat split; congruence.
Qed.

Lemma Allocate_frame s a b : keeps allocation_frame (Allocate s a b).
Proof.
  apply keeps_Allocate;
    first [ exact allocation_frame_refl | exact allocation_frame_trans
          | intros; repeat split ].
Qed.

Lemma memset_cmd_lookup n p m k :
  (0 <= k < Z.of_nat n)%Z ->
  memset_cmd p n m !! u64 (p + sizeof_TNVMeCommand * k) = Some zero_command.
Proof.
  induction n as [| n IH]; intros Hk; [lia |].
  cbn [memset_cmd].
  destruct (decide (u64 (p + sizeof_TNVMeCommand * Z.of_nat n)
                    = u64 (p + sizeof_TNVMeCommand * k))) as [E | E].
  - rewrite E. rewrite lookup_insert_eq. reflexivity.
  - rewrite lookup_insert_ne by exact E. apply IH.
    destruct (Z.eq_dec k (Z.of_nat n)) as [-> | N]; [congruence | lia].
Qed.

Section Queue_creation.
Context `{Platform}.

(** X19. [CreateAdminQueues] either gets no memory, and then writes no
    register and leaves the admin queue and the command slots as they
    were, or it returns OK with the queue set up: the two blocks and
    their bus addresses in the queue, tail and head 0, phase 1, all 64
    command slots zero, and, in this order, the completion queue
    cleared, 63 and 63 written to AQA and the bus addresses of the
    queues to ASQ and ACQ. *)
Theorem CreateAdminQueues_outcomes (w w' : World) (x : Z) :
  CreateAdminQueues w = (Done x, w') ->
  (x = NVME_STATUS_ERROR_NO_RESOURCE /\ allocation_frame w w')
  \/ (x = NVME_STATUS_OK
      /\ exists pSq pCq,
           pSq <> 0 /\ pCq <> 0
           /\ m_AdminQueue (dev w')
              = set_bCqPhase true
                  (set_nCqHead 0
                     (set_nSqTail 0
                        (set_queue_mem pSq pCq (PhysicalOf pSq)
                           (PhysicalOf pCq) (m_AdminQueue (dev w)))))
           /\ m_IoQueue (dev w') = m_IoQueue (dev w)
           /\ trace w'
              = trace w
                ++ [EvMemset pCq 0 1024;
                    EvMmioWrite32 NVME_REG_AQA 0x003F003F;
                    EvMmioWrite64 NVME_REG_ASQ (PhysicalOf pSq);
                    EvMmioWrite64 NVME_REG_ACQ (PhysicalOf pCq)]
           /\ forall k, 0 <= k < 64 ->
                mem_cmd (mem w') !! u64 (pSq + 64 * k) = Some zero_command).
Proof.
  intros HC. unfold CreateAdminQueues in HC.
  minv HC.
  pose proof (keeps_run allocation_frame _ _ _ _ (Allocate_frame _ _ _) E)
    as F1.
  destruct (Z.eqb_spec a 0) as [-> | Ha].
  { unfold ret in HC. injection HC as <- <-. left. auto. }
  minv HC.
  pose proof (keeps_run allocation_frame _ _ _ _ (Allocate_frame _ _ _) E0)
    as F2.
  pose proof (allocation_frame_trans _ _ _ F1 F2) as F.
  destruct (Z.eqb_spec a0 0) as [-> | Ha0].
  { unfold ret in HC. injection HC as <- <-. left. auto. }
  revert HC. mstep. intros HC. unfold ret in HC. injection HC as <- <-.
  right. split; [reflexivity |].
  destruct F as (T & QA & QI & MC & _ & _).
  exists a, a0. split; [exact Ha |]. split; [exact Ha0 |].
  cbn [dev mem trace set_dev set_mem set_trace m_AdminQueue m_IoQueue
       set_m_AdminQueue mem_cmd set_mem_cmd].
  split; [rewrite QA; reflexivity |].
  split; [exact QI |].
  split.
  { rewrite T, <- !app_assoc. cbn [app nSqPhys nCqPhys set_queue_mem].
    reflexivity. }
  intros k Hk. apply (memset_cmd_lookup 64 a _ k). lia.
Qed.

Lemma SubmitCommand_stores pQueue o ns c10 c11 c12 p1 p2 w :
  nEntries (queue_of pQueue w) = 64 ->
  0 <= nSqTail (queue_of pQueue w) < 64 ->
  let q := queue_of pQueue w in
  let w' := snd (SubmitCommand pQueue o ns c10 c11 c12 p1 p2 w) in
  mem_cmd (mem w')
  = <[u64 (pSqVirt q + sizeof_TNVMeCommand * nSqTail q)
      := mkCommand o 0 (nSqTail q) ns 0 0 p1 p2 c10 c11 c12 0 0 0]>
      (mem_cmd (mem w))
  /\ nSqTail (queue_of pQueue w') = (nSqTail q + 1) mod 64
  /\ nEntries (queue_of pQueue w') = 64
  /\ pSqVirt (queue_of pQueue w') = pSqVirt q.
Proof.
  intros He Ht q w'. subst w'. unfold SubmitCommand. mstep.
  change (match pQueue with
          | AdminQueue => m_AdminQueue (dev w)
          | IoQueue => m_IoQueue (dev w)
          end) with q.
  assert (Ec : u16 (Z.land (nSqTail q) 0xffff) = nSqTail q).
  { change 0xffff with (Z.ones 16). rewrite Z.land_ones by lia.
    rewrite Z.mod_small by (subst q; lia). apply u16_small. subst q; lia. }
  assert (Et : u16 ((nSqTail q + 1) mod nEntries q) = (nSqTail q + 1) mod 64).
  { subst q. rewrite He. apply u16_small.
    pose proof (Z.mod_pos_bound (nSqTail (queue_of pQueue w) + 1) 64). lia. }
  rewrite Ec.
  match goal with
  | |- context [PollForCompletion ?a ?b ?c ?w1] => set (w3 := w1)
  end.
  pose proof (PollForCompletion_same_cmd pQueue (nSqTail q) POLL_TIMEOUT_HZ w3)
    as Hc.
  pose proof (PollForCompletion_queue pQueue (nSqTail q) POLL_TIMEOUT_HZ w3)
    as Hq.
  assert (Eq3 : queue_of pQueue w3 = set_nSqTail ((nSqTail q + 1) mod 64) q).
  { rewrite <- Et. subst w3 q. destruct pQueue; reflexivity. }
  split; [rewrite Hc; subst w3 q; destruct pQueue; reflexivity |].
  destruct (advance_head_keeps_tail (queue_of pQueue w3)) as (A1 & A2 & _ & A4).
  destruct Hq as [-> | ->]; rewrite ?A1, ?A2, ?A4, Eq3;
    cbn [nSqTail nEntries pSqVirt set_nSqTail]; subst q; auto.
Qed.

(** X20. [CreateIoQueue] asks for the completion queue before the
    submission queue, and for the submission queue only when it has the
    completion queue. Once it has the memory, it clears the queue, stores
    its addresses and sends Create I/O Completion Queue, which goes to the
    slot at the tail of the admin queue with the bus address of the new
    completion queue, the queue identifier and the size less one,
    interrupts enabled. When that command does not return OK,
    [CreateIoQueue] returns its result and nothing else has happened. When
    it returns OK, Create I/O Submission Queue follows in the next slot,
    and its result is the result: only for OK the queue is then reset,
    empty with phase 1. *)
Theorem CreateIoQueue_creates_the_completion_queue_first
    (uQueueId uEntries : Z) (w w' : World) (x : Z) :
  let t := nSqTail (m_AdminQueue (dev w)) in
  let slot k := u64 (pSqVirt (m_AdminQueue (dev w)) + 64 * k) in
  let cdw10 :=
    u32 (Z.lor (Z.land uQueueId 0xffff) (Z.shiftl (uEntries - 1) 16)) in
  nEntries (m_AdminQueue (dev w)) = 64 ->
  0 <= t < 64 ->
  CreateIoQueue uQueueId uEntries w = (Done x, w') ->
  (x = NVME_STATUS_ERROR_NO_RESOURCE /\ allocation_frame w w')
  \/ exists pSq pCq wa x1 w1,
       pSq <> 0 /\ pCq <> 0 /\ allocation_frame w wa
       /\ let wq := io_queue_memory pSq pCq uEntries wa in
          let m0 :=
            memset_cmd pSq (Z.to_nat (64 * uEntries / 64)) (mem_cmd (mem w)) in
          let cq :=
            mkCommand NVME_ADMIN_OPC_CREATE_IO_CQ 0 t 0 0 0 (PhysicalOf pCq) 0
              cdw10 3 0 0 0 0 in
          let sq :=
            mkCommand NVME_ADMIN_OPC_CREATE_IO_SQ 0 ((t + 1) mod 64) 0 0 0
              (PhysicalOf pSq) 0 cdw10 (Z.lor (u32 (Z.shiftl uQueueId 16)) 1)
              0 0 0 0 in
          AdminCommand NVME_ADMIN_OPC_CREATE_IO_CQ 0 cdw10 3 (PhysicalOf pCq) wq
          = (Done x1, w1)
          /\ mem_cmd (mem w1) = <[slot t := cq]> m0
          /\ ((x1 <> NVME_STATUS_OK /\ x = x1 /\ w' = w1)
              \/ (x1 = NVME_STATUS_OK
                  /\ exists w2,
                       AdminCommand NVME_ADMIN_OPC_CREATE_IO_SQ 0 cdw10
                         (Z.lor (u32 (Z.shiftl uQueueId 16)) 1)
                         (PhysicalOf pSq) w1
                       = (Done x, w2)
                       /\ mem_cmd (mem w2)
                          = <[slot ((t + 1) mod 64) := sq]> (<[slot t := cq]> m0)
                       /\ ((x <> NVME_STATUS_OK /\ w' = w2)
                           \/ (x = NVME_STATUS_OK /\ w' = io_queue_reset w2)))).
Proof.
  intros t slot cdw10 He Ht HC. unfold CreateIoQueue in HC.
  minv HC.
  pose proof (keeps_run allocation_frame _ _ _ _ (Allocate_frame _ _ _) E)
    as F1.
  destruct (Z.eqb_spec a 0) as [-> | Ha].
  { unfold ret in HC. injection HC as <- <-. left. auto. }
  minv HC.
  pose proof (keeps_run allocation_frame _ _ _ _ (Allocate_frame _ _ _) E0)
    as F2.
  pose proof (allocation_frame_trans _ _ _ F1 F2) as F.
  destruct (Z.eqb_spec a0 0) as [-> | Ha0].
  { unfold ret in HC. injection HC as <- <-. left. auto. }
  revert HC. mstep. intros HC.
  change (bind
            (AdminCommand NVME_ADMIN_OPC_CREATE_IO_CQ 0 cdw10 3 (PhysicalOf a0))
            (fun nRet =>
               if negb (nRet =? NVME_STATUS_OK) then ret nRet
               else
                 bind
                   (AdminCommand NVME_ADMIN_OPC_CREATE_IO_SQ 0 cdw10
                      (Z.lor (u32 (Z.shiftl uQueueId 16)) 1) (PhysicalOf a))
                   (fun nRet =>
                      if negb (nRet =? NVME_STATUS_OK) then ret nRet
                      else
                        fun w2 => (Done NVME_STATUS_OK, io_queue_reset w2)))
            (io_queue_memory a a0 uEntries w1)
          = (Done x, w')) in HC.
  set (wq := io_queue_memory a a0 uEntries w1) in *.
  destruct F as (FT & QA & FI & MC & FC & FE).
  assert (Q3 : m_AdminQueue (dev wq) = m_AdminQueue (dev w)) by exact QA.
  assert (M3 : mem_cmd (mem wq)
               = memset_cmd a (Z.to_nat (64 * uEntries / 64)) (mem_cmd (mem w)))
    by (subst wq; unfold io_queue_memory;
        cbn [mem set_dev set_trace set_mem mem_cmd set_mem_cmd];
        rewrite MC; reflexivity).
  minv HC.
  right. exists a, a0, w1, a1, w2.
  split; [exact Ha |]. split; [exact Ha0 |].
  split; [repeat split; assumption |].
  cbv zeta.
  split; [exact E1 |].
  pose proof E1 as E1'.
  unfold AdminCommand in E1'. rewrite bind_assert in E1'.
  destruct (negb (PhysicalOf a0 =? 0)); [| discriminate E1'].
  pose proof (SubmitCommand_stores AdminQueue NVME_ADMIN_OPC_CREATE_IO_CQ 0
                cdw10 3 0 (PhysicalOf a0) 0 wq) as S1.
  cbv zeta in S1. cbn [queue_of] in S1. rewrite E1', Q3 in S1.
  cbn [snd] in S1. specialize (S1 He Ht).
  destruct S1 as (S1 & S2 & S3 & S4).
  rewrite M3 in S1. fold t in S1, S2.
  change sizeof_TNVMeCommand with 64 in S1. fold (slot t) in S1.
  split; [exact S1 |].
  destruct (Z.eqb_spec a1 NVME_STATUS_OK) as [Ea1 | N1]; cbn [negb] in HC.
  2:{ unfold ret in HC. injection HC as <- <-. left. auto. }
  right. split; [exact Ea1 |].
  minv HC.
  pose proof E2 as E2'.
  unfold AdminCommand in E2'. rewrite bind_assert in E2'.
  destruct (negb (PhysicalOf a =? 0)); [| discriminate E2'].
  pose proof (SubmitCommand_stores AdminQueue NVME_ADMIN_OPC_CREATE_IO_SQ 0
                cdw10 (Z.lor (u32 (Z.shiftl uQueueId 16)) 1) 0
                (PhysicalOf a) 0 w2) as T1.
  cbv zeta in T1. cbn [queue_of] in T1. rewrite E2' in T1.
  cbn [snd] in T1.
  assert (Hm : 0 <= (t + 1) mod 64 < 64) by (apply Z.mod_pos_bound; lia).
  specialize (T1 S3 ltac:(rewrite S2; exact Hm)).
  destruct T1 as (T1 & _).
  rewrite S1, S2, S4 in T1.
  change sizeof_TNVMeCommand with 64 in T1. fold (slot ((t + 1) mod 64)) in T1.
  exists w3.
  destruct (Z.eqb_spec a2 NVME_STATUS_OK) as [Ea2 | N2]; cbn [negb] in HC.
  - injection HC as <- <-. rewrite Ea2 in E2.
    split; [exact E2 |]. split; [exact T1 |]. right. auto.
  - unfold ret in HC. injection HC as <- <-.
    split; [exact E2 |]. split; [exact T1 |]. left. auto.
Qed.

End Queue_creation.

(** X19 on the machine of the examples. *)
Lemma CreateAdminQueues_outcomes_witness :
  @CreateAdminQueues sample_platform (sample_world 0 0 [])
  = (Done NVME_STATUS_OK,
     snd (@CreateAdminQueues sample_platform (sample_world 0 0 [])))
  /\ exists pSq pCq,
       pSq <> 0 /\ pCq <> 0
       /\ trace (snd (@CreateAdminQueues sample_platform (sample_world 0 0 [])))
          = trace (sample_world 0 0 [])
            ++ [EvMemset pCq 0 1024;
                EvMmioWrite32 NVME_REG_AQA 0x003F003F;
                EvMmioWrite64 NVME_REG_ASQ (@PhysicalOf sample_platform pSq);
                EvMmioWrite64 NVME_REG_ACQ (@PhysicalOf sample_platform pCq)].
Proof.
  assert (E : fst (@CreateAdminQueues sample_platform (sample_world 0 0 []))
              = Done NVME_STATUS_OK) by (vm_compute; reflexivity).
  pose proof (run_Done _ _ _ E) as E'.
  split; [exact E' |].
  destruct (@CreateAdminQueues_outcomes sample_platform _ _ _ E')
    as [[Hx _] | (_ & pSq & pCq & H1 & H2 & _ & _ & H3 & _)].
  - exfalso. vm_compute in Hx. discriminate Hx.
  - exists pSq, pCq. exact (conj H1 (conj H2 H3)).
Defined.

(** X20 on the machine of the examples: a second I/O queue on the booted
    device, the admin queue at its fifth slot. *)
Lemma CreateIoQueue_creates_the_completion_queue_first_witness :
  let w := sample_booted 0 0
             [sample_completion AQID 4 0 0; sample_completion AQID 5 0 0] in
  (nEntries (m_AdminQueue (dev w)) = 64
   /\ 0 <= nSqTail (m_AdminQueue (dev w)) < 64)
  /\ @CreateIoQueue sample_platform IOQID 64 w
     = (Done NVME_STATUS_OK, snd (@CreateIoQueue sample_platform IOQID 64 w))
  /\ exists w2,
       snd (@CreateIoQueue sample_platform IOQID 64 w) = io_queue_reset w2.
Proof.
  intros w.
  assert (He : nEntries (m_AdminQueue (dev w)) = 64) by (vm_compute; reflexivity).
  assert (Ht : 0 <= nSqTail (m_AdminQueue (dev w)) < 64)
    by (vm_compute; split; [discriminate | reflexivity]).
  assert (E : fst (@CreateIoQueue sample_platform IOQID 64 w)
              = Done NVME_STATUS_OK) by (vm_compute; reflexivity).
  pose proof (run_Done _ _ _ E) as E'.
  split; [exact (conj He Ht) |]. split; [exact E' |].
  destruct (@CreateIoQueue_creates_the_completion_queue_first sample_platform
              IOQID 64 w _ _ He Ht E')
    as [[Hx _]
       | (pSq & pCq & wa & x1 & w1 & _ & _ & _ & _ & _
          & [(N1 & Ex & _) | (_ & w2 & _ & _ & [(N & _) | (_ & K)])])].
  - exfalso. vm_compute in Hx. discriminate Hx.
  - exfalso. apply N1. symmetry. exact Ex.
  - exfalso. apply N. reflexivity.
  - exists w2. exact K.
Defined.

(** ** Control requests *)

Section Control.
Context `{Platform}.

(** X21. [IOCtl] knows one request: the synchronization request is a Flush
    command for namespace 1 on the I/O queue, without data pointers, and
    returns OK once the controller has completed it with success; every
    other request returns BAD_PARAM and does nothing. The data pointer is
    not looked at. *)
Theorem IOCtl_is_a_flush_or_nothing
    (ulCmd pData : Z) (w : World) (t : Z) (ticks : list Z)
    (ce : TNVMeCompletion) (rest : list TNVMeCompletion) :
  let q := m_IoQueue (dev w) in
  nEntries q = 64 -> 0 <= nSqTail q < 64 ->
  in_ticks (env w) = t :: ticks ->
  in_cq (env w) = ce :: rest ->
  completion_matches q (nSqTail q) ce = true ->
  status_result (status ce) = NVME_STATUS_OK ->
  (ulCmd <> DEVICE_IOCTL_SYNC ->
   IOCtl ulCmd pData w = (Done NVME_STATUS_ERROR_BAD_PARAM, w))
  /\ (ulCmd = DEVICE_IOCTL_SYNC ->
      exists w',
        IOCtl ulCmd pData w = (Done NVME_STATUS_OK, w')
        /\ mem_cmd (mem w')
           = <[io_slot w
               := mkCommand NVME_IO_OPC_FLUSH 0 (nSqTail q) NSID
                    0 0 0 0 0 0 0 0 0 0]>
               (mem_cmd (mem w))
        /\ trace w' = trace w ++ command_events IoQueue w
        /\ in_cq (env w') = rest)
  /\ forall pData', IOCtl ulCmd pData' w = IOCtl ulCmd pData w.
Proof.
  intros q He Ht Et Ecq Hm Hok. unfold IOCtl. split; [| split].
  - intros N. destruct (Z.eqb_spec ulCmd DEVICE_IOCTL_SYNC); [contradiction |].
    reflexivity.
  - intros ->. rewrite Z.eqb_refl. unfold Flush.
    destruct (SubmitCommand_completes IoQueue NVME_IO_OPC_FLUSH NSID 0 0 0 0 0
                w t ticks ce rest He Ht Et Ecq Hm Hok)
      as (w' & E & F1 & F2 & _ & _ & _ & _ & F3 & _).
    exists w'. split; [exact E |]. split; [exact F1 |].
    split; [exact F2 | exact F3].
  - reflexivity.
Qed.

End Control.

(** X21 on the machine of the examples. *)
Lemma IOCtl_is_a_flush_or_nothing_witness :
  let w := sample_booted 0 0 [sample_completion IOQID 0 0 0] in
  completion_matches (m_IoQueue (dev w)) (nSqTail (m_IoQueue (dev w)))
    (sample_completion IOQID 0 0 0) = true
  /\ @IOCtl sample_platform 7 0 w = (Done NVME_STATUS_ERROR_BAD_PARAM, w)
  /\ exists w', @IOCtl sample_platform 1 0 w = (Done NVME_STATUS_OK, w')
       /\ in_cq (env w') = [].
Proof.
  intros w.
  assert (H9 : nEntries (m_IoQueue (dev w)) = 64) by (vm_compute; reflexivity).
  assert (H10 : 0 <= nSqTail (m_IoQueue (dev w)) < 64)
    by (vm_compute; split; [discriminate | reflexivity]).
  assert (H11 : in_ticks (env w) = 0 :: repeat 0 9) by (vm_compute; reflexivity).
  assert (H12 : in_cq (env w) = sample_completion IOQID 0 0 0 :: [])
    by (vm_compute; reflexivity).
  assert (H13 : completion_matches (m_IoQueue (dev w))
                  (nSqTail (m_IoQueue (dev w)))
                  (sample_completion IOQID 0 0 0) = true)
    by (vm_compute; reflexivity).
  assert (H14 : status_result (status (sample_completion IOQID 0 0 0))
                = NVME_STATUS_OK) by (vm_compute; reflexivity).
  split; [exact H13 |].
  split.
  - assert (N : 7 <> @DEVICE_IOCTL_SYNC sample_platform)
      by (vm_compute; discriminate).
    exact (proj1
      (@IOCtl_is_a_flush_or_nothing sample_platform 7 0 w 0 (repeat 0 9)
         (sample_completion IOQID 0 0 0) [] H9 H10 H11 H12 H13 H14) N).
  - destruct (proj1 (proj2
        (@IOCtl_is_a_flush_or_nothing sample_platform 1 0 w 0 (repeat 0 9)
           (sample_completion IOQID 0 0 0) [] H9 H10 H11 H12 H13 H14))
        eq_refl) as (w' & E & _ & _ & F).
    exists w'. exact (conj E F).
Defined.

(** ** The price of a page *)

(** X22. From a page-aligned cursor a new page block costs two pages of
    the arena: the header takes the block to the next page, the 24 bytes
    of the header being all that is used of the page before it; the
    cursor is page-aligned again afterwards, so that every block that
    follows costs two pages as well. *)
Theorem aligned_page_block_costs_two_pages w size align boundary :
  fits size align boundary ->
  m_pFreeList (m_Allocator (dev w)) = 0 ->
  0 < m_nMemStart (m_Allocator (dev w)) ->
  m_nMemStart (m_Allocator (dev w)) mod 4096 = 0 ->
  m_nMemStart (m_Allocator (dev w)) + 8215 <= m_nMemEnd (m_Allocator (dev w)) ->
  m_nMemEnd (m_Allocator (dev w)) < 2 ^ 64 ->
  exists w1,
    Allocate size align boundary w
    = (Done (m_nMemStart (m_Allocator (dev w)) + 4096), w1)
    /\ m_nMemStart (m_Allocator (dev w1))
       = m_nMemStart (m_Allocator (dev w)) + 8192
    /\ m_nMemStart (m_Allocator (dev w1)) mod 4096 = 0
    /\ arena_consumed w w1 = 2 * NVME_BLOCK_SIZE.
Proof.
  intros Hf Hfl Hs Ha Hroom Hend.
  destruct (Allocate_first w size align boundary Hf Hfl Hs Hroom Hend)
    as (w1 & E & C1 & C2 & C3 & _).
  set (s := m_nMemStart (m_Allocator (dev w))) in *.
  assert (Ep : 4096 * ((s + 24 + 4095) / 4096) = s + 4096).
  { pose proof (Z.div_mod s 4096 ltac:(lia)) as D. rewrite Ha in D.
    replace (s + 24 + 4095) with (4119 + (s / 4096) * 4096) by lia.
    rewrite Z.div_add by lia. change (4119 / 4096) with 1. lia. }
  cbv zeta in E. rewrite Ep in E, C1, C3.
  exists w1. split; [exact E |].
  split; [rewrite C1; lia |].
  split.
  { rewrite C1. replace (s + 4096 + 4096) with (s + 2 * 4096) by lia.
    rewrite Z.mod_add by lia. exact Ha. }
  rewrite C3. change NVME_BLOCK_SIZE with 4096. lia.
Qed.

(** X22 on the machine of the examples: the first block of the arena. *)
Lemma aligned_page_block_costs_two_pages_witness :
  let w := sample_world 0 0 [] in
  m_nMemStart (m_Allocator (dev w)) = 0x1000
  /\ exists w1,
       Allocate 4096 NVME_PAGE_SIZE NVME_BLOCK_BOUNDARY w = (Done 0x2000, w1)
       /\ m_nMemStart (m_Allocator (dev w1)) = 0x3000.
Proof.
  intros w.
  assert (Hf : fits 4096 NVME_PAGE_SIZE NVME_BLOCK_BOUNDARY)
    by (vm_compute; repeat split; discriminate).
  assert (Hfl : m_pFreeList (m_Allocator (dev w)) = 0) by reflexivity.
  assert (Hs : 0 < m_nMemStart (m_Allocator (dev w))) by reflexivity.
  assert (Ha : m_nMemStart (m_Allocator (dev w)) mod 4096 = 0) by reflexivity.
  assert (Hr : m_nMemStart (m_Allocator (dev w)) + 8215
               <= m_nMemEnd (m_Allocator (dev w)))
    by (vm_compute; discriminate).
  assert (He : m_nMemEnd (m_Allocator (dev w)) < 2 ^ 64) by reflexivity.
  split; [reflexivity |].
  destruct (aligned_page_block_costs_two_pages w 4096 NVME_PAGE_SIZE
              NVME_BLOCK_BOUNDARY Hf Hfl Hs Ha Hr He)
    as (w1 & E & C & _).
  exists w1. exact (conj E C).
Defined.

(** ** Commands that the controller refuses *)

Lemma taken_any pQueue rest s w :
  let w' := taken pQueue rest s w in
  trace w'
  = trace w
    ++ [EvDataMemBarrier; EvDataSyncBarrier;
        EvMmioWrite32
          (NVME_DOORBELL_CQ_OFFSET (m_nDoorbellStride (dev w))
             (usID (queue_of pQueue w)))
          (nCqHead (advance_head (queue_of pQueue w)))]
    ++ failure_log s
  /\ mem w' = mem w
  /\ m_Allocator (dev w') = m_Allocator (dev w)
  /\ config (dev w') = config (dev w)
  /\ in_cq (env w') = rest
  /\ in_new (env w') = in_new (env w).
Proof.
  unfold taken, failure_log.
  destruct (negb (status_SCT s =? 0) || negb (status_SC s =? 0));
    cbv zeta; (split;
    [ cbn [trace set_trace set_dev set_env dev]; rewrite <- !app_assoc;
      cbn [app]; destruct pQueue;
      cbn [queue_of dev set_trace set_dev set_env m_AdminQueue m_IoQueue
           set_m_AdminQueue set_m_IoQueue m_nDoorbellStride];
      rewrite usID_advance_head; reflexivity
    | destruct pQueue; repeat split ]).
Qed.

Section Refused_commands.
Context `{Platform}.

Lemma SubmitCommand_answered pQueue o ns c10 c11 c12 p1 p2 w t ticks ce rest :
  nEntries (queue_of pQueue w) = 64 ->
  0 <= nSqTail (queue_of pQueue w) < 64 ->
  in_ticks (env w) = t :: ticks ->
  in_cq (env w) = ce :: rest ->
  completion_matches (queue_of pQueue w) (nSqTail (queue_of pQueue w)) ce
  = true ->
  let q := queue_of pQueue w in
  exists w',
    SubmitCommand pQueue o ns c10 c11 c12 p1 p2 w
    = (Done (status_result (status ce)), w')
    /\ mem_cmd (mem w')
       = <[u64 (pSqVirt q + sizeof_TNVMeCommand * nSqTail q)
           := mkCommand o 0 (nSqTail q) ns 0 0 p1 p2 c10 c11 c12 0 0 0]>
           (mem_cmd (mem w))
    /\ trace w'
       = trace w ++ command_events pQueue w ++ failure_log (status ce)
    /\ queue_of pQueue w'
       = advance_head (set_nSqTail ((nSqTail q + 1) mod 64) q)
    /\ same_blocks w w'
    /\ same_config w w'
    /\ mem_u64 (mem w') = mem_u64 (mem w)
    /\ in_cq (env w') = rest
    /\ in_new (env w') = in_new (env w).
Proof.
  intros He Ht Et Ecq Hm q.
  unfold SubmitCommand. mstep.
  change (match pQueue with
          | AdminQueue => m_AdminQueue (dev w)
          | IoQueue => m_IoQueue (dev w)
          end) with q.
  assert (Ec : u16 (Z.land (nSqTail q) 0xffff) = nSqTail q).
  { change 0xffff with (Z.ones 16). rewrite Z.land_ones by lia.
    rewrite Z.mod_small by (subst q; lia). apply u16_small. subst q; lia. }
  assert (Etl : u16 ((nSqTail q + 1) mod nEntries q) = (nSqTail q + 1) mod 64).
  { subst q. rewrite He. apply u16_small.
    pose proof (Z.mod_pos_bound (nSqTail (queue_of pQueue w) + 1) 64). lia. }
  assert (Etl2 : u16 ((nSqTail q + 1) mod nEntries q)
                 = (nSqTail q + 1) mod nEntries q)
    by (rewrite Etl; subst q; rewrite He; reflexivity).
  rewrite Ec.
  match goal with
  | |- context [PollForCompletion ?a ?b ?c ?w1] => set (w3 := w1)
  end.
  assert (Eq3 : queue_of pQueue w3 = set_nSqTail ((nSqTail q + 1) mod 64) q).
  { rewrite <- Etl. subst w3 q. destruct pQueue; reflexivity. }
  assert (Etr : trace w3
            = trace w ++ [EvDataSyncBarrier;
                EvMmioWrite32
                  (NVME_DOORBELL_SQ_OFFSET (m_nDoorbellStride (dev w)) (usID q))
                  ((nSqTail q + 1) mod nEntries q)]).
  { subst w3. cbn [trace set_trace set_dev set_mem]. rewrite <- !app_assoc.
    cbn [app]. rewrite <- Etl2. subst q. destruct pQueue; reflexivity. }
  assert (Es : m_nDoorbellStride (dev w3) = m_nDoorbellStride (dev w))
    by (subst w3; destruct pQueue; reflexivity).
  assert (Ea : m_Allocator (dev w3) = m_Allocator (dev w))
    by (subst w3; destruct pQueue; reflexivity).
  assert (Eg : config (dev w3) = config (dev w))
    by (subst w3; destruct pQueue; reflexivity).
  assert (Em : mem_cmd (mem w3)
            = <[u64 (pSqVirt q + sizeof_TNVMeCommand * nSqTail q)
                := mkCommand o 0 (nSqTail q) ns 0 0 p1 p2 c10 c11 c12 0 0 0]>
                (mem_cmd (mem w))) by (subst w3; reflexivity).
  assert (Eh : mem_hdr (mem w3) = mem_hdr (mem w)) by (subst w3; reflexivity).
  assert (Eu : mem_u64 (mem w3) = mem_u64 (mem w)) by (subst w3; reflexivity).
  assert (En : in_new (env w3) = in_new (env w)) by (subst w3; reflexivity).
  assert (Et3 : in_ticks (env w3) = t :: ticks) by (subst w3; exact Et).
  assert (Ec3 : in_cq (env w3) = ce :: rest) by (subst w3; exact Ecq).
  clearbody w3.
  rewrite (PollForCompletion_takes pQueue (nSqTail q) POLL_TIMEOUT_HZ w3
             t ticks ce rest).
  2:{ rewrite Eq3. cbn [nEntries set_nSqTail]. subst q. lia. }
  2:{ exact Et3. }
  2:{ exact Ec3. }
  2:{ rewrite Eq3. exact Hm. }
  eexists. split; [reflexivity |].
  pose proof (taken_any pQueue rest (status ce)
                (set_env (set_in_ticks ticks) w3)) as T.
  cbv zeta in T. destruct T as (T1 & T2 & T3 & T4 & T5 & T6).
  replace (queue_of pQueue (set_env (set_in_ticks ticks) w3))
    with (queue_of pQueue w3) in T1 by (destruct pQueue; reflexivity).
  cbn [trace mem dev env set_env in_new set_in_ticks] in T1, T2, T3, T4, T6.
  split; [rewrite T2; exact Em |].
  split.
  { rewrite T1, Etr, Es, Eq3. unfold command_events. cbv zeta. fold q.
    rewrite <- !app_assoc. cbn [app usID set_nSqTail].
    rewrite advance_head_set_tail. reflexivity. }
  split.
  { rewrite queue_of_taken.
    replace (queue_of pQueue (set_env (set_in_ticks ticks) w3))
      with (queue_of pQueue w3) by (destruct pQueue; reflexivity).
    rewrite Eq3. reflexivity. }
  split.
  { split; [congruence |]. split; [rewrite T2; exact Eh |].
    eexists. rewrite T1, Etr, <- !app_assoc. reflexivity. }
  split; [unfold same_config; congruence |].
  split; [rewrite T2; exact Eu |].
  split; [exact T5 | congruence].
Qed.

Lemma IoPassThrough_answered ns lba n buf wr w t ticks ce rest :
  0 < buf -> 0 < n -> buf + n * NVME_LBA_SIZE <= 2 ^ 64 ->
  n * NVME_LBA_SIZE <= first_remain buf + 4096 ->
  nEntries (m_IoQueue (dev w)) = 64 ->
  0 <= nSqTail (m_IoQueue (dev w)) < 64 ->
  in_ticks (env w) = t :: ticks ->
  in_cq (env w) = ce :: rest ->
  completion_matches (m_IoQueue (dev w)) (nSqTail (m_IoQueue (dev w))) ce
  = true ->
  exists w',
    IoPassThrough ns lba n buf wr w = (Done (status_result (status ce)), w')
    /\ mem_cmd (mem w')
       = <[io_slot w
           := mkCommand (if wr then NVME_IO_OPC_WRITE else NVME_IO_OPC_READ)
                0 (nSqTail (m_IoQueue (dev w))) ns 0 0 (PhysicalOf buf)
                (if n * NVME_LBA_SIZE <=? first_remain buf then 0
                 else PhysicalOf (page_of buf + 4096))
                (u32 (Z.land lba 0xffffffff))
                (u32 (Z.land (Z.shiftr lba 32) 0xffffffff))
                (u32 (n - 1)) 0 0 0]>
           (mem_cmd (mem w))
    /\ trace w'
       = trace w ++ command_events IoQueue w ++ failure_log (status ce)
    /\ m_IoQueue (dev w')
       = advance_head
           (set_nSqTail ((nSqTail (m_IoQueue (dev w)) + 1) mod 64)
              (m_IoQueue (dev w)))
    /\ same_blocks w w'
    /\ same_config w w'
    /\ mem_u64 (mem w') = mem_u64 (mem w)
    /\ in_cq (env w') = rest
    /\ in_new (env w') = in_new (env w).
Proof.
  intros Hb Hn Hr Hsmall He Ht Et Ecq Hm.
  assert (HL : 0 < n * NVME_LBA_SIZE) by (unfold NVME_LBA_SIZE; lia).
  unfold IoPassThrough. rewrite !bind_assert.
  replace (buf =? 0) with false by (symmetry; apply Z.eqb_neq; lia).
  replace (n =? 0) with false by (symmetry; apply Z.eqb_neq; lia).
  cbn [negb]. rewrite (u64_small (n * NVME_LBA_SIZE)) by lia.
  destruct (Z.leb_spec (n * NVME_LBA_SIZE) (first_remain buf)) as [H1 | H1].
  - unfold bind at 1.
    rewrite BuildForBuffer_one_page by assumption. cbn [negb].
    cbn [m_uPrp1 m_uPrp2 set_m_uPrp1 set_m_uPrp2 CNVMePRP_new].
    match goal with
    | |- context [SubmitCommand IoQueue ?o ?a ?b ?c ?d ?e ?f] =>
        destruct (SubmitCommand_answered IoQueue o a b c d e f w t ticks ce
                    rest He Ht Et Ecq Hm) as (w' & E & F)
    end.
    rewrite (bind_Done _ _ _ _ _ E).
    exists w'. split; [reflexivity | exact F].
  - unfold bind at 1.
    rewrite BuildForBuffer_two_pages by (try assumption; lia). cbn [negb].
    cbn [m_uPrp1 m_uPrp2 set_m_uPrp1 set_m_uPrp2 CNVMePRP_new].
    match goal with
    | |- context [SubmitCommand IoQueue ?o ?a ?b ?c ?d ?e ?f] =>
        destruct (SubmitCommand_answered IoQueue o a b c d e f w t ticks ce
                    rest He Ht Et Ecq Hm) as (w' & E & F)
    end.
    rewrite (bind_Done _ _ _ _ _ E).
    exists w'. split; [reflexivity | exact F].
Qed.

End Refused_commands.

Lemma status_result_refused s :
  status_result s <> NVME_STATUS_OK ->
  (status_result s = NVME_STATUS_ERROR_CONTROLLER
   \/ status_result s = NVME_STATUS_ERROR_LBA_RANGE)
  /\ (status_result s =? NVME_STATUS_OK) = false
  /\ failure_log s
     = [EvLog "%s command failed (sct %u, sc 0x%X)"
          [status_SCT s; status_SC s]].
Proof.
  intros N. split; [| split].
  - unfold status_result in *.
    destruct (negb (status_SCT s =? 0) || negb (status_SC s =? 0));
      [| contradiction].
    destruct ((status_SCT s =? 0) && (status_SC s =? 128)); auto.
  - apply Z.eqb_neq. exact N.
  - unfold failure_log, status_result in *.
    destruct (negb (status_SCT s =? 0) || negb (status_SC s =? 0));
      [reflexivity | contradiction].
Qed.

Section Refused_transfers.
Context `{Platform}.

(** X23. A transfer of up to two pages that the controller completes with
    an error: [Read] and [Write] return CONTROLLER or LBA_RANGE, as the
    status says; the error is logged; [Read] neither invalidates the cache
    a second time nor copies anything to the buffer of the caller; both
    delete the temporary buffer. *)
Theorem refused_transfer_copies_nothing
    (pBuffer n : Z) (w : World) (t : Z) (ticks : list Z)
    (ce : TNVMeCompletion) (rest : list TNVMeCompletion) :
  let q := m_IoQueue (dev w) in
  let tb := transfer_buffer pBuffer n w in
  let x := status_result (status ce) in
  pBuffer <> 0 ->
  m_ulOffset (dev w) mod 512 = 0 ->
  0 < n -> n mod 512 = 0 ->
  (IS_CACHE_ALIGNED pBuffer n = false -> in_new (env w) <> []) ->
  0 < tb -> tb + n <= 2 ^ 64 -> n <= first_remain tb + 4096 ->
  nEntries q = 64 -> 0 <= nSqTail q < 64 ->
  in_ticks (env w) = t :: ticks ->
  in_cq (env w) = ce :: rest ->
  completion_matches q (nSqTail q) ce = true ->
  x <> NVME_STATUS_OK ->
  (x = NVME_STATUS_ERROR_CONTROLLER \/ x = NVME_STATUS_ERROR_LBA_RANGE)
  /\ (exists w',
        Read pBuffer n w = (Done x, w')
        /\ trace w'
           = trace w
             ++ [EvInvalidateDataCacheRange tb n]
             ++ command_events IoQueue w
             ++ [EvLog "%s command failed (sct %u, sc 0x%X)"
                   [status_SCT (status ce); status_SC (status ce)];
                 EvDeleteArray (if IS_CACHE_ALIGNED pBuffer n then 0 else tb)])
  /\ (exists w',
        Write pBuffer n w = (Done x, w')
        /\ trace w'
           = trace w
             ++ (if IS_CACHE_ALIGNED pBuffer n then []
                 else [EvMemcpy tb pBuffer n])
             ++ [EvCleanDataCacheRange tb n]
             ++ command_events IoQueue w
             ++ [EvLog "%s command failed (sct %u, sc 0x%X)"
                   [status_SCT (status ce); status_SC (status ce)];
                 EvDeleteArray (if IS_CACHE_ALIGNED pBuffer n then 0 else tb)]).
Proof.
  intros q tb x Hb Ho Hn Hm Hnew Htb Hr Hsmall He Ht Et Ecq Hmt Hx.
  destruct (status_result_refused _ Hx) as (Hcases & Hneq & Hlog).
  fold x in Hcases, Hneq.
  split; [exact Hcases |].
  pose proof (first_remain_range tb) as Hfr.
  assert (Hn8 : 0 < n <= 8192) by lia.
  destruct (small_count n Hn8 Hm) as [C1 C2].
  assert (Core : forall wr w0 pre,
            dev w0 = dev w -> trace w0 = trace w ++ pre ->
            in_ticks (env w0) = t :: ticks -> in_cq (env w0) = ce :: rest ->
            exists w2,
              IoPassThrough NSID (u32 (m_ulOffset (dev w) / NVME_LBA_SIZE))
                (u32 (n / NVME_LBA_SIZE)) tb wr w0
              = (Done x, w2)
              /\ trace w2
                 = trace w ++ pre ++ command_events IoQueue w
                   ++ [EvLog "%s command failed (sct %u, sc 0x%X)"
                         [status_SCT (status ce); status_SC (status ce)]]).
  { intros wr w0 pre Ed Etr Et0 Ec0.
    destruct (IoPassThrough_answered NSID
                (u32 (m_ulOffset (dev w) / NVME_LBA_SIZE))
                (u32 (n / NVME_LBA_SIZE)) tb wr w0 t ticks ce rest)
      as (w2 & E & _ & F2 & _);
      try (rewrite ?Ed; assumption); try lia.
    exists w2. split; [exact E |].
    rewrite F2, Hlog, Etr, <- !app_assoc.
    replace (command_events IoQueue w0) with (command_events IoQueue w)
      by (unfold command_events, queue_of; rewrite Ed; reflexivity).
    reflexivity. }
  unfold transfer_buffer in tb.
  split.
  - unfold Read. rewrite bind_assert.
    replace (pBuffer =? 0) with false by (symmetry; apply Z.eqb_neq; exact Hb).
    cbn [negb]. rewrite bind_gets. rewrite !land_511, Ho, Hm.
    replace (n =? 0) with false by (symmetry; apply Z.eqb_neq; lia).
    cbn [Z.eqb negb orb].
    destruct (IS_CACHE_ALIGNED pBuffer n) eqn:Ea; cbn [negb].
    + unfold Read_transfer. rewrite bind_emit.
      destruct (Core false
                  (set_trace (fun t => t ++ [EvInvalidateDataCacheRange tb n]) w)
                  [EvInvalidateDataCacheRange tb n] eq_refl eq_refl Et Ecq)
        as (w2 & E & F).
      rewrite (bind_Done _ _ _ _ _ E). rewrite Hneq. cbn [negb].
      rewrite bind_emit. eexists. split; [reflexivity |].
      cbn [trace set_trace]. rewrite F, <- !app_assoc. reflexivity.
    + destruct (in_new (env w)) as [| v news] eqn:En;
        [exfalso; apply Hnew; reflexivity |].
      cbn [hd] in tb.
      rewrite bind_new_array with (v := v) (rest := news) by exact En.
      fold tb. replace (tb =? 0) with false by (symmetry; apply Z.eqb_neq; lia).
      unfold Read_transfer. rewrite bind_emit.
      destruct (Core false
                  (set_trace (fun t => t ++ [EvInvalidateDataCacheRange tb n])
                     (set_env (set_in_new news) w))
                  [EvInvalidateDataCacheRange tb n] eq_refl eq_refl Et Ecq)
        as (w2 & E & F).
      rewrite (bind_Done _ _ _ _ _ E). rewrite Hneq. cbn [negb].
      rewrite bind_emit. eexists. split; [reflexivity |].
      cbn [trace set_trace]. rewrite F, <- !app_assoc. reflexivity.
  - unfold Write. rewrite bind_assert.
    replace (pBuffer =? 0) with false by (symmetry; apply Z.eqb_neq; exact Hb).
    cbn [negb]. rewrite bind_gets. rewrite !land_511, Ho, Hm.
    replace (n =? 0) with false by (symmetry; apply Z.eqb_neq; lia).
    cbn [Z.eqb negb orb].
    destruct (IS_CACHE_ALIGNED pBuffer n) eqn:Ea; cbn [negb].
    + unfold Write_transfer. rewrite bind_emit.
      destruct (Core true
                  (set_trace (fun t => t ++ [EvCleanDataCacheRange tb n]) w)
                  [EvCleanDataCacheRange tb n] eq_refl eq_refl Et Ecq)
        as (w2 & E & F).
      rewrite (bind_Done _ _ _ _ _ E). rewrite bind_emit.
      rewrite Hneq. cbn [negb]. eexists. split; [reflexivity |].
      cbn [trace set_trace app]. rewrite F, <- !app_assoc. reflexivity.
    + destruct (in_new (env w)) as [| v news] eqn:En;
        [exfalso; apply Hnew; reflexivity |].
      cbn [hd] in tb.
      rewrite bind_new_array with (v := v) (rest := news) by exact En.
      fold tb. replace (tb =? 0) with false by (symmetry; apply Z.eqb_neq; lia).
      rewrite bind_emit. unfold Write_transfer. rewrite bind_emit.
      destruct (Core true
                  (set_trace (fun t => t ++ [EvCleanDataCacheRange tb n])
                     (set_trace (fun t => t ++ [EvMemcpy tb pBuffer n])
                        (set_env (set_in_new news) w)))
                  [EvMemcpy tb pBuffer n; EvCleanDataCacheRange tb n]
                  eq_refl ltac:(cbn [trace set_trace set_env];
                                rewrite <- app_assoc; reflexivity) Et Ecq)
        as (w2 & E & F).
      rewrite (bind_Done _ _ _ _ _ E). rewrite bind_emit.
      rewrite Hneq. cbn [negb]. eexists. split; [reflexivity |].
      cbn [trace set_trace app]. rewrite F, <- !app_assoc. reflexivity.
Qed.

End Refused_transfers.

(** X23 on the machine of the examples: a read behind the end of the
    namespace, which the controller answers with LBA Out of Range. *)
Lemma refused_transfer_copies_nothing_witness :
  let w := snd (Seek (2048 * 512)
                  (sample_booted 0 0 [sample_completion IOQID 0 0 0x80])) in
  status_result (status (sample_completion IOQID 0 0 0x80))
  = NVME_STATUS_ERROR_LBA_RANGE
  /\ completion_matches (m_IoQueue (dev w)) (nSqTail (m_IoQueue (dev w)))
       (sample_completion IOQID 0 0 0x80) = true
  /\ exists w',
       @Read sample_platform 0x400020 512 w
       = (Done (status_result (status (sample_completion IOQID 0 0 0x80))), w').
Proof.
  intros w.
  assert (H1 : 0x400020 <> 0) by discriminate.
  assert (H2 : m_ulOffset (dev w) mod 512 = 0) by (vm_compute; reflexivity).
  assert (H3 : 0 < 512) by reflexivity.
  assert (H4 : 512 mod 512 = 0) by reflexivity.
  assert (H5 : @IS_CACHE_ALIGNED sample_platform 0x400020 512 = false ->
               in_new (env w) <> []) by (vm_compute; discriminate).
  assert (E6 : @transfer_buffer sample_platform 0x400020 512 w = 0x300000)
    by (vm_compute; reflexivity).
  assert (H6 : 0 < @transfer_buffer sample_platform 0x400020 512 w)
    by (rewrite E6; reflexivity).
  assert (H7 : @transfer_buffer sample_platform 0x400020 512 w + 512 <= 2 ^ 64)
    by (rewrite E6; vm_compute; discriminate).
  assert (H8 : 512 <= first_remain
                        (@transfer_buffer sample_platform 0x400020 512 w) + 4096)
    by (rewrite E6; vm_compute; discriminate).
  assert (H9 : nEntries (m_IoQueue (dev w)) = 64) by (vm_compute; reflexivity).
  assert (H10 : 0 <= nSqTail (m_IoQueue (dev w)) < 64)
    by (vm_compute; split; [discriminate | reflexivity]).
  assert (H11 : in_ticks (env w) = 0 :: repeat 0 9) by (vm_compute; reflexivity).
  assert (H12 : in_cq (env w) = sample_completion IOQID 0 0 0x80 :: [])
    by (vm_compute; reflexivity).
  assert (H13 : completion_matches (m_IoQueue (dev w))
                  (nSqTail (m_IoQueue (dev w)))
                  (sample_completion IOQID 0 0 0x80) = true)
    by (vm_compute; reflexivity).
  assert (E14 : status_result (status (sample_completion IOQID 0 0 0x80))
                = NVME_STATUS_ERROR_LBA_RANGE) by (vm_compute; reflexivity).
  assert (H14 : status_result (status (sample_completion IOQID 0 0 0x80))
                <> NVME_STATUS_OK) by (rewrite E14; discriminate).
  split; [exact E14 |]. split; [exact H13 |].
  destruct (@refused_transfer_copies_nothing sample_platform 0x400020 512 w 0
              (repeat 0 9) (sample_completion IOQID 0 0 0x80) []
              H1 H2 H3 H4 H5 H6 H7 H8 H9 H10 H11 H12 H13 H14)
    as (_ & (w' & E & _) & _).
  exists w'. exact E.
Defined.
